(** * MeteoIO CSV plugin (plugins/CsvIO.cc): date/time format compiler,
      date resolver, position indexer and row pipeline.

    The development embeds the functions of [CsvDateTime], [CsvParameters]
    and [CsvIO] that decide how a delimited text file becomes a sequence of
    timestamped records, and states the properties of the plugin's
    specification against them.

    Conventions of the embedding.
    - [std::string] is [string]; [size_t] positions are [nat], and the
      distinguished value [npos] is [None].
    - [float] and [double] are the rationals [Q].  Every number the
      development computes with is a short decimal read from the file or
      the configuration, and comparisons are the only operations applied to
      parsed timestamps.
    - [int] is [Z].
    - A C++ exception is the [Throw] result of the function that raises it.
    - Functions of the library that live outside CsvIO.cc ([IOUtils],
      [Date], the C library's [sscanf]) are the fields of the class
      [Externals]. *)

From Stdlib Require Import Bool Arith ZArith QArith Lia List String Ascii.
From Stdlib Require Import Sorted Permutation.
Import ListNotations.

Local Close Scope Q_scope.
Local Open Scope string_scope.
Local Open Scope list_scope.
Local Open Scope nat_scope.

(** ** std::string operations *)

Module StdString.

(** [s.compare(0, pat.size(), pat) == 0]: [pat] is a prefix of [s]. *)
Fixpoint starts_with (pat s : string) : bool :=
  match pat with
  | EmptyString => true
  | String a pat' =>
      match s with
      | EmptyString => false
      | String b s' => Ascii.eqb a b && starts_with pat' s'
      end
  end.

(** [s.find(pat)]: position of the first occurrence, [None] for [npos]. *)
Fixpoint find (pat s : string) : option nat :=
  if starts_with pat s then Some 0
  else match s with
       | EmptyString => None
       | String _ s' => option_map S (find pat s')
       end.

(** [std::count(s.begin(), s.end(), c)]. *)
Fixpoint count_char (c : ascii) (s : string) : nat :=
  match s with
  | EmptyString => 0
  | String a s' => (if Ascii.eqb a c then 1 else 0) + count_char c s'
  end.

(** [s.replace(pos, len, by)]. *)
Fixpoint replace (pos len : nat) (by_ s : string) : string :=
  match pos with
  | 0 => by_ ++ substring len (String.length s - len) s
  | S pos' =>
      match s with
      | EmptyString => by_
      | String a s' => String a (replace pos' len by_ s')
      end
  end.

(** [size_t] is a number below [2^64]; [std::string::npos] is the largest,
    and the arithmetic wraps around.  A string is shorter than [npos]. *)
Definition npos : N := 18446744073709551615.

Definition size (s : string) : N := N.of_nat (String.length s).

Definition plus (a b : N) : N := ((a + b) mod 2 ^ 64)%N.

Definition minus (a b : N) : N := ((a + 2 ^ 64 - b) mod 2 ^ 64)%N.

(** The characters of [s] from position [n] on. *)
Fixpoint drop (n : nat) (s : string) : string :=
  match n, s with
  | S n', String _ s' => drop n' s'
  | _, _ => s
  end.

(** [s.find(pat, pos)], for a string and for a character; [npos] when
    there is no occurrence at or after [pos]. *)
Definition find_from (pat s : string) (pos : N) : N :=
  if (size s <? pos)%N then npos
  else
    match find pat (drop (N.to_nat pos) s) with
    | Some i => (pos + N.of_nat i)%N
    | None => npos
    end.

(** [s.substr(pos, len)]: the characters from [pos], [len] of them or as
    many as there are; [None] when [pos] is beyond the end of the string and
    the call raises [std::out_of_range]. *)
Definition substr (s : string) (pos len : N) : option string :=
  if (size s <? pos)%N then None
  else Some (substring (N.to_nat pos) (N.to_nat (N.min len (size s - pos))) s).

End StdString.

(** ** IOUtils string helpers *)

Module IOUtils.

(** Modelled from the spec: [IOUtils::replace_all] is not part of CsvIO.cc.
    The format compiler "replace[s] each token with a ... placeholder":
    every occurrence of [from], scanning left to right, is replaced by [to_],
    and the scan resumes after the inserted text.  [skip] counts the
    characters of an occurrence that remain to be dropped. *)
Fixpoint replace_from (from to_ : string) (skip : nat) (s : string) : string :=
  match s with
  | EmptyString => EmptyString
  | String a s' =>
      match skip with
      | S k => replace_from from to_ k s'
      | 0 =>
          if StdString.starts_with from s
          then to_ ++ replace_from from to_ (String.length from - 1) s'
          else String a (replace_from from to_ 0 s')
      end
  end.

Definition replace_all (s from to_ : string) : string :=
  match from with
  | EmptyString => s
  | _ => replace_from from to_ 0 s
  end.

(** Modelled from the spec: [IOUtils::count] is not part of CsvIO.cc.  It
    gives "the count of recognized placeholders": the number of
    non-overlapping occurrences of [pat] in [s].  The caller maps the value
    [npos] to zero, so a count of zero stands for both. *)
Fixpoint count_from (pat : string) (skip : nat) (s : string) : nat :=
  match s with
  | EmptyString => 0
  | String _ s' =>
      match skip with
      | S k => count_from pat k s'
      | 0 =>
          if StdString.starts_with pat s
          then S (count_from pat (String.length pat - 1) s')
          else count_from pat 0 s'
      end
  end.

Definition count (s pat : string) : nat :=
  match pat with
  | EmptyString => 0
  | _ => count_from pat 0 s
  end.

End IOUtils.

(** ** The C library's formatted input, as far as the plugin uses it *)

Module Scanf.

(** A value stored through one of the pointer arguments. *)
Inductive item :=
| IFloat (q : Q)
| IStr (s : string).

(** The directives of a format string: white space, an ordinary character,
    [%f] with an optional maximum field width, [%s] with an optional
    maximum field width. *)
Inductive directive :=
| DWhite
| DLit (c : ascii)
| DFloat (w : option nat)
| DStr (w : option nat).

Inductive mode :=
| Text
| Spec (w : option nat).

(** The outcome of one numeric conversion.  [Unmodelled] marks the inputs
    on which this reference semantics makes no statement: exponents,
    hexadecimal floating constants, infinities and NaN. *)
Inductive scan :=
| Matched (q : Q) (rest : string)
| Mismatch
| Unmodelled.

Definition nul : ascii := ascii_of_nat 0.

(** [isspace] in the "C" locale. *)
Definition is_space (c : ascii) : bool :=
  existsb (Ascii.eqb c)
    [" "%char; ascii_of_nat 9; ascii_of_nat 10; ascii_of_nat 11;
     ascii_of_nat 12; ascii_of_nat 13].

Definition digit_val (c : ascii) : option nat :=
  let n := nat_of_ascii c in
  if (48 <=? n) && (n <=? 57) then Some (n - 48) else None.

Definition is_digit (c : ascii) : bool :=
  match digit_val c with Some _ => true | None => false end.

(** A C string ends at its first NUL character. *)
Fixpoint c_str (s : string) : string :=
  match s with
  | EmptyString => EmptyString
  | String a s' => if Ascii.eqb a nul then EmptyString else String a (c_str s')
  end.

Fixpoint skip_ws (s : string) : string :=
  match s with
  | EmptyString => EmptyString
  | String a s' => if is_space a then skip_ws s' else s
  end.

Definition with_width (w : option nat) : option (option nat) :=
  match w with
  | Some 0 => None
  | _ => Some w
  end.

(** Reading a format string.  [None]: the format uses a conversion that the
    plugin never generates. *)
Fixpoint parse_format (m : mode) (s : string) : option (list directive) :=
  match s with
  | EmptyString =>
      match m with
      | Text => Some []
      | Spec _ => None
      end
  | String c s' =>
      match m with
      | Text =>
          if Ascii.eqb c "%"%char then parse_format (Spec None) s'
          else option_map (cons (if is_space c then DWhite else DLit c))
                          (parse_format Text s')
      | Spec w =>
          match digit_val c with
          | Some d =>
              parse_format
                (Spec (Some (10 * match w with Some n => n | None => 0 end + d))) s'
          | None =>
              match with_width w with
              | None => None
              | Some w' =>
                  if Ascii.eqb c "f"%char
                  then option_map (cons (DFloat w')) (parse_format Text s')
                  else if Ascii.eqb c "s"%char
                  then option_map (cons (DStr w')) (parse_format Text s')
                  else None
              end
          end
      end
  end.

(** The first [w] characters of the input form the field of a conversion
    with maximum field width [w]. *)
Fixpoint split_at (n : nat) (s : string) : string * string :=
  match n with
  | 0 => (EmptyString, s)
  | S n' =>
      match s with
      | EmptyString => (EmptyString, EmptyString)
      | String a s' => let (f, r) := split_at n' s' in (String a f, r)
      end
  end.

Definition field_of (w : option nat) (s : string) : string * string :=
  match w with
  | None => (s, EmptyString)
  | Some n => split_at n s
  end.

(** Decimal digits: the value read so far, the number of digits read, and
    the first character that is not a digit onwards. *)
Fixpoint take_digits (acc n : nat) (s : string) : nat * nat * string :=
  match s with
  | EmptyString => (acc, n, s)
  | String c s' =>
      match digit_val c with
      | Some d => take_digits (10 * acc + d) (S n) s'
      | None => (acc, n, s)
      end
  end.

Definition take_sign (s : string) : bool * string :=
  match s with
  | String c s' =>
      if Ascii.eqb c "-"%char then (true, s')
      else if Ascii.eqb c "+"%char then (false, s')
      else (false, s)
  | EmptyString => (false, s)
  end.

Definition one_of (cs : list ascii) (s : string) : bool :=
  match s with
  | String c _ => existsb (Ascii.eqb c) cs
  | EmptyString => false
  end.

(** The subject sequence starts an infinity, a NaN or a hexadecimal
    constant. *)
Definition starts_special (s : string) : bool :=
  one_of ["i"; "I"; "n"; "N"]%char s
  || match s with
     | String c s' => Ascii.eqb c "0"%char && one_of ["x"; "X"]%char s'
     | EmptyString => false
     end.

Definition decimal_value (neg : bool) (ip ni fp nf : nat) : Q :=
  let m := Z.of_nat (ip * 10 ^ nf + fp) in
  let m := if neg then Z.opp m else m in
  match nf with
  | 0 => inject_Z m
  | _ => Qmake m (Pos.of_nat (10 ^ nf))
  end.

(** An optional sign, digits, and optionally a point and more digits; at
    least one digit in all. *)
Definition scan_decimal (field : string) : scan :=
  let (neg, s1) := take_sign field in
  if starts_special s1 then Unmodelled
  else
    let '(ip, ni, s2) := take_digits 0 0 s1 in
    let '(fp, nf, s3) :=
      match s2 with
      | String c r => if Ascii.eqb c "."%char then take_digits 0 0 r else (0, 0, s2)
      | EmptyString => (0, 0, s2)
      end in
    if ni + nf =? 0 then Mismatch
    else if one_of ["e"; "E"]%char s3 then Unmodelled
    else Matched (decimal_value neg ip ni fp nf) s3.

(** [%f] and [%Nf]: skip white space, then convert the longest decimal
    prefix of the field. *)
Definition scan_float (w : option nat) (s : string) : scan :=
  let (field, beyond) := field_of w (skip_ws s) in
  match scan_decimal field with
  | Matched q r => Matched q (r ++ beyond)%string
  | Mismatch => Mismatch
  | Unmodelled => Unmodelled
  end.

Fixpoint take_word (s : string) : string * string :=
  match s with
  | EmptyString => (EmptyString, EmptyString)
  | String c s' =>
      if is_space c then (EmptyString, s)
      else let (w, r) := take_word s' in (String c w, r)
  end.

(** [%s] and [%Ns]: skip white space, then take the characters up to the
    next white space. *)
Definition scan_str (w : option nat) (s : string) : string * string :=
  let (field, beyond) := field_of w (skip_ws s) in
  let (word, r) := take_word field in
  (word, (r ++ beyond)%string).

(** Executing the directives on the input.  The result lists the values
    stored, in the order of the pointer arguments; its length is the number
    of assignments [sscanf] reports.  An input failure before the first
    conversion makes [sscanf] return [EOF], a negative number; the plugin
    only tests the return value against a positive count, so the empty list
    stands for it as well. *)
Fixpoint exec (ds : list directive) (input : string) : option (list item) :=
  match ds with
  | [] => Some []
  | DWhite :: ds' => exec ds' (skip_ws input)
  | DLit c :: ds' =>
      match input with
      | String a rest => if Ascii.eqb a c then exec ds' rest else Some []
      | EmptyString => Some []
      end
  | DFloat w :: ds' =>
      match scan_float w input with
      | Matched q rest => option_map (cons (IFloat q)) (exec ds' rest)
      | Mismatch => Some []
      | Unmodelled => None
      end
  | DStr w :: ds' =>
      match scan_str w input with
      | (EmptyString, _) => Some []
      | (word, rest) => option_map (cons (IStr word)) (exec ds' rest)
      end
  end.

(** [sscanf(input, format, ...)] on the fragment described above; [None]
    outside of it. *)
Definition run (input format : string) : option (list item) :=
  match parse_format Text (c_str format) with
  | None => None
  | Some ds => exec ds (c_str input)
  end.

End Scanf.

(** ** Exceptions, dates and the functions defined outside CsvIO.cc *)

Inductive exception :=
| InvalidFormatException
| InvalidArgumentException
| NoDataException
| AccessException.

Inductive result (A : Type) :=
| Ok (a : A)
| Throw (e : exception).
Arguments Ok {A} a.
Arguments Throw {A} e.

(** [CsvDateTime::decimal_date_formats]. *)
Inductive decimal_date_formats := EXCEL | JULIAN | MJULIAN | MATLAB | RFC868 | UNIX.

(** A [Date] object is represented by the constructor or setter call that
    built it, with the arguments of that call.  [Undef] is the
    default-constructed, undefined date. *)
Inductive Date :=
| Undef
| DateYMD (year month day hour minute : Z) (seconds tz : Q)
| DateYJ (year : Z) (jdn tz : Q)
| DateDecimal (format : decimal_date_formats) (value tz : Q)
| DateUnix (value : Z).

Definition isUndef (d : Date) : bool :=
  match d with
  | Undef => true
  | _ => false
  end.

(** What CsvIO.cc calls and does not define. *)
Class Externals := {
  (** [sscanf(input, format, ...)]: the values stored, in argument order. *)
  sscanf : string -> string -> list Scanf.item;
  (** [IOUtils::nodata] and [IOUtils::inodata]. *)
  IOUtils_nodata : Q;
  IOUtils_inodata : Z;
  (** [IOUtils::convertString] at [double], [int] and [time_t]; [None] when
      it returns false. *)
  convertString_double : string -> option Q;
  convertString_int : string -> option Z;
  convertString_time_t : string -> option Z;
  (** Line clean-up and tokenizing.  [readLineToVec line None] is the
      overload that splits on white space. *)
  stripComments : string -> ascii -> string;
  removeQuotes : string -> string;
  trim : string -> string;
  readLineToVec : string -> option ascii -> list string;
  (** [Date::parseTimeZone]. *)
  parseTimeZone : string -> Q;
  (** The instant a [Date] stands for, on which the comparison operators
      of [Date] work. *)
  gmt_julian : Date -> Q
}.

(** [operator<] and [operator>] of [Date]. *)
Definition Date_lt `{Externals} (a b : Date) : bool :=
  negb (Qle_bool (gmt_julian b) (gmt_julian a)).
Definition Date_gt `{Externals} (a b : Date) : bool := Date_lt b a.

(** Early return of the undefined date (or of another default) when a step
    fails. *)
Notation "'let?' x ':=' e 'else' d 'in' k" :=
  (match e with
   | Some x => k
   | None => d
   end)
  (at level 10, x pattern, e at level 100, d at level 100, k at level 200).

(** [v[i]] on a [std::vector<std::string>].  The callers make sure that [i]
    is in range before they index; out of range the source has no defined
    behaviour and the model reads the empty string. *)
Definition at_ (v : list string) (i : nat) : string := nth i v EmptyString.

(** What the configuration of the plugin and the reading of the headers
    call and CsvIO.cc does not define. *)
Class Library := {
  (** [IOUtils::toUpper], which works in place, and [IOUtils::strToUpper],
      which returns a copy. *)
  toUpper : string -> string;
  strToUpper : string -> string;
  (** [IOUtils::replaceInvalidChars], [IOUtils::removeDuplicateWhitespaces]
      and [IOUtils::replaceWhitespaces]. *)
  replaceInvalidChars : string -> string;
  removeDuplicateWhitespaces : string -> string;
  replaceWhitespaces : string -> ascii -> string;
  (** [MeteoData::getStaticParameterIndex]; [None] for [npos]. *)
  getStaticParameterIndex : string -> option nat;
  (** [atoi] of the C library. *)
  atoi : string -> Z;
  (** [Cst::t_water_freezing_pt]. *)
  t_water_freezing_pt : Q;
  (** [FileUtils::getFilename] and [FileUtils::removeExtension]. *)
  getFilename : string -> string;
  removeExtension : string -> string
}.

(** The exceptions that the configuration raises besides those above:
    [UnknownValueException], and [std::out_of_range] of the C++ library. *)
Inductive failure :=
| IOException (e : exception)
| UnknownValueException
| out_of_range.

Inductive outcome (A : Type) :=
| Done (a : A)
| Failed (e : failure).
Arguments Done {A} a.
Arguments Failed {A} e.

(** An exception of the first kind, raised within a function that may raise
    the others too. *)
Definition lift {A : Type} (r : result A) : outcome A :=
  match r with
  | Ok a => Done a
  | Throw e => Failed (IOException e)
  end.

(** [v[i] = x] on a vector: the callers index within the bounds. *)
Fixpoint assign_at {A : Type} (v : list A) (i : nat) (x : A) : list A :=
  match v with
  | [] => []
  | a :: v' =>
      match i with
      | 0 => x :: v'
      | S i' => a :: assign_at v' i' x
      end
  end.

(** [v.resize(n, x)]. *)
Definition resize {A : Type} (n : nat) (x : A) (v : list A) : list A :=
  firstn n v ++ repeat x (n - List.length v).

Definition is_one_of (s : string) (l : list string) : bool :=
  existsb (String.eqb s) l.

(** ** CsvDateTime *)

Module CsvDateTime.

Record t := mk {
  decimal_date : option nat;
  date_str : option nat;
  time_str : option nat;
  year : option nat;
  jdn : option nat;
  month : option nat;
  day : option nat;
  time : option nat;
  hours : option nat;
  minutes : option nat;
  seconds : option nat;
  max_dt_col : nat;
  year_cst : Z;
  auto_wrap : bool;
  decimal_date_type : decimal_date_formats
}.

Definition set_auto_wrap (b : bool) (d : t) : t :=
  mk (decimal_date d) (date_str d) (time_str d) (year d) (jdn d) (month d)
     (day d) (time d) (hours d) (minutes d) (seconds d) (max_dt_col d)
     (year_cst d) b (decimal_date_type d).

(** [int CsvDateTime::getFixedYear(const double& i_jdn)]: the year and the
    object after the call. *)
Definition getFixedYear_jdn (d : t) (i_jdn : Q) : Z * t :=
  let d := if negb (Qle_bool 273 i_jdn) then set_auto_wrap false d else d in
  if auto_wrap d then ((year_cst d - 1)%Z, d) else (year_cst d, d).

(** [int CsvDateTime::getFixedYear(const int& i_month)]. *)
Definition getFixedYear_month (d : t) (i_month : Z) : Z * t :=
  let d := if (i_month <? 10)%Z then set_auto_wrap false d else d in
  if auto_wrap d then ((year_cst d - 1)%Z, d) else (year_cst d, d).

Definition is_set (o : option nat) : bool :=
  match o with
  | Some _ => true
  | None => false
  end.

(** [bool CsvDateTime::isSet() const]. *)
Definition isSet `{Externals} (d : t) : bool :=
  if is_set (date_str d) && is_set (time_str d) then true
  else if is_set (decimal_date d) then true
  else
    let components_time := is_set (time d) || is_set (hours d) in
    let components_date :=
      (is_set (year d) || negb (year_cst d =? IOUtils_inodata)%Z)
      && (is_set (jdn d) || (is_set (month d) && is_set (day d))) in
    components_date && components_time.

(** Assignments to the members. *)
Definition set_decimal_date (c : option nat) (d : t) : t :=
  mk c (date_str d) (time_str d) (year d) (jdn d) (month d)
     (day d) (time d) (hours d) (minutes d) (seconds d) (max_dt_col d)
     (year_cst d) (auto_wrap d) (decimal_date_type d).

Definition set_date_str (c : option nat) (d : t) : t :=
  mk (decimal_date d) c (time_str d) (year d) (jdn d) (month d)
     (day d) (time d) (hours d) (minutes d) (seconds d) (max_dt_col d)
     (year_cst d) (auto_wrap d) (decimal_date_type d).

Definition set_time_str (c : option nat) (d : t) : t :=
  mk (decimal_date d) (date_str d) c (year d) (jdn d) (month d)
     (day d) (time d) (hours d) (minutes d) (seconds d) (max_dt_col d)
     (year_cst d) (auto_wrap d) (decimal_date_type d).

Definition set_year (c : option nat) (d : t) : t :=
  mk (decimal_date d) (date_str d) (time_str d) c (jdn d) (month d)
     (day d) (time d) (hours d) (minutes d) (seconds d) (max_dt_col d)
     (year_cst d) (auto_wrap d) (decimal_date_type d).

Definition set_jdn (c : option nat) (d : t) : t :=
  mk (decimal_date d) (date_str d) (time_str d) (year d) c (month d)
     (day d) (time d) (hours d) (minutes d) (seconds d) (max_dt_col d)
     (year_cst d) (auto_wrap d) (decimal_date_type d).

Definition set_month (c : option nat) (d : t) : t :=
  mk (decimal_date d) (date_str d) (time_str d) (year d) (jdn d) c
     (day d) (time d) (hours d) (minutes d) (seconds d) (max_dt_col d)
     (year_cst d) (auto_wrap d) (decimal_date_type d).

Definition set_day (c : option nat) (d : t) : t :=
  mk (decimal_date d) (date_str d) (time_str d) (year d) (jdn d) (month d)
     c (time d) (hours d) (minutes d) (seconds d) (max_dt_col d)
     (year_cst d) (auto_wrap d) (decimal_date_type d).

Definition set_time (c : option nat) (d : t) : t :=
  mk (decimal_date d) (date_str d) (time_str d) (year d) (jdn d) (month d)
     (day d) c (hours d) (minutes d) (seconds d) (max_dt_col d)
     (year_cst d) (auto_wrap d) (decimal_date_type d).

Definition set_hours (c : option nat) (d : t) : t :=
  mk (decimal_date d) (date_str d) (time_str d) (year d) (jdn d) (month d)
     (day d) (time d) c (minutes d) (seconds d) (max_dt_col d)
     (year_cst d) (auto_wrap d) (decimal_date_type d).

Definition set_minutes (c : option nat) (d : t) : t :=
  mk (decimal_date d) (date_str d) (time_str d) (year d) (jdn d) (month d)
     (day d) (time d) (hours d) c (seconds d) (max_dt_col d)
     (year_cst d) (auto_wrap d) (decimal_date_type d).

Definition set_seconds (c : option nat) (d : t) : t :=
  mk (decimal_date d) (date_str d) (time_str d) (year d) (jdn d) (month d)
     (day d) (time d) (hours d) (minutes d) c (max_dt_col d)
     (year_cst d) (auto_wrap d) (decimal_date_type d).

Definition set_max_dt_col (n : nat) (d : t) : t :=
  mk (decimal_date d) (date_str d) (time_str d) (year d) (jdn d) (month d)
     (day d) (time d) (hours d) (minutes d) (seconds d) n
     (year_cst d) (auto_wrap d) (decimal_date_type d).

Definition set_year_cst (y : Z) (d : t) : t :=
  mk (decimal_date d) (date_str d) (time_str d) (year d) (jdn d) (month d)
     (day d) (time d) (hours d) (minutes d) (seconds d) (max_dt_col d)
     y (auto_wrap d) (decimal_date_type d).

Definition set_decimal_date_type (f : decimal_date_formats) (d : t) : t :=
  mk (decimal_date d) (date_str d) (time_str d) (year d) (jdn d) (month d)
     (day d) (time d) (hours d) (minutes d) (seconds d) (max_dt_col d)
     (year_cst d) (auto_wrap d) f.

(** [if (col!=IOUtils::npos && col>max_dt_col) max_dt_col=col]. *)
Definition raise_to (col : option nat) (max_dt_col : nat) : nat :=
  match col with
  | Some c => if max_dt_col <? c then c else max_dt_col
  | None => max_dt_col
  end.

(** [void CsvDateTime::updateMaxCol()]. *)
Definition updateMaxCol (d : t) : t :=
  let m := max_dt_col d in
  let m := raise_to (decimal_date d) m in
  let m := raise_to (date_str d) m in
  let m := raise_to (time_str d) m in
  let m := raise_to (year d) m in
  let m := raise_to (jdn d) m in
  let m := raise_to (month d) m in
  let m := raise_to (day d) m in
  let m := raise_to (time d) m in
  let m := raise_to (hours d) m in
  let m := raise_to (minutes d) m in
  let m := raise_to (seconds d) m in
  set_max_dt_col m d.

(** The columns of the date and time, those that are not set included. *)
Definition columns (d : t) : list (option nat) :=
  [decimal_date d; date_str d; time_str d; year d; jdn d; month d; day d;
   time d; hours d; minutes d; seconds d].

(** [==] on two column members. *)
Definition same_column (a b : option nat) : bool :=
  match a, b with
  | Some x, Some y => Nat.eqb x y
  | None, None => true
  | _, _ => false
  end.

End CsvDateTime.

(** ** CsvParameters *)

Module CsvParameters.

Record t := mk {
  date_cols : CsvDateTime.t;
  csv_fields : list string;
  units_offset : list Q;
  units_multiplier : list Q;
  skip_fields : list nat;
  header_repeat_mk : string;
  filter_ID : string;
  nodata : string;
  id : string;
  file_and_path : string;
  header_lines : nat;
  ID_col : option nat;
  csv_delim : ascii;
  comments_mk : ascii;
  header_repeat_at_start : bool;
  asc_order : bool;
  purgeQuotes : bool;
  datetime_idx : list nat;
  time_idx : list nat;
  datetime_format : string;
  time_format : string;
  csv_tz : Q;
  has_tz : bool;
  dt_as_components : bool;
  dt_as_year_and_jdn : bool;
  dt_as_decimal : bool
}.

Definition set_date_cols (d : CsvDateTime.t) (p : t) : t :=
  mk d (csv_fields p) (units_offset p) (units_multiplier p) (skip_fields p)
     (header_repeat_mk p) (filter_ID p) (nodata p) (id p) (file_and_path p)
     (header_lines p) (ID_col p) (csv_delim p) (comments_mk p)
     (header_repeat_at_start p) (asc_order p) (purgeQuotes p)
     (datetime_idx p) (time_idx p) (datetime_format p) (time_format p)
     (csv_tz p) (has_tz p) (dt_as_components p) (dt_as_year_and_jdn p)
     (dt_as_decimal p).

Definition set_datetime_spec (idx : list nat) (fmt : string) (tz : bool) (p : t) : t :=
  mk (date_cols p) (csv_fields p) (units_offset p) (units_multiplier p)
     (skip_fields p) (header_repeat_mk p) (filter_ID p) (nodata p) (id p)
     (file_and_path p) (header_lines p) (ID_col p) (csv_delim p)
     (comments_mk p) (header_repeat_at_start p) (asc_order p) (purgeQuotes p)
     idx (time_idx p) fmt (time_format p) (csv_tz p) tz (dt_as_components p)
     (dt_as_year_and_jdn p) (dt_as_decimal p).

Definition set_time_spec (idx : list nat) (fmt : string) (tz : bool) (p : t) : t :=
  mk (date_cols p) (csv_fields p) (units_offset p) (units_multiplier p)
     (skip_fields p) (header_repeat_mk p) (filter_ID p) (nodata p) (id p)
     (file_and_path p) (header_lines p) (ID_col p) (csv_delim p)
     (comments_mk p) (header_repeat_at_start p) (asc_order p) (purgeQuotes p)
     (datetime_idx p) idx (datetime_format p) fmt (csv_tz p) tz
     (dt_as_components p) (dt_as_year_and_jdn p) (dt_as_decimal p).

Definition set_asc_order (b : bool) (p : t) : t :=
  mk (date_cols p) (csv_fields p) (units_offset p) (units_multiplier p)
     (skip_fields p) (header_repeat_mk p) (filter_ID p) (nodata p) (id p)
     (file_and_path p) (header_lines p) (ID_col p) (csv_delim p)
     (comments_mk p) (header_repeat_at_start p) b (purgeQuotes p)
     (datetime_idx p) (time_idx p) (datetime_format p) (time_format p)
     (csv_tz p) (has_tz p) (dt_as_components p) (dt_as_year_and_jdn p)
     (dt_as_decimal p).

Definition set_header_repeat_at_start (b : bool) (p : t) : t :=
  mk (date_cols p) (csv_fields p) (units_offset p) (units_multiplier p)
     (skip_fields p) (header_repeat_mk p) (filter_ID p) (nodata p) (id p)
     (file_and_path p) (header_lines p) (ID_col p) (csv_delim p)
     (comments_mk p) b (asc_order p) (purgeQuotes p)
     (datetime_idx p) (time_idx p) (datetime_format p) (time_format p)
     (csv_tz p) (has_tz p) (dt_as_components p) (dt_as_year_and_jdn p)
     (dt_as_decimal p).

(** [sort_dateKeys] orders the pairs (position, key index) by position;
    [std::sort] with it, as an insertion sort. *)
Definition sort_dateKeys (left right : nat * nat) : bool := fst left <? fst right.

Fixpoint insert_sorted (x : nat * nat) (l : list (nat * nat)) : list (nat * nat) :=
  match l with
  | [] => [x]
  | y :: l' => if sort_dateKeys x y then x :: l else y :: insert_sorted x l'
  end.

Definition sort (l : list (nat * nat)) : list (nat * nat) :=
  fold_right insert_sorted [] l.

(** The loop over the static keys: every key found in the specification
    is pushed with its position. *)
Fixpoint sorting_vector (spec : string) (ii : nat) (keys : list string) : list (nat * nat) :=
  match keys with
  | [] => []
  | k :: keys' =>
      match StdString.find k spec with
      | Some key_pos => (key_pos, ii) :: sorting_vector spec (S ii) keys'
      | None => sorting_vector spec (S ii) keys'
      end
  end.

(** [void CsvParameters::checkSpecString(spec_string, nr_params)]: [true]
    when no exception is thrown. *)
Definition checkSpecString (spec_string : string) (nr_params : nat) : bool :=
  let nr_percent := StdString.count_char "%"%char spec_string in
  let nr_placeholders :=
    IOUtils.count spec_string "%f" + IOUtils.count spec_string "%2f"
    + IOUtils.count spec_string "%4f" + IOUtils.count spec_string "%32s" in
  let pos_pc_pc := StdString.find "%%" spec_string in
  negb (negb (nr_percent =? nr_params) || negb (nr_percent =? nr_placeholders)
        || CsvDateTime.is_set pos_pc_pc).

(** The time zone marker, if there is one, must end the specification and
    becomes [%32s]. *)
Definition replace_tz (fmt : string) (tz : bool) : result (string * bool) :=
  match StdString.find "TZ" fmt with
  | Some tz_pos =>
      if negb (tz_pos =? String.length fmt - 2) then Throw InvalidFormatException
      else Ok (StdString.replace tz_pos 2 "%32s" fmt, true)
  | None => Ok (fmt, tz)
  end.

(** [void CsvParameters::setDateTimeSpec(const std::string& datetime_spec)]. *)
Definition setDateTimeSpec (p : t) (datetime_spec : string) : result t :=
  let keys := ["YYYY"; "MM"; "DD"; "HH24"; "MI"; "SS"] in
  let idx := datetime_idx p ++ map snd (sort (sorting_vector datetime_spec 0 keys)) in
  match replace_tz datetime_spec (has_tz p) with
  | Throw e => Throw e
  | Ok (fmt, tz) =>
      let fmt := IOUtils.replace_all fmt "DD" "%2f" in
      let fmt := IOUtils.replace_all fmt "MM" "%2f" in
      let fmt := IOUtils.replace_all fmt "YYYY" "%4f" in
      let fmt := IOUtils.replace_all fmt "HH24" "%2f" in
      let fmt := IOUtils.replace_all fmt "MI" "%2f" in
      let fmt := IOUtils.replace_all fmt "SS" "%f" in
      let nr_params_check := if tz then List.length idx + 1 else List.length idx in
      if checkSpecString fmt nr_params_check
      then Ok (set_datetime_spec idx fmt tz p)
      else Throw InvalidFormatException
  end.

(** [void CsvParameters::setTimeSpec(const std::string& time_spec)]. *)
Definition setTimeSpec (p : t) (time_spec : string) : result t :=
  match time_spec with
  | EmptyString => Ok p
  | _ =>
      let keys := ["HH24"; "MI"; "SS"] in
      let idx := time_idx p ++ map snd (sort (sorting_vector time_spec 0 keys)) in
      match replace_tz time_spec (has_tz p) with
      | Throw e => Throw e
      | Ok (fmt, tz) =>
          let fmt := IOUtils.replace_all fmt "HH24" "%2f" in
          let fmt := IOUtils.replace_all fmt "MI" "%2f" in
          let fmt := IOUtils.replace_all fmt "SS" "%f" in
          let nr_params_check := if tz then List.length idx + 1 else List.length idx in
          if checkSpecString fmt nr_params_check
          then Ok (set_time_spec idx fmt tz p)
          else Throw InvalidFormatException
      end
  end.

(** [(int)x]: truncation towards zero. *)
Definition to_int (q : Q) : Z := Z.quot (Qnum q) (Zpos (Qden q)).

(** [Date CsvParameters::createDate(const float args[6], const double i_tz)]. *)
Definition createDate (args : list Q) (i_tz : Q) : Date :=
  let i_args := map to_int (firstn 5 args) in
  if forallb (fun a => Qeq_bool (inject_Z (to_int a)) a) (firstn 5 args)
  then DateYMD (nth 0 i_args 0%Z) (nth 1 i_args 0%Z) (nth 2 i_args 0%Z)
               (nth 3 i_args 0%Z) (nth 4 i_args 0%Z) (nth 5 args 0%Q) i_tz
  else Undef.

(** [args[i] = q]. *)
Fixpoint store (args : list Q) (i : nat) (q : Q) : list Q :=
  match args with
  | [] => []
  | a :: args' =>
      match i with
      | 0 => q :: args'
      | S i' => a :: store args' i' q
      end
  end.

(** The pointer arguments of a [sscanf] call of the plugin are
    [&args[idx[0] + offset]], [&args[idx[1] + offset]], ..., [rest]: the
    values converted are stored through them in order. *)
Fixpoint assign (idx : list nat) (offset : nat) (items : list Scanf.item)
    (args : list Q) (rest : string) : list Q * string :=
  match items with
  | [] => (args, rest)
  | it :: items' =>
      match idx with
      | i :: idx' =>
          match it with
          | Scanf.IFloat q => assign idx' offset items' (store args (i + offset) q) rest
          | Scanf.IStr _ => assign idx' offset items' args rest
          end
      | [] =>
          match it with
          | Scanf.IStr s => (args, s)
          | Scanf.IFloat _ => (args, rest)
          end
      end
  end.

(** [Date CsvParameters::parseDate(const std::string& date_str,
    const std::string& time_str) const]. *)
Definition parseDate_str `{Externals} (p : t) (date_str time_str : string) : Date :=
  let args := repeat 0%Q 6 in
  let rest := EmptyString in
  let n := List.length (datetime_idx p) in
  if negb ((3 <=? n) && (n <=? 6)) then Undef
  else
    let items := sscanf date_str (datetime_format p) in
    let (args, rest) := assign (datetime_idx p) 0 items args rest in
    if negb (n <=? List.length items) then Undef
    else
      let m := List.length (time_idx p) in
      let '(status, args, rest) :=
        if (1 <=? m) && (m <=? 3)
        then
          let items := sscanf time_str (time_format p) in
          let (args, rest) := assign (time_idx p) 3 items args rest in
          (m <=? List.length items, args, rest)
        else (true, args, rest) in
      if negb status then Undef
      else
        let tz := if has_tz p then parseTimeZone rest else csv_tz p in
        createDate args tz.

(** [parseDateComponent] at [int] and at [double]. *)
Definition parseDateComponent_int `{Externals} (vecFields : list string)
    (idx : option nat) : option Z :=
  match idx with
  | None => Some 0%Z
  | Some i => convertString_int (at_ vecFields i)
  end.

Definition parseDateComponent_double `{Externals} (vecFields : list string)
    (idx : option nat) : option Q :=
  match idx with
  | None => Some 0%Q
  | Some i => convertString_double (at_ vecFields i)
  end.

(** [vecFields[idx]] where [idx] is a column member that may hold [npos]. *)
Definition column (vecFields : list string) (idx : option nat) : string :=
  match idx with
  | Some i => at_ vecFields i
  | None => EmptyString
  end.

(** [if (year==0 && date_cols.year_cst!=IOUtils::inodata)
       year = date_cols.getFixedYear(...)], on a julian day and on a month. *)
Definition fallback_year_jdn `{Externals} (d : CsvDateTime.t) (year : Z) (jdn : Q)
    : Z * CsvDateTime.t :=
  if (year =? 0)%Z && negb (CsvDateTime.year_cst d =? IOUtils_inodata)%Z
  then CsvDateTime.getFixedYear_jdn d jdn
  else (year, d).

Definition fallback_year_month `{Externals} (d : CsvDateTime.t) (year : Z) (month : Z)
    : Z * CsvDateTime.t :=
  if (year =? 0)%Z && negb (CsvDateTime.year_cst d =? IOUtils_inodata)%Z
  then CsvDateTime.getFixedYear_month d month
  else (year, d).

(** [Date CsvParameters::parseJdnDate(const std::vector<std::string>&)]:
    the date and the object after the call. *)
Definition parseJdnDate `{Externals} (p : t) (vecFields : list string) : Date * t :=
  let dc := date_cols p in
  match time_idx p with
  | _ :: _ =>
      (* year + integer jdn + time string *)
      let? jdn := parseDateComponent_double vecFields (CsvDateTime.jdn dc) else (Undef, p) in
      let? year := parseDateComponent_int vecFields (CsvDateTime.year dc) else (Undef, p) in
      let (year, dc) := fallback_year_jdn dc year jdn in
      let p := set_date_cols dc p in
      let time_str := column vecFields (CsvDateTime.time_str dc) in
      let m := List.length (time_idx p) in
      if negb (m <=? 3) then (Undef, p)
      else
        let items := sscanf time_str (time_format p) in
        let (args, rest) := assign (time_idx p) 0 items (repeat 0%Q 3) EmptyString in
        if negb (m <=? List.length items) then (Undef, p)
        else
          let jdn := (jdn + (nth 0 args 0 * 3600 + nth 1 args 0 * 60 + nth 2 args 0)
                            / (24 * 3600))%Q in
          let tz := if has_tz p then parseTimeZone rest else csv_tz p in
          (DateYJ year jdn tz, p)
  | [] =>
      match CsvDateTime.time dc, CsvDateTime.hours dc with
      | Some _, _ =>
          (* year + integer jdn + numerical time, for example "952" for 09:52 *)
          let? jdn := parseDateComponent_int vecFields (CsvDateTime.jdn dc) else (Undef, p) in
          let? year := parseDateComponent_int vecFields (CsvDateTime.year dc) else (Undef, p) in
          let (year, dc) := fallback_year_jdn dc year (inject_Z jdn) in
          let p := set_date_cols dc p in
          let? time := parseDateComponent_int vecFields (CsvDateTime.time dc) else (Undef, p) in
          let hours := Z.quot time 100 in
          let minutes := (time - hours * 100)%Z in
          (DateYJ year
             (inject_Z jdn + (inject_Z hours * 60 + inject_Z minutes) / (24 * 60))%Q
             (csv_tz p), p)
      | None, Some _ =>
          (* year + integer jdn + hours + minutes, etc *)
          let? jdn := parseDateComponent_int vecFields (CsvDateTime.jdn dc) else (Undef, p) in
          let? year := parseDateComponent_int vecFields (CsvDateTime.year dc) else (Undef, p) in
          let (year, dc) := fallback_year_jdn dc year (inject_Z jdn) in
          let p := set_date_cols dc p in
          let? hours := parseDateComponent_int vecFields (CsvDateTime.hours dc) else (Undef, p) in
          let? minutes := parseDateComponent_int vecFields (CsvDateTime.minutes dc) else (Undef, p) in
          let? seconds := parseDateComponent_double vecFields (CsvDateTime.seconds dc) else (Undef, p) in
          (DateYJ year
             (inject_Z jdn
              + (inject_Z hours * 3600 + inject_Z minutes * 60 + seconds) / (24 * 3600))%Q
             (csv_tz p), p)
      | None, None =>
          (* year + decimal jdn *)
          let? jdn := parseDateComponent_double vecFields (CsvDateTime.jdn dc) else (Undef, p) in
          let? year := parseDateComponent_int vecFields (CsvDateTime.year dc) else (Undef, p) in
          let (year, dc) := fallback_year_jdn dc year jdn in
          let p := set_date_cols dc p in
          (DateYJ year jdn (csv_tz p), p)
      end
  end.

(** [Date CsvParameters::parseDate(const std::string& value_str,
    const CsvDateTime::decimal_date_formats& format) const]. *)
Definition parseDate_decimal `{Externals} (p : t) (value_str : string)
    (format : decimal_date_formats) : Date :=
  match format with
  | UNIX =>
      let? value := convertString_time_t value_str else Undef in
      DateUnix value
  | _ =>
      let? value := convertString_double value_str else Undef in
      DateDecimal format value (csv_tz p)
  end.

(** [Date CsvParameters::parseDate(const std::vector<std::string>& vecFields)]:
    the date and the object after the call. *)
Definition parseDate `{Externals} (p : t) (vecFields : list string) : Date * t :=
  let dc := date_cols p in
  if dt_as_components p then
    if dt_as_year_and_jdn p then parseJdnDate p vecFields
    else
      let? month := parseDateComponent_int vecFields (CsvDateTime.month dc) else (Undef, p) in
      let? year := parseDateComponent_int vecFields (CsvDateTime.year dc) else (Undef, p) in
      let (year, dc) := fallback_year_month dc year month in
      let p := set_date_cols dc p in
      let? day := parseDateComponent_int vecFields (CsvDateTime.day dc) else (Undef, p) in
      let? hour := parseDateComponent_int vecFields (CsvDateTime.hours dc) else (Undef, p) in
      let? minute := parseDateComponent_int vecFields (CsvDateTime.minutes dc) else (Undef, p) in
      let? seconds := parseDateComponent_double vecFields (CsvDateTime.seconds dc) else (Undef, p) in
      (DateYMD year month day hour minute seconds (csv_tz p), p)
  else if dt_as_decimal p then
    (parseDate_decimal p (column vecFields (CsvDateTime.decimal_date dc))
       (CsvDateTime.decimal_date_type dc), p)
  else
    (parseDate_str p (column vecFields (CsvDateTime.date_str dc))
       (column vecFields (CsvDateTime.time_str dc)), p).

(** *** The pre-reading of [setFile] that discovers the order of the file

    A file is the list of the strings that successive [getline] calls
    return; the call that returns the last of them sets the end-of-file
    flag.  (A text that ends with the end-of-line character therefore has
    the empty string as its last element.) *)

Record scan_cursor := mk_scan_cursor {
  sc_params : t;
  sc_linenr : nat;
  sc_fields_ready : bool
}.

(** The previous timestamp and the numbers of ascending and descending
    timestamps counted so far. *)
Record scan_counts := mk_counts {
  prev_dt : Date;
  count_asc : nat;
  count_dsc : nat
}.

(** What the pre-reading makes of a line: the end of the file was reached
    within the data section ([Stop]) or within the headers ([Fail]); the
    iteration is left with [continue] ([Skip]); the line has too few
    fields to hold the date and time ([Short]); the line has the timestamp
    [dt]. *)
Inductive probe :=
| Stop
| Fail (e : exception)
| Skip
| Short
| Dated (dt : Date).

Definition min_valid_lines : nat := 10.

Definition newline : ascii := ascii_of_nat 10.
Definition carriage_return : ascii := ascii_of_nat 13.

(** A carriage return in last position is erased: [getline] stopped at the
    line feed. *)
Fixpoint erase_last_cr (line : string) : string :=
  match line with
  | EmptyString => EmptyString
  | String a EmptyString => if Ascii.eqb a carriage_return then EmptyString else line
  | String a s' => String a (erase_last_cr s')
  end.

Definition is_empty (s : string) : bool :=
  match s with
  | EmptyString => true
  | _ => false
  end.

(** [readLineToVec(line, tmp_vec, csv_delim)] when the delimiter is not a
    white space, [readLineToVec(line, tmp_vec)] when it is. *)
Definition tokenize `{Externals} (csv_delim : ascii) (line : string) : list string :=
  if negb (Ascii.eqb csv_delim " "%char)
  then readLineToVec line (Some csv_delim)
  else readLineToVec line None.

(** One iteration of the loop of [setFile], up to the timestamp of the
    line.  [parseFields] stands for the call
    [parseFields(headerFields, csv_fields)], which resolves the roles of
    the columns; the extraction of the station metadata, of the column
    names and of the units from the header lines is not part of the model.
    [c0] is the object as it was before the loop, from which the loop takes
    its constant locals. *)
Definition probe_line `{Externals} (parseFields : t -> result t) (c0 : t)
    (c : scan_cursor) (eof : bool) (line : string) : probe * scan_cursor :=
  let p := sc_params c in
  let line := trim line in
  if eof then
    let linenr := if header_repeat_at_start p then S (sc_linenr c) else sc_linenr c in
    if header_lines p <? linenr
    then (Stop, mk_scan_cursor p linenr (sc_fields_ready c))
    else (Fail InvalidArgumentException, c)
  else if negb (is_empty (header_repeat_mk c0)) && negb (header_repeat_at_start p)
          && CsvDateTime.is_set (StdString.find (header_repeat_mk p) line)
  then (Skip, mk_scan_cursor (set_header_repeat_at_start true p) (sc_linenr c)
                (sc_fields_ready c))
  else
    let linenr := S (sc_linenr c) in
    let c := mk_scan_cursor p linenr (sc_fields_ready c) in
    let line := if negb (Ascii.eqb (comments_mk p) newline)
                then stripComments line (comments_mk p) else line in
    if is_empty line then (Skip, c)
    else
      let line := erase_last_cr line in
      if linenr <=? header_lines p then (Skip, c)
      else if negb (sc_fields_ready c) then
        match parseFields p with
        | Ok p' => (Skip, mk_scan_cursor p' linenr true)
        | Throw e => (Fail e, c)
        end
      else
        let tmp_vec := tokenize (csv_delim c0) line in
        let nr_curr_data_fields := List.length tmp_vec in
        if CsvDateTime.max_dt_col (date_cols p) <? nr_curr_data_fields then
          let (dt, p') := parseDate p tmp_vec in
          if isUndef dt then (Skip, mk_scan_cursor p' linenr true)
          else (Dated dt, mk_scan_cursor p' linenr true)
        else (Short, c).

(** The timestamp transitions: a date that is later than the previous one
    counts as ascending, any other date as descending. *)
Definition count_transition `{Externals} (n : scan_counts) (dt : Date) : scan_counts :=
  if isUndef (prev_dt n) then mk_counts dt (count_asc n) (count_dsc n)
  else if Date_gt dt (prev_dt n) then mk_counts dt (S (count_asc n)) (count_dsc n)
  else mk_counts dt (count_asc n) (S (count_dsc n)).

(** We have had enough valid lines to understand the file. *)
Definition enough (n : scan_counts) : bool :=
  min_valid_lines <=? count_asc n + count_dsc n.

(** [for (size_t ii=0; ii<(header_lines+1000); ii++)]: the cursor and the
    counts when the loop ends. *)
Fixpoint setFile_loop `{Externals} (parseFields : t -> result t) (c0 : t)
    (fuel : nat) (c : scan_cursor) (n : scan_counts) (file : list string)
    : result (scan_cursor * scan_counts) :=
  match fuel with
  | 0 => Ok (c, n)
  | S fuel' =>
      match file with
      | [] => Ok (c, n)
      | line :: rest =>
          match probe_line parseFields c0 c (match rest with [] => true | _ => false end) line with
          | (Stop, c') => Ok (c', n)
          | (Fail e, _) => Throw e
          | (Skip, c') => setFile_loop parseFields c0 fuel' c' n rest
          | (Short, c') =>
              if enough n then Ok (c', n)
              else setFile_loop parseFields c0 fuel' c' n rest
          | (Dated dt, c') =>
              let n' := count_transition n dt in
              if enough n' then Ok (c', n')
              else setFile_loop parseFields c0 fuel' c' n' rest
          end
      end
  end.

Definition scan_start (p : t) : scan_cursor := mk_scan_cursor p 0 false.

(** [void CsvParameters::setFile(...)], as far as the order of the file is
    concerned: the pre-reading, the reset of [auto_wrap] and the decision. *)
Definition setFile `{Externals} (parseFields : t -> result t) (p : t)
    (file : list string) : result t :=
  let user_auto_wrap := CsvDateTime.auto_wrap (date_cols p) in
  match setFile_loop parseFields p (header_lines p + 1000) (scan_start p)
          (mk_counts Undef 0 0) file with
  | Throw e => Throw e
  | Ok (c, n) =>
      let p := sc_params c in
      let p := set_date_cols (CsvDateTime.set_auto_wrap user_auto_wrap (date_cols p)) p in
      if negb (CsvDateTime.isSet (date_cols p)) then Throw NoDataException
      else Ok (if count_asc n <? count_dsc n then set_asc_order false p else p)
  end.

(** The timestamps of the lines of the data section, as the pre-reading
    resolves them one after the other. *)
Fixpoint probed_dates `{Externals} (parseFields : t -> result t) (c0 : t)
    (fuel : nat) (c : scan_cursor) (file : list string) : list Date :=
  match fuel with
  | 0 => []
  | S fuel' =>
      match file with
      | [] => []
      | line :: rest =>
          match probe_line parseFields c0 c (match rest with [] => true | _ => false end) line with
          | (Stop, _) => []
          | (Fail _, _) => []
          | (Skip, c') => probed_dates parseFields c0 fuel' c' rest
          | (Short, c') => probed_dates parseFields c0 fuel' c' rest
          | (Dated dt, c') => dt :: probed_dates parseFields c0 fuel' c' rest
          end
      end
  end.

(** The transitions of a sequence of timestamps, counted until there are
    [min_valid_lines] of them. *)
Fixpoint transitions `{Externals} (n : scan_counts) (dates : list Date) : scan_counts :=
  match dates with
  | [] => n
  | dt :: dates' =>
      if enough n then n else transitions (count_transition n dt) dates'
  end.

(** *** The configuration of the object *)

Definition set_csv_fields (fields : list string) (p : t) : t :=
  mk (date_cols p) fields (units_offset p) (units_multiplier p) (skip_fields p)
     (header_repeat_mk p) (filter_ID p) (nodata p) (id p) (file_and_path p)
     (header_lines p) (ID_col p) (csv_delim p) (comments_mk p)
     (header_repeat_at_start p) (asc_order p) (purgeQuotes p)
     (datetime_idx p) (time_idx p) (datetime_format p) (time_format p)
     (csv_tz p) (has_tz p) (dt_as_components p) (dt_as_year_and_jdn p)
     (dt_as_decimal p).

Definition set_units (offset multiplier : list Q) (p : t) : t :=
  mk (date_cols p) (csv_fields p) offset multiplier (skip_fields p)
     (header_repeat_mk p) (filter_ID p) (nodata p) (id p) (file_and_path p)
     (header_lines p) (ID_col p) (csv_delim p) (comments_mk p)
     (header_repeat_at_start p) (asc_order p) (purgeQuotes p)
     (datetime_idx p) (time_idx p) (datetime_format p) (time_format p)
     (csv_tz p) (has_tz p) (dt_as_components p) (dt_as_year_and_jdn p)
     (dt_as_decimal p).

Definition set_skip_fields (skip : list nat) (p : t) : t :=
  mk (date_cols p) (csv_fields p) (units_offset p) (units_multiplier p) skip
     (header_repeat_mk p) (filter_ID p) (nodata p) (id p) (file_and_path p)
     (header_lines p) (ID_col p) (csv_delim p) (comments_mk p)
     (header_repeat_at_start p) (asc_order p) (purgeQuotes p)
     (datetime_idx p) (time_idx p) (datetime_format p) (time_format p)
     (csv_tz p) (has_tz p) (dt_as_components p) (dt_as_year_and_jdn p)
     (dt_as_decimal p).

Definition set_nodata (marker : string) (p : t) : t :=
  mk (date_cols p) (csv_fields p) (units_offset p) (units_multiplier p)
     (skip_fields p) (header_repeat_mk p) (filter_ID p) marker (id p)
     (file_and_path p) (header_lines p) (ID_col p) (csv_delim p)
     (comments_mk p) (header_repeat_at_start p) (asc_order p) (purgeQuotes p)
     (datetime_idx p) (time_idx p) (datetime_format p) (time_format p)
     (csv_tz p) (has_tz p) (dt_as_components p) (dt_as_year_and_jdn p)
     (dt_as_decimal p).

Definition set_id (i : string) (p : t) : t :=
  mk (date_cols p) (csv_fields p) (units_offset p) (units_multiplier p)
     (skip_fields p) (header_repeat_mk p) (filter_ID p) (nodata p) i
     (file_and_path p) (header_lines p) (ID_col p) (csv_delim p)
     (comments_mk p) (header_repeat_at_start p) (asc_order p) (purgeQuotes p)
     (datetime_idx p) (time_idx p) (datetime_format p) (time_format p)
     (csv_tz p) (has_tz p) (dt_as_components p) (dt_as_year_and_jdn p)
     (dt_as_decimal p).

Definition set_ID_col (col : option nat) (p : t) : t :=
  mk (date_cols p) (csv_fields p) (units_offset p) (units_multiplier p)
     (skip_fields p) (header_repeat_mk p) (filter_ID p) (nodata p) (id p)
     (file_and_path p) (header_lines p) col (csv_delim p)
     (comments_mk p) (header_repeat_at_start p) (asc_order p) (purgeQuotes p)
     (datetime_idx p) (time_idx p) (datetime_format p) (time_format p)
     (csv_tz p) (has_tz p) (dt_as_components p) (dt_as_year_and_jdn p)
     (dt_as_decimal p).

Definition set_csv_delim (c : ascii) (p : t) : t :=
  mk (date_cols p) (csv_fields p) (units_offset p) (units_multiplier p)
     (skip_fields p) (header_repeat_mk p) (filter_ID p) (nodata p) (id p)
     (file_and_path p) (header_lines p) (ID_col p) c
     (comments_mk p) (header_repeat_at_start p) (asc_order p) (purgeQuotes p)
     (datetime_idx p) (time_idx p) (datetime_format p) (time_format p)
     (csv_tz p) (has_tz p) (dt_as_components p) (dt_as_year_and_jdn p)
     (dt_as_decimal p).

Definition set_dt_as_components (b : bool) (p : t) : t :=
  mk (date_cols p) (csv_fields p) (units_offset p) (units_multiplier p)
     (skip_fields p) (header_repeat_mk p) (filter_ID p) (nodata p) (id p)
     (file_and_path p) (header_lines p) (ID_col p) (csv_delim p)
     (comments_mk p) (header_repeat_at_start p) (asc_order p) (purgeQuotes p)
     (datetime_idx p) (time_idx p) (datetime_format p) (time_format p)
     (csv_tz p) (has_tz p) b (dt_as_year_and_jdn p) (dt_as_decimal p).

Definition set_dt_as_year_and_jdn (b : bool) (p : t) : t :=
  mk (date_cols p) (csv_fields p) (units_offset p) (units_multiplier p)
     (skip_fields p) (header_repeat_mk p) (filter_ID p) (nodata p) (id p)
     (file_and_path p) (header_lines p) (ID_col p) (csv_delim p)
     (comments_mk p) (header_repeat_at_start p) (asc_order p) (purgeQuotes p)
     (datetime_idx p) (time_idx p) (datetime_format p) (time_format p)
     (csv_tz p) (has_tz p) (dt_as_components p) b (dt_as_decimal p).

Definition set_dt_as_decimal (b : bool) (p : t) : t :=
  mk (date_cols p) (csv_fields p) (units_offset p) (units_multiplier p)
     (skip_fields p) (header_repeat_mk p) (filter_ID p) (nodata p) (id p)
     (file_and_path p) (header_lines p) (ID_col p) (csv_delim p)
     (comments_mk p) (header_repeat_at_start p) (asc_order p) (purgeQuotes p)
     (datetime_idx p) (time_idx p) (datetime_format p) (time_format p)
     (csv_tz p) (has_tz p) (dt_as_components p) (dt_as_year_and_jdn p) b.

(** [skip_fields[ii] = true]: the keys of the map are the columns to
    skip. *)
Definition skip (ii : nat) (p : t) : t :=
  if existsb (Nat.eqb ii) (skip_fields p) then p
  else set_skip_fields (skip_fields p ++ [ii]) p.

(** [void CsvParameters::setSkipFields(const std::vector<size_t>&)]. *)
Fixpoint setSkipFields (p : t) (vecSkipFields : list nat) : result t :=
  match vecSkipFields with
  | [] => Ok p
  | field :: rest =>
      if field =? 0 then Throw InvalidArgumentException
      else setSkipFields (skip (field - 1) p) rest
  end.

(** [void CsvParameters::setDelimiter(const std::string& delim)]. *)
Definition setDelimiter (p : t) (delim : string) : result t :=
  match delim with
  | String c EmptyString => Ok (set_csv_delim c p)
  | _ =>
      if String.eqb delim "SPACE" || String.eqb delim "TAB"
      then Ok (set_csv_delim " "%char p)
      else Throw InvalidArgumentException
  end.

(** [std::string CsvParameters::identifyField(const std::string& fieldname)]. *)
Definition identifyField (fieldname : string) : string :=
  let starts pat := StdString.starts_with pat fieldname in
  if starts "TEMPERATURE_AIR" || starts "AIRTEMP" || starts "TEMPERATURA_ARIA" then "TA"
  else if starts "SOIL_TEMPERATURE" || starts "SOILTEMP" then "TSG"
  else if starts "PRECIPITATION" || starts "PREC" || starts "PRECIPITAZIONE" then "PSUM"
  else if starts "REFLECTED_RADIATION" || starts "RADIAZIONE_SOLARE_RIFLESSA" then "RSWR"
  else if starts "INCOMING_RADIATION" || starts "INCOMINGSHORTWAVERADIATION"
          || starts "RADIAZIONE_SOLARE_INCIDENTE" then "RSWR"
  else if starts "WIND_DIRECTION" || starts "WD" || starts "DIREZIONE_VENTO" then "DW"
  else if starts "RELATIVE_HUMIDITY" || starts "RELATIVEHUMIDITY"
          || starts "UMIDIT_RELATIVA" then "RH"
  else if starts "WIND_VELOCITY" || starts "WS" || starts "VELOCIT_VENTO" then "VW"
  else if starts "PRESSURE" || starts "STATIONPRESSURE" then "P"
  else if starts "INCOMING_LONGWAVE" || starts "INCOMINGLONGWAVERADIATION" then "ILWR"
  else if starts "SNOWSURFACETEMPERATURE" then "TSS"
  else if starts "WS_MAX" then "VW_MAX"
  else fieldname.

(** The degree sign, as the two bytes that the source file has for it. *)
Definition degree_sign : string :=
  String (ascii_of_nat 194) (String (ascii_of_nat 176) EmptyString).

(** The units that need no conversion. *)
Definition noConvUnits : list string :=
  ["TS"; "RN"; "W/M2"; "M/S"; "K"; "M"; "N"; "V"; "VOLT"; "DEG"; degree_sign; "KG/M2"].

(** The body of the loop of [setUnits] on the unit [tmp] of column [ii]:
    the offsets and the multipliers after it. *)
Definition setUnit `{Library} (tmp : string) (ii : nat) (offset multiplier : list Q)
    : list Q * list Q :=
  if is_empty tmp || is_one_of tmp ["1"; "-"; "0 OR 1"; "0/1"; "??"]
  then (offset, multiplier)
  else if is_one_of tmp noConvUnits then (offset, multiplier)
  else if is_one_of tmp ["%"; "pc"; "CM"]
  then (offset, assign_at multiplier ii (1 # 100)%Q)
  else if is_one_of tmp ["C"; "DEGC"; "GRAD C"; (degree_sign ++ "C")%string]
  then (assign_at offset ii t_water_freezing_pt, multiplier)
  else if String.eqb tmp "HPA" then (offset, assign_at multiplier ii 100%Q)
  else if is_one_of tmp ["MM"; "MV"; "MA"]
  then (offset, assign_at multiplier ii (1 # 1000)%Q)
  else if String.eqb tmp "MIN" then (offset, assign_at multiplier ii 60%Q)
  else if String.eqb tmp "IN" then (offset, assign_at multiplier ii (254 # 10000)%Q)
  else if String.eqb tmp "FT" then (offset, assign_at multiplier ii (3048 # 10000)%Q)
  else if String.eqb tmp "F"
  then (assign_at offset ii (- (32) * 5 / 9)%Q, assign_at multiplier ii (5 / 9)%Q)
  else if String.eqb tmp "KM/H" then (offset, assign_at multiplier ii (1 / (36 # 10))%Q)
  else if String.eqb tmp "MPH"
  then (offset, assign_at multiplier ii ((160934 # 100000) / (36 # 10))%Q)
  else if String.eqb tmp "KT"
  then (offset, assign_at multiplier ii ((1852 # 1000) / (36 # 10))%Q)
  else (offset, multiplier).

Fixpoint setUnits_loop `{Externals} `{Library} (units : list string) (ii : nat)
    (offset multiplier : list Q) : list Q * list Q :=
  match units with
  | [] => (offset, multiplier)
  | unit :: units' =>
      let tmp := removeQuotes (toUpper unit) in
      let (offset, multiplier) := setUnit tmp ii offset multiplier in
      setUnits_loop units' (S ii) offset multiplier
  end.

(** [void CsvParameters::setUnits(const std::string& csv_units,
    const char& delim)]. *)
Definition setUnits `{Externals} `{Library} (p : t) (csv_units : string) (delim : ascii)
    : t :=
  let units := readLineToVec csv_units (Some delim) in
  let offset := resize (List.length units) 0%Q (units_offset p) in
  let multiplier := resize (List.length units) 1%Q (units_multiplier p) in
  let (offset, multiplier) := setUnits_loop units 0 offset multiplier in
  set_units offset multiplier p.

(** [void CsvParameters::setDecimalDateType(std::string decimaldate_type)]. *)
Definition setDecimalDateType `{Library} (p : t) (decimaldate_type : string) : result t :=
  let decimaldate_type := toUpper decimaldate_type in
  let as_type format :=
    Ok (set_dt_as_decimal true
          (set_date_cols (CsvDateTime.set_decimal_date_type format (date_cols p)) p)) in
  if String.eqb decimaldate_type "EXCEL" then as_type EXCEL
  else if String.eqb decimaldate_type "JULIAN" then as_type JULIAN
  else if String.eqb decimaldate_type "MJULIAN" then as_type MJULIAN
  else if String.eqb decimaldate_type "MATLAB" then as_type MATLAB
  else if String.eqb decimaldate_type "RFC868" then as_type RFC868
  else if String.eqb decimaldate_type "UNIX" then as_type UNIX
  else Throw InvalidArgumentException.

(** [void CsvParameters::setFixedYear(const int& i_year, const bool& auto_wrap)]. *)
Definition setFixedYear (p : t) (i_year : Z) (auto_wrap : bool) : t :=
  set_date_cols
    (CsvDateTime.set_auto_wrap auto_wrap (CsvDateTime.set_year_cst i_year (date_cols p))) p.

(** *** The members that only the configuration and the headers use

    [core] holds the members above; the station's name, the parameter of a
    file with a single parameter, the delimiter of the header lines, the
    slope, its azimuth and the altitude of the station's location come with
    it. *)
Record full := mk_full {
  core : t;
  name : string;
  single_field : string;
  single_param_idx : option nat;
  header_delim : ascii;
  slope : Q;
  azi : Q;
  altitude : Q
}.

Definition set_core (p : t) (f : full) : full :=
  mk_full p (name f) (single_field f) (single_param_idx f) (header_delim f)
          (slope f) (azi f) (altitude f).

Definition set_name (n : string) (f : full) : full :=
  mk_full (core f) n (single_field f) (single_param_idx f) (header_delim f)
          (slope f) (azi f) (altitude f).

Definition set_single_field (s : string) (f : full) : full :=
  mk_full (core f) (name f) s (single_param_idx f) (header_delim f)
          (slope f) (azi f) (altitude f).

Definition set_header_delim (c : ascii) (f : full) : full :=
  mk_full (core f) (name f) (single_field f) (single_param_idx f) c
          (slope f) (azi f) (altitude f).

Definition set_slope (x : Q) (f : full) : full :=
  mk_full (core f) (name f) (single_field f) (single_param_idx f) (header_delim f)
          x (azi f) (altitude f).

Definition set_azi (x : Q) (f : full) : full :=
  mk_full (core f) (name f) (single_field f) (single_param_idx f) (header_delim f)
          (slope f) x (altitude f).

Definition set_altitude (x : Q) (f : full) : full :=
  mk_full (core f) (name f) (single_field f) (single_param_idx f) (header_delim f)
          (slope f) (azi f) x.

(** The coordinates that the extraction of the metadata fills in: the
    reference arguments [lat], [lon], [easting] and [northing]. *)
Record position := mk_position {
  lat : Q;
  lon : Q;
  easting : Q;
  northing : Q
}.

(** [void CsvParameters::setHeaderDelimiter(const std::string& delim)]. *)
Definition setHeaderDelimiter (f : full) (delim : string) : result full :=
  match delim with
  | String c EmptyString => Ok (set_header_delim c f)
  | _ =>
      if String.eqb delim "SPACE" || String.eqb delim "TAB"
      then Ok (set_header_delim " "%char f)
      else Throw InvalidArgumentException
  end.

(** [void CsvParameters::assignMetadataVariable(field_type, field_val,
    lat, lon, easting, northing)]. *)
Definition assignMetadataVariable `{Externals} `{Library} (f : full)
    (field_type field_val : string) (pos : position) : result (full * position) :=
  if String.eqb field_type "ID" then
    Ok (if is_empty (id (core f)) then set_core (set_id field_val (core f)) f else f, pos)
  else if String.eqb field_type "NAME" then
    Ok (if is_empty (name f) then set_name field_val f else f, pos)
  else if String.eqb field_type "NODATA" then
    Ok (set_core (set_nodata field_val (core f)) f, pos)
  else if String.eqb field_type "SKIP" then Ok (f, pos)
  else if String.eqb field_type "PARAM" then
    let param := strToUpper field_val in
    if CsvDateTime.is_set (getStaticParameterIndex param)
    then Ok (set_single_field param f, pos)
    else
      let param := replaceInvalidChars param in
      let param := identifyField param in
      Ok (set_single_field param f, pos)
  else if is_one_of field_type ["ALT"; "LON"; "LAT"; "SLOPE"; "AZI"; "EASTING"; "NORTHING"]
  then
    match convertString_double field_val with
    | None => Throw InvalidArgumentException
    | Some tmp =>
        let f := if String.eqb field_type "ALT" then set_altitude tmp f else f in
        let pos := if String.eqb field_type "LON"
                   then mk_position (lat pos) tmp (easting pos) (northing pos) else pos in
        let pos := if String.eqb field_type "LAT"
                   then mk_position tmp (lon pos) (easting pos) (northing pos) else pos in
        let f := if String.eqb field_type "SLOPE" then set_slope tmp f else f in
        let f := if String.eqb field_type "AZI" then set_azi tmp f else f in
        let pos := if String.eqb field_type "EASTING"
                   then mk_position (lat pos) (lon pos) tmp (northing pos) else pos in
        let pos := if String.eqb field_type "NORTHING"
                   then mk_position (lat pos) (lon pos) (easting pos) tmp else pos in
        Ok (f, pos)
    end
  else Throw InvalidFormatException.

(** One variable of the metadata, read from the headers or from the name
    of the file.  [ID] and [NAME] are appended to what the same call has
    read before, unless the user has configured them: [readID] and
    [readName] tell whether the member was empty when the call began, and
    [prev_ID] and [prev_NAME] are what the call has read so far, each part
    followed by a dash. *)
Record appending := mk_appending {
  readID : bool;
  readName : bool;
  prev_ID : string;
  prev_NAME : string
}.

Definition start_appending (f : full) : appending :=
  mk_appending (is_empty (id (core f))) (is_empty (name f)) EmptyString EmptyString.

Definition assign_variable `{Externals} `{Library} (a : appending) (f : full)
    (field_type field_val : string) (pos : position)
    : result (appending * full * position) :=
  if String.eqb field_type "ID" && readID a then
    let id := (prev_ID a ++ field_val)%string in
    Ok (mk_appending (readID a) (readName a) (id ++ "-")%string (prev_NAME a),
        set_core (set_id id (core f)) f, pos)
  else if String.eqb field_type "NAME" && readName a then
    let name := (prev_NAME a ++ field_val)%string in
    Ok (mk_appending (readID a) (readName a) (prev_ID a) (name ++ "-")%string,
        set_name name f, pos)
  else
    match assignMetadataVariable f field_type field_val pos with
    | Ok (f, pos) => Ok (a, f, pos)
    | Throw e => Throw e
    end.

(** The special headers specification: a multimap from the line number to
    the column and the type of the field, in the order of its keys;
    entries with the same key keep the order in which they were inserted. *)
Definition meta_spec := list (nat * (nat * string)).

Fixpoint multimap_insert (key : nat) (v : nat * string) (m : meta_spec) : meta_spec :=
  match m with
  | [] => [(key, v)]
  | (k, w) :: m' =>
      if key <? k then (key, v) :: m else (k, w) :: multimap_insert key v m'
  end.

Definition equal_range (key : nat) (m : meta_spec) : list (nat * string) :=
  map snd (filter (fun e => Nat.eqb (fst e) key) m).

(** [CsvParameters::parseHeadersSpecs(const std::vector<std::string>&)],
    with the entries collected so far. *)
Fixpoint parseHeadersSpecs_loop `{Externals} `{Library} (vecMetaSpec : list string)
    (m : meta_spec) : result meta_spec :=
  match vecMetaSpec with
  | [] => Ok m
  | spec :: rest =>
      match readLineToVec spec (Some ":"%char) with
      | [type; line; col] =>
          let linenr := atoi line in
          let colnr := atoi col in
          if (linenr <=? 0)%Z || (colnr <=? 0)%Z then Throw InvalidFormatException
          else parseHeadersSpecs_loop rest
                 (multimap_insert (Z.to_nat linenr) (Z.to_nat colnr, type) m)
      | _ => Throw InvalidFormatException
      end
  end.

Definition parseHeadersSpecs `{Externals} `{Library} (vecMetaSpec : list string)
    : result meta_spec :=
  parseHeadersSpecs_loop vecMetaSpec [].

(** [void CsvParameters::parseSpecialHeaders(line, linenr, meta_spec, lat,
    lon, easting, northing)]: the loop over the entries of the line, and
    the function. *)
Fixpoint parseSpecialHeaders_loop `{Externals} `{Library} (entries : list (nat * string))
    (vecStr : list string) (a : appending) (f : full) (pos : position)
    : result (full * position) :=
  match entries with
  | [] => Ok (f, pos)
  | (colnr, type) :: rest =>
      let field_type := strToUpper type in
      if (List.length vecStr <? colnr) || (colnr =? 0) then Throw InvalidArgumentException
      else
        let field_val := removeQuotes (at_ vecStr (colnr - 1)) in
        match assign_variable a f field_type field_val pos with
        | Ok (a, f, pos) => parseSpecialHeaders_loop rest vecStr a f pos
        | Throw e => Throw e
        end
  end.

Definition parseSpecialHeaders `{Externals} `{Library} (f : full) (line : string)
    (linenr : nat) (m : meta_spec) (pos : position) : result (full * position) :=
  let vecStr := readLineToVec line (Some (header_delim f)) in
  parseSpecialHeaders_loop (equal_range linenr m) vecStr (start_appending f) f pos.

(** *** The metadata of the file name *)

(** [if (filename_spec[0]!='{')]: the constant pattern at the beginning is
    checked against the file name.  The positions [(pos_fn, pos_mt)] in the
    file name and in the specification. *)
Definition parseFileName_start (filename filename_spec : string) : outcome (N * N) :=
  match filename_spec with
  | String "{" _ => Done (0, 0)%N
  | _ =>
      let start_var := StdString.find_from "{" filename_spec 0 in
      if (start_var =? StdString.npos)%N then Failed (IOException InvalidFormatException)
      else
        match StdString.substr filename_spec 0 start_var,
              StdString.substr filename 0 start_var with
        | Some pattern, Some found =>
            if negb (String.eqb found pattern)
            then Failed (IOException InvalidFormatException)
            else Done (start_var, start_var)
        | _, _ => Failed out_of_range
        end
  end.

(** The [do ... while (true)] loop, one variable per iteration.  [None]
    when [fuel] iterations were not enough to leave the loop. *)
Fixpoint parseFileName_loop `{Externals} `{Library} (fuel : nat)
    (filename filename_spec : string) (pos_fn pos_mt : N) (a : appending) (f : full)
    (pos : position) : option (outcome (full * position)) :=
  match fuel with
  | 0 => None
  | S fuel' =>
      (* the start of the next constant pattern defines the end of the
         current variable *)
      let start_pattern := StdString.find_from "}" filename_spec pos_mt in
      let end_pattern := StdString.find_from "{" filename_spec (StdString.plus pos_mt 1) in
      if (start_pattern =? StdString.npos)%N then
        if negb (end_pattern =? StdString.npos)%N
        then Some (Failed (IOException InvalidFormatException))
        else Some (Done (f, pos))
      else
        let pattern_len := StdString.minus (StdString.minus end_pattern start_pattern) 1 in
        let len_var :=
          if negb (end_pattern =? StdString.npos)%N then
            match StdString.substr filename_spec (StdString.plus start_pattern 1)
                    pattern_len with
            | None => Failed out_of_range
            | Some pattern =>
                let pos_pattern_fn := StdString.find_from pattern filename pos_fn in
                if (pos_pattern_fn =? StdString.npos)%N
                then Failed (IOException InvalidFormatException)
                else Done (StdString.minus pos_pattern_fn pos_fn)
            end
          else Done StdString.npos in
        match len_var with
        | Failed e => Some (Failed e)
        | Done len_var =>
            (* read the variable type and value *)
            match StdString.substr filename_spec (StdString.plus pos_mt 1)
                    (StdString.minus (StdString.minus start_pattern pos_mt) 1),
                  StdString.substr filename pos_fn len_var with
            | Some type, Some value =>
                match assign_variable a f (strToUpper type) value pos with
                | Throw e => Some (Failed (IOException e))
                | Ok (a, f, pos) =>
                    if (end_pattern =? StdString.npos)%N then Some (Done (f, pos))
                    else
                      parseFileName_loop fuel' filename filename_spec
                        (StdString.plus (StdString.plus pos_fn len_var) pattern_len)
                        end_pattern a f pos
                end
            | _, _ => Some (Failed out_of_range)
            end
        end
  end.

(** [void CsvParameters::parseFileName(std::string filename,
    const std::string& filename_spec, double &lat, double &lon,
    double &easting, double &northing)].  Every iteration but the last moves
    [pos_mt] to a later brace of the specification, so the loop is given one
    iteration more than the specification has characters. *)
Definition parseFileName `{Externals} `{Library} (f : full)
    (filename filename_spec : string) (pos : position)
    : option (outcome (full * position)) :=
  let filename := removeExtension (getFilename filename) in
  match parseFileName_start filename filename_spec with
  | Failed e => Some (Failed e)
  | Done (pos_fn, pos_mt) =>
      parseFileName_loop (S (String.length filename_spec)) filename filename_spec
        pos_fn pos_mt (start_appending f) f pos
  end.

(** *** The roles of the columns *)

(** The field name is trimmed, put in upper case, and its internal white
    space becomes one underscore. *)
Definition clean_name `{Externals} `{Library} (tmp : string) : string :=
  replaceWhitespaces (removeDuplicateWhitespaces (toUpper (trim tmp))) "_"%char.

Definition on_date_cols (g : CsvDateTime.t -> CsvDateTime.t) (p : t) : t :=
  set_date_cols (g (date_cols p)) p.

(** The body of the loop of [parseFields] on the name [tmp] of column
    [ii], which is not empty. *)
Definition assign_role (tmp : string) (ii : nat) (p : t) : t :=
  if is_one_of tmp ["TIMESTAMP"; "TS"; "DATETIME"] then
    let p := if dt_as_decimal p
             then on_date_cols (CsvDateTime.set_decimal_date (Some ii)) p
             else on_date_cols (CsvDateTime.set_date_str (Some ii))
                    (on_date_cols (CsvDateTime.set_time_str (Some ii)) p) in
    skip ii p
  else if is_one_of tmp ["DATE"; "GIORNO"; "FECHA"] then
    skip ii (on_date_cols (CsvDateTime.set_date_str (Some ii)) p)
  else if is_one_of tmp ["TIME"; "ORA"; "HORA"] then
    skip ii (on_date_cols (CsvDateTime.set_time_str (Some ii)) p)
  else if String.eqb tmp "SKIP" then skip ii p
  else if String.eqb tmp "YEAR" then
    skip ii (set_dt_as_components true (on_date_cols (CsvDateTime.set_year (Some ii)) p))
  else if is_one_of tmp ["JDAY"; "JDN"; "YDAY"; "DAY_OF_YEAR"; "DOY"] then
    set_dt_as_year_and_jdn true
      (skip ii (on_date_cols (CsvDateTime.set_jdn (Some ii)) p))
  else if String.eqb tmp "MONTH" then
    skip ii (set_dt_as_components true (on_date_cols (CsvDateTime.set_month (Some ii)) p))
  else if String.eqb tmp "DAY" then
    skip ii (set_dt_as_components true (on_date_cols (CsvDateTime.set_day (Some ii)) p))
  else if String.eqb tmp "NTIME" then
    skip ii (set_dt_as_components true (on_date_cols (CsvDateTime.set_time (Some ii)) p))
  else if is_one_of tmp ["HOUR"; "HOURS"] then
    skip ii (set_dt_as_components true (on_date_cols (CsvDateTime.set_hours (Some ii)) p))
  else if is_one_of tmp ["MINUTE"; "MINUTES"] then
    skip ii (set_dt_as_components true (on_date_cols (CsvDateTime.set_minutes (Some ii)) p))
  else if is_one_of tmp ["SECOND"; "SECONDS"] then
    skip ii (set_dt_as_components true (on_date_cols (CsvDateTime.set_seconds (Some ii)) p))
  else if is_one_of tmp ["ID"; "STATIONID"] then
    skip ii (set_ID_col (Some ii) p)
  else p.

(** The loop over the field names: the names as the loop leaves them, and
    the object. *)
Fixpoint assign_roles `{Externals} `{Library} (fieldNames : list string) (ii : nat) (p : t)
    : list string * t :=
  match fieldNames with
  | [] => ([], p)
  | tmp :: rest =>
      let tmp := clean_name tmp in
      let p := if is_empty tmp then p else assign_role tmp ii p in
      let (rest, p) := assign_roles rest (S ii) p in
      (tmp :: rest, p)
  end.

(** If necessary, the formats are set to the appropriate defaults. *)
Definition default_formats (p : t) : result t :=
  if dt_as_decimal p then Ok p
  else
    let dc := date_cols p in
    if CsvDateTime.same_column (CsvDateTime.date_str dc) (CsvDateTime.time_str dc) then
      match datetime_idx p with
      | [] => setDateTimeSpec p "YYYY-MM-DDTHH24:MI:SS"
      | _ => Ok p
      end
    else
      let r := match datetime_idx p with
               | [] => if CsvDateTime.is_set (CsvDateTime.date_str dc)
                       then setDateTimeSpec p "YYYY-MM-DD" else Ok p
               | _ => Ok p
               end in
      match r with
      | Throw e => Throw e
      | Ok p =>
          match time_idx p with
          | [] => if CsvDateTime.is_set (CsvDateTime.time_str dc)
                  then setTimeSpec p "HH24:MI:SS" else Ok p
          | _ => Ok p
          end
      end.

(** [for (pidx = 0; pidx < 3; ++pidx) if (pidx != date_str && pidx !=
    time_str) break;]: the first of three fields that is neither the date
    nor the time.  When the two columns differ one of the three is left. *)
Fixpoint third_field (dc : CsvDateTime.t) (pidx : nat) (n : nat) : nat :=
  match n with
  | 0 => pidx
  | S n' =>
      if negb (CsvDateTime.same_column (Some pidx) (CsvDateTime.date_str dc))
         && negb (CsvDateTime.same_column (Some pidx) (CsvDateTime.time_str dc))
      then pidx
      else third_field dc (S pidx) n'
  end.

(** The user wants to keep only one column: its name is the parameter that
    the name of the file or the headers gave. *)
Definition name_single_field (f : full) (fieldNames : list string) : result (list string) :=
  let p := core f in
  let dc := date_cols p in
  let size := List.length fieldNames in
  if CsvDateTime.is_set (ID_col p) then Throw InvalidArgumentException
  else
    (* no index given by the user, or one past the fields *)
    let no_index :=
      if CsvDateTime.same_column (CsvDateTime.date_str dc) (CsvDateTime.time_str dc)
         && (size =? 2) then
        let pidx := if CsvDateTime.same_column (CsvDateTime.date_str dc) (Some 0)
                    then 1 else 0 in
        assign_at fieldNames pidx (single_field f)
      else if negb (CsvDateTime.same_column (CsvDateTime.date_str dc)
                      (CsvDateTime.time_str dc))
              && (size =? 3) then
        assign_at fieldNames (third_field dc 0 3) (single_field f)
      else fieldNames in
    match single_param_idx f with
    | Some idx =>
        if idx <? size then Ok (assign_at fieldNames idx (single_field f))
        else Ok no_index
    | None => Ok no_index
    end.

(** [void CsvParameters::parseFields(const std::vector<std::string>&
    headerFields, std::vector<std::string>& fieldNames)]: the object and the
    field names after the call. *)
Definition parseFields `{Externals} `{Library} (f : full)
    (headerFields fieldNames : list string) : outcome (full * list string) :=
  let user_provided_field_names := negb (List.length fieldNames =? 0) in
  if (List.length headerFields =? 0) && negb user_provided_field_names
  then Failed (IOException InvalidArgumentException)
  else
    let fieldNames := if negb user_provided_field_names then headerFields else fieldNames in
    let (fieldNames, p) := assign_roles fieldNames 0 (core f) in
    let p := on_date_cols CsvDateTime.updateMaxCol p in
    (* check for time handling consistency *)
    if negb (CsvDateTime.isSet (date_cols p)) then Failed UnknownValueException
    else if dt_as_components p && negb (is_empty (single_field f))
    then Failed (IOException InvalidArgumentException)
    else
      match default_formats p with
      | Throw e => Failed (IOException e)
      | Ok p =>
          let f := set_core p f in
          if negb (is_empty (single_field f)) && negb user_provided_field_names then
            match name_single_field f fieldNames with
            | Throw e => Failed (IOException e)
            | Ok fieldNames => Done (f, fieldNames)
            end
          else Done (f, fieldNames)
      end.

End CsvParameters.

(** ** Records and the position index *)

Module MeteoData.

(** Modelled from the spec: the class [MeteoData] is not part of CsvIO.cc.
    A record is a "timestamp + station identity + mapping from field name
    to numeric value (value absent => nodata ...)".  The fields are kept in
    the order in which they were declared. *)
Record t := mk {
  date : Date;
  stationID : string;
  fields : list (string * Q)
}.

Fixpoint declared (name : string) (l : list (string * Q)) : bool :=
  match l with
  | [] => false
  | (n, _) :: l' => String.eqb n name || declared name l'
  end.

(** [addParameter(name)]: a new field holds nodata; a field that exists
    already is left alone. *)
Definition addParameter `{Externals} (name : string) (md : t) : t :=
  if declared name (fields md) then md
  else mk (date md) (stationID md) (fields md ++ [(name, IOUtils_nodata)]).

Fixpoint assign (name : string) (v : Q) (l : list (string * Q)) : list (string * Q) :=
  match l with
  | [] => []
  | (n, x) :: l' => if String.eqb n name then (n, v) :: l' else (n, x) :: assign name v l'
  end.

(** [md(name) = v].  The template of [readCSVFile] declares every column
    that is not skipped, so the field exists. *)
Definition set (name : string) (v : Q) (md : t) : t :=
  mk (date md) (stationID md) (assign name v (fields md)).

Definition setDate (dt : Date) (md : t) : t :=
  mk dt (stationID md) (fields md).

(** [md(name)] as a value: [None] when no such field is declared. *)
Fixpoint lookup (name : string) (l : list (string * Q)) : option Q :=
  match l with
  | [] => None
  | (n, x) :: l' => if String.eqb n name then Some x else lookup name l'
  end.

Definition get (name : string) (md : t) : option Q := lookup name (fields md).

End MeteoData.

Module FileIndexer.

(** Modelled from the spec: the class [FileIndexer] is not part of
    CsvIO.cc.  It is "a sparse mapping from timestamp to byte offset";
    [getIndex] answers with an "indexed offset ... at or before" the
    requested date, the closest one, and with [None] (the stream position
    -1) when there is none. *)
Definition t := list (Date * nat).

Definition setIndex (dt : Date) (pos : nat) (idx : t) : t := idx ++ [(dt, pos)].

Fixpoint best `{Externals} (d : Date) (found : option (Date * nat)) (idx : t) : option (Date * nat) :=
  match idx with
  | [] => found
  | (dt, pos) :: idx' =>
      if Date_gt dt d then best d found idx'
      else
        match found with
        | Some (dt0, _) => if Date_gt dt0 dt then best d found idx' else best d (Some (dt, pos)) idx'
        | None => best d (Some (dt, pos)) idx'
        end
  end.

Definition getIndex `{Externals} (d : Date) (idx : t) : option nat :=
  option_map snd (best d None idx).

End FileIndexer.

(** ** CsvIO *)

Module CsvIO.

Record t := mk {
  silent_errors : bool;
  errors_to_nodata : bool;
  indexer_map : list (string * FileIndexer.t)
}.

(** [indexer_map[filename]] as a value and as an assignment target. *)
Fixpoint indexer_of (filename : string) (m : list (string * FileIndexer.t)) : FileIndexer.t :=
  match m with
  | [] => []
  | (f, idx) :: m' => if String.eqb f filename then idx else indexer_of filename m'
  end.

Fixpoint set_indexer (filename : string) (idx : FileIndexer.t)
    (m : list (string * FileIndexer.t)) : list (string * FileIndexer.t) :=
  match m with
  | [] => [(filename, idx)]
  | (f, i) :: m' =>
      if String.eqb f filename then (f, idx) :: m' else (f, i) :: set_indexer filename idx m'
  end.

(** Save the stream position every 2000 lines of data. *)
Definition streampos_every_n_lines : nat := 2000.

Definition skipped (p : CsvParameters.t) (ii : nat) : bool :=
  existsb (Nat.eqb ii) (CsvParameters.skip_fields p).

(** [MeteoData CsvIO::createTemplate(const CsvParameters& params)]. *)
Fixpoint declare_fields `{Externals} (p : CsvParameters.t) (ii : nat)
    (names : list string) (md : MeteoData.t) : MeteoData.t :=
  match names with
  | [] => md
  | name :: names' =>
      if skipped p ii then declare_fields p (S ii) names' md
      else declare_fields p (S ii) names' (MeteoData.addParameter name md)
  end.

Definition createTemplate `{Externals} (p : CsvParameters.t) : MeteoData.t :=
  declare_fields p 0 (CsvParameters.csv_fields p)
    (MeteoData.mk (DateDecimal JULIAN 0 0) (CsvParameters.id p) []).

(** [Date CsvIO::getDate(...)]: the date, or the exception, and the
    parameters after the call. *)
Definition getDate `{Externals} (p : CsvParameters.t) (vecFields : list string)
    (silent_errors : bool) : result Date * CsvParameters.t :=
  let (dt, p) := CsvParameters.parseDate p vecFields in
  if isUndef dt && negb silent_errors then (Throw InvalidFormatException, p)
  else (Ok dt, p).

Definition double_quote : string := String (ascii_of_nat 34) EmptyString.

(** The token is empty or is the nodata marker of the file, bare or within
    quotes: the column leaves the record as it is. *)
Definition is_nodata_token (nodata tok : string) : bool :=
  CsvParameters.is_empty tok || String.eqb tok nodata
  || String.eqb tok (double_quote ++ nodata ++ double_quote)
  || String.eqb tok ("'" ++ nodata ++ "'").

(** [tmp != IOUtils::nodata]. *)
Definition is_data `{Externals} (tmp : Q) : bool := negb (Qeq_bool tmp IOUtils_nodata).

(** The conversion to SI units: the multiplier, then the offset.  The size
    of both vectors was checked against the number of columns. *)
Definition to_SI `{Externals} (p : CsvParameters.t) (ii : nat) (tmp : Q) : Q :=
  let use_offset := negb (Nat.eqb (List.length (CsvParameters.units_offset p)) 0) in
  let use_multiplier := negb (Nat.eqb (List.length (CsvParameters.units_multiplier p)) 0) in
  let tmp := if use_multiplier && is_data tmp
             then (tmp * nth ii (CsvParameters.units_multiplier p) 1)%Q else tmp in
  let tmp := if use_offset && is_data tmp
             then (tmp + nth ii (CsvParameters.units_offset p) 0)%Q else tmp in
  tmp.

(** The loop over the tokens of one line: the record, and whether no
    error was met. *)
Fixpoint read_fields `{Externals} (io : t) (p : CsvParameters.t) (ii : nat)
    (tokens : list string) (md : MeteoData.t) (no_errors : bool)
    : result (MeteoData.t * bool) :=
  match tokens with
  | [] => Ok (md, no_errors)
  | tok :: tokens' =>
      if skipped p ii then read_fields io p (S ii) tokens' md no_errors
      else if is_nodata_token (CsvParameters.nodata p) tok
      then read_fields io p (S ii) tokens' md no_errors
      else if String.eqb tok "NAN" || String.eqb tok "NULL"
      then read_fields io p (S ii) tokens'
             (MeteoData.set (at_ (CsvParameters.csv_fields p) ii) IOUtils_nodata md) no_errors
      else
        match convertString_double tok with
        | Some tmp =>
            read_fields io p (S ii) tokens'
              (MeteoData.set (at_ (CsvParameters.csv_fields p) ii) (to_SI p ii tmp) md)
              no_errors
        | None =>
            if silent_errors io then read_fields io p (S ii) tokens' md false
            else if errors_to_nodata io
            then read_fields io p (S ii) tokens'
                   (MeteoData.set (at_ (CsvParameters.csv_fields p) ii)
                      (to_SI p ii IOUtils_nodata) md) no_errors
            else Throw InvalidFormatException
        end
  end.

(** The locals of [readCSVFile] that the resolution of a line updates: the
    parameters (the date resolver writes to them), the line counter and the
    number of columns expected. *)
Record cursor := mk_cursor {
  params : CsvParameters.t;
  linenr : nat;
  nr_of_data_fields : nat
}.

(** The state of the reading loop: the cursor, the index of the file and
    the records read so far. *)
Record loop_state := mk_loop {
  cur : cursor;
  indexer : FileIndexer.t;
  vecMeteo : list MeteoData.t
}.

(** How one iteration ends: with the next line, with the next line after
    [n] lines were skipped, with a [break], or with an exception. *)
Inductive action :=
| Continue
| SkipLines (n : nat)
| Break
| Raise (e : exception).

(** What the first half of an iteration makes of a line: no row (and how
    the iteration ends), or the tokens of a row and its timestamp. *)
Inductive resolved :=
| NoRow (a : action)
| Row (tmp_vec : list string) (dt : Date).

(** Comments are stripped, quotes are purged if requested, and the line is
    trimmed. *)
Definition clean_line `{Externals} (p : CsvParameters.t) (line : string) : string :=
  let line := if negb (Ascii.eqb (CsvParameters.comments_mk p) CsvParameters.newline)
              then stripComments line (CsvParameters.comments_mk p) else line in
  let line := if CsvParameters.purgeQuotes p then removeQuotes line else line in
  trim line.

Definition is_header_repeat (p : CsvParameters.t) (line : string) : bool :=
  negb (CsvParameters.is_empty (CsvParameters.header_repeat_mk p))
  && CsvDateTime.is_set (StdString.find (CsvParameters.header_repeat_mk p) line).

(** The filter on the station ID column. *)
Definition filter_on_ID (p : CsvParameters.t) (filterID : string)
    (tmp_vec : list string) : option action :=
  match CsvParameters.ID_col p with
  | Some col =>
      if List.length tmp_vec <=? col then Some (Raise InvalidFormatException)
      else if negb (String.eqb (at_ tmp_vec col) filterID) then Some Continue
      else None
  | None => None
  end.

(** From [getline] to [getDate]: the line is cleaned and split, filtered on
    the station ID, its number of fields is checked and its timestamp is
    resolved. *)
Definition resolve_line `{Externals} (io : t) (filterID : string) (c : cursor)
    (line : string) : resolved * cursor :=
  let p := params c in
  let linenr := S (linenr c) in
  let c := mk_cursor p linenr (nr_of_data_fields c) in
  let line := clean_line p line in
  if CsvParameters.is_empty line then (NoRow Continue, c)
  else if is_header_repeat p line
  then (NoRow (SkipLines (CsvParameters.header_lines p)),
        mk_cursor p (linenr + CsvParameters.header_lines p) (nr_of_data_fields c))
  else
    let tmp_vec := CsvParameters.tokenize (CsvParameters.csv_delim p) line in
    let nr_curr_data_fields := List.length tmp_vec in
    let nr_fields := if Nat.eqb (nr_of_data_fields c) 0
                     then nr_curr_data_fields else nr_of_data_fields c in
    let c := mk_cursor p linenr nr_fields in
    match filter_on_ID p filterID tmp_vec with
    | Some a => (NoRow a, c)
    | None =>
        (* check that we have the expected number of fields *)
        if negb (Nat.eqb nr_curr_data_fields nr_fields) then
          if silent_errors io then (NoRow Continue, c)
          else (NoRow (Raise InvalidFormatException), c)
        else
          let (r, p) := getDate p tmp_vec (silent_errors io) in
          let c := mk_cursor p linenr nr_fields in
          match r with
          | Throw e => (NoRow (Raise e), c)
          | Ok dt =>
              if isUndef dt && silent_errors io then (NoRow Continue, c)
              else (Row tmp_vec dt, c)
          end
    end.

(** Every [streampos_every_n_lines] lines the position of the stream is
    saved under the timestamp of the row.  [fpointer] is what [fin.tellg()]
    answers after the line was read: the position of the next line, or
    [None] (-1) when the end of the file was reached. *)
Definition record_index (linenr : nat) (fpointer : option nat) (dt : Date)
    (idx : FileIndexer.t) : FileIndexer.t :=
  if Nat.eqb (linenr mod streampos_every_n_lines) 0 then
    match fpointer with
    | Some pos => FileIndexer.setIndex dt pos idx
    | None => idx
    end
  else idx.

(** [dt<dateStart] and [dt>dateEnd] decide whether the row is before the
    range, within it or past it. *)
Definition range_check `{Externals} (asc_order : bool) (dt dateStart dateEnd : Date)
    : option action :=
  if asc_order then
    if Date_lt dt dateStart then Some Continue
    else if Date_gt dt dateEnd then Some Break
    else None
  else
    if Date_lt dt dateStart then Some Break
    else if Date_gt dt dateEnd then Some Continue
    else None.

(** One iteration of the [while (!fin.eof())] loop. *)
Definition read_line `{Externals} (io : t) (template_md : MeteoData.t)
    (filterID : string) (dateStart dateEnd : Date) (s : loop_state)
    (fpointer : option nat) (line : string) : action * loop_state :=
  let (r, c) := resolve_line io filterID (cur s) line in
  match r with
  | NoRow a => (a, mk_loop c (indexer s) (vecMeteo s))
  | Row tmp_vec dt =>
      let idx := record_index (linenr c) fpointer dt (indexer s) in
      match range_check (CsvParameters.asc_order (params c)) dt dateStart dateEnd with
      | Some a => (a, mk_loop c idx (vecMeteo s))
      | None =>
          let md := MeteoData.setDate dt template_md in
          match read_fields io (params c) 0 tmp_vec md true with
          | Throw e => (Raise e, mk_loop c idx (vecMeteo s))
          | Ok (md, no_errors) =>
              (Continue,
               mk_loop c idx (if no_errors then vecMeteo s ++ [md] else vecMeteo s))
          end
      end
  end.

(** The loop over the lines that remain in the stream.  [skip] lines are
    consumed by [FileUtils::skipLines]; [pos] is the position of the first
    line that remains.  The result is the state when the loop ends, and the
    exception if it ended with one. *)
Fixpoint read_lines `{Externals} (io : t) (template_md : MeteoData.t)
    (filterID : string) (dateStart dateEnd : Date) (s : loop_state)
    (skip pos : nat) (rest : list string) : option exception * loop_state :=
  match rest with
  | [] => (None, s)
  | line :: rest' =>
      match skip with
      | S k => read_lines io template_md filterID dateStart dateEnd s k (S pos) rest'
      | 0 =>
          let fpointer := match rest' with [] => None | _ => Some (S pos) end in
          match read_line io template_md filterID dateStart dateEnd s fpointer line with
          | (Continue, s') =>
              read_lines io template_md filterID dateStart dateEnd s' 0 (S pos) rest'
          | (SkipLines n, s') =>
              read_lines io template_md filterID dateStart dateEnd s' n (S pos) rest'
          | (Break, s') => (None, s')
          | (Raise e, s') => (Some e, s')
          end
      end
  end.

Definition filter_ID_of (p : CsvParameters.t) (template_md : MeteoData.t) : string :=
  if CsvParameters.is_empty (CsvParameters.filter_ID p)
  then MeteoData.stationID template_md
  else CsvParameters.filter_ID p.

(** The headers are skipped: they have been read already. *)
Definition skip_count (p : CsvParameters.t) : nat :=
  if CsvParameters.header_repeat_at_start p
  then CsvParameters.header_lines p + 1
  else CsvParameters.header_lines p.

(** Where the reading starts, and the line counter there: at the position
    that the index knows for [dateStart] if the file is in ascending order,
    after the headers otherwise. *)
Definition start_of `{Externals} (p : CsvParameters.t) (idx : FileIndexer.t)
    (dateStart : Date) : nat * nat :=
  match FileIndexer.getIndex dateStart idx with
  | Some fpointer =>
      if CsvParameters.asc_order p then (fpointer, 0) else (skip_count p, skip_count p)
  | None => (skip_count p, skip_count p)
  end.

(** The declared units offsets or multipliers do not match the number of
    columns. *)
Definition units_mismatch (p : CsvParameters.t) : bool :=
  let nr_of_data_fields := List.length (CsvParameters.csv_fields p) in
  let nr_offset := List.length (CsvParameters.units_offset p) in
  let nr_multiplier := List.length (CsvParameters.units_multiplier p) in
  (negb (Nat.eqb nr_offset 0) && negb (Nat.eqb nr_offset nr_of_data_fields))
  || (negb (Nat.eqb nr_multiplier 0) && negb (Nat.eqb nr_multiplier nr_of_data_fields)).

(** [std::vector<MeteoData> CsvIO::readCSVFile(CsvParameters& params,
    const Date& dateStart, const Date& dateEnd)] on the file [file]: the
    records or the exception, the parameters and the plugin object after the
    call. *)
Definition readCSVFile `{Externals} (io : t) (p : CsvParameters.t) (file : list string)
    (dateStart dateEnd : Date) : result (list MeteoData.t) * CsvParameters.t * t :=
  let filename := CsvParameters.file_and_path p in
  let nr_of_data_fields := List.length (CsvParameters.csv_fields p) in
  if units_mismatch p then (Throw InvalidFormatException, p, io)
  else
    let template_md := createTemplate p in
    let idx := indexer_of filename (indexer_map io) in
    let (start, linenr) := start_of p idx dateStart in
    let (e, s) := read_lines io template_md (filter_ID_of p template_md)
                    dateStart dateEnd
                    (mk_loop (mk_cursor p linenr nr_of_data_fields) idx []) 0 start
                    (skipn start file) in
    let io := mk (silent_errors io) (errors_to_nodata io)
                 (set_indexer filename (indexer s) (indexer_map io)) in
    match e with
    | Some e => (Throw e, params (cur s), io)
    | None =>
        (Ok (if CsvParameters.asc_order p then vecMeteo s else rev (vecMeteo s)),
         params (cur s), io)
    end.

(** The rows of the stream without the bounds of a requested range: every
    line that [resolve_line] turns into a row, with its timestamp and the
    record that [read_fields] builds from it.  [None] when a line raises an
    exception or a row is dropped because of an error in one of its
    fields. *)
Fixpoint all_rows `{Externals} (io : t) (template_md : MeteoData.t)
    (filterID : string) (c : cursor) (skip : nat) (rest : list string)
    : option (list (Date * MeteoData.t)) :=
  match rest with
  | [] => Some []
  | line :: rest' =>
      match skip with
      | S k => all_rows io template_md filterID c k rest'
      | 0 =>
          match resolve_line io filterID c line with
          | (NoRow Continue, c') => all_rows io template_md filterID c' 0 rest'
          | (NoRow (SkipLines n), c') => all_rows io template_md filterID c' n rest'
          | (NoRow _, _) => None
          | (Row tmp_vec dt, c') =>
              match read_fields io (params c') 0 tmp_vec
                      (MeteoData.setDate dt template_md) true with
              | Ok (md, true) =>
                  option_map (cons (dt, md))
                    (all_rows io template_md filterID c' 0 rest')
              | _ => None
              end
          end
      end
  end.

(** The bounds of a requested range include both ends. *)
Definition in_range `{Externals} (dateStart dateEnd dt : Date) : bool :=
  negb (Date_lt dt dateStart) && negb (Date_gt dt dateEnd).

(** [void CsvIO::readMeteoData(const Date& dateStart, const Date& dateEnd,
    std::vector< std::vector<MeteoData> >& vecMeteo)]: the loop over the
    stations [csvparam], each with the file that [files] holds under its
    name.  The result is the exception that ended the call, if any, the
    vector [vecMeteo], which has an entry for every station and keeps what
    was read when the exception was raised, the parameters of the stations
    and the plugin object after the call. *)
Fixpoint readMeteoData `{Externals} (io : t) (files : string -> list string)
    (csvparam : list CsvParameters.t) (dateStart dateEnd : Date)
    : option exception * list (list MeteoData.t) * list CsvParameters.t * t :=
  match csvparam with
  | [] => (None, [], [], io)
  | p :: rest =>
      match readCSVFile io p (files (CsvParameters.file_and_path p)) dateStart dateEnd with
      | (Throw e, p', io') => (Some e, [] :: map (fun _ => []) rest, p' :: rest, io')
      | (Ok v, p', io') =>
          let '(e, vecMeteo, rest', io'') :=
            readMeteoData io' files rest dateStart dateEnd in
          (e, v :: vecMeteo, p' :: rest', io'')
      end
  end.

End CsvIO.

(** ** A reference implementation of the external functions

    The examples below run the model on concrete files.  They use this
    plain implementation of the functions that CsvIO.cc takes from the C
    library, from [IOUtils] and from [Date]. *)

Module Reference.

Definition sscanf (input format : string) : list Scanf.item :=
  match Scanf.run input format with
  | Some items => items
  | None => []
  end.

Definition blank (s : string) : bool := CsvParameters.is_empty (Scanf.skip_ws s).

(** Decimal digits, read in binary: the value, the number of digits and
    the rest of the string. *)
Fixpoint read_digits (acc : N) (n : nat) (s : string) : N * nat * string :=
  match s with
  | EmptyString => (acc, n, s)
  | String c s' =>
      match Scanf.digit_val c with
      | Some d => read_digits (10 * acc + N.of_nat d) (S n) s'
      | None => (acc, n, s)
      end
  end.

(** A number in decimal notation, with an optional sign and an optional
    fraction, possibly between white space. *)
Definition convertString_double (s : string) : option Q :=
  let (neg, s1) := Scanf.take_sign (Scanf.skip_ws s) in
  let '(ip, ni, s2) := read_digits 0 0 s1 in
  let '(fp, nf, s3) :=
    match s2 with
    | String c r => if Ascii.eqb c "."%char then read_digits 0 0 r else (0%N, 0, s2)
    | EmptyString => (0%N, 0, s2)
    end in
  if Nat.eqb (ni + nf) 0 || negb (blank s3) then None
  else
    let m := Z.of_N (ip * 10 ^ N.of_nat nf + fp) in
    Some (Qmake (if neg then Z.opp m else m) (Z.to_pos (10 ^ Z.of_nat nf))).

Definition convertString_int (s : string) : option Z :=
  let (neg, s1) := Scanf.take_sign (Scanf.skip_ws s) in
  let '(v, n, rest) := read_digits 0 0 s1 in
  if Nat.eqb n 0 || negb (blank rest) then None
  else Some (if neg then Z.opp (Z.of_N v) else Z.of_N v).

Fixpoint stripComments (s : string) (c : ascii) : string :=
  match s with
  | EmptyString => EmptyString
  | String a s' => if Ascii.eqb a c then EmptyString else String a (stripComments s' c)
  end.

Fixpoint removeQuotes (s : string) : string :=
  match s with
  | EmptyString => EmptyString
  | String a s' =>
      if Ascii.eqb a "'"%char || Ascii.eqb a (ascii_of_nat 34) then removeQuotes s'
      else String a (removeQuotes s')
  end.

Fixpoint rev_append (s acc : string) : string :=
  match s with
  | EmptyString => acc
  | String a s' => rev_append s' (String a acc)
  end.

Definition trim (s : string) : string :=
  rev_append (Scanf.skip_ws (rev_append (Scanf.skip_ws s) EmptyString)) EmptyString.

Fixpoint split (d : ascii) (s : string) : list string :=
  match s with
  | EmptyString => [EmptyString]
  | String a s' =>
      if Ascii.eqb a d then EmptyString :: split d s'
      else match split d s' with
           | w :: ws => String a w :: ws
           | [] => [String a EmptyString]
           end
  end.

Fixpoint words (cur : string) (s : string) : list string :=
  match s with
  | EmptyString => if CsvParameters.is_empty cur then [] else [rev_append cur EmptyString]
  | String a s' =>
      if Scanf.is_space a
      then if CsvParameters.is_empty cur then words EmptyString s'
           else rev_append cur EmptyString :: words EmptyString s'
      else words (String a cur) s'
  end.

Definition readLineToVec (line : string) (delim : option ascii) : list string :=
  match delim with
  | Some d => if CsvParameters.is_empty line then [] else map trim (split d line)
  | None => words EmptyString line
  end.

(** The julian day number of a day of the Gregorian calendar. *)
Definition civil_jdn (year month day : Z) : Z :=
  let a := ((14 - month) / 12)%Z in
  let y := (year + 4800 - a)%Z in
  let m := (month + 12 * a - 3)%Z in
  (day + (153 * m + 2) / 5 + 365 * y + y / 4 - y / 100 + y / 400 - 32045)%Z.

Definition gmt_julian (d : Date) : Q :=
  match d with
  | Undef => 0
  | DateYMD y mo dd h mi s tz =>
      inject_Z (civil_jdn y mo dd) - (1 # 2)
      + (inject_Z h * 3600 + inject_Z mi * 60 + s) / 86400 - tz / 24
  | DateYJ y jdn tz => inject_Z (civil_jdn y 1 1) - (1 # 2) + (jdn - 1) - tz / 24
  | DateDecimal JULIAN v tz => v - tz / 24
  | DateDecimal MJULIAN v tz => v + (24000005 # 10) - tz / 24
  | DateDecimal EXCEL v tz => v + (24150185 # 10) - tz / 24
  | DateDecimal MATLAB v tz => v + (17210585 # 10) - tz / 24
  | DateDecimal RFC868 v tz => v + (24150205 # 10) - tz / 24
  | DateDecimal UNIX v tz => v / 86400 + (24405875 # 10)
  | DateUnix v => inject_Z v / 86400 + (24405875 # 10)
  end%Q.

Definition externals : Externals :=
  Build_Externals sscanf (-999)%Q (-999)%Z convertString_double
    convertString_int convertString_int stripComments removeQuotes trim
    readLineToVec
    (fun s => match convertString_double s with Some q => q | None => 0%Q end)
    gmt_julian.

(** *** The functions that the configuration calls *)

(** Upper case of the letters a to z. *)
Definition upper (c : ascii) : ascii :=
  let n := nat_of_ascii c in
  if (97 <=? n) && (n <=? 122) then ascii_of_nat (n - 32) else c.

Fixpoint toUpper (s : string) : string :=
  match s with
  | EmptyString => EmptyString
  | String c s' => String (upper c) (toUpper s')
  end.

(** The characters outside of the printable ASCII range are dropped. *)
Fixpoint replaceInvalidChars (s : string) : string :=
  match s with
  | EmptyString => EmptyString
  | String c s' =>
      let n := nat_of_ascii c in
      if (32 <=? n) && (n <=? 126) then String c (replaceInvalidChars s')
      else replaceInvalidChars s'
  end.

(** A run of white space becomes its first character. *)
Fixpoint removeDuplicateWhitespaces (s : string) : string :=
  match s with
  | EmptyString => EmptyString
  | String c s' =>
      if Scanf.is_space c
      then String c (Scanf.skip_ws (removeDuplicateWhitespaces s'))
      else String c (removeDuplicateWhitespaces s')
  end.

Fixpoint replaceWhitespaces (s : string) (rep : ascii) : string :=
  match s with
  | EmptyString => EmptyString
  | String c s' =>
      String (if Scanf.is_space c then rep else c) (replaceWhitespaces s' rep)
  end.

(** The parameters that every record has. *)
Definition static_parameters : list string :=
  ["P"; "TA"; "RH"; "TSG"; "TSS"; "HS"; "VW"; "DW"; "VW_MAX"; "RSWR"; "ISWR"; "ILWR";
   "TAU_CLD"; "PSUM"; "PSUM_PH"].

Fixpoint index_of (name : string) (l : list string) : option nat :=
  match l with
  | [] => None
  | n :: l' => if String.eqb n name then Some 0 else option_map S (index_of name l')
  end.

Definition getStaticParameterIndex (name : string) : option nat :=
  index_of name static_parameters.

(** The decimal number that the string starts with, zero if there is none. *)
Definition atoi (s : string) : Z :=
  let (neg, s1) := Scanf.take_sign (Scanf.skip_ws s) in
  let '(v, _, _) := read_digits 0 0 s1 in
  if neg then Z.opp (Z.of_N v) else Z.of_N v.

(** What follows the last slash. *)
Fixpoint getFilename (path : string) : string :=
  match path with
  | EmptyString => EmptyString
  | String c s' =>
      if CsvDateTime.is_set (StdString.find "/" s') then getFilename s'
      else if Ascii.eqb c "/" then s' else path
  end.

(** What comes before the last dot. *)
Fixpoint removeExtension (filename : string) : string :=
  match filename with
  | EmptyString => EmptyString
  | String c s' =>
      if CsvDateTime.is_set (StdString.find "." s') then String c (removeExtension s')
      else if Ascii.eqb c "." then EmptyString else filename
  end.

Definition library : Library :=
  Build_Library toUpper toUpper replaceInvalidChars removeDuplicateWhitespaces
    replaceWhitespaces getStaticParameterIndex atoi (27315 # 100)%Q getFilename
    removeExtension.

End Reference.

(** ** Date/time patterns and the strings they describe *)

Module Pattern.

(** The markers of a date/time specification. *)
Inductive key := YYYY | MM | DD | HH24 | MI | SS.

Definition key_eqb (a b : key) : bool :=
  match a, b with
  | YYYY, YYYY | MM, MM | DD, DD | HH24, HH24 | MI, MI | SS, SS => true
  | _, _ => false
  end.

Definition text (k : key) : string :=
  match k with
  | YYYY => "YYYY"
  | MM => "MM"
  | DD => "DD"
  | HH24 => "HH24"
  | MI => "MI"
  | SS => "SS"
  end.

(** The position of the field in an ISO timestamp: year=0, ..., ss=5. *)
Definition index (k : key) : nat :=
  match k with
  | YYYY => 0
  | MM => 1
  | DD => 2
  | HH24 => 3
  | MI => 4
  | SS => 5
  end.

(** The number of digits of the field in a timestamp. *)
Definition width (k : key) : nat :=
  match k with
  | YYYY => 4
  | _ => 2
  end.

(** A pattern is a sequence of markers and literal characters. *)
Inductive piece :=
| Lit (c : ascii)
| Tok (k : key).

Definition t := list piece.

Fixpoint keys (pat : t) : list key :=
  match pat with
  | [] => []
  | Lit _ :: pat' => keys pat'
  | Tok k :: pat' => k :: keys pat'
  end.

Definition has (pat : t) (k : key) : bool := existsb (key_eqb k) (keys pat).

(** The specification string that the user writes for the pattern. *)
Fixpoint spec (pat : t) : string :=
  match pat with
  | [] => EmptyString
  | Lit c :: pat' => String c (spec pat')
  | Tok k :: pat' => text k ++ spec pat'
  end.

Definition digit_char (d : nat) : ascii := ascii_of_nat (48 + d).

(** [n] written with [w] decimal digits, with leading zeros. *)
Fixpoint digits (w n : nat) : string :=
  match w with
  | 0 => EmptyString
  | S w' => String (digit_char ((n / 10 ^ w') mod 10)) (digits w' n)
  end.

(** The date/time string that has the literal structure of the pattern and
    the value [v k] in the place of each marker [k]. *)
Fixpoint timestamp (pat : t) (v : key -> nat) : string :=
  match pat with
  | [] => EmptyString
  | Lit c :: pat' => String c (timestamp pat' v)
  | Tok k :: pat' => digits (width k) (v k) ++ timestamp pat' v
  end.

(** A literal character that is not part of a marker, of the time zone
    marker or of a placeholder, and does not end a C string. *)
Definition plain (c : ascii) : bool :=
  negb (existsb (fun x => Ascii.eqb x c)
          ["Y"; "M"; "D"; "H"; "I"; "S"; "Z"; "%"; Scanf.nul]%char).

Fixpoint literals_plain (pat : t) : bool :=
  match pat with
  | [] => true
  | Lit c :: pat' => plain c && literals_plain pat'
  | Tok _ :: pat' => literals_plain pat'
  end.

(** A character that cannot continue a decimal number. *)
Definition ends_number (c : ascii) : bool :=
  negb (Scanf.is_digit c)
  && negb (existsb (fun x => Ascii.eqb x c) ["."; "e"; "E"]%char).

(** The seconds, which are read without a maximum width, are the last
    piece of the pattern or are followed by a literal character that ends
    the number. *)
Fixpoint seconds_delimited (pat : t) : bool :=
  match pat with
  | [] => true
  | Tok SS :: pat' =>
      match pat' with
      | [] => true
      | Lit c :: _ => ends_number c && seconds_delimited pat'
      | Tok _ :: _ => false
      end
  | _ :: pat' => seconds_delimited pat'
  end.

(** The value of a field of the timestamp: the value given for its marker,
    and zero when the pattern has no such marker. *)
Definition field (pat : t) (v : key -> nat) (k : key) : Z :=
  if has pat k then Z.of_nat (v k) else 0%Z.

(** The placeholder that replaces a marker in the scan template. *)
Definition placeholder (k : key) : string :=
  match k with
  | YYYY => "%4f"
  | SS => "%f"
  | _ => "%2f"
  end.

(** The specification string when the markers of [done] have been replaced
    by their placeholders. *)
Fixpoint render (done : key -> bool) (pat : t) : string :=
  match pat with
  | [] => EmptyString
  | Lit c :: pat' => String c (render done pat')
  | Tok k :: pat' => (if done k then placeholder k else text k) ++ render done pat'
  end.

(** The scan template of the pattern. *)
Definition template (pat : t) : string := render (fun _ => true) pat.

(** The position of the first marker [k] in the specification string. *)
Fixpoint position (k : key) (pat : t) : option nat :=
  match pat with
  | [] => None
  | Lit _ :: pat' => option_map S (position k pat')
  | Tok k' :: pat' =>
      if key_eqb k k' then Some 0
      else option_map (Nat.add (String.length (text k'))) (position k pat')
  end.

Definition position_or_0 (k : key) (pat : t) : nat :=
  match position k pat with
  | Some n => n
  | None => 0
  end.

(** The markers in the order of the pattern, as the pairs of position and
    ISO index that [setDateTimeSpec] sorts. *)
Definition located (pat : t) : list (nat * nat) :=
  map (fun k => (position_or_0 k pat, index k)) (keys pat).

(** The directives of the scan template. *)
Definition directive_of (x : piece) : Scanf.directive :=
  match x with
  | Lit c => if Scanf.is_space c then Scanf.DWhite else Scanf.DLit c
  | Tok YYYY => Scanf.DFloat (Some 4)
  | Tok SS => Scanf.DFloat None
  | Tok _ => Scanf.DFloat (Some 2)
  end.

Definition all_keys : list key := [YYYY; MM; DD; HH24; MI; SS].

(** The order of the pairs that [sort_dateKeys] compares. *)
Definition by_position (a b : nat * nat) : Prop := fst a <= fst b.
Definition strictly_by_position (a b : nat * nat) : Prop := fst a < fst b.

(** The number ends where the rest of the input starts. *)
Definition number_ends (rest : string) : Prop :=
  match rest with
  | EmptyString => True
  | String c _ => ends_number c = true
  end.

(** The values that scanning the timestamp converts, in the order of the
    pattern. *)
Definition scanned (pat : t) (v : key -> nat) : list Scanf.item :=
  map (fun k => Scanf.IFloat (inject_Z (Z.of_nat (v k)))) (keys pat).

(** The array [args] after the values of the markers [ks] were stored. *)
Definition store_all (v : key -> nat) (ks : list key) (args : list Q) : list Q :=
  fold_left
    (fun a k => CsvParameters.store a (index k + 0) (inject_Z (Z.of_nat (v k))))
    ks args.

End Pattern.

(** The C library function that the plugin links against agrees with the
    reference semantics of [Scanf] wherever the latter is defined. *)
Definition sscanf_conforms `{Externals} : Prop :=
  forall input format items,
    Scanf.run input format = Some items -> sscanf input format = items.

(** ** The years that the fallback year gives to a sequence of rows *)

(** The rows have no year column, so [parseDateComponent] reads the year 0
    for each of them. *)
Fixpoint years_by_jdn `{Externals} (d : CsvDateTime.t) (jdns : list Q) : list Z :=
  match jdns with
  | [] => []
  | j :: jdns' =>
      let (y, d') := CsvParameters.fallback_year_jdn d 0 j in
      y :: years_by_jdn d' jdns'
  end.

Fixpoint years_by_month `{Externals} (d : CsvDateTime.t) (months : list Z) : list Z :=
  match months with
  | [] => []
  | m :: months' =>
      let (y, d') := CsvParameters.fallback_year_month d 0 m in
      y :: years_by_month d' months'
  end.

(** ** Files in the order that was determined for them *)

Definition earlier_or_same `{Externals} (a b : Date) : Prop :=
  (gmt_julian a <= gmt_julian b)%Q.

Definition later_or_same `{Externals} (a b : Date) : Prop :=
  (gmt_julian b <= gmt_julian a)%Q.

(** The timestamps follow the order that was determined for the file. *)
Definition in_file_order `{Externals} (asc_order : bool) (dates : list Date) : Prop :=
  if asc_order then StronglySorted earlier_or_same dates
  else StronglySorted later_or_same dates.

(** The records of the rows whose timestamp is within the bounds. *)
Definition kept `{Externals} (dateStart dateEnd : Date)
    (rows : list (Date * MeteoData.t)) : list MeteoData.t :=
  map snd (filter (fun r => CsvIO.in_range dateStart dateEnd (fst r)) rows).

(** ** Tokens of measurement columns *)

(** The token is not a nodata token and cannot be converted to a number. *)
Definition unparsable `{Externals} (p : CsvParameters.t) (tok : string) : bool :=
  negb (CsvIO.is_nodata_token (CsvParameters.nodata p) tok)
  && negb (String.eqb tok "NAN" || String.eqb tok "NULL")
  && match convertString_double tok with
     | Some _ => false
     | None => true
     end.

(** No column other than column [ii] that is not skipped is stored under
    the field name [name]. *)
Fixpoint name_unshared (p : CsvParameters.t) (name : string) (ii : nat) (jj n : nat) : bool :=
  match n with
  | 0 => true
  | S n' =>
      (Nat.eqb jj ii || CsvIO.skipped p jj
       || negb (String.eqb (at_ (CsvParameters.csv_fields p) jj) name))
      && name_unshared p name ii (S jj) n'
  end.

(** ** Notions of the properties of the configuration *)

(** The column, if it is set, is not beyond column [m]; it is one of the
    first [n] columns. *)
Definition within (m : nat) (col : option nat) : Prop :=
  match col with
  | Some c => c <= m
  | None => True
  end.

Definition below (n : nat) (col : option nat) : Prop :=
  match col with
  | Some c => c < n
  | None => True
  end.

(** Every column of the date and time and the column of the station ID is
    one of the first [n] columns. *)
Definition columns_below (n : nat) (p : CsvParameters.t) : Prop :=
  Forall (below n) (CsvDateTime.columns (CsvParameters.date_cols p))
  /\ below n (CsvParameters.ID_col p).

(** The field names with a role: the columns of the date and time, the
    columns to skip and the column of the station ID. *)
Definition role_names : list string :=
  ["TIMESTAMP"; "TS"; "DATETIME"; "DATE"; "GIORNO"; "FECHA"; "TIME"; "ORA"; "HORA";
   "SKIP"; "YEAR"; "JDAY"; "JDN"; "YDAY"; "DAY_OF_YEAR"; "DOY"; "MONTH"; "DAY";
   "NTIME"; "HOUR"; "HOURS"; "MINUTE"; "MINUTES"; "SECOND"; "SECONDS"; "ID";
   "STATIONID"].

(** The field name stands for a measurement. *)
Definition measured `{Externals} `{Library} (name : string) : Prop :=
  is_one_of (CsvParameters.clean_name name) role_names = false.

(** The field names of the columns that give the time of day, alone or
    with the date. *)
Definition time_names : list string :=
  ["TIMESTAMP"; "TS"; "DATETIME"; "TIME"; "ORA"; "HORA"; "NTIME"; "HOUR"; "HOURS"].

(** No column gives the time of day. *)
Definition no_time (d : CsvDateTime.t) : Prop :=
  CsvDateTime.time_str d = None /\ CsvDateTime.decimal_date d = None
  /\ CsvDateTime.time d = None /\ CsvDateTime.hours d = None.

(** The members that the default formats leave as they are. *)
Definition layout (p : CsvParameters.t) :=
  (CsvParameters.date_cols p, CsvParameters.skip_fields p, CsvParameters.ID_col p,
   CsvParameters.dt_as_components p, CsvParameters.dt_as_year_and_jdn p,
   CsvParameters.dt_as_decimal p, CsvParameters.csv_tz p).

(** The patterns of the default formats: YYYY-MM-DDTHH24:MI:SS, YYYY-MM-DD
    and HH24:MI:SS. *)
Definition iso_8601 : Pattern.t :=
  [Pattern.Tok Pattern.YYYY; Pattern.Lit "-"; Pattern.Tok Pattern.MM; Pattern.Lit "-";
   Pattern.Tok Pattern.DD; Pattern.Lit "T"; Pattern.Tok Pattern.HH24; Pattern.Lit ":";
   Pattern.Tok Pattern.MI; Pattern.Lit ":"; Pattern.Tok Pattern.SS]%char.

Definition iso_date : Pattern.t :=
  [Pattern.Tok Pattern.YYYY; Pattern.Lit "-"; Pattern.Tok Pattern.MM; Pattern.Lit "-";
   Pattern.Tok Pattern.DD]%char.

Definition iso_time : Pattern.t :=
  [Pattern.Tok Pattern.HH24; Pattern.Lit ":"; Pattern.Tok Pattern.MI; Pattern.Lit ":";
   Pattern.Tok Pattern.SS]%char.

(** The entry of the special headers that a specification of the form
    type:line:column stands for; [None] when it is refused. *)
Definition header_entry `{Externals} `{Library} (spec : string)
    : option (nat * (nat * string)) :=
  match readLineToVec spec (Some ":"%char) with
  | [type; line; col] =>
      if (0 <? atoi line)%Z && (0 <? atoi col)%Z
      then Some (Z.to_nat (atoi line), (Z.to_nat (atoi col), type))
      else None
  | _ => None
  end.

(** The entries of line [linenr] among those of the specifications, in the
    order of the specifications. *)
Definition entries_of_line `{Externals} `{Library} (linenr : nat) (specs : list string)
    : list (nat * string) :=
  flat_map (fun spec => match header_entry spec with
                        | Some (l, e) => if Nat.eqb l linenr then [e] else []
                        | None => []
                        end) specs.

Definition by_line (a b : nat * (nat * string)) : Prop := fst a <= fst b.

(** The first [k] characters of [s] are no percent signs. *)
Fixpoint no_percent (k : nat) (s : string) : Prop :=
  match k, s with
  | S k', String a s' => a <> "%"%char /\ no_percent k' s'
  | _, _ => True
  end.

(** The occurrences of [pat] in [s], whether they overlap or not. *)
Fixpoint occurrences (pat s : string) : nat :=
  match s with
  | EmptyString => 0
  | String _ s' => (if StdString.starts_with pat s then 1 else 0) + occurrences pat s'
  end.

(** What follows a percent sign is one of the conversions that the plugin
    writes: [f], [2f], [4f] or [32s]. *)
Definition conversion (post : string) : bool :=
  StdString.starts_with "f" post || StdString.starts_with "2f" post
  || StdString.starts_with "4f" post || StdString.starts_with "32s" post.

Definition placeholders (s : string) : nat :=
  occurrences "%f" s + occurrences "%2f" s + occurrences "%4f" s + occurrences "%32s" s.

(** [col] is the last of the columns whose name, once cleaned, is one of
    [roles]; it is [None] when there is no such column. *)
Definition last_named `{Externals} `{Library} (roles names : list string)
    (col : option nat) : Prop :=
  match col with
  | Some i =>
      i < List.length names
      /\ is_one_of (CsvParameters.clean_name (at_ names i)) roles = true
      /\ forall j, i < j < List.length names ->
                   is_one_of (CsvParameters.clean_name (at_ names j)) roles = false
  | None =>
      forall j, j < List.length names ->
                is_one_of (CsvParameters.clean_name (at_ names j)) roles = false
  end.

(** The names of the columns that make the date and time a set of
    components. *)
Definition component_names : list string :=
  ["YEAR"; "MONTH"; "DAY"; "NTIME"; "HOUR"; "HOURS"; "MINUTE"; "MINUTES"; "SECOND";
   "SECONDS"].

Definition jdn_names : list string := ["JDAY"; "JDN"; "YDAY"; "DAY_OF_YEAR"; "DOY"].

(** The names of the columns that hold the date or the time as a string. *)
Definition string_names : list string :=
  ["TIMESTAMP"; "TS"; "DATETIME"; "DATE"; "GIORNO"; "FECHA"; "TIME"; "ORA"; "HORA"].

(** A text without braces. *)
Definition braceless (s : string) : Prop :=
  StdString.find "{" s = None /\ StdString.find "}" s = None.

(** The variables of a file name but the last: the type of each, its value
    and the constant pattern that follows it.  [spec_tail] is the
    specification from the first of them on, and [name_tail] the file name;
    the value of the last variable is the rest of the file name, and the
    specification may go on after it. *)
Fixpoint spec_tail (vars : list (string * string * string)) (last_type trailing : string)
    : string :=
  match vars with
  | [] => "{" ++ last_type ++ "}" ++ trailing
  | (type, _, pattern) :: vars' =>
      "{" ++ type ++ "}" ++ pattern ++ spec_tail vars' last_type trailing
  end.

Fixpoint name_tail (vars : list (string * string * string)) (last_value : string) : string :=
  match vars with
  | [] => last_value
  | (_, value, pattern) :: vars' => value ++ pattern ++ name_tail vars' last_value
  end.

(** The constant pattern that follows a value does not occur before the
    end of the value. *)
Fixpoint separated (vars : list (string * string * string)) (last_value : string) : Prop :=
  match vars with
  | [] => True
  | (_, value, pattern) :: vars' =>
      StdString.find pattern (value ++ pattern ++ name_tail vars' last_value)
      = Some (String.length value)
      /\ separated vars' last_value
  end.

(** The variables are assigned one after the other. *)
Fixpoint assign_all `{Externals} `{Library} (a : CsvParameters.appending)
    (f : CsvParameters.full) (pos : CsvParameters.position)
    (variables : list (string * string))
    : result (CsvParameters.full * CsvParameters.position) :=
  match variables with
  | [] => Ok (f, pos)
  | (type, value) :: rest =>
      match CsvParameters.assign_variable a f (strToUpper type) value pos with
      | Ok (a, f, pos) => assign_all a f pos rest
      | Throw e => Throw e
      end
  end.


(** Two states of the reading loop that differ at most in the line counter
    and in the index of the file. *)
Definition same_records (s1 s2 : CsvIO.loop_state) : Prop :=
  CsvIO.params (CsvIO.cur s1) = CsvIO.params (CsvIO.cur s2)
  /\ CsvIO.nr_of_data_fields (CsvIO.cur s1) = CsvIO.nr_of_data_fields (CsvIO.cur s2)
  /\ CsvIO.vecMeteo s1 = CsvIO.vecMeteo s2.

(** Two plugin objects with the same error policies. *)
Definition same_policies (io1 io2 : CsvIO.t) : Prop :=
  CsvIO.silent_errors io1 = CsvIO.silent_errors io2
  /\ CsvIO.errors_to_nodata io1 = CsvIO.errors_to_nodata io2.

(** ** Example parameters and files *)

Module Examples.

Definition externals : Externals := Reference.externals.

(** No column carries a date or time component yet. *)
Definition no_date_cols : CsvDateTime.t :=
  CsvDateTime.mk None None None None None None None None None None None 0
    (-999)%Z true JULIAN.

(** A [CsvParameters] object as the configuration reader builds it: comma
    delimiter, one header line, nodata marker NAN, time zone 0, no date/time
    specification yet. *)
Definition blank : CsvParameters.t :=
  CsvParameters.mk no_date_cols [] [] [] [] EmptyString EmptyString "NAN" "STA"
    "station.csv" 1 None ","%char CsvParameters.newline false true false
    [] [] EmptyString EmptyString 0%Q false false false false.

Definition with_fields (fields : list string) (skip : list nat) (p : CsvParameters.t)
    : CsvParameters.t :=
  CsvParameters.mk (CsvParameters.date_cols p) fields (CsvParameters.units_offset p)
    (CsvParameters.units_multiplier p) skip (CsvParameters.header_repeat_mk p)
    (CsvParameters.filter_ID p) (CsvParameters.nodata p) (CsvParameters.id p)
    (CsvParameters.file_and_path p) (CsvParameters.header_lines p)
    (CsvParameters.ID_col p) (CsvParameters.csv_delim p) (CsvParameters.comments_mk p)
    (CsvParameters.header_repeat_at_start p) (CsvParameters.asc_order p)
    (CsvParameters.purgeQuotes p) (CsvParameters.datetime_idx p)
    (CsvParameters.time_idx p) (CsvParameters.datetime_format p)
    (CsvParameters.time_format p) (CsvParameters.csv_tz p) (CsvParameters.has_tz p)
    (CsvParameters.dt_as_components p) (CsvParameters.dt_as_year_and_jdn p)
    (CsvParameters.dt_as_decimal p).


Definition with_ID_col (col : nat) (p : CsvParameters.t) : CsvParameters.t :=
  CsvParameters.mk (CsvParameters.date_cols p) (CsvParameters.csv_fields p)
    (CsvParameters.units_offset p) (CsvParameters.units_multiplier p)
    (CsvParameters.skip_fields p) (CsvParameters.header_repeat_mk p)
    (CsvParameters.filter_ID p) (CsvParameters.nodata p) (CsvParameters.id p)
    (CsvParameters.file_and_path p) (CsvParameters.header_lines p)
    (Some col) (CsvParameters.csv_delim p) (CsvParameters.comments_mk p)
    (CsvParameters.header_repeat_at_start p) (CsvParameters.asc_order p)
    (CsvParameters.purgeQuotes p) (CsvParameters.datetime_idx p)
    (CsvParameters.time_idx p) (CsvParameters.datetime_format p)
    (CsvParameters.time_format p) (CsvParameters.csv_tz p) (CsvParameters.has_tz p)
    (CsvParameters.dt_as_components p) (CsvParameters.dt_as_year_and_jdn p)
    (CsvParameters.dt_as_decimal p).

(** The layout "TIMESTAMP,..." with the timestamp as a modified julian date
    in decimal representation (CSV_DECIMALDATE_TYPE = MJULIAN). *)
Definition julian_cols : CsvDateTime.t :=
  CsvDateTime.mk (Some 0) None None None None None None None None None None 0
    (-999)%Z true MJULIAN.

Definition julian_layout (fields : list string) : CsvParameters.t :=
  CsvParameters.mk julian_cols fields [] [] [0] EmptyString EmptyString "NAN" "STA"
    "station.csv" 1 None ","%char CsvParameters.newline false true false
    [] [] EmptyString EmptyString 0%Q false false false true.

Definition julian (day : Z) : Date := DateDecimal MJULIAN (inject_Z day) 0.

(** The layout "JDAY,NTIME,TA" with the fallback year 2020 and auto-wrap
    (CSV_FALLBACK_YEAR = 2020). *)
Definition fallback_2020 : CsvDateTime.t :=
  CsvDateTime.mk None None None None (Some 0) None None (Some 1) None None None 1
    2020%Z true JULIAN.

Definition logger_layout : CsvParameters.t :=
  CsvParameters.mk fallback_2020 ["JDAY"; "NTIME"; "TA"] [] [] [0; 1] EmptyString
    EmptyString "NAN" "STA" "station.csv" 1 None ","%char CsvParameters.newline
    false true false [] [] EmptyString EmptyString 0%Q false true true false.

(** A logger file that starts in December and wraps into January. *)
Definition logger_file : list string :=
  ["JDAY,NTIME,TA"; "350,1200,1.5"; "10,1200,2.5"; EmptyString].

Definition plugin : CsvIO.t := CsvIO.mk false false [].
Definition silent_plugin : CsvIO.t := CsvIO.mk true false [].
Definition silent_nodata_plugin : CsvIO.t := CsvIO.mk true true [].

Definition year_1900 : Date := DateYMD 1900 1 1 0 0 0 0.
Definition year_2100 : Date := DateYMD 2100 1 1 0 0 0 0.

(** The ISO 8601 pattern YYYY-MM-DDTHH24:MI:SS and the values of
    2020-01-05T08:30:00. *)
Definition iso_pattern : Pattern.t :=
  [Pattern.Tok Pattern.YYYY; Pattern.Lit "-"; Pattern.Tok Pattern.MM; Pattern.Lit "-";
   Pattern.Tok Pattern.DD; Pattern.Lit "T"; Pattern.Tok Pattern.HH24; Pattern.Lit ":";
   Pattern.Tok Pattern.MI; Pattern.Lit ":"; Pattern.Tok Pattern.SS]%char.

Definition iso_values (k : Pattern.key) : nat :=
  match k with
  | Pattern.YYYY => 2020
  | Pattern.MM => 1
  | Pattern.DD => 5
  | Pattern.HH24 => 8
  | Pattern.MI => 30
  | Pattern.SS => 0
  end.

(** A file of 2000 daily rows in descending order, from the modified
    julian day 59000 down. *)
Fixpoint decimal (w : nat) (n : N) : string :=
  match w with
  | 0 => EmptyString
  | S w' => String (ascii_of_N (48 + (n / 10 ^ N.of_nat w') mod 10)) (decimal w' n)
  end.

Definition descending_row (k : nat) : string :=
  decimal 5 (59000 - N.of_nat k) ++ ",1.5".

Definition descending_file : list string :=
  "TIMESTAMP,TA" :: map descending_row (seq 0 2000) ++ [EmptyString].

Definition descending_layout : CsvParameters.t :=
  CsvParameters.set_asc_order false (julian_layout ["TIMESTAMP"; "TA"]).

(** A file of 2001 daily rows in ascending order, from the modified julian
    day 57000 up: the row of the day 58998 is the line 2000 of the file. *)
Definition ascending_row (k : nat) : string :=
  decimal 5 (57000 + N.of_nat k) ++ ",1.5".

Definition ascending_file : list string :=
  "TIMESTAMP,TA" :: map ascending_row (seq 0 2001) ++ [EmptyString].

(** Four daily rows in descending order. *)
Definition short_descending_file : list string :=
  ["TIMESTAMP,TA"; "59003,4.5"; "59002,3.5"; "59001,2.5"; "59000,1.5";
   EmptyString].

(** Three rows with the same timestamp. *)
Definition repeated_file : list string :=
  ["TIMESTAMP,TA"; "59000,1.5"; "59000,2.5"; "59000,3.5"; EmptyString].

(** Two columns stored under the same field name, as in
    CSV_FIELDS = TIMESTAMP ISWR ISWR. *)
Definition twice_ISWR : CsvParameters.t := julian_layout ["TIMESTAMP"; "ISWR"; "ISWR"].


Definition with_nodata (marker : string) (p : CsvParameters.t) : CsvParameters.t :=
  CsvParameters.mk (CsvParameters.date_cols p) (CsvParameters.csv_fields p)
    (CsvParameters.units_offset p) (CsvParameters.units_multiplier p)
    (CsvParameters.skip_fields p) (CsvParameters.header_repeat_mk p)
    (CsvParameters.filter_ID p) marker (CsvParameters.id p)
    (CsvParameters.file_and_path p) (CsvParameters.header_lines p)
    (CsvParameters.ID_col p) (CsvParameters.csv_delim p) (CsvParameters.comments_mk p)
    (CsvParameters.header_repeat_at_start p) (CsvParameters.asc_order p)
    (CsvParameters.purgeQuotes p) (CsvParameters.datetime_idx p)
    (CsvParameters.time_idx p) (CsvParameters.datetime_format p)
    (CsvParameters.time_format p) (CsvParameters.csv_tz p) (CsvParameters.has_tz p)
    (CsvParameters.dt_as_components p) (CsvParameters.dt_as_year_and_jdn p)
    (CsvParameters.dt_as_decimal p).

(** The records of a call of [readCSVFile], none if it raised an exception. *)
Definition records (r : result (list MeteoData.t) * CsvParameters.t * CsvIO.t)
    : list MeteoData.t :=
  match fst (fst r) with
  | Ok l => l
  | Throw _ => []
  end.

Definition year_of (md : MeteoData.t) : option Z :=
  match MeteoData.date md with
  | DateYMD y _ _ _ _ _ _ => Some y
  | DateYJ y _ _ => Some y
  | _ => None
  end.

(** The state of the reading loop of [readCSVFile] after the header line. *)
Definition after_header (p : CsvParameters.t) : CsvIO.loop_state :=
  CsvIO.mk_loop (CsvIO.mk_cursor p 1 (List.length (CsvParameters.csv_fields p))) [] [].

Definition library : Library := Reference.library.

(** The object with its other members: no name, no single parameter, the
    comma as delimiter of the headers. *)
Definition whole (p : CsvParameters.t) : CsvParameters.full :=
  CsvParameters.mk_full p EmptyString EmptyString None ","%char 0%Q 0%Q 0%Q.

(** A station of which neither the ID nor the name is configured. *)
Definition anonymous : CsvParameters.full :=
  whole (CsvParameters.set_id EmptyString blank).

Definition nowhere : CsvParameters.position := CsvParameters.mk_position 0 0 0 0.

(** The object of a station whose data are in the file [name]. *)
Definition with_file (name : string) (p : CsvParameters.t) : CsvParameters.t :=
  CsvParameters.mk (CsvParameters.date_cols p) (CsvParameters.csv_fields p)
    (CsvParameters.units_offset p) (CsvParameters.units_multiplier p)
    (CsvParameters.skip_fields p) (CsvParameters.header_repeat_mk p)
    (CsvParameters.filter_ID p) (CsvParameters.nodata p) (CsvParameters.id p)
    name (CsvParameters.header_lines p)
    (CsvParameters.ID_col p) (CsvParameters.csv_delim p) (CsvParameters.comments_mk p)
    (CsvParameters.header_repeat_at_start p) (CsvParameters.asc_order p)
    (CsvParameters.purgeQuotes p) (CsvParameters.datetime_idx p)
    (CsvParameters.time_idx p) (CsvParameters.datetime_format p)
    (CsvParameters.time_format p) (CsvParameters.csv_tz p) (CsvParameters.has_tz p)
    (CsvParameters.dt_as_components p) (CsvParameters.dt_as_year_and_jdn p)
    (CsvParameters.dt_as_decimal p).

(** Two files of two rows each, and anything else is an empty file. *)
Definition two_files (name : string) : list string :=
  if String.eqb name "valley.csv" then ["TIMESTAMP,TA"; "59000,1.5"; "59001,2.5"; EmptyString]
  else if String.eqb name "summit.csv"
       then ["TIMESTAMP,TA"; "59000,-3.5"; "59001,-2.5"; EmptyString]
       else [EmptyString].

(** The parameter of the file is the precipitation. *)
Definition precipitation : CsvParameters.full :=
  CsvParameters.set_single_field "PSUM" (whole blank).

End Examples.

(** * Proofs *)

Import Pattern.
#[local] Arguments Ascii.eqb : simpl never.
Section FallbackYear.
Context `{E : Externals}.

Lemma fallback_year_jdn_spec (d : CsvDateTime.t) (j : Q) :
  CsvDateTime.year_cst d <> IOUtils_inodata ->
  let b := CsvDateTime.auto_wrap d && Qle_bool 273 j in
  CsvParameters.fallback_year_jdn d 0 j =
    ((if b then CsvDateTime.year_cst d - 1 else CsvDateTime.year_cst d)%Z,
     if Qle_bool 273 j then d else CsvDateTime.set_auto_wrap false d).
Proof.
  intros Hcst. unfold CsvParameters.fallback_year_jdn, CsvDateTime.getFixedYear_jdn.
  apply Z.eqb_neq in Hcst. rewrite Hcst. simpl.
  destruct (Qle_bool 273 j); simpl.
  - destruct (CsvDateTime.auto_wrap d); reflexivity.
  - rewrite andb_false_r. reflexivity.
Qed.

Lemma fallback_year_month_spec (d : CsvDateTime.t) (m : Z) :
  CsvDateTime.year_cst d <> IOUtils_inodata ->
  let b := CsvDateTime.auto_wrap d && (10 <=? m)%Z in
  CsvParameters.fallback_year_month d 0 m =
    ((if b then CsvDateTime.year_cst d - 1 else CsvDateTime.year_cst d)%Z,
     if (10 <=? m)%Z then d else CsvDateTime.set_auto_wrap false d).
Proof.
  intros Hcst. unfold CsvParameters.fallback_year_month, CsvDateTime.getFixedYear_month.
  apply Z.eqb_neq in Hcst. rewrite Hcst. simpl.
  rewrite Z.ltb_antisym. destruct (10 <=? m)%Z; simpl.
  - destruct (CsvDateTime.auto_wrap d); reflexivity.
  - rewrite andb_false_r. reflexivity.
Qed.

Lemma years_by_jdn_nth (before : list Q) :
  forall d x after,
    CsvDateTime.year_cst d <> IOUtils_inodata ->
    nth (List.length before) (years_by_jdn d (before ++ x :: after)) 0%Z =
      (if CsvDateTime.auto_wrap d && forallb (Qle_bool 273) (before ++ [x])
       then CsvDateTime.year_cst d - 1 else CsvDateTime.year_cst d)%Z.
Proof.
  induction before as [|j before IH]; intros d x after Hcst; simpl.
  - rewrite (fallback_year_jdn_spec d x Hcst). simpl. rewrite andb_true_r. reflexivity.
  - rewrite (fallback_year_jdn_spec d j Hcst). simpl.
    destruct (Qle_bool 273 j) eqn:Hj; simpl.
    + apply IH. exact Hcst.
    + rewrite IH by exact Hcst. simpl. rewrite andb_false_r. reflexivity.
Qed.

Lemma years_by_month_nth (before : list Z) :
  forall d x after,
    CsvDateTime.year_cst d <> IOUtils_inodata ->
    nth (List.length before) (years_by_month d (before ++ x :: after)) 0%Z =
      (if CsvDateTime.auto_wrap d && forallb (Z.leb 10) (before ++ [x])
       then CsvDateTime.year_cst d - 1 else CsvDateTime.year_cst d)%Z.
Proof.
  induction before as [|j before IH]; intros d x after Hcst; simpl.
  - rewrite (fallback_year_month_spec d x Hcst). simpl. rewrite andb_true_r. reflexivity.
  - rewrite (fallback_year_month_spec d j Hcst). simpl.
    destruct (10 <=? j)%Z eqn:Hj; simpl.
    + apply IH. exact Hcst.
    + rewrite IH by exact Hcst. simpl. rewrite andb_false_r. reflexivity.
Qed.

End FallbackYear.

Ltac eval_eqb :=
  repeat match goal with
  | |- context [Ascii.eqb ?a ?b] =>
      let v := eval vm_compute in (Ascii.eqb a b) in
      match v with
      | true => change (Ascii.eqb a b) with true
      | false => change (Ascii.eqb a b) with false
      end
  end.

Lemma plain_inv (c : ascii) :
  plain c = true ->
  Ascii.eqb "Y" c = false /\ Ascii.eqb "M" c = false /\ Ascii.eqb "D" c = false
  /\ Ascii.eqb "H" c = false /\ Ascii.eqb "I" c = false /\ Ascii.eqb "S" c = false
  /\ Ascii.eqb "Z" c = false /\ Ascii.eqb "%" c = false /\ Ascii.eqb Scanf.nul c = false.
Proof.
  unfold plain. simpl. rewrite negb_true_iff, !orb_false_iff. tauto.
Qed.

Ltac use_plain H :=
  let H' := fresh in
  pose proof (plain_inv _ H) as H';
  destruct H' as (?HY & ?HM & ?HD & ?HH & ?HI & ?HS & ?HZ & ?HP & ?HN).

Lemma spec_not_I (pat : t) :
  literals_plain pat = true ->
  StdString.starts_with "I" (spec pat) = false.
Proof.
  destruct pat as [|[c|k] pat]; simpl; intros H; [reflexivity| |destruct k; reflexivity].
  apply andb_true_iff in H as [Hc _]. use_plain Hc. rewrite HI. reflexivity.
Qed.

Lemma find_spec (k : key) (pat : t) :
  literals_plain pat = true ->
  StdString.find (text k) (spec pat) = position k pat.
Proof.
  induction pat as [|[c|k'] pat IH]; intros Hp.
  - destruct k; reflexivity.
  - simpl in Hp. apply andb_true_iff in Hp as [Hc Hp]. use_plain Hc.
    specialize (IH Hp).
    destruct k; simpl; rewrite ?HY, ?HM, ?HD, ?HH, ?HS; simpl; rewrite <- IH; reflexivity.
  - simpl in Hp. specialize (IH Hp). pose proof (spec_not_I pat Hp) as HnI.
    destruct k, k'; simpl; eval_eqb; simpl; try reflexivity; simpl in IH; rewrite <- ?IH;
      simpl in HnI; rewrite ?HnI; simpl;
      try (destruct (StdString.find _ (spec pat)); reflexivity).
Qed.

Lemma replace_all_text (k : key) (s : string) :
  IOUtils.replace_all s (text k) (placeholder k)
  = IOUtils.replace_from (text k) (placeholder k) 0 s.
Proof. destruct k; reflexivity. Qed.

Lemma replace_render (k : key) (done : key -> bool) (pat : t) :
  literals_plain pat = true ->
  (k = MI -> done MM = true) ->
  IOUtils.replace_from (text k) (placeholder k) 0 (render done pat)
  = render (fun k' => key_eqb k' k || done k') pat.
Proof.
  intros Hp Hmi. induction pat as [|[c|k'] pat IH].
  - reflexivity.
  - simpl in Hp. apply andb_true_iff in Hp as [Hc Hp]. use_plain Hc.
    specialize (IH Hp).
    destruct k; simpl; rewrite ?HY, ?HM, ?HD, ?HH, ?HS; simpl; rewrite <- IH; reflexivity.
  - simpl in Hp. specialize (IH Hp). simpl.
    destruct (done k') eqn:Hd.
    + rewrite orb_true_r.
      destruct k, k'; simpl; eval_eqb; simpl; rewrite <- IH; reflexivity.
    + rewrite orb_false_r.
      destruct k, k'; simpl; eval_eqb; simpl; rewrite <- ?IH; try reflexivity.
      rewrite Hmi in Hd by reflexivity. discriminate.
Qed.

Lemma render_ext (d1 d2 : key -> bool) (pat : t) :
  (forall k, d1 k = d2 k) -> render d1 pat = render d2 pat.
Proof.
  intros H. induction pat as [|[c|k] pat IH]; simpl; [reflexivity| |]; rewrite IH; [reflexivity|].
  rewrite H. reflexivity.
Qed.

Lemma spec_render (pat : t) : spec pat = render (fun _ => false) pat.
Proof. induction pat as [|[c|k] pat IH]; simpl; rewrite ?IH; reflexivity. Qed.

(** The six replacements of [setDateTimeSpec] turn the specification into
    the scan template. *)
Lemma replace_all_markers (pat : t) :
  literals_plain pat = true ->
  IOUtils.replace_all
    (IOUtils.replace_all
       (IOUtils.replace_all
          (IOUtils.replace_all
             (IOUtils.replace_all
                (IOUtils.replace_all (spec pat) "DD" "%2f") "MM" "%2f")
             "YYYY" "%4f") "HH24" "%2f") "MI" "%2f") "SS" "%f"
  = template pat.
Proof.
  intros Hp. rewrite spec_render.
  rewrite (replace_all_text DD), (replace_render DD) by (assumption || discriminate).
  rewrite (replace_all_text MM), (replace_render MM) by (assumption || discriminate).
  rewrite (replace_all_text YYYY), (replace_render YYYY) by (assumption || discriminate).
  rewrite (replace_all_text HH24), (replace_render HH24) by (assumption || discriminate).
  rewrite (replace_all_text MI), (replace_render MI) by (assumption || reflexivity).
  rewrite (replace_all_text SS), (replace_render SS) by (assumption || discriminate).
  apply render_ext. intros []; reflexivity.
Qed.

Lemma find_TZ_spec (pat : t) :
  literals_plain pat = true -> StdString.find "TZ" (spec pat) = None.
Proof.
  induction pat as [|[c|k] pat IH]; intros Hp; simpl in Hp.
  - reflexivity.
  - apply andb_true_iff in Hp as [Hc Hp]. use_plain Hc. specialize (IH Hp).
    simpl. destruct (Ascii.eqb "T" c); simpl.
    + assert (Hz : StdString.starts_with "Z" (spec pat) = false).
      { clear IH. destruct pat as [|[c'|k'] pat]; simpl; [reflexivity| |destruct k'; reflexivity].
        simpl in Hp. apply andb_true_iff in Hp as [Hc' _]. use_plain Hc'.
        rewrite HZ0. reflexivity. }
      simpl in Hz. rewrite Hz, IH. reflexivity.
    + rewrite IH. reflexivity.
  - specialize (IH Hp).
    destruct k; simpl; eval_eqb; simpl; rewrite IH; reflexivity.
Qed.

Lemma count_char_template (pat : t) :
  literals_plain pat = true ->
  StdString.count_char "%" (template pat) = List.length (keys pat).
Proof.
  unfold template.
  induction pat as [|[c|k] pat IH]; intros Hp; simpl in Hp.
  - reflexivity.
  - apply andb_true_iff in Hp as [Hc Hp]. use_plain Hc. specialize (IH Hp).
    simpl. rewrite Ascii.eqb_sym, HP. exact IH.
  - specialize (IH Hp). destruct k; simpl; eval_eqb; simpl; rewrite IH; reflexivity.
Qed.

Lemma count_placeholders_template (pat : t) :
  literals_plain pat = true ->
  IOUtils.count (template pat) "%f" + IOUtils.count (template pat) "%2f"
  + IOUtils.count (template pat) "%4f" + IOUtils.count (template pat) "%32s"
  = List.length (keys pat).
Proof.
  unfold template, IOUtils.count.
  induction pat as [|[c|k] pat IH]; intros Hp; simpl in Hp.
  - reflexivity.
  - apply andb_true_iff in Hp as [Hc Hp]. use_plain Hc. specialize (IH Hp).
    simpl. rewrite HP. simpl. exact IH.
  - specialize (IH Hp). destruct k; simpl; eval_eqb; simpl; rewrite <- IH; lia.
Qed.

Lemma find_percent_percent_template (pat : t) :
  literals_plain pat = true ->
  StdString.find "%%" (template pat) = None.
Proof.
  unfold template.
  induction pat as [|[c|k] pat IH]; intros Hp; simpl in Hp.
  - reflexivity.
  - apply andb_true_iff in Hp as [Hc Hp]. use_plain Hc. specialize (IH Hp).
    simpl. rewrite HP. simpl. rewrite IH. reflexivity.
  - specialize (IH Hp). destruct k; simpl; eval_eqb; simpl; rewrite IH; reflexivity.
Qed.

Lemma checkSpecString_template (pat : t) :
  literals_plain pat = true ->
  CsvParameters.checkSpecString (template pat) (List.length (keys pat)) = true.
Proof.
  intros Hp. unfold CsvParameters.checkSpecString.
  rewrite count_char_template, count_placeholders_template,
    find_percent_percent_template by assumption.
  rewrite Nat.eqb_refl. reflexivity.
Qed.

Lemma key_eqb_eq (a b : key) : key_eqb a b = true <-> a = b.
Proof. destruct a, b; simpl; split; intros H; try reflexivity; discriminate. Qed.

Lemma key_eqb_refl (a : key) : key_eqb a a = true.
Proof. destruct a; reflexivity. Qed.

Lemma has_In (pat : t) (k : key) : has pat k = true <-> In k (keys pat).
Proof.
  unfold has. rewrite existsb_exists. split.
  - intros (x & Hx & Heq). apply key_eqb_eq in Heq. subst. exact Hx.
  - intros H. exists k. split; [exact H | apply key_eqb_refl].
Qed.

Lemma position_has (k : key) (pat : t) :
  position k pat = None <-> has pat k = false.
Proof.
  unfold has. induction pat as [|[c|k'] pat IH]; simpl.
  - tauto.
  - destruct (position k pat); simpl; [|tauto]. split; [discriminate|].
    intros H. apply IH in H. discriminate.
  - destruct (key_eqb k k'); simpl; [split; discriminate|].
    destruct (position k pat); simpl; [|tauto]. split; [discriminate|].
    intros H. apply IH in H. discriminate.
Qed.

Lemma sorting_vector_spec (pat : t) :
  literals_plain pat = true ->
  CsvParameters.sorting_vector (spec pat) 0 ["YYYY"; "MM"; "DD"; "HH24"; "MI"; "SS"]
  = map (fun k => (position_or_0 k pat, index k)) (filter (has pat) all_keys).
Proof.
  intros Hp. unfold CsvParameters.sorting_vector, all_keys.
  pose proof (find_spec YYYY pat Hp) as F0. pose proof (find_spec MM pat Hp) as F1.
  pose proof (find_spec DD pat Hp) as F2. pose proof (find_spec HH24 pat Hp) as F3.
  pose proof (find_spec MI pat Hp) as F4. pose proof (find_spec SS pat Hp) as F5.
  cbn [text] in F0, F1, F2, F3, F4, F5.
  rewrite F0, F1, F2, F3, F4, F5. clear F0 F1 F2 F3 F4 F5.
  cbn [filter].
  assert (Hk : forall k, (has pat k = true /\ exists n, position k pat = Some n)
                         \/ (has pat k = false /\ position k pat = None)).
  { intros k. destruct (position k pat) eqn:Hpos.
    - left. split; [|eexists; reflexivity].
      destruct (has pat k) eqn:Hh; [reflexivity|].
      apply position_has in Hh. congruence.
    - right. split; [apply position_has; exact Hpos | reflexivity]. }
  destruct (Hk YYYY) as [[h0 [n0 q0]]|[h0 q0]]; rewrite h0, q0;
  destruct (Hk MM) as [[h1 [n1 q1]]|[h1 q1]]; rewrite h1, q1;
  destruct (Hk DD) as [[h2 [n2 q2]]|[h2 q2]]; rewrite h2, q2;
  destruct (Hk HH24) as [[h3 [n3 q3]]|[h3 q3]]; rewrite h3, q3;
  destruct (Hk MI) as [[h4 [n4 q4]]|[h4 q4]]; rewrite h4, q4;
  destruct (Hk SS) as [[h5 [n5 q5]]|[h5 q5]]; rewrite h5, q5;
  cbn [map]; unfold position_or_0; rewrite ?q0, ?q1, ?q2, ?q3, ?q4, ?q5; reflexivity.
Qed.

(** *** Insertion sort *)

Lemma insert_sorted_perm (x : nat * nat) (l : list (nat * nat)) :
  Permutation (x :: l) (CsvParameters.insert_sorted x l).
Proof.
  induction l as [|y l IH]; simpl.
  - apply Permutation_refl.
  - destruct (CsvParameters.sort_dateKeys x y).
    + apply Permutation_refl.
    + apply perm_trans with (y :: x :: l); [apply perm_swap|].
      apply perm_skip. exact IH.
Qed.

Lemma sort_perm (l : list (nat * nat)) : Permutation l (CsvParameters.sort l).
Proof.
  induction l as [|x l IH]; simpl.
  - apply perm_nil.
  - apply perm_trans with (x :: CsvParameters.sort l).
    + apply perm_skip. exact IH.
    + apply insert_sorted_perm.
Qed.

Lemma insert_sorted_sorted (x : nat * nat) (l : list (nat * nat)) :
  StronglySorted by_position l ->
  StronglySorted by_position (CsvParameters.insert_sorted x l).
Proof.
  induction 1 as [|y l Hs IH Hall]; simpl.
  - constructor; constructor.
  - unfold CsvParameters.sort_dateKeys. destruct (fst x <? fst y) eqn:Hlt.
    + apply Nat.ltb_lt in Hlt. constructor.
      * constructor; assumption.
      * constructor; [unfold by_position; lia|].
        eapply Forall_impl; [|exact Hall]. unfold by_position. intros a Ha. lia.
    + apply Nat.ltb_ge in Hlt. constructor; [exact IH|].
      eapply Permutation_Forall; [apply insert_sorted_perm|].
      constructor; [exact Hlt | exact Hall].
Qed.

Lemma sort_sorted (l : list (nat * nat)) : StronglySorted by_position (CsvParameters.sort l).
Proof.
  induction l as [|x l IH]; simpl; [constructor | apply insert_sorted_sorted; exact IH].
Qed.

Lemma sorted_unique (l1 : list (nat * nat)) :
  forall l2,
    StronglySorted by_position l1 -> StronglySorted strictly_by_position l2 ->
    Permutation l1 l2 -> l1 = l2.
Proof.
  induction l1 as [|a1 l1 IH]; intros l2 H1 H2 Hperm.
  - apply Permutation_nil in Hperm. subst. reflexivity.
  - destruct l2 as [|a2 l2].
    { apply Permutation_sym, Permutation_nil in Hperm. discriminate. }
    inversion H1 as [|? ? Hs1 Hall1]; subst.
    inversion H2 as [|? ? Hs2 Hall2]; subst.
    assert (Heq : a1 = a2).
    { assert (Hin2 : In a2 (a1 :: l1)).
      { eapply Permutation_in; [apply Permutation_sym; exact Hperm | left; reflexivity]. }
      assert (Hin1 : In a1 (a2 :: l2)).
      { eapply Permutation_in; [exact Hperm | left; reflexivity]. }
      destruct Hin2 as [Heq | Hin2]; [exact Heq|].
      destruct Hin1 as [Heq | Hin1]; [symmetry; exact Heq|].
      rewrite Forall_forall in Hall1, Hall2.
      specialize (Hall1 _ Hin2). specialize (Hall2 _ Hin1).
      unfold by_position, strictly_by_position in *. lia. }
    subst a2. f_equal. apply IH; try assumption.
    eapply Permutation_cons_inv. exact Hperm.
Qed.

(** *** The markers of a pattern are found in the order of the pattern *)

Lemma located_lit (c : ascii) (pat : t) :
  located (Lit c :: pat) = map (fun a => (S (fst a), snd a)) (located pat).
Proof.
  unfold located. simpl. rewrite map_map. apply map_ext_in.
  intros k Hk. unfold position_or_0. simpl.
  apply has_In in Hk. destruct (position k pat) eqn:Hpos; simpl; [reflexivity|].
  apply position_has in Hpos. congruence.
Qed.

Lemma located_tok (k : key) (pat : t) :
  ~ In k (keys pat) ->
  located (Tok k :: pat)
  = (0, index k) :: map (fun a => (String.length (text k) + fst a, snd a)) (located pat).
Proof.
  intros Hnin. unfold located. simpl. f_equal.
  - unfold position_or_0. simpl. rewrite key_eqb_refl. reflexivity.
  - rewrite map_map. apply map_ext_in. intros k' Hk'. unfold position_or_0. simpl.
    destruct (key_eqb k' k) eqn:Heq.
    + apply key_eqb_eq in Heq. subst. contradiction.
    + apply has_In in Hk'. destruct (position k' pat) eqn:Hpos; simpl; [reflexivity|].
      apply position_has in Hpos. congruence.
Qed.

Lemma sorted_shift (n : nat) (l : list (nat * nat)) :
  StronglySorted strictly_by_position l ->
  StronglySorted strictly_by_position (map (fun a => (n + fst a, snd a)) l).
Proof.
  induction 1 as [|a l Hs IH Hall]; simpl; constructor; [exact IH|].
  rewrite Forall_map. eapply Forall_impl; [|exact Hall].
  unfold strictly_by_position. simpl. intros b Hb. lia.
Qed.

Lemma located_sorted (pat : t) :
  NoDup (keys pat) -> StronglySorted strictly_by_position (located pat).
Proof.
  induction pat as [|[c|k] pat IH]; simpl; intros Hnd.
  - constructor.
  - rewrite located_lit. apply (sorted_shift 1). apply IH. exact Hnd.
  - inversion Hnd as [|? ? Hnin Hnd']; subst.
    rewrite located_tok by exact Hnin. constructor.
    + apply sorted_shift. apply IH. exact Hnd'.
    + rewrite Forall_map. apply Forall_forall. intros a _.
      unfold strictly_by_position. simpl. destruct k; simpl; lia.
Qed.

Lemma NoDup_all_keys : NoDup all_keys.
Proof.
  unfold all_keys.
  repeat (constructor; [simpl; intros H; repeat (destruct H as [H|H]; [discriminate|]); exact H|]).
  constructor.
Qed.

Lemma sorted_markers (pat : t) :
  literals_plain pat = true -> NoDup (keys pat) ->
  map snd (CsvParameters.sort
             (CsvParameters.sorting_vector (spec pat) 0
                ["YYYY"; "MM"; "DD"; "HH24"; "MI"; "SS"]))
  = map index (keys pat).
Proof.
  intros Hp Hnd. rewrite sorting_vector_spec by exact Hp.
  rewrite (sorted_unique _ (located pat)).
  - unfold located. rewrite map_map. reflexivity.
  - apply sort_sorted.
  - apply located_sorted. exact Hnd.
  - eapply perm_trans; [apply Permutation_sym, sort_perm|].
    unfold located. apply Permutation_map. apply NoDup_Permutation.
    + apply NoDup_filter. apply NoDup_all_keys.
    + exact Hnd.
    + intros k. rewrite filter_In, has_In. split; [tauto|].
      intros H. split; [|exact H]. unfold all_keys. destruct k; simpl; tauto.
Qed.

(** *** Decimal digits *)

Lemma append_nil_r (s : string) : (s ++ "")%string = s.
Proof. induction s as [|a s IH]; simpl; [reflexivity | rewrite IH; reflexivity]. Qed.

Lemma digit_val_digit_char (d : nat) :
  d < 10 -> Scanf.digit_val (digit_char d) = Some d.
Proof.
  intros Hd. do 10 (destruct d as [|d]; [reflexivity|]). lia.
Qed.

Lemma digit_neq (a c : ascii) :
  Scanf.is_digit a = true -> Scanf.is_digit c = false -> Ascii.eqb a c = false.
Proof.
  intros Ha Hc. apply Ascii.eqb_neq. intros Heq. subst. congruence.
Qed.

Lemma is_digit_digit_char (d : nat) : d < 10 -> Scanf.is_digit (digit_char d) = true.
Proof. intros Hd. unfold Scanf.is_digit. rewrite digit_val_digit_char by exact Hd. reflexivity. Qed.

Lemma digit_not_space (a : ascii) : Scanf.is_digit a = true -> Scanf.is_space a = false.
Proof.
  intros Ha. unfold Scanf.is_space. simpl.
  rewrite !(digit_neq a) by (exact Ha || reflexivity). reflexivity.
Qed.

Lemma digits_cons (w n : nat) :
  digits (S w) n = String (digit_char ((n / 10 ^ w) mod 10)) (digits w n).
Proof. reflexivity. Qed.

Lemma digit_of_number (w n : nat) : Scanf.is_digit (digit_char ((n / 10 ^ w) mod 10)) = true.
Proof. apply is_digit_digit_char. apply Nat.mod_upper_bound. discriminate. Qed.

Lemma take_digits_digits (w : nat) :
  forall acc c n rest,
    Scanf.take_digits acc c (digits w n ++ rest)
    = Scanf.take_digits (acc * 10 ^ w + n mod 10 ^ w) (c + w) rest.
Proof.
  induction w as [|w IH]; intros acc c n rest.
  - simpl. rewrite Nat.mul_1_r, Nat.add_0_r, Nat.add_0_r. reflexivity.
  - rewrite digits_cons. cbn [String.append Scanf.take_digits].
    rewrite digit_val_digit_char by (apply Nat.mod_upper_bound; discriminate).
    rewrite IH. f_equal; [|lia].
    rewrite Nat.pow_succ_r'.
    rewrite (Nat.mul_comm 10 (10 ^ w)), (Nat.Div0.mod_mul_r n (10 ^ w) 10).
    nia.
Qed.

Lemma ends_number_inv (c : ascii) :
  ends_number c = true ->
  Scanf.digit_val c = None /\ Ascii.eqb c "." = false
  /\ Ascii.eqb c "e" = false /\ Ascii.eqb c "E" = false.
Proof.
  unfold ends_number, Scanf.is_digit. simpl.
  rewrite andb_true_iff, !negb_true_iff, !orb_false_iff.
  rewrite !(Ascii.eqb_sym c). destruct (Scanf.digit_val c); intuition discriminate.
Qed.

Lemma take_digits_ends (acc c : nat) (rest : string) :
  number_ends rest -> Scanf.take_digits acc c rest = (acc, c, rest).
Proof.
  destruct rest as [|a rest]; simpl; intros H; [reflexivity|].
  apply ends_number_inv in H as (H & _). rewrite H. reflexivity.
Qed.

Lemma scan_decimal_digits (w n : nat) (rest : string) :
  n < 10 ^ S (S w) -> number_ends rest ->
  Scanf.scan_decimal (digits (S (S w)) n ++ rest)
  = Scanf.Matched (inject_Z (Z.of_nat n)) rest.
Proof.
  intros Hn Hrest. unfold Scanf.scan_decimal.
  pose proof (take_digits_digits (S (S w)) 0 0 n rest) as Htd.
  rewrite Nat.mod_small in Htd by exact Hn. simpl (0 * _ + _) in Htd. simpl (0 + _) in Htd.
  rewrite (take_digits_ends _ _ _ Hrest) in Htd.
  revert Htd. rewrite !digits_cons. cbn [String.append]. intros Htd.
  pose proof (digit_of_number (S w) n) as D1. pose proof (digit_of_number w n) as D2.
  unfold Scanf.take_sign.
  rewrite !(digit_neq _ _ D1) by reflexivity.
  unfold Scanf.starts_special, Scanf.one_of. cbn [existsb].
  rewrite !(digit_neq _ _ D1), !(digit_neq _ _ D2) by reflexivity.
  cbn [orb andb]. rewrite andb_false_r.
  rewrite Htd.
  destruct rest as [|a rest].
  - cbn [Nat.add Nat.eqb existsb]. unfold Scanf.decimal_value.
    rewrite Nat.pow_0_r, Nat.mul_1_r, Nat.add_0_r. reflexivity.
  - apply ends_number_inv in Hrest as (_ & Hdot & He & HE).
    rewrite Hdot. cbn [Nat.add Nat.eqb existsb]. rewrite He, HE. cbn [orb].
    unfold Scanf.decimal_value.
    rewrite Nat.pow_0_r, Nat.mul_1_r, Nat.add_0_r. reflexivity.
Qed.

Lemma skip_ws_digits (w n : nat) (rest : string) :
  Scanf.skip_ws (digits (S w) n ++ rest) = (digits (S w) n ++ rest)%string.
Proof.
  rewrite digits_cons. cbn [String.append Scanf.skip_ws].
  rewrite (digit_not_space _ (digit_of_number w n)). reflexivity.
Qed.

Lemma split_at_digits (w n : nat) (rest : string) :
  Scanf.split_at w (digits w n ++ rest) = (digits w n, rest).
Proof.
  induction w as [|w IH]; [reflexivity|].
  rewrite digits_cons. cbn [String.append Scanf.split_at]. rewrite IH. reflexivity.
Qed.

Lemma scan_float_bounded (w n : nat) (rest : string) :
  n < 10 ^ S (S w) ->
  Scanf.scan_float (Some (S (S w))) (digits (S (S w)) n ++ rest)
  = Scanf.Matched (inject_Z (Z.of_nat n)) rest.
Proof.
  intros Hn. unfold Scanf.scan_float. rewrite skip_ws_digits.
  unfold Scanf.field_of. rewrite split_at_digits.
  rewrite <- (append_nil_r (digits (S (S w)) n)).
  rewrite scan_decimal_digits by (exact Hn || exact I). reflexivity.
Qed.

Lemma scan_float_unbounded (w n : nat) (rest : string) :
  n < 10 ^ S (S w) -> number_ends rest ->
  Scanf.scan_float None (digits (S (S w)) n ++ rest)
  = Scanf.Matched (inject_Z (Z.of_nat n)) rest.
Proof.
  intros Hn Hrest. unfold Scanf.scan_float. rewrite skip_ws_digits.
  unfold Scanf.field_of.
  rewrite scan_decimal_digits by assumption. rewrite append_nil_r. reflexivity.
Qed.

(** *** The scan template and the timestamp as C strings *)

Lemma c_str_template (pat : t) :
  literals_plain pat = true -> Scanf.c_str (template pat) = template pat.
Proof.
  unfold template.
  induction pat as [|[c|k] pat IH]; intros Hp; simpl in Hp.
  - reflexivity.
  - apply andb_true_iff in Hp as [Hc Hp]. use_plain Hc. specialize (IH Hp).
    simpl. rewrite Ascii.eqb_sym, HN, IH. reflexivity.
  - specialize (IH Hp). destruct k; simpl; eval_eqb; simpl; rewrite IH; reflexivity.
Qed.

Lemma c_str_digits (w n : nat) (rest : string) :
  Scanf.c_str (digits w n ++ rest) = (digits w n ++ Scanf.c_str rest)%string.
Proof.
  induction w as [|w IH]; [reflexivity|].
  rewrite digits_cons. cbn [String.append Scanf.c_str].
  rewrite (digit_neq _ _ (digit_of_number w n)) by reflexivity.
  rewrite IH. reflexivity.
Qed.

Lemma c_str_timestamp (pat : t) (v : key -> nat) :
  literals_plain pat = true -> Scanf.c_str (timestamp pat v) = timestamp pat v.
Proof.
  induction pat as [|[c|k] pat IH]; intros Hp; simpl in Hp.
  - reflexivity.
  - apply andb_true_iff in Hp as [Hc Hp]. use_plain Hc. specialize (IH Hp).
    simpl. rewrite Ascii.eqb_sym, HN, IH. reflexivity.
  - specialize (IH Hp). simpl. rewrite c_str_digits, IH. reflexivity.
Qed.

Lemma parse_format_template (pat : t) :
  literals_plain pat = true ->
  Scanf.parse_format Scanf.Text (template pat) = Some (map directive_of pat).
Proof.
  unfold template.
  induction pat as [|[c|k] pat IH]; intros Hp; simpl in Hp.
  - reflexivity.
  - apply andb_true_iff in Hp as [Hc Hp]. use_plain Hc. specialize (IH Hp).
    simpl. rewrite Ascii.eqb_sym, HP, IH. reflexivity.
  - specialize (IH Hp). destruct k; simpl; eval_eqb; simpl; rewrite IH; reflexivity.
Qed.

(** *** Scanning the timestamp with the template *)

Lemma skip_ws_idem (s : string) : Scanf.skip_ws (Scanf.skip_ws s) = Scanf.skip_ws s.
Proof.
  induction s as [|a s IH]; simpl; [reflexivity|].
  destruct (Scanf.is_space a) eqn:Ha; [exact IH|]. simpl. rewrite Ha. reflexivity.
Qed.

Lemma scan_float_skip_ws (w : option nat) (s : string) :
  Scanf.scan_float w (Scanf.skip_ws s) = Scanf.scan_float w s.
Proof. unfold Scanf.scan_float. rewrite skip_ws_idem. reflexivity. Qed.

Lemma number_ends_timestamp (pat : t) (v : key -> nat) :
  seconds_delimited (Tok SS :: pat) = true -> number_ends (timestamp pat v).
Proof.
  destruct pat as [|[c|k] pat]; simpl; intros H; [exact I| |discriminate].
  apply andb_true_iff in H as [H _]. exact H.
Qed.

Lemma seconds_delimited_tail (x : piece) (pat : t) :
  seconds_delimited (x :: pat) = true -> seconds_delimited pat = true.
Proof.
  destruct x as [c|k]; [trivial|]. destruct k; trivial.
  destruct pat as [|[c|k'] pat]; simpl; intros H; [reflexivity| |discriminate].
  apply andb_true_iff in H as [_ H]. exact H.
Qed.

Lemma scan_float_marker (k : key) (pat : t) (v : key -> nat) :
  seconds_delimited (Tok k :: pat) = true -> v k < 10 ^ width k ->
  forall w, directive_of (Tok k) = Scanf.DFloat w ->
  Scanf.scan_float w (digits (width k) (v k) ++ timestamp pat v)
  = Scanf.Matched (inject_Z (Z.of_nat (v k))) (timestamp pat v).
Proof.
  intros Hs Hv w Hw.
  destruct k; simpl in Hw; injection Hw as <-;
    try (apply scan_float_bounded; exact Hv).
  apply scan_float_unbounded; [exact Hv|].
  apply number_ends_timestamp. exact Hs.
Qed.

Lemma exec_template (pat : t) (v : key -> nat) :
  seconds_delimited pat = true ->
  (forall k, v k < 10 ^ width k) ->
  Scanf.exec (map directive_of pat) (timestamp pat v) = Some (scanned pat v)
  /\ Scanf.exec (map directive_of pat) (Scanf.skip_ws (timestamp pat v))
     = Some (scanned pat v).
Proof.
  intros Hs Hv. induction pat as [|[c|k] pat IH].
  - split; reflexivity.
  - destruct (IH (seconds_delimited_tail _ _ Hs)) as [IH1 IH2].
    cbn [map directive_of timestamp]. unfold scanned. cbn [keys].
    destruct (Scanf.is_space c) eqn:Hc.
    + cbn [Scanf.exec Scanf.skip_ws]. rewrite Hc, skip_ws_idem. split; exact IH2.
    + cbn [Scanf.exec Scanf.skip_ws]. rewrite Hc. cbn [Scanf.exec].
      rewrite Ascii.eqb_refl. split; exact IH1.
  - destruct (IH (seconds_delimited_tail _ _ Hs)) as [IH1 _].
    assert (Hd : exists w, directive_of (Tok k) = Scanf.DFloat w)
      by (destruct k; eexists; reflexivity).
    destruct Hd as [w Hw].
    pose proof (scan_float_marker k pat v Hs (Hv k) w Hw) as Hscan.
    cbn [map timestamp]. rewrite Hw. cbn [Scanf.exec].
    rewrite scan_float_skip_ws, Hscan, IH1. split; reflexivity.
Qed.

Lemma run_template (pat : t) (v : key -> nat) :
  literals_plain pat = true -> seconds_delimited pat = true ->
  (forall k, v k < 10 ^ width k) ->
  Scanf.run (timestamp pat v) (template pat) = Some (scanned pat v).
Proof.
  intros Hp Hs Hv. unfold Scanf.run.
  rewrite c_str_template, parse_format_template, c_str_timestamp by exact Hp.
  apply exec_template; assumption.
Qed.

(** *** Storing the scanned values and building the date *)

Lemma store_length (args : list Q) :
  forall i q, List.length (CsvParameters.store args i q) = List.length args.
Proof.
  induction args as [|a args IH]; intros i q; [reflexivity|].
  destruct i; simpl; [reflexivity | rewrite IH; reflexivity].
Qed.

Lemma store_nth (args : list Q) :
  forall i j q d,
    nth j (CsvParameters.store args i q) d
    = if (j =? i) && (i <? List.length args) then q else nth j args d.
Proof.
  induction args as [|a args IH]; intros i j q d.
  - simpl. rewrite andb_false_r. reflexivity.
  - destruct i, j; simpl; try reflexivity. rewrite IH. reflexivity.
Qed.

Lemma assign_scanned (v : key -> nat) (ks : list key) :
  forall args rest,
    CsvParameters.assign (map index ks) 0
      (map (fun k => Scanf.IFloat (inject_Z (Z.of_nat (v k)))) ks) args rest
    = (store_all v ks args, rest).
Proof.
  induction ks as [|k ks IH]; intros args rest; [reflexivity|].
  cbn [map CsvParameters.assign]. rewrite IH. reflexivity.
Qed.

Lemma store_all_length (v : key -> nat) (ks : list key) :
  forall args, List.length (store_all v ks args) = List.length args.
Proof.
  induction ks as [|k ks IH]; intros args; [reflexivity|].
  unfold store_all in *. simpl. rewrite IH, store_length. reflexivity.
Qed.

Lemma index_inj (a b : key) : index a = index b -> a = b.
Proof. destruct a, b; simpl; intros H; try reflexivity; discriminate. Qed.

Lemma store_all_nth (v : key -> nat) (k : key) (ks : list key) :
  forall args,
    List.length args = 6 ->
    nth (index k) (store_all v ks args) 0%Q
    = if existsb (key_eqb k) ks then inject_Z (Z.of_nat (v k))
      else nth (index k) args 0%Q.
Proof.
  induction ks as [|k0 ks IH]; intros args Hlen; [reflexivity|].
  unfold store_all in *. cbn [fold_left existsb].
  rewrite IH by (rewrite store_length; exact Hlen).
  destruct (existsb (key_eqb k) ks); [rewrite orb_true_r; reflexivity|].
  rewrite orb_false_r, store_nth, Hlen, Nat.add_0_r.
  destruct (key_eqb k k0) eqn:Heq.
  - apply key_eqb_eq in Heq. subst k0. rewrite Nat.eqb_refl.
    destruct k; reflexivity.
  - destruct (index k =? index k0) eqn:Hi; [|reflexivity].
    apply Nat.eqb_eq, index_inj in Hi. subst. rewrite key_eqb_refl in Heq. discriminate.
Qed.

Lemma store_all_fields (pat : t) (v : key -> nat) :
  store_all v (keys pat) (repeat 0%Q 6)
  = map (fun k => inject_Z (field pat v k)) all_keys.
Proof.
  remember (store_all v (keys pat) (repeat 0%Q 6)) as args eqn:Hargs.
  assert (Hlen : List.length args = 6)
    by (subst args; rewrite store_all_length; reflexivity).
  assert (Hnth : forall k, nth (index k) args 0%Q = inject_Z (field pat v k)).
  { intros k. subst args. rewrite store_all_nth by reflexivity. unfold field, has.
    destruct (existsb (key_eqb k) (keys pat)); [reflexivity|]. destruct k; reflexivity. }
  clear Hargs.
  pose proof (Hnth YYYY) as H0. pose proof (Hnth MM) as H1. pose proof (Hnth DD) as H2.
  pose proof (Hnth HH24) as H3. pose proof (Hnth MI) as H4. pose proof (Hnth SS) as H5.
  destruct args as [|a0 [|a1 [|a2 [|a3 [|a4 [|a5 [|]]]]]]]; try discriminate.
  simpl in H0, H1, H2, H3, H4, H5. subst. reflexivity.
Qed.

Lemma to_int_inject_Z (z : Z) : CsvParameters.to_int (inject_Z z) = z.
Proof. unfold CsvParameters.to_int. simpl. apply Z.quot_1_r. Qed.

Lemma Qeq_bool_refl (q : Q) : Qeq_bool q q = true.
Proof. apply Qeq_bool_iff. reflexivity. Qed.

Lemma createDate_fields (pat : t) (v : key -> nat) (tz : Q) :
  CsvParameters.createDate (map (fun k => inject_Z (field pat v k)) all_keys) tz
  = DateYMD (field pat v YYYY) (field pat v MM) (field pat v DD)
      (field pat v HH24) (field pat v MI) (inject_Z (field pat v SS)) tz.
Proof.
  unfold CsvParameters.createDate, all_keys. cbn [map firstn forallb nth].
  rewrite !to_int_inject_Z, !Qeq_bool_refl. reflexivity.
Qed.

Lemma keys_at_most_6 (pat : t) : NoDup (keys pat) -> List.length (keys pat) <= 6.
Proof.
  intros Hnd. change 6 with (List.length all_keys).
  apply NoDup_incl_length; [exact Hnd|].
  intros k _. unfold all_keys. destruct k; simpl; tauto.
Qed.

Section RoundTrip.
Context `{E : Externals}.
Hypothesis conforms : sscanf_conforms.

Lemma setDateTimeSpec_pattern (p : CsvParameters.t) (pat : t) :
  CsvParameters.datetime_idx p = [] -> CsvParameters.has_tz p = false ->
  NoDup (keys pat) -> literals_plain pat = true ->
  CsvParameters.setDateTimeSpec p (spec pat)
  = Ok (CsvParameters.set_datetime_spec (map index (keys pat)) (template pat) false p).
Proof.
  intros Hidx Htz Hnd Hp. unfold CsvParameters.setDateTimeSpec.
  rewrite Hidx, Htz. cbn [app].
  rewrite sorted_markers by assumption.
  unfold CsvParameters.replace_tz. rewrite find_TZ_spec by exact Hp.
  rewrite replace_all_markers by exact Hp.
  rewrite length_map, checkSpecString_template by exact Hp. reflexivity.
Qed.

Lemma parseDate_str_pattern (p : CsvParameters.t) (pat : t) (v : key -> nat)
    (time_str : string) :
  CsvParameters.time_idx p = [] ->
  NoDup (keys pat) -> 3 <= List.length (keys pat) ->
  literals_plain pat = true -> seconds_delimited pat = true ->
  (forall k, v k < 10 ^ width k) ->
  CsvParameters.parseDate_str
    (CsvParameters.set_datetime_spec (map index (keys pat)) (template pat) false p)
    (timestamp pat v) time_str
  = DateYMD (field pat v YYYY) (field pat v MM) (field pat v DD)
      (field pat v HH24) (field pat v MI) (inject_Z (field pat v SS))
      (CsvParameters.csv_tz p).
Proof.
  intros Htime Hnd H3 Hp Hs Hv. unfold CsvParameters.parseDate_str.
  cbn [CsvParameters.datetime_idx CsvParameters.datetime_format CsvParameters.time_idx
       CsvParameters.time_format CsvParameters.has_tz CsvParameters.csv_tz
       CsvParameters.set_datetime_spec].
  rewrite length_map.
  pose proof (keys_at_most_6 pat Hnd) as H6.
  replace (3 <=? List.length (keys pat)) with true by (symmetry; apply Nat.leb_le; exact H3).
  replace (List.length (keys pat) <=? 6) with true by (symmetry; apply Nat.leb_le; exact H6).
  cbn [andb negb].
  rewrite (conforms _ _ _ (run_template pat v Hp Hs Hv)).
  unfold scanned. rewrite assign_scanned, length_map, Nat.leb_refl. cbn [negb].
  rewrite Htime. cbn [List.length Nat.leb andb negb].
  rewrite store_all_fields. apply createDate_fields.
Qed.

End RoundTrip.

Ltac break_match :=
  repeat match goal with
  | |- context [match ?x with _ => _ end] =>
      lazymatch x with
      | context [match _ with _ => _ end] => fail
      | _ => destruct x eqn:?
      end
  end.

Section Layout.
Context `{E : Externals}.

(** The date resolver only writes to [date_cols]. *)
Lemma set_date_cols_idem (p : CsvParameters.t) (d d' : CsvDateTime.t) :
  CsvParameters.set_date_cols d (CsvParameters.set_date_cols d' p)
  = CsvParameters.set_date_cols d p.
Proof. reflexivity. Qed.

Lemma set_date_cols_same (p : CsvParameters.t) :
  CsvParameters.set_date_cols (CsvParameters.date_cols p) p = p.
Proof. destruct p; reflexivity. Qed.

Lemma parseJdnDate_layout (p : CsvParameters.t) (v : list string) :
  exists d, snd (CsvParameters.parseJdnDate p v) = CsvParameters.set_date_cols d p.
Proof.
  unfold CsvParameters.parseJdnDate.
  break_match; simpl;
    try (eexists; symmetry; apply set_date_cols_same);
    try (eexists; reflexivity).
Qed.

Lemma parseDate_layout (p : CsvParameters.t) (v : list string) :
  exists d, snd (CsvParameters.parseDate p v) = CsvParameters.set_date_cols d p.
Proof.
  unfold CsvParameters.parseDate.
  destruct (CsvParameters.dt_as_components p).
  - destruct (CsvParameters.dt_as_year_and_jdn p); [apply parseJdnDate_layout|].
    break_match; simpl;
      try (eexists; symmetry; apply set_date_cols_same);
      try (eexists; reflexivity).
  - break_match; simpl; eexists; symmetry; apply set_date_cols_same.
Qed.

Lemma parseDate_asc_order (p : CsvParameters.t) (v : list string) :
  CsvParameters.asc_order (snd (CsvParameters.parseDate p v)) = CsvParameters.asc_order p.
Proof. destruct (parseDate_layout p v) as [d ->]. reflexivity. Qed.

End Layout.

Section BoundedRead.
Context `{E : Externals}.
Variables (io : CsvIO.t) (template_md : MeteoData.t) (filterID : string).
Variables (dateStart dateEnd : Date).

Lemma Date_lt_spec (a b : Date) :
  Date_lt a b = true <-> (gmt_julian a < gmt_julian b)%Q.
Proof.
  unfold Date_lt. rewrite negb_true_iff. split.
  - intros H. apply Qnot_le_lt. intros Hle. apply Qle_bool_iff in Hle. congruence.
  - intros H. destruct (Qle_bool (gmt_julian b) (gmt_julian a)) eqn:Hb; [|reflexivity].
    apply Qle_bool_iff in Hb. exfalso. revert Hb. apply Qlt_not_le. exact H.
Qed.

Lemma Date_gt_spec (a b : Date) :
  Date_gt a b = true <-> (gmt_julian b < gmt_julian a)%Q.
Proof. unfold Date_gt. apply Date_lt_spec. Qed.

Lemma getDate_asc_order (p : CsvParameters.t) (v : list string) (silent : bool) :
  CsvParameters.asc_order (snd (CsvIO.getDate p v silent)) = CsvParameters.asc_order p.
Proof.
  unfold CsvIO.getDate. pose proof (parseDate_asc_order p v) as H.
  destruct (CsvParameters.parseDate p v) as [dt p']. simpl in H.
  destruct (isUndef dt && negb silent); exact H.
Qed.

Lemma resolve_line_asc_order (c : CsvIO.cursor) (line : string) :
  CsvParameters.asc_order (CsvIO.params (snd (CsvIO.resolve_line io filterID c line)))
  = CsvParameters.asc_order (CsvIO.params c).
Proof.
  unfold CsvIO.resolve_line.
  pose proof (getDate_asc_order (CsvIO.params c)
                (CsvParameters.tokenize (CsvParameters.csv_delim (CsvIO.params c))
                   (CsvIO.clean_line (CsvIO.params c) line))
                (CsvIO.silent_errors io)) as H.
  destruct (CsvIO.getDate _ _ _) as [r p']. simpl in H.
  break_match; simpl; try reflexivity; exact H.
Qed.

Lemma kept_none_after (d : Date) (rows : list (Date * MeteoData.t)) :
  Date_gt d dateEnd = true ->
  Forall (earlier_or_same d) (map fst rows) ->
  kept dateStart dateEnd rows = [].
Proof.
  intros Hd Hall. unfold kept. induction rows as [|[d' md] rows IH]; [reflexivity|].
  simpl in Hall. inversion Hall as [|? ? Hle Hall']; subst.
  simpl. unfold CsvIO.in_range at 1.
  replace (Date_gt d' dateEnd) with true.
  - rewrite andb_false_r. apply IH. exact Hall'.
  - symmetry. apply Date_gt_spec. apply Date_gt_spec in Hd.
    eapply Qlt_le_trans; [exact Hd | exact Hle].
Qed.

Lemma kept_none_before (d : Date) (rows : list (Date * MeteoData.t)) :
  Date_lt d dateStart = true ->
  Forall (later_or_same d) (map fst rows) ->
  kept dateStart dateEnd rows = [].
Proof.
  intros Hd Hall. unfold kept. induction rows as [|[d' md] rows IH]; [reflexivity|].
  simpl in Hall. inversion Hall as [|? ? Hle Hall']; subst.
  simpl. unfold CsvIO.in_range at 1.
  replace (Date_lt d' dateStart) with true.
  - simpl. apply IH. exact Hall'.
  - symmetry. apply Date_lt_spec. apply Date_lt_spec in Hd.
    eapply Qle_lt_trans; [exact Hle | exact Hd].
Qed.

Lemma read_lines_in_order (rest : list string) :
  forall s skip pos rows,
    CsvIO.all_rows io template_md filterID (CsvIO.cur s) skip rest = Some rows ->
    in_file_order (CsvParameters.asc_order (CsvIO.params (CsvIO.cur s))) (map fst rows) ->
    exists s',
      CsvIO.read_lines io template_md filterID dateStart dateEnd s skip pos rest = (None, s')
      /\ CsvIO.vecMeteo s' = CsvIO.vecMeteo s ++ kept dateStart dateEnd rows.
Proof.
  induction rest as [|line rest IH]; intros s skip pos rows Hrows Hord.
  - simpl in Hrows. injection Hrows as <-. exists s. split; [reflexivity|].
    unfold kept. simpl. rewrite app_nil_r. reflexivity.
  - destruct skip as [|k]; [|simpl in *; apply IH; assumption].
    cbn [CsvIO.all_rows] in Hrows. cbn [CsvIO.read_lines]. unfold CsvIO.read_line.
    pose proof (resolve_line_asc_order (CsvIO.cur s) line) as Hasc.
    destruct (CsvIO.resolve_line io filterID (CsvIO.cur s) line) as [r c'].
    simpl in Hasc.
    destruct r as [a | tmp_vec dt].
    + destruct a as [| n | |e]; try discriminate.
      * apply (IH (CsvIO.mk_loop c' (CsvIO.indexer s) (CsvIO.vecMeteo s))); simpl;
          [exact Hrows | rewrite Hasc; exact Hord].
      * apply (IH (CsvIO.mk_loop c' (CsvIO.indexer s) (CsvIO.vecMeteo s))); simpl;
          [exact Hrows | rewrite Hasc; exact Hord].
    + destruct (CsvIO.read_fields io (CsvIO.params c') 0 tmp_vec
                  (MeteoData.setDate dt template_md) true) as [[md [|]]|e];
        try discriminate.
      destruct (CsvIO.all_rows io template_md filterID c' 0 rest) as [rows'|] eqn:Hrows';
        try discriminate.
      simpl in Hrows. injection Hrows as <-.
      set (idx := CsvIO.record_index (CsvIO.linenr c')
                    match rest with [] => None | _ :: _ => Some (S pos) end
                    dt (CsvIO.indexer s)).
      rewrite <- Hasc in Hord.
      assert (Hord' : in_file_order (CsvParameters.asc_order (CsvIO.params c')) (map fst rows')).
      { unfold in_file_order in *. simpl in Hord.
        destruct (CsvParameters.asc_order (CsvIO.params c'));
          inversion Hord; assumption. }
      unfold CsvIO.range_check.
      unfold in_file_order in Hord. simpl in Hord.
      destruct (CsvParameters.asc_order (CsvIO.params c')) eqn:Ha.
      * inversion Hord as [|? ? Hs Hall]; subst.
        destruct (Date_lt dt dateStart) eqn:Hlt.
        { destruct (IH (CsvIO.mk_loop c' idx (CsvIO.vecMeteo s)) 0 (S pos) rows' Hrows')
            as (s' & Hrun & Hvec); [simpl; rewrite Ha; exact Hs|].
          exists s'. split; [exact Hrun|]. rewrite Hvec. unfold kept. simpl.
          unfold CsvIO.in_range at 2. rewrite Hlt. reflexivity. }
        destruct (Date_gt dt dateEnd) eqn:Hgt.
        { eexists. split; [reflexivity|]. simpl.
          replace (kept dateStart dateEnd ((dt, md) :: rows')) with (@nil MeteoData.t);
            [rewrite app_nil_r; reflexivity|].
          symmetry. apply (kept_none_after dt); [exact Hgt|].
          simpl. constructor; [unfold earlier_or_same; apply Qle_refl | exact Hall]. }
        destruct (IH (CsvIO.mk_loop c' idx (CsvIO.vecMeteo s ++ [md])) 0 (S pos) rows' Hrows')
          as (s' & Hrun & Hvec); [simpl; rewrite Ha; exact Hs|].
        exists s'. split; [exact Hrun|]. rewrite Hvec. unfold kept. simpl.
        unfold CsvIO.in_range at 2. rewrite Hlt, Hgt. simpl.
        rewrite <- app_assoc. reflexivity.
      * inversion Hord as [|? ? Hs Hall]; subst.
        destruct (Date_lt dt dateStart) eqn:Hlt.
        { eexists. split; [reflexivity|]. simpl.
          replace (kept dateStart dateEnd ((dt, md) :: rows')) with (@nil MeteoData.t);
            [rewrite app_nil_r; reflexivity|].
          symmetry. apply (kept_none_before dt); [exact Hlt|].
          simpl. constructor; [unfold later_or_same; apply Qle_refl | exact Hall]. }
        destruct (Date_gt dt dateEnd) eqn:Hgt.
        { destruct (IH (CsvIO.mk_loop c' idx (CsvIO.vecMeteo s)) 0 (S pos) rows' Hrows')
            as (s' & Hrun & Hvec); [simpl; rewrite Ha; exact Hs|].
          exists s'. split; [exact Hrun|]. rewrite Hvec. unfold kept. simpl.
          unfold CsvIO.in_range at 2. rewrite Hlt, Hgt. reflexivity. }
        destruct (IH (CsvIO.mk_loop c' idx (CsvIO.vecMeteo s ++ [md])) 0 (S pos) rows' Hrows')
          as (s' & Hrun & Hvec); [simpl; rewrite Ha; exact Hs|].
        exists s'. split; [exact Hrun|]. rewrite Hvec. unfold kept. simpl.
        unfold CsvIO.in_range at 2. rewrite Hlt, Hgt. simpl.
        rewrite <- app_assoc. reflexivity.
Qed.

End BoundedRead.

Section BoundedReadResult.
Context `{E : Externals}.

Lemma read_fields_date (io : CsvIO.t) (p : CsvParameters.t) (tokens : list string) :
  forall ii md no_errors md' no_errors',
    CsvIO.read_fields io p ii tokens md no_errors = Ok (md', no_errors') ->
    MeteoData.date md' = MeteoData.date md.
Proof.
  induction tokens as [|tok tokens IH]; intros ii md ne md' ne' H; simpl in H.
  - injection H as <- _. reflexivity.
  - revert H. break_match; intros H; try discriminate;
      apply IH in H; exact H.
Qed.

Lemma all_rows_dates (io : CsvIO.t) (template_md : MeteoData.t) (filterID : string)
    (rest : list string) :
  forall c skip rows,
    CsvIO.all_rows io template_md filterID c skip rest = Some rows ->
    map (fun r => MeteoData.date (snd r)) rows = map fst rows.
Proof.
  induction rest as [|line rest IH]; intros c skip rows H; simpl in H.
  - injection H as <-. reflexivity.
  - destruct skip; [|eapply IH; exact H].
    destruct (CsvIO.resolve_line io filterID c line) as [[a|tmp_vec dt] c'].
    + destruct a; try discriminate; eapply IH; exact H.
    + destruct (CsvIO.read_fields io (CsvIO.params c') 0 tmp_vec
                  (MeteoData.setDate dt template_md) true) as [[md [|]]|e] eqn:Hf;
        try discriminate.
      destruct (CsvIO.all_rows io template_md filterID c' 0 rest) as [rows'|] eqn:Hr;
        try discriminate.
      injection H as <-. simpl. f_equal; [|eapply IH; exact Hr].
      apply read_fields_date in Hf. exact Hf.
Qed.

Lemma sorted_snoc (R : Date -> Date -> Prop) (l : list Date) (a : Date) :
  StronglySorted R l -> Forall (fun x => R x a) l -> StronglySorted R (l ++ [a]).
Proof.
  induction 1 as [|b l Hs IH Hall]; intros Ha; simpl.
  - constructor; constructor.
  - inversion Ha as [|? ? Hba Ha']; subst. constructor; [apply IH; exact Ha'|].
    apply Forall_app. split; [exact Hall | constructor; [exact Hba | constructor]].
Qed.

Lemma sorted_rev (l : list Date) :
  StronglySorted later_or_same l -> StronglySorted earlier_or_same (rev l).
Proof.
  induction 1 as [|a l Hs IH Hall]; simpl; [constructor|].
  apply sorted_snoc; [exact IH|].
  apply Forall_rev. exact Hall.
Qed.

Lemma sorted_filter_rows (P : Date * MeteoData.t -> bool) (rows : list (Date * MeteoData.t)) :
  StronglySorted earlier_or_same (map fst rows) ->
  StronglySorted earlier_or_same (map fst (filter P rows)).
Proof.
  induction rows as [|r rows IH]; simpl; intros H; [constructor|].
  inversion H as [|? ? Hs Hall]; subst.
  destruct (P r); [|apply IH; exact Hs].
  simpl. constructor; [apply IH; exact Hs|].
  rewrite Forall_map in *. rewrite Forall_forall in *.
  intros x Hx. apply Hall. apply filter_In in Hx. tauto.
Qed.

Lemma bounded_read (io : CsvIO.t) (p : CsvParameters.t) (file : list string)
    (dateStart dateEnd : Date) (rows : list (Date * MeteoData.t)) :
  CsvIO.units_mismatch p = false ->
  CsvIO.indexer_of (CsvParameters.file_and_path p) (CsvIO.indexer_map io) = [] ->
  CsvIO.all_rows io (CsvIO.createTemplate p)
    (CsvIO.filter_ID_of p (CsvIO.createTemplate p))
    (CsvIO.mk_cursor p (CsvIO.skip_count p) (List.length (CsvParameters.csv_fields p)))
    0 (skipn (CsvIO.skip_count p) file) = Some rows ->
  in_file_order (CsvParameters.asc_order p) (map fst rows) ->
  let out := kept dateStart dateEnd (if CsvParameters.asc_order p then rows else rev rows) in
  fst (fst (CsvIO.readCSVFile io p file dateStart dateEnd)) = Ok out
  /\ StronglySorted earlier_or_same (map MeteoData.date out).
Proof.
  intros Hunits Hidx Hrows Hord out. split.
  - unfold CsvIO.readCSVFile. rewrite Hunits, Hidx.
    unfold CsvIO.start_of. cbn [FileIndexer.getIndex FileIndexer.best option_map].
    destruct (read_lines_in_order io (CsvIO.createTemplate p)
                (CsvIO.filter_ID_of p (CsvIO.createTemplate p)) dateStart dateEnd
                (skipn (CsvIO.skip_count p) file)
                (CsvIO.mk_loop
                   (CsvIO.mk_cursor p (CsvIO.skip_count p)
                      (List.length (CsvParameters.csv_fields p))) [] [])
                0 (CsvIO.skip_count p) rows Hrows Hord) as (s' & Hrun & Hvec).
    rewrite Hrun. cbn [fst]. rewrite Hvec. cbn [CsvIO.vecMeteo app].
    unfold out. destruct (CsvParameters.asc_order p); [reflexivity|].
    unfold kept. rewrite filter_rev, map_rev. reflexivity.
  - assert (Hdates : map MeteoData.date out
                     = map fst (filter (fun r => CsvIO.in_range dateStart dateEnd (fst r))
                                  (if CsvParameters.asc_order p then rows else rev rows))).
    { unfold out, kept. rewrite map_map.
      pose proof (all_rows_dates _ _ _ _ _ _ _ Hrows) as Hd.
      assert (Hrev : forall l : list (Date * MeteoData.t),
                 map (fun r => MeteoData.date (snd r)) l = map fst l ->
                 forall P, map (fun r => MeteoData.date (snd r)) (filter P l)
                           = map fst (filter P l)).
      { intros l. induction l as [|r l IHl]; intros Hl P; [reflexivity|].
        simpl in Hl. injection Hl as Hr Hl. simpl. destruct (P r); simpl.
        - rewrite Hr, (IHl Hl). reflexivity.
        - apply IHl. exact Hl. }
      apply Hrev. destruct (CsvParameters.asc_order p); [exact Hd|].
      rewrite !map_rev, Hd. reflexivity. }
    rewrite Hdates. apply sorted_filter_rows.
    unfold in_file_order in Hord. destruct (CsvParameters.asc_order p); [exact Hord|].
    rewrite map_rev. apply sorted_rev. exact Hord.
Qed.

End BoundedReadResult.

Section FileOrder.
Context `{E : Externals}.
Variable parseFields : CsvParameters.t -> result CsvParameters.t.
Variable c0 : CsvParameters.t.

Lemma transitions_enough (n : CsvParameters.scan_counts) (dates : list Date) :
  CsvParameters.enough n = true -> CsvParameters.transitions n dates = n.
Proof. intros H. destruct dates; simpl; [reflexivity | rewrite H; reflexivity]. Qed.

(** The counts of the pre-reading are the transitions of the timestamps
    that it resolves. *)
Lemma setFile_loop_counts (fuel : nat) :
  forall file c n c' n',
    CsvParameters.enough n = false ->
    CsvParameters.setFile_loop parseFields c0 fuel c n file = Ok (c', n') ->
    n' = CsvParameters.transitions n (CsvParameters.probed_dates parseFields c0 fuel c file).
Proof.
  induction fuel as [|fuel IH]; intros file c n c' n' Hn H.
  - simpl in H. injection H as _ <-. reflexivity.
  - destruct file as [|line rest].
    + simpl in H. injection H as _ <-. reflexivity.
    + cbn [CsvParameters.setFile_loop CsvParameters.probed_dates] in *.
      destruct (CsvParameters.probe_line parseFields c0 c _ line) as [[| e | | |dt] c1].
      * injection H as _ <-. reflexivity.
      * discriminate.
      * eapply IH; eassumption.
      * rewrite Hn in H. eapply IH; eassumption.
      * cbn [CsvParameters.transitions]. rewrite Hn.
        destruct (CsvParameters.enough (CsvParameters.count_transition n dt)) eqn:Hn'.
        -- injection H as _ <-. rewrite transitions_enough by exact Hn'. reflexivity.
        -- eapply IH; eassumption.
Qed.

Hypothesis parseFields_order :
  forall q q', parseFields q = Ok q' ->
               CsvParameters.asc_order q' = CsvParameters.asc_order q.

Lemma probe_line_asc_order (c : CsvParameters.scan_cursor) (eof : bool) (line : string) :
  forall r c',
    CsvParameters.probe_line parseFields c0 c eof line = (r, c') ->
    (forall e, r <> CsvParameters.Fail e) ->
    CsvParameters.asc_order (CsvParameters.sc_params c')
    = CsvParameters.asc_order (CsvParameters.sc_params c).
Proof.
  intros r c' H Hr. unfold CsvParameters.probe_line in H.
  pose proof (parseDate_asc_order (CsvParameters.sc_params c)) as Hpd.
  revert H. break_match; intros H; injection H as <- <-; simpl; try reflexivity;
    try (exfalso; eapply Hr; reflexivity);
    try (eapply parseFields_order; eassumption);
    match goal with
    | Hx : CsvParameters.parseDate _ ?v = _ |- _ =>
        specialize (Hpd v); rewrite Hx in Hpd; exact Hpd
    end.
Qed.

Lemma setFile_loop_asc_order (fuel : nat) :
  forall file c n c' n',
    CsvParameters.setFile_loop parseFields c0 fuel c n file = Ok (c', n') ->
    CsvParameters.asc_order (CsvParameters.sc_params c')
    = CsvParameters.asc_order (CsvParameters.sc_params c).
Proof.
  induction fuel as [|fuel IH]; intros file c n c' n' H.
  - simpl in H. injection H as <- _. reflexivity.
  - destruct file as [|line rest].
    + simpl in H. injection H as <- _. reflexivity.
    + cbn [CsvParameters.setFile_loop] in H.
      destruct (CsvParameters.probe_line parseFields c0 c _ line) as [r c1] eqn:Hp.
      assert (Hc1 : (forall e, r <> CsvParameters.Fail e) ->
                    CsvParameters.asc_order (CsvParameters.sc_params c1)
                    = CsvParameters.asc_order (CsvParameters.sc_params c))
        by (apply (probe_line_asc_order _ _ _ _ _ Hp)).
      destruct r as [| e | | |dt].
      * injection H as <- _. apply Hc1. discriminate.
      * discriminate.
      * rewrite (IH _ _ _ _ _ H). apply Hc1. discriminate.
      * destruct (CsvParameters.enough n).
        -- injection H as <- _. apply Hc1. discriminate.
        -- rewrite (IH _ _ _ _ _ H). apply Hc1. discriminate.
      * destruct (CsvParameters.enough (CsvParameters.count_transition n dt)).
        -- injection H as <- _. apply Hc1. discriminate.
        -- rewrite (IH _ _ _ _ _ H). apply Hc1. discriminate.
Qed.

End FileOrder.

Section FileOrderDecision.
Context `{E : Externals}.

Lemma setFile_order (parseFields : CsvParameters.t -> result CsvParameters.t)
    (p : CsvParameters.t) (file : list string) (p' : CsvParameters.t) :
  (forall q q', parseFields q = Ok q' ->
                CsvParameters.asc_order q' = CsvParameters.asc_order q) ->
  CsvParameters.setFile parseFields p file = Ok p' ->
  let n := CsvParameters.transitions (CsvParameters.mk_counts Undef 0 0)
             (CsvParameters.probed_dates parseFields p
                (CsvParameters.header_lines p + 1000) (CsvParameters.scan_start p) file) in
  CsvParameters.asc_order p'
  = if CsvParameters.count_asc n <? CsvParameters.count_dsc n
    then false else CsvParameters.asc_order p.
Proof.
  intros Hpf H n. unfold CsvParameters.setFile in H.
  destruct (CsvParameters.setFile_loop parseFields p _ _ _ file) as [[c n']|e] eqn:Hloop;
    [|discriminate].
  pose proof (setFile_loop_counts parseFields p _ _ _ _ _ _ (eq_refl : CsvParameters.enough (CsvParameters.mk_counts Undef 0 0) = false) Hloop) as Hn.
  pose proof (setFile_loop_asc_order parseFields p Hpf _ _ _ _ _ _ Hloop) as Ha.
  simpl in Ha. fold n in Hn. subst n'.
  destruct (negb (CsvDateTime.isSet _)); [discriminate|].
  injection H as <-.
  destruct (CsvParameters.count_asc n <? CsvParameters.count_dsc n); simpl;
    [reflexivity | exact Ha].
Qed.

End FileOrderDecision.

Section Fields.
Context `{E : Externals}.
Variables (io : CsvIO.t) (p : CsvParameters.t).

Lemma is_data_nodata : CsvIO.is_data IOUtils_nodata = false.
Proof. unfold CsvIO.is_data. rewrite Qeq_bool_refl. reflexivity. Qed.

Lemma to_SI_nodata (ii : nat) : CsvIO.to_SI p ii IOUtils_nodata = IOUtils_nodata.
Proof.
  unfold CsvIO.to_SI. rewrite is_data_nodata, !andb_false_r, is_data_nodata, andb_false_r.
  reflexivity.
Qed.

(** A token that stands for "no data" by its spelling stores nothing. *)
Lemma read_fields_nodata_token (ii : nat) (tok : string) (post : list string)
    (md : MeteoData.t) (no_errors : bool) :
  CsvIO.skipped p ii = false ->
  CsvIO.is_nodata_token (CsvParameters.nodata p) tok = true ->
  CsvIO.read_fields io p ii (tok :: post) md no_errors
  = CsvIO.read_fields io p (S ii) post md no_errors.
Proof. intros Hs Hn. simpl. rewrite Hs, Hn. reflexivity. Qed.

Lemma read_fields_nan (ii : nat) (tok : string) (post : list string)
    (md : MeteoData.t) (no_errors : bool) :
  CsvIO.skipped p ii = false ->
  CsvIO.is_nodata_token (CsvParameters.nodata p) tok = false ->
  tok = "NAN" \/ tok = "NULL" ->
  CsvIO.read_fields io p ii (tok :: post) md no_errors
  = CsvIO.read_fields io p (S ii) post
      (MeteoData.set (at_ (CsvParameters.csv_fields p) ii) IOUtils_nodata md) no_errors.
Proof.
  intros Hs Hn Ht. simpl. rewrite Hs, Hn.
  destruct Ht as [-> | ->]; reflexivity.
Qed.

(** NAN and NULL are not taken for the nodata marker unless they are the
    marker: within quotes the marker starts with a quote. *)
Lemma nan_is_no_marker (tok : string) :
  tok = "NAN" \/ tok = "NULL" ->
  tok <> CsvParameters.nodata p ->
  CsvIO.is_nodata_token (CsvParameters.nodata p) tok = false.
Proof.
  intros Htok Hne. unfold CsvIO.is_nodata_token.
  apply String.eqb_neq in Hne. rewrite Hne.
  destruct Htok as [-> | ->]; reflexivity.
Qed.


Lemma unparsable_inv (tok : string) :
  unparsable p tok = true ->
  CsvIO.is_nodata_token (CsvParameters.nodata p) tok = false
  /\ String.eqb tok "NAN" || String.eqb tok "NULL" = false
  /\ convertString_double tok = None.
Proof.
  unfold unparsable. rewrite !andb_true_iff, !negb_true_iff.
  destruct (convertString_double tok); intuition discriminate.
Qed.

Lemma read_fields_unparsable (ii : nat) (tok : string) (post : list string)
    (md : MeteoData.t) (no_errors : bool) :
  CsvIO.skipped p ii = false ->
  unparsable p tok = true ->
  CsvIO.read_fields io p ii (tok :: post) md no_errors
  = if CsvIO.silent_errors io then CsvIO.read_fields io p (S ii) post md false
    else if CsvIO.errors_to_nodata io
    then CsvIO.read_fields io p (S ii) post
           (MeteoData.set (at_ (CsvParameters.csv_fields p) ii) IOUtils_nodata md) no_errors
    else Throw InvalidFormatException.
Proof.
  intros Hs Hu. apply unparsable_inv in Hu as (Hn & Ht & Hc).
  simpl. rewrite Hs, Hn, Ht, Hc, to_SI_nodata. reflexivity.
Qed.

Lemma read_fields_app (pre : list string) :
  forall ii post md no_errors,
    CsvIO.read_fields io p ii (pre ++ post) md no_errors
    = match CsvIO.read_fields io p ii pre md no_errors with
      | Ok (md1, ne1) => CsvIO.read_fields io p (List.length pre + ii) post md1 ne1
      | Throw e => Throw e
      end.
Proof.
  induction pre as [|tok pre IH]; intros ii post md ne; [reflexivity|].
  cbn [app CsvIO.read_fields List.length].
  replace (S (List.length pre) + ii) with (List.length pre + S ii) by lia.
  destruct (CsvIO.skipped p ii); [apply IH|].
  destruct (CsvIO.is_nodata_token (CsvParameters.nodata p) tok); [apply IH|].
  destruct (String.eqb tok "NAN" || String.eqb tok "NULL"); [apply IH|].
  destruct (convertString_double tok); [apply IH|].
  destruct (CsvIO.silent_errors io); [apply IH|].
  destruct (CsvIO.errors_to_nodata io); [apply IH | reflexivity].
Qed.

(** With the silent errors policy no line raises an exception, and a flag
    that is down stays down. *)
Lemma read_fields_silent (tokens : list string) :
  CsvIO.silent_errors io = true ->
  forall ii md no_errors,
    exists md' ne', CsvIO.read_fields io p ii tokens md no_errors = Ok (md', ne')
                    /\ (no_errors = false -> ne' = false).
Proof.
  intros Hsil. induction tokens as [|tok tokens IH]; intros ii md ne.
  - exists md, ne. split; [reflexivity | trivial].
  - simpl. rewrite Hsil. break_match; try apply IH.
    destruct (IH (S ii) md false) as (md' & ne' & H & Hne).
    exists md', ne'. split; [exact H | intros _; apply Hne; reflexivity].
Qed.

(** With the errors-to-nodata policy alone no line raises an exception
    either, and the flag is not touched. *)
Lemma read_fields_to_nodata (tokens : list string) :
  CsvIO.silent_errors io = false -> CsvIO.errors_to_nodata io = true ->
  forall ii md no_errors,
    exists md', CsvIO.read_fields io p ii tokens md no_errors = Ok (md', no_errors).
Proof.
  intros Hsil He2n. induction tokens as [|tok tokens IH]; intros ii md ne.
  - exists md. reflexivity.
  - simpl. rewrite Hsil, He2n. break_match; apply IH.
Qed.

(** With neither policy, the tokens before an unparsable one may already
    raise the exception; if they do not, the unparsable token does. *)
Lemma read_fields_fatal (pre : list string) (tok : string) (post : list string)
    (md : MeteoData.t) (no_errors : bool) :
  CsvIO.silent_errors io = false -> CsvIO.errors_to_nodata io = false ->
  CsvIO.skipped p (List.length pre) = false ->
  unparsable p tok = true ->
  CsvIO.read_fields io p 0 (pre ++ tok :: post) md no_errors = Throw InvalidFormatException.
Proof.
  intros Hsil He2n Hs Hu. rewrite read_fields_app, Nat.add_0_r.
  assert (Hpre : forall tokens ii md ne,
             (exists r, CsvIO.read_fields io p ii tokens md ne = Ok r)
             \/ CsvIO.read_fields io p ii tokens md ne = Throw InvalidFormatException).
  { induction tokens as [|t tokens IH]; intros ii md0 ne0.
    - left. eexists. reflexivity.
    - simpl. rewrite Hsil, He2n. break_match; try apply IH. right. reflexivity. }
  destruct (Hpre pre 0 md no_errors) as [[[md1 ne1] Hr] | Hr]; rewrite Hr; [|reflexivity].
  rewrite read_fields_unparsable by assumption. rewrite Hsil, He2n. reflexivity.
Qed.

End Fields.

Section FieldNames.
Context `{E : Externals}.
Variables (io : CsvIO.t) (p : CsvParameters.t) (name : string).

Lemma lookup_assign_same (v : Q) (l : list (string * Q)) :
  forall x, MeteoData.lookup name l = Some x ->
            MeteoData.lookup name (MeteoData.assign name v l) = Some v.
Proof.
  induction l as [|[n y] l IH]; intros x H; simpl in *; [discriminate|].
  destruct (String.eqb n name) eqn:Hn; simpl; rewrite Hn; [reflexivity|].
  eapply IH. exact H.
Qed.

Lemma lookup_assign_other (n : string) (v : Q) (l : list (string * Q)) :
  String.eqb n name = false ->
  MeteoData.lookup name (MeteoData.assign n v l) = MeteoData.lookup name l.
Proof.
  intros Hn. induction l as [|[m y] l IH]; simpl; [reflexivity|].
  destruct (String.eqb m n) eqn:Hm; simpl.
  - apply String.eqb_eq in Hm. subst m. rewrite Hn. reflexivity.
  - destruct (String.eqb m name); [reflexivity | exact IH].
Qed.

Lemma name_unshared_app (k : nat) (a : nat) :
  forall jj b,
    name_unshared p name k jj (a + b)
    = name_unshared p name k jj a && name_unshared p name k (a + jj) b.
Proof.
  induction a as [|a IH]; intros jj b; [reflexivity|].
  cbn [Nat.add name_unshared]. rewrite IH, andb_assoc.
  replace (a + S jj) with (S (a + jj)) by lia. reflexivity.
Qed.

(** The columns stored under other names leave the field as it is. *)
Lemma read_fields_other_names (k : nat) (tokens : list string) :
  forall ii md no_errors md' ne',
    name_unshared p name k ii (List.length tokens) = true ->
    (k < ii \/ ii + List.length tokens <= k) ->
    CsvIO.read_fields io p ii tokens md no_errors = Ok (md', ne') ->
    MeteoData.get name md' = MeteoData.get name md.
Proof.
  induction tokens as [|tok tokens IH]; intros ii md ne md' ne' Hun Hk H.
  - simpl in H. injection H as <- _. reflexivity.
  - cbn [List.length name_unshared] in Hun.
    apply andb_true_iff in Hun as [Hii Hun].
    assert (Hk' : k < S ii \/ S ii + List.length tokens <= k) by (simpl in Hk; lia).
    assert (Hne : Nat.eqb ii k = false) by (apply Nat.eqb_neq; simpl in Hk; lia).
    rewrite Hne in Hii. simpl in Hii.
    simpl in H. destruct (CsvIO.skipped p ii) eqn:Hskip.
    + eapply IH; eassumption.
    + simpl in Hii. apply negb_true_iff in Hii.
      assert (Hset : forall v, MeteoData.get name
                                 (MeteoData.set (at_ (CsvParameters.csv_fields p) ii) v md)
                               = MeteoData.get name md).
      { intros v. unfold MeteoData.get, MeteoData.set. simpl.
        apply lookup_assign_other. exact Hii. }
      revert H.
      destruct (CsvIO.is_nodata_token (CsvParameters.nodata p) tok);
        [intros H; eapply IH; eassumption|].
      destruct (String.eqb tok "NAN" || String.eqb tok "NULL");
        [intros H; rewrite <- (Hset IOUtils_nodata); eapply IH; eassumption|].
      destruct (convertString_double tok) as [tmp|].
      * intros H. rewrite <- (Hset (CsvIO.to_SI p ii tmp)). eapply IH; eassumption.
      * destruct (CsvIO.silent_errors io); [intros H; eapply IH; eassumption|].
        destruct (CsvIO.errors_to_nodata io); [|discriminate].
        intros H. rewrite <- (Hset (CsvIO.to_SI p ii IOUtils_nodata)).
        eapply IH; eassumption.
Qed.

Lemma createTemplate_nodata :
  Forall (fun f => snd f = IOUtils_nodata) (MeteoData.fields (CsvIO.createTemplate p)).
Proof.
  unfold CsvIO.createTemplate.
  assert (H : forall names ii md,
             Forall (fun f => snd f = IOUtils_nodata) (MeteoData.fields md) ->
             Forall (fun f => snd f = IOUtils_nodata)
               (MeteoData.fields (CsvIO.declare_fields p ii names md))).
  { induction names as [|n names IH]; intros ii md Hmd; simpl; [exact Hmd|].
    destruct (CsvIO.skipped p ii); apply IH; [exact Hmd|].
    unfold MeteoData.addParameter. destruct (MeteoData.declared n (MeteoData.fields md));
      [exact Hmd|].
    simpl. apply Forall_app. split; [exact Hmd | repeat constructor]. }
  apply H. constructor.
Qed.

End FieldNames.

(** * The claims *)

(** C1 (amended).  A date/time pattern made of at least three different
    markers among YYYY, MM, DD, HH24, MI and SS and of literal characters
    other than Y, M, D, H, I, S, Z, % and NUL, in which the seconds are the
    last piece or are followed by a literal that cannot continue a number,
    is accepted by [setDateTimeSpec]; resolving the combined date/time
    string that has the literals of the pattern and every field written
    with all its digits yields the timestamp with exactly these values of
    year, month, day, hour, minute and second, and zero for the fields that
    the pattern does not have. *)
Theorem C1_pattern_roundtrip `{E : Externals} :
  sscanf_conforms ->
  forall (p : CsvParameters.t) (pat : Pattern.t) (v : Pattern.key -> nat)
         (time_str : string),
    CsvParameters.datetime_idx p = [] ->
    CsvParameters.time_idx p = [] ->
    CsvParameters.has_tz p = false ->
    NoDup (Pattern.keys pat) ->
    3 <= List.length (Pattern.keys pat) ->
    Pattern.literals_plain pat = true ->
    Pattern.seconds_delimited pat = true ->
    (forall k, v k < 10 ^ Pattern.width k) ->
    exists p',
      CsvParameters.setDateTimeSpec p (Pattern.spec pat) = Ok p'
      /\ CsvParameters.parseDate_str p' (Pattern.timestamp pat v) time_str
         = DateYMD (Pattern.field pat v YYYY) (Pattern.field pat v MM)
             (Pattern.field pat v DD) (Pattern.field pat v HH24)
             (Pattern.field pat v MI) (inject_Z (Pattern.field pat v SS))
             (CsvParameters.csv_tz p).
Proof.
  intros Hconf p pat v time_str Hidx Htime Htz Hnd H3 Hp Hs Hv.
  eexists. split.
  - apply setDateTimeSpec_pattern; assumption.
  - apply parseDate_str_pattern; assumption.
Qed.

Lemma C1_pattern_roundtrip_iso :
  exists p',
    CsvParameters.setDateTimeSpec Examples.blank "YYYY-MM-DDTHH24:MI:SS" = Ok p'
    /\ @CsvParameters.parseDate_str Examples.externals p' "2020-01-05T08:30:00" ""
       = DateYMD 2020 1 5 8 30 0 0.
Proof.
  apply (@C1_pattern_roundtrip Examples.externals) with
    (p := Examples.blank) (pat := Examples.iso_pattern) (v := Examples.iso_values)
    (time_str := EmptyString).
  - intros input format items H. simpl. unfold Reference.sscanf. rewrite H. reflexivity.
  - reflexivity.
  - reflexivity.
  - reflexivity.
  - repeat constructor; simpl; intuition discriminate.
  - simpl. lia.
  - reflexivity.
  - reflexivity.
  - intros k. destruct k; vm_compute; lia.
Defined.

Lemma C1_two_markers_unresolved :
  exists p',
    CsvParameters.setDateTimeSpec Examples.blank "YYYY-MM" = Ok p'
    /\ @CsvParameters.parseDate_str Examples.externals p' "2020-01" "" = Undef.
Proof. eexists. split; reflexivity. Qed.

(** C2 (amended).  When no year column exists and a fallback year is
    configured, a record gets the year before the configured year exactly
    when auto-wrap is enabled and neither this record nor any record before
    it has a julian day below 273 (a month below 10); the first record
    below day 273 (month 10) and all the records after it get the
    configured year itself. *)
Theorem C2_fallback_year_until_first_early_record `{E : Externals} :
  forall d : CsvDateTime.t,
    CsvDateTime.year_cst d <> IOUtils_inodata ->
    (forall (before : list Q) (jdn : Q) (after : list Q),
        nth (List.length before) (years_by_jdn d (before ++ jdn :: after)) 0%Z
        = (if CsvDateTime.auto_wrap d && forallb (Qle_bool 273) (before ++ [jdn])
           then CsvDateTime.year_cst d - 1 else CsvDateTime.year_cst d)%Z)
    /\ (forall (before : list Z) (month : Z) (after : list Z),
           nth (List.length before) (years_by_month d (before ++ month :: after)) 0%Z
           = (if CsvDateTime.auto_wrap d && forallb (Z.leb 10) (before ++ [month])
              then CsvDateTime.year_cst d - 1 else CsvDateTime.year_cst d)%Z).
Proof.
  intros d Hcst. split.
  - intros before jdn after. apply years_by_jdn_nth. exact Hcst.
  - intros before month after. apply years_by_month_nth. exact Hcst.
Qed.

Lemma C2_logger_wraps_into_january :
  nth 0 (@years_by_jdn Examples.externals Examples.fallback_2020 [350; 10]%Q) 0%Z = 2019%Z
  /\ nth 1 (@years_by_jdn Examples.externals Examples.fallback_2020 [350; 10]%Q) 0%Z = 2020%Z.
Proof.
  assert (H : CsvDateTime.year_cst Examples.fallback_2020
              <> @IOUtils_inodata Examples.externals) by (simpl; lia).
  split.
  - exact (proj1 (@C2_fallback_year_until_first_early_record Examples.externals
                    Examples.fallback_2020 H) [] 350%Q [10%Q]).
  - exact (proj1 (@C2_fallback_year_until_first_early_record Examples.externals
                    Examples.fallback_2020 H) [350%Q] 10%Q []).
Defined.

Lemma C2_early_record_gets_configured_year :
  fst (CsvDateTime.getFixedYear_jdn Examples.fallback_2020 10) = 2020%Z
  /\ fst (CsvDateTime.getFixedYear_jdn Examples.fallback_2020 350) = 2019%Z
  /\ fst (CsvDateTime.getFixedYear_month Examples.fallback_2020 1) = 2020%Z
  /\ fst (CsvDateTime.getFixedYear_month Examples.fallback_2020 12) = 2019%Z.
Proof. repeat split; reflexivity. Qed.

(** C3 (the code departs from the claim).  The logger file is read twice
    with the same parameter object and without any entry in the position
    index.  The first call gives the December row the year 2019; it leaves
    auto-wrap disabled in the parameters, so the second call gives the same
    row the year 2020. *)
Theorem C3_second_read_differs :
  let first := @CsvIO.readCSVFile Examples.externals Examples.plugin
                 Examples.logger_layout Examples.logger_file
                 Examples.year_1900 Examples.year_2100 in
  let second := @CsvIO.readCSVFile Examples.externals Examples.plugin
                  (snd (fst first)) Examples.logger_file
                  Examples.year_1900 Examples.year_2100 in
  map Examples.year_of (Examples.records first) = [Some 2019; Some 2020]%Z
  /\ map Examples.year_of (Examples.records second) = [Some 2020; Some 2020]%Z
  /\ CsvIO.indexer_map (snd first) = [("station.csv", [])]
  /\ fst (fst first) <> fst (fst second).
Proof.
  cbv zeta. repeat split; try (vm_compute; reflexivity).
  vm_compute. intros H. discriminate H.
Qed.

(** C4 (amended).  While scanning the data rows forward, [readCSVFile]
    records a (timestamp, position) entry at the fixed cadence of
    [streampos_every_n_lines] lines for every row that it resolves,
    whatever order was determined for the file.  The order only decides
    whether the index is used: for a file in descending order the reading
    never starts at an indexed position. *)
Theorem C4_index_recorded_in_any_order `{E : Externals} :
  (forall (io : CsvIO.t) (template_md : MeteoData.t) (filterID : string)
          (dateStart dateEnd : Date) (s : CsvIO.loop_state)
          (fpointer : option nat) (line : string),
      CsvIO.indexer
        (snd (CsvIO.read_line io template_md filterID dateStart dateEnd s fpointer line))
      = match CsvIO.resolve_line io filterID (CsvIO.cur s) line with
        | (CsvIO.Row _ dt, c) =>
            CsvIO.record_index (CsvIO.linenr c) fpointer dt (CsvIO.indexer s)
        | (CsvIO.NoRow _, _) => CsvIO.indexer s
        end)
  /\ (forall (linenr pos : nat) (dt : Date) (idx : FileIndexer.t),
         linenr mod CsvIO.streampos_every_n_lines = 0 ->
         CsvIO.record_index linenr (Some pos) dt idx = idx ++ [(dt, pos)])
  /\ (forall (p : CsvParameters.t) (idx : FileIndexer.t) (dateStart : Date),
         CsvParameters.asc_order p = false ->
         CsvIO.start_of p idx dateStart = (CsvIO.skip_count p, CsvIO.skip_count p)).
Proof.
  split; [|split].
  - intros io template_md filterID dateStart dateEnd s fpointer line.
    unfold CsvIO.read_line.
    destruct (CsvIO.resolve_line io filterID (CsvIO.cur s) line) as [[a|tmp_vec dt] c];
      [reflexivity|].
    destruct (CsvIO.range_check _ dt dateStart dateEnd); [reflexivity|].
    destruct (CsvIO.read_fields io (CsvIO.params c) 0 tmp_vec _ true) as [[md ne]|e];
      reflexivity.
  - intros linenr pos dt idx H. unfold CsvIO.record_index. rewrite H. reflexivity.
  - intros p idx dateStart H. unfold CsvIO.start_of. rewrite H.
    destruct (FileIndexer.getIndex dateStart idx); reflexivity.
Qed.

Lemma C4_descending_file_starts_after_header :
  @CsvIO.start_of Examples.externals Examples.descending_layout
    [(Examples.julian 57002, 2000)] (Examples.julian 57000) = (1, 1).
Proof.
  apply (proj2 (proj2 (@C4_index_recorded_in_any_order Examples.externals))).
  reflexivity.
Defined.

Lemma C4_descending_file_is_indexed :
  CsvParameters.asc_order Examples.descending_layout = false
  /\ CsvIO.indexer_map
       (snd (@CsvIO.readCSVFile Examples.externals Examples.plugin
               Examples.descending_layout Examples.descending_file
               Examples.year_1900 Examples.year_2100))
     = [("station.csv", [(Examples.julian 57002, 2000)])].
Proof. split; [reflexivity | vm_compute; reflexivity]. Qed.

(** C5 (the code departs from the claim).  A file of 2001 daily rows in
    ascending order is read once over all its rows: the position that
    follows the line 2000, the row of the day 58998, goes to the index of
    the file under the timestamp of that row.  A bounded read over
    [58998, 58999] on a plugin object without index returns the rows of both
    days.  The same read after the first one starts from the indexed
    position, past the row whose timestamp equals [dateStart]: it returns
    the row of the day 58999 alone. *)
Theorem C5_indexed_read_loses_the_row_at_dateStart :
  let layout := Examples.julian_layout ["TIMESTAMP"; "TA"] in
  let first := @CsvIO.readCSVFile Examples.externals Examples.plugin layout
                 Examples.ascending_file Examples.year_1900 Examples.year_2100 in
  let fresh := @CsvIO.readCSVFile Examples.externals Examples.plugin layout
                 Examples.ascending_file (Examples.julian 58998) (Examples.julian 58999) in
  let again := @CsvIO.readCSVFile Examples.externals (snd first) (snd (fst first))
                 Examples.ascending_file (Examples.julian 58998) (Examples.julian 58999) in
  List.length (Examples.records first) = 2001
  /\ snd (fst first) = layout
  /\ CsvIO.indexer_map (snd first) = [("station.csv", [(Examples.julian 58998, 2000)])]
  /\ nth_error Examples.ascending_file 1999 = Some "58998,1.5"
  /\ map MeteoData.date (Examples.records fresh)
     = [Examples.julian 58998; Examples.julian 58999]
  /\ map MeteoData.date (Examples.records again) = [Examples.julian 58999].
Proof.
  cbv zeta.
  split; [|split; [|split; [|split; [|split]]]]; vm_compute; reflexivity.
Qed.

(** C6.  A row within the requested range has a measurement token that
    cannot be converted to a number.  Under the silent-errors policy the
    row is dropped from the output, also when the errors-to-nodata policy
    is set as well; under the errors-to-nodata policy alone the row is kept,
    the nodata sentinel being stored in the field of that column while the
    other columns are read as usual; with neither policy the read ends
    with an exception. *)
Theorem C6_parse_failure_policies `{E : Externals} :
  forall (io : CsvIO.t) (template_md : MeteoData.t) (filterID : string)
         (dateStart dateEnd : Date) (s : CsvIO.loop_state) (fpointer : option nat)
         (line : string) (pre : list string) (tok : string) (post : list string)
         (dt : Date) (c : CsvIO.cursor),
    CsvIO.resolve_line io filterID (CsvIO.cur s) line = (CsvIO.Row (pre ++ tok :: post) dt, c) ->
    CsvIO.range_check (CsvParameters.asc_order (CsvIO.params c)) dt dateStart dateEnd = None ->
    CsvIO.skipped (CsvIO.params c) (List.length pre) = false ->
    unparsable (CsvIO.params c) tok = true ->
    let idx := CsvIO.record_index (CsvIO.linenr c) fpointer dt (CsvIO.indexer s) in
    let name := at_ (CsvParameters.csv_fields (CsvIO.params c)) (List.length pre) in
    let md0 := MeteoData.setDate dt template_md in
    let step := CsvIO.read_line io template_md filterID dateStart dateEnd s fpointer line in
    (CsvIO.silent_errors io = true ->
       step = (CsvIO.Continue, CsvIO.mk_loop c idx (CsvIO.vecMeteo s)))
    /\ (CsvIO.silent_errors io = false -> CsvIO.errors_to_nodata io = true ->
          exists md1 md,
            CsvIO.read_fields io (CsvIO.params c) 0 pre md0 true = Ok (md1, true)
            /\ CsvIO.read_fields io (CsvIO.params c) (S (List.length pre)) post
                 (MeteoData.set name IOUtils_nodata md1) true = Ok (md, true)
            /\ step = (CsvIO.Continue, CsvIO.mk_loop c idx (CsvIO.vecMeteo s ++ [md])))
    /\ (CsvIO.silent_errors io = false -> CsvIO.errors_to_nodata io = false ->
          fst step = CsvIO.Raise InvalidFormatException).
Proof.
  intros io template_md filterID dateStart dateEnd s fpointer line pre tok post dt c
    Hres Hrange Hskip Hbad idx name md0 step.
  assert (Hstep : step
                  = match CsvIO.read_fields io (CsvIO.params c) 0 (pre ++ tok :: post) md0 true with
                    | Ok (md, no_errors) =>
                        (CsvIO.Continue,
                         CsvIO.mk_loop c idx
                           (if no_errors then CsvIO.vecMeteo s ++ [md] else CsvIO.vecMeteo s))
                    | Throw e => (CsvIO.Raise e, CsvIO.mk_loop c idx (CsvIO.vecMeteo s))
                    end).
  { unfold step, CsvIO.read_line. rewrite Hres, Hrange. reflexivity. }
  rewrite Hstep. clear Hstep step.
  split; [|split].
  - intros Hsil. rewrite read_fields_app, Nat.add_0_r.
    destruct (read_fields_silent io (CsvIO.params c) pre Hsil 0 md0 true)
      as (md1 & ne1 & Hpre & _).
    rewrite Hpre, read_fields_unparsable by assumption. rewrite Hsil.
    destruct (read_fields_silent io (CsvIO.params c) post Hsil (S (List.length pre)) md1 false)
      as (md & ne & Hpost & Hne).
    rewrite Hpost, (Hne eq_refl). reflexivity.
  - intros Hsil He2n. rewrite read_fields_app, Nat.add_0_r.
    destruct (read_fields_to_nodata io (CsvIO.params c) pre Hsil He2n 0 md0 true)
      as (md1 & Hpre).
    rewrite Hpre, read_fields_unparsable by assumption. rewrite Hsil, He2n.
    destruct (read_fields_to_nodata io (CsvIO.params c) post Hsil He2n
                (S (List.length pre)) (MeteoData.set name IOUtils_nodata md1) true)
      as (md & Hpost).
    fold name. rewrite Hpost. exists md1, md. repeat split; reflexivity || assumption.
  - intros Hsil He2n. rewrite read_fields_fatal by assumption. reflexivity.
Qed.

Lemma C6_silent_errors_has_priority :
  @CsvIO.read_line Examples.externals Examples.silent_nodata_plugin
    (@CsvIO.createTemplate Examples.externals (Examples.julian_layout ["TIMESTAMP"; "TA"; "RH"]))
    "STA" Examples.year_1900 Examples.year_2100
    (Examples.after_header (Examples.julian_layout ["TIMESTAMP"; "TA"; "RH"]))
    (Some 2) "59000,abc,50"
  = (CsvIO.Continue,
     CsvIO.mk_loop
       (CsvIO.mk_cursor (Examples.julian_layout ["TIMESTAMP"; "TA"; "RH"]) 2 3) [] []).
Proof.
  apply (proj1 (@C6_parse_failure_policies Examples.externals Examples.silent_nodata_plugin
                  (@CsvIO.createTemplate Examples.externals
                     (Examples.julian_layout ["TIMESTAMP"; "TA"; "RH"]))
                  "STA" Examples.year_1900 Examples.year_2100
                  (Examples.after_header (Examples.julian_layout ["TIMESTAMP"; "TA"; "RH"]))
                  (Some 2) "59000,abc,50" ["59000"] "abc" ["50"] (Examples.julian 59000)
                  (CsvIO.mk_cursor (Examples.julian_layout ["TIMESTAMP"; "TA"; "RH"]) 2 3)
                  ltac:(vm_compute; reflexivity) ltac:(vm_compute; reflexivity)
                  ltac:(reflexivity) ltac:(vm_compute; reflexivity))).
  reflexivity.
Defined.




(** C8 (amended).  A token of a measurement column that is the empty
    string or the nodata marker of the file, bare or within single or
    double quotes, is never converted to a number and stores nothing: the
    field keeps the value that it has, which is the nodata sentinel of the
    template unless another column stored under the same field name has
    written to it.  This holds for NAN and NULL as well when one of them is
    the nodata marker of the file, as NAN is by default.  A token NAN or
    NULL that is not the nodata marker of the file stores the nodata
    sentinel.  If no other column of the row is stored under the same field
    name, the field of the record holds the nodata sentinel in all these
    cases. *)
Theorem C8_nodata_tokens `{E : Externals} :
  forall (io : CsvIO.t) (p : CsvParameters.t) (pre : list string) (tok : string)
         (post : list string),
    let ii := List.length pre in
    let name := at_ (CsvParameters.csv_fields p) ii in
    CsvIO.skipped p ii = false ->
    (forall md no_errors,
        tok = EmptyString \/ tok = CsvParameters.nodata p
        \/ tok = (CsvIO.double_quote ++ CsvParameters.nodata p ++ CsvIO.double_quote)%string
        \/ tok = ("'" ++ CsvParameters.nodata p ++ "'")%string ->
        CsvIO.read_fields io p ii (tok :: post) md no_errors
        = CsvIO.read_fields io p (S ii) post md no_errors)
    /\ (forall md no_errors,
           tok = "NAN" \/ tok = "NULL" ->
           tok <> CsvParameters.nodata p ->
           CsvIO.read_fields io p ii (tok :: post) md no_errors
           = CsvIO.read_fields io p (S ii) post (MeteoData.set name IOUtils_nodata md)
               no_errors)
    /\ Forall (fun f => snd f = IOUtils_nodata) (MeteoData.fields (CsvIO.createTemplate p))
    /\ (forall md0 md no_errors,
           CsvIO.is_nodata_token (CsvParameters.nodata p) tok = true
           \/ tok = "NAN" \/ tok = "NULL" ->
           MeteoData.get name md0 = Some IOUtils_nodata ->
           name_unshared p name ii 0 (List.length (pre ++ tok :: post)) = true ->
           CsvIO.read_fields io p 0 (pre ++ tok :: post) md0 true = Ok (md, no_errors) ->
           MeteoData.get name md = Some IOUtils_nodata).
Proof.
  intros io p pre tok post ii name Hskip. split; [|split; [|split]].
  - intros md no_errors Htok. apply read_fields_nodata_token; [exact Hskip|].
    unfold CsvIO.is_nodata_token.
    destruct Htok as [-> | [-> | [-> | ->]]]; simpl;
      rewrite ?String.eqb_refl, ?orb_true_r; reflexivity.
  - intros md no_errors Htok Hne.
    apply read_fields_nan; [exact Hskip | apply nan_is_no_marker; assumption | exact Htok].
  - apply createTemplate_nodata.
  - intros md0 md no_errors Htok Hmd0 Hun Hread.
    rewrite length_app in Hun. cbn [List.length] in Hun.
    rewrite name_unshared_app in Hun. apply andb_true_iff in Hun as [Hpre Hpost].
    rewrite Nat.add_0_r in Hpost. cbn [name_unshared] in Hpost.
    apply andb_true_iff in Hpost as [_ Hpost].
    rewrite read_fields_app in Hread.
    destruct (CsvIO.read_fields io p 0 pre md0 true) as [[md1 ne1]|e] eqn:Hrpre;
      [|discriminate].
    pose proof (read_fields_other_names io p name ii pre 0 md0 true md1 ne1 Hpre
                  (or_intror (Nat.le_refl _)) Hrpre) as H1.
    rewrite Nat.add_0_r in Hread. fold ii in Hread.
    assert (Hafter : exists md2,
               CsvIO.read_fields io p (S ii) post md2 ne1 = Ok (md, no_errors)
               /\ MeteoData.get name md2 = Some IOUtils_nodata).
    { destruct (CsvIO.is_nodata_token (CsvParameters.nodata p) tok) eqn:Hnd.
      - rewrite read_fields_nodata_token in Hread by assumption.
        exists md1. split; [exact Hread | rewrite H1; exact Hmd0].
      - destruct Htok as [Htok | Htok]; [discriminate|].
        rewrite read_fields_nan in Hread by assumption.
        eexists. split; [exact Hread|].
        unfold MeteoData.get, MeteoData.set. simpl.
        apply (lookup_assign_same name IOUtils_nodata (MeteoData.fields md1) IOUtils_nodata).
        change (MeteoData.get name md1 = Some IOUtils_nodata).
        rewrite H1. exact Hmd0. }
    destruct Hafter as (md2 & Hrpost & Hmd2).
    rewrite (read_fields_other_names io p name ii post (S ii) md2 ne1 md no_errors Hpost
               (or_introl (Nat.lt_succ_diag_r _)) Hrpost).
    exact Hmd2.
Qed.

Lemma C8_marker_scenario :
  @CsvIO.read_fields Examples.externals Examples.plugin
    (Examples.with_nodata "-999" (Examples.julian_layout ["TIMESTAMP"; "TA"]))
    0 ["59000"; "-999"]
    (@CsvIO.createTemplate Examples.externals
       (Examples.with_nodata "-999" (Examples.julian_layout ["TIMESTAMP"; "TA"])))
    true
  = Ok (@CsvIO.createTemplate Examples.externals
          (Examples.with_nodata "-999" (Examples.julian_layout ["TIMESTAMP"; "TA"])),
        true)
  /\ MeteoData.get "TA"
       (@CsvIO.createTemplate Examples.externals
          (Examples.with_nodata "-999" (Examples.julian_layout ["TIMESTAMP"; "TA"])))
     = Some (@IOUtils_nodata Examples.externals).
Proof.
  assert (H : @CsvIO.read_fields Examples.externals Examples.plugin
                (Examples.with_nodata "-999" (Examples.julian_layout ["TIMESTAMP"; "TA"]))
                0 ["59000"; "-999"]
                (@CsvIO.createTemplate Examples.externals
                   (Examples.with_nodata "-999"
                      (Examples.julian_layout ["TIMESTAMP"; "TA"])))
                true
              = Ok (@CsvIO.createTemplate Examples.externals
                      (Examples.with_nodata "-999"
                         (Examples.julian_layout ["TIMESTAMP"; "TA"])),
                    true)) by (vm_compute; reflexivity).
  split; [exact H|].
  apply (proj2 (proj2 (proj2
           (@C8_nodata_tokens Examples.externals Examples.plugin
              (Examples.with_nodata "-999" (Examples.julian_layout ["TIMESTAMP"; "TA"]))
              ["59000"] "-999" [] ltac:(reflexivity))))
         (@CsvIO.createTemplate Examples.externals
            (Examples.with_nodata "-999" (Examples.julian_layout ["TIMESTAMP"; "TA"])))
         (@CsvIO.createTemplate Examples.externals
            (Examples.with_nodata "-999" (Examples.julian_layout ["TIMESTAMP"; "TA"])))
         true).
  - left. reflexivity.
  - reflexivity.
  - reflexivity.
  - exact H.
Defined.

Lemma C8_tokens_that_keep_the_earlier_value :
  CsvParameters.nodata Examples.twice_ISWR = "NAN"
  /\ map (MeteoData.get "ISWR")
       (Examples.records
          (@CsvIO.readCSVFile Examples.externals Examples.plugin Examples.twice_ISWR
             ["TIMESTAMP,ISWR,ISWR"; "59000,5,"; EmptyString]
             Examples.year_1900 Examples.year_2100))
     = [Some 5%Q]
  /\ map (MeteoData.get "ISWR")
       (Examples.records
          (@CsvIO.readCSVFile Examples.externals Examples.plugin Examples.twice_ISWR
             ["TIMESTAMP,ISWR,ISWR"; "59000,5,NAN"; EmptyString]
             Examples.year_1900 Examples.year_2100))
     = [Some 5%Q]
  /\ ~ (5 == @IOUtils_nodata Examples.externals)%Q.
Proof.
  split; [|split; [|split]];
    try (vm_compute; reflexivity); vm_compute; discriminate.
Qed.

(** C9.  With a station ID column configured, the read ends with an
    exception as soon as it reaches a data line with too few tokens to hold
    that column, whatever the error policies are.  A line that passes the
    filter on the station ID and has the wrong number of fields is skipped
    under the silent-errors policy and raises the exception otherwise. *)
Theorem C9_short_line_with_ID_column_aborts `{E : Externals} :
  forall (io : CsvIO.t) (filterID : string) (c : CsvIO.cursor) (line : string),
    let p := CsvIO.params c in
    let cleaned := CsvIO.clean_line p line in
    let tmp_vec := CsvParameters.tokenize (CsvParameters.csv_delim p) cleaned in
    CsvParameters.is_empty cleaned = false ->
    CsvIO.is_header_repeat p cleaned = false ->
    (forall col template_md dateStart dateEnd s pos rest,
        CsvIO.cur s = c ->
        CsvParameters.ID_col p = Some col ->
        List.length tmp_vec <= col ->
        fst (CsvIO.read_lines io template_md filterID dateStart dateEnd s 0 pos
               (line :: rest))
        = Some InvalidFormatException)
    /\ (CsvIO.filter_on_ID p filterID tmp_vec = None ->
        CsvIO.nr_of_data_fields c <> 0 ->
        List.length tmp_vec <> CsvIO.nr_of_data_fields c ->
        fst (CsvIO.resolve_line io filterID c line)
        = CsvIO.NoRow (if CsvIO.silent_errors io then CsvIO.Continue
                       else CsvIO.Raise InvalidFormatException)).
Proof.
  intros io filterID c line p cleaned tmp_vec Hne Hrep. split.
  - intros col template_md dateStart dateEnd s pos rest Hc Hcol Hlen.
    cbn [CsvIO.read_lines]. unfold CsvIO.read_line, CsvIO.resolve_line.
    rewrite Hc. fold p. fold cleaned. rewrite Hne, Hrep. fold tmp_vec.
    unfold CsvIO.filter_on_ID. rewrite Hcol.
    apply Nat.leb_le in Hlen. rewrite Hlen. reflexivity.
  - intros Hid Hnr Hlen. unfold CsvIO.resolve_line.
    fold p. fold cleaned. rewrite Hne, Hrep. fold tmp_vec. rewrite Hid.
    apply Nat.eqb_neq in Hnr. cbn [CsvIO.nr_of_data_fields]. rewrite Hnr.
    apply Nat.eqb_neq in Hlen. rewrite Hlen. cbn [negb].
    destruct (CsvIO.silent_errors io); reflexivity.
Qed.

Lemma C9_silent_errors_do_not_apply :
  fst (@CsvIO.read_lines Examples.externals Examples.silent_plugin
         (@CsvIO.createTemplate Examples.externals
            (Examples.with_ID_col 2 (Examples.julian_layout ["TIMESTAMP"; "TA"; "ID"])))
         "STA" Examples.year_1900 Examples.year_2100
         (Examples.after_header
            (Examples.with_ID_col 2 (Examples.julian_layout ["TIMESTAMP"; "TA"; "ID"])))
         0 1 ["59000,20"; EmptyString])
  = Some InvalidFormatException.
Proof.
  apply (proj1 (@C9_short_line_with_ID_column_aborts Examples.externals
                  Examples.silent_plugin "STA"
                  (CsvIO.mk_cursor
                     (Examples.with_ID_col 2
                        (Examples.julian_layout ["TIMESTAMP"; "TA"; "ID"])) 1 3)
                  "59000,20" ltac:(reflexivity) ltac:(reflexivity)) 2).
  - reflexivity.
  - reflexivity.
  - vm_compute. lia.
Defined.

(** C10 (amended).  The pre-reading marks a file as descending exactly when
    it counted more descending than ascending timestamp transitions, and
    leaves the order as it is on a tie, also when it counted no transition
    at all because fewer than two rows could be resolved.  Between two
    consecutive timestamps it counts an ascending transition when the second
    is later than the first, and a descending transition otherwise, so a
    repeated timestamp counts as descending. *)
Theorem C10_order_by_majority_of_transitions `{E : Externals} :
  forall (parseFields : CsvParameters.t -> result CsvParameters.t)
         (p : CsvParameters.t) (file : list string) (p' : CsvParameters.t),
    (forall q q', parseFields q = Ok q' ->
                  CsvParameters.asc_order q' = CsvParameters.asc_order q) ->
    CsvParameters.setFile parseFields p file = Ok p' ->
    let n := CsvParameters.transitions (CsvParameters.mk_counts Undef 0 0)
               (CsvParameters.probed_dates parseFields p
                  (CsvParameters.header_lines p + 1000) (CsvParameters.scan_start p)
                  file) in
    CsvParameters.asc_order p'
    = (if CsvParameters.count_asc n <? CsvParameters.count_dsc n
       then false else CsvParameters.asc_order p)
    /\ (forall (m : CsvParameters.scan_counts) (dt : Date),
           isUndef (CsvParameters.prev_dt m) = false ->
           CsvParameters.count_transition m dt
           = if Qle_bool (gmt_julian dt) (gmt_julian (CsvParameters.prev_dt m))
             then CsvParameters.mk_counts dt (CsvParameters.count_asc m)
                    (S (CsvParameters.count_dsc m))
             else CsvParameters.mk_counts dt (S (CsvParameters.count_asc m))
                    (CsvParameters.count_dsc m)).
Proof.
  intros parseFields p file p' Hpf H n. split.
  - apply (setFile_order parseFields p file p' Hpf H).
  - intros m dt Hprev. unfold CsvParameters.count_transition, Date_gt, Date_lt.
    rewrite Hprev. destruct (Qle_bool _ _); reflexivity.
Qed.

Lemma C10_no_transition_keeps_ascending :
  @CsvParameters.setFile Examples.externals (fun q => Ok q)
    (Examples.julian_layout ["TIMESTAMP"; "TA"])
    ["TIMESTAMP,TA"; "59000,1.5"; "59001,2.5"; EmptyString]
  = Ok (Examples.julian_layout ["TIMESTAMP"; "TA"])
  /\ CsvParameters.asc_order (Examples.julian_layout ["TIMESTAMP"; "TA"]) = true.
Proof.
  assert (H : @CsvParameters.setFile Examples.externals (fun q => Ok q)
                (Examples.julian_layout ["TIMESTAMP"; "TA"])
                ["TIMESTAMP,TA"; "59000,1.5"; "59001,2.5"; EmptyString]
              = Ok (Examples.julian_layout ["TIMESTAMP"; "TA"]))
    by (vm_compute; reflexivity).
  split; [exact H|].
  apply (@C10_order_by_majority_of_transitions Examples.externals (fun q => Ok q)
           (Examples.julian_layout ["TIMESTAMP"; "TA"])
           ["TIMESTAMP,TA"; "59000,1.5"; "59001,2.5"; EmptyString]
           (Examples.julian_layout ["TIMESTAMP"; "TA"])).
  - intros q q' Hq. injection Hq as <-. reflexivity.
  - exact H.
Defined.

Lemma C10_repeated_timestamps_mark_descending :
  exists p',
    @CsvParameters.setFile Examples.externals (fun q => Ok q)
      (Examples.julian_layout ["TIMESTAMP"; "TA"]) Examples.repeated_file = Ok p'
    /\ CsvParameters.asc_order p' = false
    /\ @CsvParameters.probed_dates Examples.externals (fun q => Ok q)
         (Examples.julian_layout ["TIMESTAMP"; "TA"]) 1001
         (CsvParameters.scan_start (Examples.julian_layout ["TIMESTAMP"; "TA"]))
         Examples.repeated_file
       = [Examples.julian 59000; Examples.julian 59000].
Proof.
  exists (CsvParameters.set_asc_order false (Examples.julian_layout ["TIMESTAMP"; "TA"])).
  repeat split; vm_compute; reflexivity.
Qed.

(** * Further properties of the plugin *)

(** The reference [sscanf] conforms to the patterns. *)
Lemma reference_conforms : @sscanf_conforms Examples.externals.
Proof.
  intros input format items H. simpl. unfold Reference.sscanf. rewrite H. reflexivity.
Qed.

(** ** The largest column of the date and time *)

(** ** The largest column of the date and time *)

Lemma updateMaxCol_fold (d : CsvDateTime.t) :
  CsvDateTime.updateMaxCol d
  = CsvDateTime.set_max_dt_col
      (fold_left (fun m col => CsvDateTime.raise_to col m) (CsvDateTime.columns d)
         (CsvDateTime.max_dt_col d)) d.
Proof. reflexivity. Qed.

Lemma raise_to_le (col : option nat) (m : nat) : m <= CsvDateTime.raise_to col m.
Proof.
  destruct col as [c|]; simpl; [|lia].
  destruct (m <? c) eqn:H; [apply Nat.ltb_lt in H; lia | lia].
Qed.

Lemma raise_to_within (col : option nat) (m : nat) : within (CsvDateTime.raise_to col m) col.
Proof.
  destruct col as [c|]; simpl; [|exact I].
  destruct (m <? c) eqn:H; [lia | apply Nat.ltb_ge in H; lia].
Qed.

Lemma within_le (col : option nat) (m m' : nat) : m <= m' -> within m col -> within m' col.
Proof. destruct col; simpl; [lia|tauto]. Qed.

Lemma raise_all_le (cols : list (option nat)) :
  forall m, m <= fold_left (fun m col => CsvDateTime.raise_to col m) cols m.
Proof.
  induction cols as [|c cols IH]; intros m; cbn [fold_left]; [lia|].
  pose proof (raise_to_le c m). pose proof (IH (CsvDateTime.raise_to c m)). lia.
Qed.

Lemma raise_all_within (cols : list (option nat)) :
  forall m, Forall (within (fold_left (fun m col => CsvDateTime.raise_to col m) cols m)) cols.
Proof.
  induction cols as [|c cols IH]; intros m; cbn [fold_left]; constructor.
  - apply (within_le c (CsvDateTime.raise_to c m)); [apply raise_all_le|apply raise_to_within].
  - apply IH.
Qed.

Lemma raise_all_cases (cols : list (option nat)) :
  forall m,
    let m' := fold_left (fun m col => CsvDateTime.raise_to col m) cols m in
    m' = m \/ In (Some m') cols.
Proof.
  induction cols as [|c cols IH]; intros m; cbn [fold_left]; [left; reflexivity|].
  destruct (IH (CsvDateTime.raise_to c m)) as [H|H].
  - rewrite H. destruct c as [c|]; cbn [CsvDateTime.raise_to]; [|left; reflexivity].
    destruct (m <? c); [right; left; reflexivity|left; reflexivity].
  - right. right. exact H.
Qed.

(** X1.  After [updateMaxCol] no column of the date and time is beyond
    [max_dt_col], which has not decreased and is either the member as it
    was or one of the columns that are set; the other members are as they
    were. *)
Theorem updateMaxCol_largest_column (d : CsvDateTime.t) :
  let d' := CsvDateTime.updateMaxCol d in
  Forall (within (CsvDateTime.max_dt_col d')) (CsvDateTime.columns d')
  /\ CsvDateTime.max_dt_col d <= CsvDateTime.max_dt_col d'
  /\ (CsvDateTime.max_dt_col d' = CsvDateTime.max_dt_col d
      \/ In (Some (CsvDateTime.max_dt_col d')) (CsvDateTime.columns d))
  /\ CsvDateTime.set_max_dt_col (CsvDateTime.max_dt_col d) d' = d.
Proof.
  cbv zeta. rewrite updateMaxCol_fold.
  change (CsvDateTime.columns (CsvDateTime.set_max_dt_col ?m d)) with (CsvDateTime.columns d).
  cbn [CsvDateTime.max_dt_col CsvDateTime.set_max_dt_col].
  split; [apply raise_all_within|]. split; [apply raise_all_le|].
  split; [apply raise_all_cases|]. destruct d; reflexivity.
Qed.

(** ** Skipped fields and delimiters *)

Lemma skipped_skip (p : CsvParameters.t) (ii jj : nat) :
  CsvIO.skipped (CsvParameters.skip ii p) jj = CsvIO.skipped p jj || Nat.eqb jj ii.
Proof.
  unfold CsvIO.skipped, CsvParameters.skip.
  destruct (existsb (Nat.eqb ii) (CsvParameters.skip_fields p)) eqn:H.
  - destruct (Nat.eqb jj ii) eqn:E; [|rewrite orb_false_r; reflexivity].
    apply Nat.eqb_eq in E. subst jj. rewrite H. reflexivity.
  - cbn [CsvParameters.skip_fields CsvParameters.set_skip_fields].
    rewrite existsb_app. cbn [existsb]. rewrite orb_false_r. reflexivity.
Qed.

Lemma skip_frame (p : CsvParameters.t) (ii : nat) :
  CsvParameters.set_skip_fields (CsvParameters.skip_fields p) (CsvParameters.skip ii p) = p.
Proof.
  unfold CsvParameters.skip.
  destruct (existsb _ _); destruct p; reflexivity.
Qed.

(** X2.  [setSkipFields] numbers the fields from 1: it raises
    [InvalidArgumentException] exactly when the list holds a zero, and
    otherwise the columns skipped afterwards are those that were skipped
    before and, for every number [n] of the list, column [n - 1]; the other
    members are as they were. *)
Theorem setSkipFields_numbers_from_1 (p : CsvParameters.t) (v : list nat) :
  match CsvParameters.setSkipFields p v with
  | Throw e => e = InvalidArgumentException /\ In 0 v
  | Ok p' =>
      ~ In 0 v
      /\ (forall ii, CsvIO.skipped p' ii
                     = CsvIO.skipped p ii || existsb (Nat.eqb (S ii)) v)
      /\ CsvParameters.set_skip_fields (CsvParameters.skip_fields p) p' = p
  end.
Proof.
  revert p. induction v as [|f v IH]; intros p.
  - cbn [CsvParameters.setSkipFields]. split; [tauto|]. split.
    + intros ii. cbn [existsb]. rewrite orb_false_r. reflexivity.
    + destruct p; reflexivity.
  - cbn [CsvParameters.setSkipFields]. destruct (f =? 0) eqn:F.
    + apply Nat.eqb_eq in F. subst f. split; [reflexivity|left; reflexivity].
    + apply Nat.eqb_neq in F. specialize (IH (CsvParameters.skip (f - 1) p)).
      destruct (CsvParameters.setSkipFields (CsvParameters.skip (f - 1) p) v) as [p'|e].
      * destruct IH as (H0 & Hs & Hf). split; [|split].
        -- intros [H|H]; [lia|tauto].
        -- intros ii. rewrite Hs, skipped_skip. cbn [existsb].
           rewrite <- orb_assoc. f_equal. f_equal.
           destruct (Nat.eqb ii (f - 1)) eqn:E1, (Nat.eqb (S ii) f) eqn:E2;
             try reflexivity;
             [apply Nat.eqb_eq in E1; apply Nat.eqb_neq in E2
             |apply Nat.eqb_neq in E1; apply Nat.eqb_eq in E2]; lia.
        -- transitivity (CsvParameters.set_skip_fields (CsvParameters.skip_fields p)
                           (CsvParameters.skip (f - 1) p)); [|apply skip_frame].
           rewrite <- Hf. reflexivity.
      * destruct IH as (He & H0). split; [exact He|right; exact H0].
Qed.

(** X3.  [setDelimiter] accepts a single character, SPACE and TAB, and
    raises [InvalidArgumentException] for every other string.  After SPACE,
    TAB or the blank the lines are split on white space, tabs included,
    whatever was asked for; after another character they are split on that
    character.  The other members are as they were. *)
Theorem setDelimiter_white_space `{E : Externals} (p : CsvParameters.t) (delim : string) :
  match CsvParameters.setDelimiter p delim with
  | Throw e =>
      e = InvalidArgumentException
      /\ String.length delim <> 1 /\ delim <> "SPACE" /\ delim <> "TAB"
  | Ok p' =>
      CsvParameters.set_csv_delim (CsvParameters.csv_delim p) p' = p
      /\ ((delim = "SPACE" \/ delim = "TAB" \/ delim = " ")
          /\ (forall line, CsvParameters.tokenize (CsvParameters.csv_delim p') line
                           = readLineToVec line None)
          \/ (exists c, delim = String c EmptyString /\ c <> " "%char
              /\ forall line, CsvParameters.tokenize (CsvParameters.csv_delim p') line
                              = readLineToVec line (Some c)))
  end.
Proof.
  unfold CsvParameters.setDelimiter.
  destruct delim as [|c [|c' s]].
  - cbn. repeat split; discriminate.
  - split; [destruct p; reflexivity|].
    destruct (Ascii.eqb c " "%char) eqn:Ec.
    + left. apply Ascii.eqb_eq in Ec. subst c. split; [tauto|].
      intros line. reflexivity.
    + right. exists c. split; [reflexivity|]. split.
      * intros ->. discriminate.
      * intros line. unfold CsvParameters.tokenize.
        cbn [CsvParameters.csv_delim CsvParameters.set_csv_delim]. rewrite Ec. reflexivity.
  - destruct (String.eqb (String c (String c' s)) "SPACE") eqn:E1.
    + apply String.eqb_eq in E1. rewrite E1. cbn [orb].
      split; [destruct p; reflexivity|]. left. split; [tauto|]. intros line. reflexivity.
    + destruct (String.eqb (String c (String c' s)) "TAB") eqn:E2.
      * apply String.eqb_eq in E2. rewrite E2. cbn [orb].
        split; [destruct p; reflexivity|]. left. split; [tauto|]. intros line. reflexivity.
      * cbn [orb]. apply String.eqb_neq in E1, E2.
        repeat split; try assumption. cbn [String.length]. lia.
Qed.

(** ** The names of the fields *)

Lemma starts_with_app (a b s : string) :
  StdString.starts_with (a ++ b) s = true -> StdString.starts_with a s = true.
Proof.
  revert s. induction a as [|c a IH]; intros s H; [reflexivity|].
  destruct s as [|c' s]; [discriminate|]. cbn in H |- *.
  apply andb_true_iff in H. destruct H as [H1 H2]. rewrite H1. cbn. apply IH. exact H2.
Qed.

Lemma identifyField_cases (fieldname : string) :
  CsvParameters.identifyField fieldname = fieldname
  \/ In (CsvParameters.identifyField fieldname)
        ["TA"; "TSG"; "PSUM"; "RSWR"; "DW"; "RH"; "VW"; "P"; "ILWR"; "TSS"].
Proof.
  unfold CsvParameters.identifyField.
  repeat match goal with
         | |- context [if ?b then _ else _] =>
             lazymatch b with
             | StdString.starts_with "WS_MAX" _ => fail
             | _ => destruct b eqn:?; [right; cbn [In]; tauto|]
             end
         end.
  destruct (StdString.starts_with "WS_MAX" fieldname) eqn:H; [|left; reflexivity].
  apply (starts_with_app "WS" "_MAX") in H.
  match goal with
  | H' : _ || StdString.starts_with "WS" fieldname || _ = false |- _ =>
      rewrite H in H'; rewrite orb_true_r in H'; discriminate H'
  end.
Qed.

(** X4.  [identifyField] answers with the name it was given or with one of
    ten names of parameters, VW_MAX and ISWR not among them: a name that
    starts with WS_MAX has matched WS before and becomes VW, and the names
    of the incoming short wave radiation become RSWR like those of the
    reflected one.  Applied to its own answer the function leaves it as it
    is. *)
Theorem identifyField_canonical_names (fieldname : string) :
  (CsvParameters.identifyField fieldname = fieldname
   \/ In (CsvParameters.identifyField fieldname)
         ["TA"; "TSG"; "PSUM"; "RSWR"; "DW"; "RH"; "VW"; "P"; "ILWR"; "TSS"])
  /\ CsvParameters.identifyField (CsvParameters.identifyField fieldname)
     = CsvParameters.identifyField fieldname.
Proof.
  split; [apply identifyField_cases|].
  destruct (identifyField_cases fieldname) as [H|H].
  - rewrite H. exact H.
  - cbn [In] in H.
    repeat (destruct H as [H|H]; [rewrite <- H; reflexivity|]). contradiction.
Qed.

(** ** Units *)

Lemma assign_at_length {A : Type} (v : list A) (i : nat) (x : A) :
  List.length (assign_at v i x) = List.length v.
Proof.
  revert i. induction v as [|a v IH]; intros [|i]; cbn; try reflexivity.
  rewrite IH. reflexivity.
Qed.

Lemma assign_at_other {A : Type} (v : list A) (i j : nat) (x d : A) :
  i <> j -> nth j (assign_at v i x) d = nth j v d.
Proof.
  revert i j. induction v as [|a v IH]; intros [|i] [|j] H; cbn; try reflexivity; try lia.
  apply IH. lia.
Qed.

Lemma resize_length {A : Type} (n : nat) (x : A) (v : list A) :
  List.length (resize n x v) = n.
Proof.
  unfold resize. rewrite length_app, length_firstn, repeat_length. lia.
Qed.

Section Units.
Context `{E : Externals} `{L : Library}.

Lemma setUnit_length (tmp : string) (ii : nat) (o m : list Q) :
  List.length (fst (CsvParameters.setUnit tmp ii o m)) = List.length o
  /\ List.length (snd (CsvParameters.setUnit tmp ii o m)) = List.length m.
Proof.
  unfold CsvParameters.setUnit.
  repeat match goal with
         | |- context [if ?b then _ else _] => destruct b
         end; cbn [fst snd]; rewrite ?assign_at_length; split; reflexivity.
Qed.

Lemma setUnit_other (tmp : string) (ii jj : nat) (o m : list Q) (d : Q) :
  ii <> jj ->
  nth jj (fst (CsvParameters.setUnit tmp ii o m)) d = nth jj o d
  /\ nth jj (snd (CsvParameters.setUnit tmp ii o m)) d = nth jj m d.
Proof.
  intros H. unfold CsvParameters.setUnit.
  repeat match goal with
         | |- context [if ?b then _ else _] => destruct b
         end; cbn [fst snd]; rewrite ?assign_at_other by exact H; split; reflexivity.
Qed.

Lemma setUnits_loop_length (units : list string) :
  forall (ii : nat) (o m : list Q),
    List.length (fst (CsvParameters.setUnits_loop units ii o m)) = List.length o
    /\ List.length (snd (CsvParameters.setUnits_loop units ii o m)) = List.length m.
Proof.
  induction units as [|u units IH]; intros ii o m; [split; reflexivity|].
  cbn [CsvParameters.setUnits_loop].
  destruct (CsvParameters.setUnit _ ii o m) as [o1 m1] eqn:H.
  destruct (IH (S ii) o1 m1) as [Ho Hm]. rewrite Ho, Hm.
  pose proof (setUnit_length (removeQuotes (toUpper u)) ii o m) as [H1 H2].
  rewrite H in H1, H2. exact (conj H1 H2).
Qed.

Lemma assign_at_id {A : Type} (v : list A) (i : nat) (d : A) :
  assign_at v i (nth i v d) = v.
Proof.
  revert i. induction v as [|a v IH]; intros [|i]; cbn; try reflexivity.
  rewrite IH. reflexivity.
Qed.

Lemma nth_assign_at {A : Type} (v : list A) (i : nat) (x d : A) :
  nth i (assign_at v i x) d = if i <? List.length v then x else d.
Proof.
  revert i. induction v as [|a v IH]; intros [|i]; cbn; try reflexivity.
  rewrite IH. reflexivity.
Qed.

(** What [setUnit] stores in column [ii] depends on the unit and on what the
    column holds. *)
Lemma setUnit_column (tmp : string) (ii : nat) (o m : list Q) :
  CsvParameters.setUnit tmp ii o m
  = (assign_at o ii (nth 0 (fst (CsvParameters.setUnit tmp 0 [nth ii o 0%Q] [1%Q])) 0%Q),
     assign_at m ii (nth 0 (snd (CsvParameters.setUnit tmp 0 [0%Q] [nth ii m 1%Q])) 1%Q)).
Proof.
  unfold CsvParameters.setUnit.
  repeat match goal with
         | |- context [if ?b then _ else _] => destruct b
         end; cbn [fst snd assign_at nth]; rewrite ?assign_at_id; reflexivity.
Qed.

(** Column [ii + k] is set by the unit in position [k] and by no other. *)
Lemma setUnits_loop_nth (units : list string) :
  forall (ii k : nat) (o m : list Q) (d : Q),
    k < List.length units ->
    let tmp := removeQuotes (toUpper (at_ units k)) in
    nth (ii + k) (fst (CsvParameters.setUnits_loop units ii o m)) d
    = nth (ii + k) (fst (CsvParameters.setUnit tmp (ii + k) o m)) d
    /\ nth (ii + k) (snd (CsvParameters.setUnits_loop units ii o m)) d
       = nth (ii + k) (snd (CsvParameters.setUnit tmp (ii + k) o m)) d.
Proof.
  assert (Hlow : forall units ii jj o m d, jj < ii ->
             nth jj (fst (CsvParameters.setUnits_loop units ii o m)) d = nth jj o d
             /\ nth jj (snd (CsvParameters.setUnits_loop units ii o m)) d = nth jj m d).
  { induction units0 as [|u us IH]; intros ii jj o m d Hlt; [split; reflexivity|].
    cbn [CsvParameters.setUnits_loop].
    destruct (CsvParameters.setUnit _ ii o m) as [o1 m1] eqn:H.
    destruct (IH (S ii) jj o1 m1 d ltac:(lia)) as [Ho Hm]. rewrite Ho, Hm.
    destruct (setUnit_other (removeQuotes (toUpper u)) ii jj o m d ltac:(lia)) as [H1 H2].
    rewrite H in H1, H2. exact (conj H1 H2). }
  induction units as [|u units IH]; intros ii k o m d Hk tmp; [cbn in Hk; lia|].
  cbn [CsvParameters.setUnits_loop].
  destruct k as [|k].
  - rewrite Nat.add_0_r in *. subst tmp. cbn [at_ nth].
    destruct (CsvParameters.setUnit _ ii o m) as [o1 m1] eqn:H.
    destruct (Hlow units (S ii) ii o1 m1 d ltac:(lia)) as [Ho Hm].
    rewrite Ho, Hm. split; reflexivity.
  - destruct (CsvParameters.setUnit (removeQuotes (toUpper u)) ii o m) as [o1 m1] eqn:H.
    replace (ii + S k) with (S ii + k) by lia.
    cbn [List.length] in Hk.
    destruct (IH (S ii) k o1 m1 d ltac:(lia)) as [Ho Hm]. rewrite Ho, Hm.
    subst tmp. cbn [at_ nth]. fold (at_ units k).
    set (t := removeQuotes (toUpper (at_ units k))).
    pose proof (setUnit_length (removeQuotes (toUpper u)) ii o m) as [L1 L2].
    rewrite H in L1, L2. cbn [fst snd] in L1, L2.
    assert (H1 : forall d, nth (S ii + k) o1 d = nth (S ii + k) o d).
    { intros d'. destruct (setUnit_other (removeQuotes (toUpper u)) ii (S ii + k) o m d'
                            ltac:(lia)) as [H1 _]. rewrite H in H1. exact H1. }
    assert (H2 : forall d, nth (S ii + k) m1 d = nth (S ii + k) m d).
    { intros d'. destruct (setUnit_other (removeQuotes (toUpper u)) ii (S ii + k) o m d'
                            ltac:(lia)) as [_ H2]. rewrite H in H2. exact H2. }
    rewrite (setUnit_column t (S ii + k) o1 m1), (setUnit_column t (S ii + k) o m).
    cbn [fst snd]. rewrite !nth_assign_at, L1, L2, !H1, !H2. split; reflexivity.
Qed.

Lemma nth_repeat_default {A : Type} (x : A) (n i : nat) : nth i (repeat x n) x = x.
Proof.
  revert i. induction n as [|n IH]; intros [|i]; cbn; try reflexivity. apply IH.
Qed.

(** The units of a line of [n] units, set on a file for which no units
    were configured. *)
Lemma setUnits_nth (p : CsvParameters.t) (csv_units : string) (delim : ascii) (ii : nat) :
  let units := readLineToVec csv_units (Some delim) in
  let tmp := removeQuotes (toUpper (at_ units ii)) in
  let p' := CsvParameters.setUnits p csv_units delim in
  CsvParameters.units_offset p = [] -> CsvParameters.units_multiplier p = [] ->
  ii < List.length units ->
  nth ii (CsvParameters.units_offset p') 0%Q
  = nth 0 (fst (CsvParameters.setUnit tmp 0 [0%Q] [1%Q])) 0%Q
  /\ nth ii (CsvParameters.units_multiplier p') 1%Q
     = nth 0 (snd (CsvParameters.setUnit tmp 0 [0%Q] [1%Q])) 1%Q.
Proof.
  intros units tmp p' Ho Hm Hii. subst p'. unfold CsvParameters.setUnits.
  fold units. rewrite Ho, Hm. unfold resize. cbn [firstn List.length app].
  rewrite firstn_nil, Nat.sub_0_r. cbn [app].
  destruct (CsvParameters.setUnits_loop units 0 _ _) as [o' m'] eqn:H.
  cbn [CsvParameters.units_offset CsvParameters.units_multiplier CsvParameters.set_units].
  pose proof (setUnits_loop_nth units 0 ii (repeat 0%Q (List.length units))
                (repeat 1%Q (List.length units))) as K.
  cbn [Nat.add] in K. rewrite H in K. cbn [fst snd] in K.
  destruct (K 0%Q Hii) as [K1 _]. destruct (K 1%Q Hii) as [_ K2].
  fold tmp in K1, K2. rewrite K1, K2.
  rewrite (setUnit_column tmp ii). cbn [fst snd].
  rewrite !nth_assign_at, !repeat_length.
  apply Nat.ltb_lt in Hii. rewrite Hii.
  rewrite !nth_repeat_default. split; reflexivity.
Qed.

Lemma setUnits_lengths (p : CsvParameters.t) (csv_units : string) (delim : ascii) :
  let n := List.length (readLineToVec csv_units (Some delim)) in
  let p' := CsvParameters.setUnits p csv_units delim in
  List.length (CsvParameters.units_offset p') = n
  /\ List.length (CsvParameters.units_multiplier p') = n.
Proof.
  intros n p'. subst p'. unfold CsvParameters.setUnits. fold n.
  pose proof (setUnits_loop_length (readLineToVec csv_units (Some delim)) 0
                (resize n 0%Q (CsvParameters.units_offset p))
                (resize n 1%Q (CsvParameters.units_multiplier p))) as [H1 H2].
  destruct (CsvParameters.setUnits_loop _ _ _ _) as [o m].
  cbn [fst snd] in H1, H2. rewrite resize_length in H1, H2.
  exact (conj H1 H2).
Qed.

End Units.

(** X5.  After [setUnits] there are as many offsets and as many multipliers
    as the line of units has units, whatever was there before, and the
    other members are as they were; when this number is not zero and is not
    the number of fields of the file, [readCSVFile] raises
    [InvalidFormatException] before it reads a line. *)
Theorem setUnits_one_unit_per_column `{E : Externals} `{L : Library} :
  forall (p : CsvParameters.t) (csv_units : string) (delim : ascii),
    let n := List.length (readLineToVec csv_units (Some delim)) in
    let p' := CsvParameters.setUnits p csv_units delim in
    List.length (CsvParameters.units_offset p') = n
    /\ List.length (CsvParameters.units_multiplier p') = n
    /\ CsvParameters.set_units (CsvParameters.units_offset p)
         (CsvParameters.units_multiplier p) p' = p
    /\ (n <> 0 -> n <> List.length (CsvParameters.csv_fields p) ->
        forall io file dateStart dateEnd,
          CsvIO.readCSVFile io p' file dateStart dateEnd
          = (Throw InvalidFormatException, p', io)).
Proof.
  intros p csv_units delim n p'.
  destruct (setUnits_lengths p csv_units delim) as [Ho Hm]. fold n p' in Ho, Hm.
  split; [exact Ho|]. split; [exact Hm|]. split.
  - subst p'. unfold CsvParameters.setUnits.
    destruct (CsvParameters.setUnits_loop _ _ _ _). destruct p; reflexivity.
  - intros H0 Hn io file dateStart dateEnd. unfold CsvIO.readCSVFile.
    assert (Hf : CsvParameters.csv_fields p' = CsvParameters.csv_fields p).
    { subst p'. unfold CsvParameters.setUnits.
      destruct (CsvParameters.setUnits_loop _ _ _ _). reflexivity. }
    unfold CsvIO.units_mismatch. rewrite Ho, Hf.
    apply Nat.eqb_neq in H0, Hn. rewrite H0, Hn. reflexivity.
Qed.

Lemma setUnits_three_units_for_two_columns :
  @CsvIO.readCSVFile Examples.externals Examples.plugin
    (@CsvParameters.setUnits Examples.externals Examples.library
       (Examples.julian_layout ["TIMESTAMP"; "TA"]) "- C %" " "%char)
    Examples.short_descending_file Examples.year_1900 Examples.year_2100
  = (Throw InvalidFormatException,
     @CsvParameters.setUnits Examples.externals Examples.library
       (Examples.julian_layout ["TIMESTAMP"; "TA"]) "- C %" " "%char,
     Examples.plugin).
Proof.
  apply (proj2 (proj2 (proj2
           (@setUnits_one_unit_per_column Examples.externals Examples.library
              (Examples.julian_layout ["TIMESTAMP"; "TA"]) "- C %" " "%char)))).
  - vm_compute. lia.
  - vm_compute. lia.
Defined.



Lemma setUnit_unconverted `{L : Library} (tmp : string) (ii : nat) (o m : list Q) :
  is_one_of tmp ["%"; "pc"; "CM"; "C"; "DEGC"; "GRAD C";
                 (CsvParameters.degree_sign ++ "C")%string; "HPA"; "MM"; "MV"; "MA";
                 "MIN"; "IN"; "FT"; "F"; "KM/H"; "MPH"; "KT"] = false ->
  CsvParameters.setUnit tmp ii o m = (o, m).
Proof.
  intros H. unfold is_one_of in H. cbn [existsb] in H.
  repeat (apply orb_false_iff in H; destruct H as [? H]).
  unfold CsvParameters.setUnit, is_one_of. cbn [existsb].
  repeat match goal with
         | E : String.eqb tmp ?s = false |- _ => rewrite E; clear E
         end.
  cbn [orb].
  repeat match goal with
         | |- context [if ?b then _ else _] => destruct b
         end; reflexivity.
Qed.

(** X7.  A unit that is none of those that [setUnits] converts, a unit
    that it does not know included, is no error: the values of the column
    are stored as they are read. *)
Theorem setUnits_unit_not_converted `{E : Externals} `{L : Library} :
  forall (p : CsvParameters.t) (csv_units : string) (delim : ascii) (ii : nat) (v : Q),
    let units := readLineToVec csv_units (Some delim) in
    CsvParameters.units_offset p = [] -> CsvParameters.units_multiplier p = [] ->
    ii < List.length units ->
    is_one_of (removeQuotes (toUpper (at_ units ii)))
      ["%"; "pc"; "CM"; "C"; "DEGC"; "GRAD C";
       (CsvParameters.degree_sign ++ "C")%string; "HPA"; "MM"; "MV"; "MA";
       "MIN"; "IN"; "FT"; "F"; "KM/H"; "MPH"; "KT"] = false ->
    (CsvIO.to_SI (CsvParameters.setUnits p csv_units delim) ii v == v)%Q.
Proof.
  intros p csv_units delim ii v units Ho Hm Hii Hu.
  destruct (setUnits_nth p csv_units delim ii Ho Hm Hii) as [H1 H2].
  fold units in H1, H2. rewrite (setUnit_unconverted _ _ _ _ Hu) in H1, H2.
  cbn [fst snd nth] in H1, H2.
  unfold CsvIO.to_SI. rewrite H1, H2.
  repeat match goal with
         | |- context [if ?b then _ else _] => destruct b
         end; ring.
Qed.

Lemma setUnits_furlongs_stay :
  (@CsvIO.to_SI Examples.externals
     (@CsvParameters.setUnits Examples.externals Examples.library
        (Examples.julian_layout ["TIMESTAMP"; "HS"]) "-,furlong" ","%char) 1 5 == 5)%Q.
Proof.
  apply (@setUnits_unit_not_converted Examples.externals Examples.library
           (Examples.julian_layout ["TIMESTAMP"; "HS"]) "-,furlong" ","%char 1 5).
  - reflexivity.
  - reflexivity.
  - vm_compute. lia.
  - reflexivity.
Defined.

(** ** The conversions of a format *)

(** ** The placeholders of an accepted format *)

Lemma starts_with_percent (pat s : string) (a : ascii) :
  a <> "%"%char -> StdString.starts_with (String "%" pat) (String a s) = false.
Proof.
  intros H. cbn. destruct (Ascii.eqb "%" a) eqn:E; [|reflexivity].
  apply Ascii.eqb_eq in E. congruence.
Qed.

Lemma starts_with_tail (pat s : string) :
  StdString.starts_with pat s = true ->
  (forall k, no_percent k pat) -> no_percent (String.length pat) s.
Proof.
  revert s. induction pat as [|c pat IH]; intros s H Hp; [exact I|].
  destruct s as [|a s]; [discriminate|]. cbn in H. apply andb_true_iff in H.
  destruct H as [H1 H2]. apply Ascii.eqb_eq in H1. subst a.
  cbn [String.length no_percent]. split.
  - exact (proj1 (Hp 1)).
  - apply IH; [exact H2|]. intros k. exact (proj2 (Hp (S k))).
Qed.

Lemma count_from_occurrences (pat : string) :
  (forall k, no_percent k pat) ->
  forall (s : string) (k : nat),
    no_percent k s ->
    IOUtils.count_from (String "%" pat) k s = occurrences (String "%" pat) s.
Proof.
  intros Hp. induction s as [|a s IH]; intros k Hk; [reflexivity|].
  cbn [IOUtils.count_from occurrences]. destruct k as [|k].
  - destruct (StdString.starts_with (String "%" pat) (String a s)) eqn:H.
    + cbn [String.length Nat.sub]. rewrite Nat.sub_0_r. rewrite IH; [reflexivity|].
      cbn in H. apply andb_true_iff in H. apply (starts_with_tail pat s (proj2 H) Hp).
    + rewrite IH by exact I. reflexivity.
  - destruct Hk as [Ha Hk]. rewrite (starts_with_percent pat s a Ha).
    rewrite IH by exact Hk. reflexivity.
Qed.

Lemma count_occurrences (pat s : string) :
  (forall k, no_percent k pat) ->
  IOUtils.count s (String "%" pat) = occurrences (String "%" pat) s.
Proof.
  intros Hp. unfold IOUtils.count. apply count_from_occurrences; [exact Hp|exact I].
Qed.

Lemma no_percent_literal (pat : string) :
  StdString.count_char "%" pat = 0 -> forall k, no_percent k pat.
Proof.
  induction pat as [|c pat IH]; intros H k; [destruct k; exact I|].
  destruct k as [|k]; [exact I|]. cbn in H.
  destruct (Ascii.eqb c "%") eqn:E; [discriminate|]. cbn [no_percent]. split.
  - intros ->. discriminate.
  - apply IH. exact H.
Qed.

Lemma placeholders_cons (a : ascii) (s : string) :
  exists i, placeholders (String a s) = i + placeholders s
            /\ i <= (if Ascii.eqb a "%" then 1 else 0)
            /\ (Ascii.eqb a "%" = true -> i = 1 -> conversion s = true).
Proof.
  unfold placeholders. cbn [occurrences].
  exists ((if StdString.starts_with "%f" (String a s) then 1 else 0)
          + (if StdString.starts_with "%2f" (String a s) then 1 else 0)
          + (if StdString.starts_with "%4f" (String a s) then 1 else 0)
          + (if StdString.starts_with "%32s" (String a s) then 1 else 0)).
  split; [lia|].
  unfold conversion.
  destruct (Ascii.eqb a "%") eqn:Ea.
  - apply Ascii.eqb_eq in Ea. subst a.
    destruct s as [|b s]; [cbn [StdString.starts_with]; eval_eqb; cbn; split; [lia|discriminate]|].
    destruct (Ascii.eqb "f" b) eqn:E1.
    { apply Ascii.eqb_eq in E1. subst b. cbn [StdString.starts_with]. eval_eqb. cbn.
      split; [lia|reflexivity]. }
    destruct (Ascii.eqb "2" b) eqn:E2.
    { apply Ascii.eqb_eq in E2. subst b. cbn [StdString.starts_with]. eval_eqb.
      cbn [andb orb Nat.add].
      destruct s as [|c s]; [cbn; split; [lia|discriminate]|].
      destruct (Ascii.eqb "f" c); cbn; split; (lia || tauto || discriminate). }
    destruct (Ascii.eqb "4" b) eqn:E4.
    { apply Ascii.eqb_eq in E4. subst b. cbn [StdString.starts_with]. eval_eqb.
      cbn [andb orb Nat.add].
      destruct s as [|c s]; [cbn; split; [lia|discriminate]|].
      destruct (Ascii.eqb "f" c); cbn; split; (lia || tauto || discriminate). }
    destruct (Ascii.eqb "3" b) eqn:E3.
    { apply Ascii.eqb_eq in E3. subst b. cbn [StdString.starts_with]. eval_eqb.
      cbn [andb orb Nat.add].
      match goal with
      | |- context [if ?c then 1 else 0] => destruct c
      end; (split; [cbn; lia|intros _ H; reflexivity || discriminate H]). }
    cbn [StdString.starts_with]. eval_eqb. rewrite E1, E2, E4, E3. cbn.
    split; [lia|discriminate].
  - cbn [StdString.starts_with].
    replace (Ascii.eqb "%" a) with false
      by (symmetry; rewrite Ascii.eqb_sym; exact Ea).
    cbn. split; [lia|discriminate].
Qed.

Lemma placeholders_le (s : string) : placeholders s <= StdString.count_char "%" s.
Proof.
  induction s as [|a s IH]; [cbn; lia|].
  destruct (placeholders_cons a s) as (i & Hi & Hle & _). rewrite Hi.
  cbn [StdString.count_char]. lia.
Qed.

Lemma placeholders_all (s : string) :
  placeholders s = StdString.count_char "%" s ->
  forall pre post, s = (pre ++ String "%" post)%string -> conversion post = true.
Proof.
  intros H pre. revert s H. induction pre as [|a pre IH]; intros s H post Hs; subst s.
  - cbn [append] in H. destruct (placeholders_cons "%" post) as (i & Hi & Hle & Hc).
    pose proof (placeholders_le post) as Hp. rewrite Hi in H.
    cbn [StdString.count_char] in H.
    replace (Ascii.eqb "%" "%") with true in * by reflexivity.
    apply Hc; [reflexivity|lia].
  - cbn [append] in H. destruct (placeholders_cons a (pre ++ String "%" post))
      as (i & Hi & Hle & _).
    pose proof (placeholders_le (pre ++ String "%" post)) as Hp. rewrite Hi in H.
    cbn [StdString.count_char] in H.
    apply (IH (pre ++ String "%" post)%string); [lia|reflexivity].
Qed.

Lemma checkSpecString_placeholders (fmt : string) (n : nat) :
  CsvParameters.checkSpecString fmt n = true ->
  StdString.count_char "%" fmt = n /\ placeholders fmt = n.
Proof.
  unfold CsvParameters.checkSpecString. intros H.
  apply negb_true_iff in H. apply orb_false_iff in H. destruct H as [H _].
  apply orb_false_iff in H. destruct H as [H1 H2].
  apply negb_false_iff in H1, H2. apply Nat.eqb_eq in H1, H2.
  split; [exact H1|]. unfold placeholders.
  rewrite <- !count_occurrences by (apply no_percent_literal; reflexivity).
  lia.
Qed.

(** X8.  The format that [setDateTimeSpec] accepts and hands to [sscanf]
    holds no conversion but [%f], [%2f], [%4f] and [%32s], whatever the
    specification of the user holds, and no more conversions than the call
    of [sscanf] has pointers for: one for each entry of the index and one
    for the time zone. *)
Theorem accepted_format_has_known_conversions :
  forall (p p' : CsvParameters.t) (datetime_spec : string),
    CsvParameters.setDateTimeSpec p datetime_spec = Ok p' ->
    let fmt := CsvParameters.datetime_format p' in
    StdString.count_char "%" fmt <= List.length (CsvParameters.datetime_idx p') + 1
    /\ forall pre post, fmt = (pre ++ String "%" post)%string -> conversion post = true.
Proof.
  intros p p' datetime_spec H fmt. unfold CsvParameters.setDateTimeSpec in H.
  destruct (CsvParameters.replace_tz datetime_spec (CsvParameters.has_tz p))
    as [[f tz]|e]; [|discriminate].
  cbv zeta in H.
  match type of H with
  | context [CsvParameters.set_datetime_spec ?i _ _ _] =>
      remember i as idx eqn:Hidx; clear Hidx
  end.
  match type of H with
  | (if CsvParameters.checkSpecString ?f ?n then _ else _) = _ =>
      remember f as F eqn:HF; clear HF;
      destruct (CsvParameters.checkSpecString F n) eqn:Hc; [|discriminate];
      apply checkSpecString_placeholders in Hc; destruct Hc as [H1 H2]
  end.
  injection H as <-. subst fmt.
  cbn [CsvParameters.datetime_format CsvParameters.datetime_idx
       CsvParameters.set_datetime_spec].
  split.
  - rewrite H1. destruct tz; lia.
  - apply placeholders_all. rewrite H1, H2. reflexivity.
Qed.

Lemma iso_format_conversions :
  StdString.count_char "%" "%4f-%2f-%2fT%2f:%2f:%f" <= 6 + 1
  /\ conversion "2f-%2fT%2f:%2f:%f" = true.
Proof.
  destruct (accepted_format_has_known_conversions Examples.blank
              (CsvParameters.set_datetime_spec [0; 1; 2; 3; 4; 5] "%4f-%2f-%2fT%2f:%2f:%f"
                 false Examples.blank)
              "YYYY-MM-DDTHH24:MI:SS" eq_refl) as [H1 H2].
  split; [exact H1|]. apply (H2 "%4f-"). reflexivity.
Defined.

(** ** The columns that parseFields sets *)

Lemma is_role (tmp : string) :
  is_one_of tmp role_names
  = (is_one_of tmp ["TIMESTAMP"; "TS"; "DATETIME"]
     || (is_one_of tmp ["DATE"; "GIORNO"; "FECHA"]
     || (is_one_of tmp ["TIME"; "ORA"; "HORA"]
     || (String.eqb tmp "SKIP"
     || (String.eqb tmp "YEAR"
     || (is_one_of tmp ["JDAY"; "JDN"; "YDAY"; "DAY_OF_YEAR"; "DOY"]
     || (String.eqb tmp "MONTH"
     || (String.eqb tmp "DAY"
     || (String.eqb tmp "NTIME"
     || (is_one_of tmp ["HOUR"; "HOURS"]
     || (is_one_of tmp ["MINUTE"; "MINUTES"]
     || (is_one_of tmp ["SECOND"; "SECONDS"]
     || is_one_of tmp ["ID"; "STATIONID"])))))))))))).
Proof.
  unfold is_one_of, role_names. cbn [existsb].
  rewrite ?orb_false_r, <- ?orb_assoc. reflexivity.
Qed.

Ltac role_cases :=
  unfold CsvParameters.assign_role;
  repeat match goal with
         | |- context [if ?b then _ else _] =>
             lazymatch b with
             | existsb _ _ => fail
             | _ => destruct b eqn:?
             end
         end.

Lemma skipped_members (p q : CsvParameters.t) (jj : nat) :
  CsvParameters.skip_fields p = CsvParameters.skip_fields q ->
  CsvIO.skipped p jj = CsvIO.skipped q jj.
Proof. unfold CsvIO.skipped. intros ->. reflexivity. Qed.

Lemma skipped_on_date_cols (g : CsvDateTime.t -> CsvDateTime.t) (p : CsvParameters.t)
    (jj : nat) :
  CsvIO.skipped (CsvParameters.on_date_cols g p) jj = CsvIO.skipped p jj.
Proof. reflexivity. Qed.

Lemma skipped_set_dt_as_components (b : bool) (p : CsvParameters.t) (jj : nat) :
  CsvIO.skipped (CsvParameters.set_dt_as_components b p) jj = CsvIO.skipped p jj.
Proof. reflexivity. Qed.

Lemma skipped_set_dt_as_year_and_jdn (b : bool) (p : CsvParameters.t) (jj : nat) :
  CsvIO.skipped (CsvParameters.set_dt_as_year_and_jdn b p) jj = CsvIO.skipped p jj.
Proof. reflexivity. Qed.

Lemma skipped_set_ID_col (c : option nat) (p : CsvParameters.t) (jj : nat) :
  CsvIO.skipped (CsvParameters.set_ID_col c p) jj = CsvIO.skipped p jj.
Proof. reflexivity. Qed.

Ltac skipped_setters :=
  repeat first [ rewrite skipped_skip
               | rewrite skipped_on_date_cols
               | rewrite skipped_set_dt_as_components
               | rewrite skipped_set_dt_as_year_and_jdn
               | rewrite skipped_set_ID_col ].

Lemma assign_role_skipped (tmp : string) (ii jj : nat) (p : CsvParameters.t) :
  CsvIO.skipped (CsvParameters.assign_role tmp ii p) jj
  = CsvIO.skipped p jj || (is_one_of tmp role_names && Nat.eqb jj ii).
Proof.
  rewrite is_role. role_cases; cbn [orb andb]; rewrite ?orb_false_r;
    skipped_setters; reflexivity.
Qed.

Lemma assign_role_plain (tmp : string) (ii : nat) (p : CsvParameters.t) :
  is_one_of tmp role_names = false -> CsvParameters.assign_role tmp ii p = p.
Proof.
  rewrite is_role. intros H.
  do 12 (apply orb_false_iff in H; destruct H as [? H]).
  unfold CsvParameters.assign_role.
  repeat match goal with
         | E : ?b = false |- context [if ?b then _ else _] => rewrite E
         end.
  reflexivity.
Qed.

Section Roles.
Context `{E : Externals} `{L : Library}.

Lemma assign_roles_names (names : list string) :
  forall (ii : nat) (p : CsvParameters.t),
    fst (CsvParameters.assign_roles names ii p) = map CsvParameters.clean_name names.
Proof.
  induction names as [|n names IH]; intros ii p; [reflexivity|].
  cbn [CsvParameters.assign_roles map].
  specialize (IH (S ii) (if CsvParameters.is_empty (CsvParameters.clean_name n) then p
                         else CsvParameters.assign_role (CsvParameters.clean_name n) ii p)).
  destruct (CsvParameters.assign_roles names (S ii) _) as [rest p'].
  cbn [fst] in *. rewrite IH. reflexivity.
Qed.

Lemma is_role_empty (tmp : string) :
  CsvParameters.is_empty tmp = true -> is_one_of tmp role_names = false.
Proof. destruct tmp; [reflexivity|discriminate]. Qed.

Lemma assign_roles_skipped (names : list string) :
  forall (ii jj : nat) (p : CsvParameters.t),
    CsvIO.skipped (snd (CsvParameters.assign_roles names ii p)) jj
    = CsvIO.skipped p jj
      || ((ii <=? jj) && (jj <? ii + List.length names)
          && is_one_of (CsvParameters.clean_name (at_ names (jj - ii))) role_names).
Proof.
  induction names as [|n names IH]; intros ii jj p.
  - cbn [CsvParameters.assign_roles snd List.length].
    replace (jj <? ii + 0) with (jj <? ii) by (f_equal; lia).
    destruct (ii <=? jj) eqn:H1, (jj <? ii) eqn:H2; cbn [andb]; rewrite ?orb_false_r;
      try reflexivity.
    apply Nat.leb_le in H1. apply Nat.ltb_lt in H2. lia.
  - cbn [CsvParameters.assign_roles].
    set (tmp := CsvParameters.clean_name n).
    set (p1 := if CsvParameters.is_empty tmp then p else CsvParameters.assign_role tmp ii p).
    specialize (IH (S ii) jj p1).
    destruct (CsvParameters.assign_roles names (S ii) p1) as [rest p']. cbn [snd] in *.
    rewrite IH. clear IH.
    assert (H1 : CsvIO.skipped p1 jj
                 = CsvIO.skipped p jj || (is_one_of tmp role_names && Nat.eqb jj ii)).
    { subst p1. destruct (CsvParameters.is_empty tmp) eqn:He.
      - rewrite (is_role_empty tmp He). rewrite orb_false_r. reflexivity.
      - apply assign_role_skipped. }
    rewrite H1. cbn [List.length].
    destruct (Nat.eqb jj ii) eqn:Hj.
    + apply Nat.eqb_eq in Hj. subst jj. rewrite Nat.sub_diag. cbn [at_ nth]. fold tmp.
      replace (S ii <=? ii) with false by (symmetry; apply Nat.leb_gt; lia).
      replace (ii <=? ii) with true by (symmetry; apply Nat.leb_le; lia).
      replace (ii <? ii + S (List.length names)) with true
        by (symmetry; apply Nat.ltb_lt; lia).
      cbn [andb]. rewrite orb_false_r, andb_true_r. reflexivity.
    + rewrite andb_false_r, orb_false_r. apply Nat.eqb_neq in Hj. f_equal.
      destruct (S ii <=? jj) eqn:H2.
      * apply Nat.leb_le in H2.
        replace (ii <=? jj) with true by (symmetry; apply Nat.leb_le; lia).
        replace (jj - ii) with (S (jj - S ii)) by lia. cbn [at_ nth andb].
        f_equal. destruct (jj <? S ii + List.length names) eqn:H3.
        -- symmetry. apply Nat.ltb_lt. apply Nat.ltb_lt in H3. lia.
        -- symmetry. apply Nat.ltb_ge. apply Nat.ltb_ge in H3. lia.
      * apply Nat.leb_gt in H2.
        replace (ii <=? jj) with false by (symmetry; apply Nat.leb_gt; lia).
        reflexivity.
Qed.

End Roles.

(** What [setDateTimeSpec] and [setTimeSpec] change. *)
Lemma setDateTimeSpec_members (p p' : CsvParameters.t) (s : string) :
  CsvParameters.setDateTimeSpec p s = Ok p' ->
  exists idx fmt tz, p' = CsvParameters.set_datetime_spec idx fmt tz p.
Proof.
  unfold CsvParameters.setDateTimeSpec. intros H.
  destruct (CsvParameters.replace_tz _ _) as [[f tz]|e]; [|discriminate].
  cbv zeta in H.
  match type of H with
  | (if ?c then _ else _) = _ => destruct c; [|discriminate]
  end.
  injection H as <-. eauto.
Qed.

Lemma setTimeSpec_members (p p' : CsvParameters.t) (s : string) :
  CsvParameters.setTimeSpec p s = Ok p' ->
  p' = p \/ exists idx fmt tz, p' = CsvParameters.set_time_spec idx fmt tz p.
Proof.
  unfold CsvParameters.setTimeSpec. intros H. destruct s; [left; congruence|].
  destruct (CsvParameters.replace_tz _ _) as [[f tz]|e]; [|discriminate].
  cbv zeta in H.
  match type of H with
  | (if ?c then _ else _) = _ => destruct c; [|discriminate]
  end.
  injection H as <-. right. eauto.
Qed.

Lemma default_formats_layout (p p' : CsvParameters.t) :
  CsvParameters.default_formats p = Ok p' -> layout p' = layout p.
Proof.
  unfold CsvParameters.default_formats. intros H.
  destruct (CsvParameters.dt_as_decimal p); [congruence|].
  destruct (CsvDateTime.same_column _ _).
  - destruct (CsvParameters.datetime_idx p); [|congruence].
    apply setDateTimeSpec_members in H. destruct H as (i & f & tz & ->). reflexivity.
  - match type of H with
    | match ?r with _ => _ end = _ =>
        destruct r as [p1|e] eqn:H1; [|discriminate];
        assert (L1 : layout p1 = layout p)
    end.
    { destruct (CsvParameters.datetime_idx p); [|congruence].
      destruct (CsvDateTime.is_set _); [|congruence].
      apply setDateTimeSpec_members in H1. destruct H1 as (i & f & tz & ->). reflexivity. }
    rewrite <- L1. clear H1 L1. destruct (CsvParameters.time_idx p1); [|congruence].
    destruct (CsvDateTime.is_set _); [|congruence].
    apply setTimeSpec_members in H. destruct H as [->|(i & f & tz & ->)]; reflexivity.
Qed.

Section ParsedFields.
Context `{E : Externals} `{L : Library}.

Lemma name_single_field_length (f : CsvParameters.full) (names names' : list string) :
  CsvParameters.name_single_field f names = Ok names' ->
  List.length names' = List.length names.
Proof.
  unfold CsvParameters.name_single_field. intros H.
  destruct (CsvDateTime.is_set _); [discriminate|].
  cbv zeta in H.
  repeat match type of H with
         | context [if ?b then _ else _] => destruct b
         | context [match ?o with Some _ => _ | None => _ end] => destruct o
         end; injection H as <-; rewrite ?assign_at_length; reflexivity.
Qed.

(** The steps of a call of [parseFields] that succeeds. *)
Lemma parseFields_done (f f' : CsvParameters.full) (headerFields fieldNames names' : list string) :
  CsvParameters.parseFields f headerFields fieldNames = Done (f', names') ->
  let given := if List.length fieldNames =? 0 then headerFields else fieldNames in
  let p1 := CsvParameters.on_date_cols CsvDateTime.updateMaxCol
              (snd (CsvParameters.assign_roles given 0 (CsvParameters.core f))) in
  given <> []
  /\ CsvDateTime.isSet (CsvParameters.date_cols p1) = true
  /\ CsvParameters.default_formats p1 = Ok (CsvParameters.core f')
  /\ f' = CsvParameters.set_core (CsvParameters.core f') f
  /\ List.length names' = List.length given
  /\ (CsvParameters.is_empty (CsvParameters.single_field f) = true
      \/ List.length fieldNames <> 0 ->
      names' = map CsvParameters.clean_name given).
Proof.
  intros H given p1. unfold CsvParameters.parseFields in H.
  assert (Hg : (if negb (negb (List.length fieldNames =? 0)) then headerFields else fieldNames)
               = given).
  { subst given. destruct (List.length fieldNames =? 0); reflexivity. }
  destruct ((List.length headerFields =? 0) && negb (negb (List.length fieldNames =? 0)))
    eqn:H0; [discriminate|].
  rewrite Hg in H.
  pose proof (assign_roles_names given 0 (CsvParameters.core f)) as Hn.
  destruct (CsvParameters.assign_roles given 0 (CsvParameters.core f)) as [names p] eqn:Ha.
  cbn [fst snd] in *. fold p1 in H.
  destruct (CsvDateTime.isSet (CsvParameters.date_cols p1)) eqn:Hs; [|discriminate].
  cbn [negb] in H.
  destruct (CsvParameters.dt_as_components p1 && _); [discriminate|].
  destruct (CsvParameters.default_formats p1) as [p2|e] eqn:Hd; [|discriminate].
  assert (Hne : given <> []).
  { intros Hnil. subst given. destruct fieldNames; cbn in *.
    - rewrite Hnil in H0. discriminate.
    - discriminate. }
  cbn [CsvParameters.single_field CsvParameters.set_core] in H.
  destruct (negb (CsvParameters.is_empty (CsvParameters.single_field f))
            && negb (negb (List.length fieldNames =? 0))) eqn:Hsf.
  - destruct (CsvParameters.name_single_field _ names) as [names2|e] eqn:Hnm; [|discriminate].
    injection H as <- <-. cbn [CsvParameters.core CsvParameters.set_core].
    repeat split; try assumption; try reflexivity.
    + apply name_single_field_length in Hnm. rewrite Hnm, Hn, length_map. reflexivity.
    + intros [Hx|Hx].
      * rewrite Hx in Hsf. discriminate.
      * apply Nat.eqb_neq in Hx. rewrite Hx in Hsf. rewrite andb_false_r in Hsf. discriminate.
  - injection H as <- <-. cbn [CsvParameters.core CsvParameters.set_core].
    repeat split; try assumption; try reflexivity.
    + rewrite Hn, length_map. reflexivity.
    + intros _. exact Hn.
Qed.

End ParsedFields.

Lemma date_cols_skip (ii : nat) (p : CsvParameters.t) :
  CsvParameters.date_cols (CsvParameters.skip ii p) = CsvParameters.date_cols p.
Proof. unfold CsvParameters.skip. destruct (existsb _ _); reflexivity. Qed.

Lemma ID_col_skip (ii : nat) (p : CsvParameters.t) :
  CsvParameters.ID_col (CsvParameters.skip ii p) = CsvParameters.ID_col p.
Proof. unfold CsvParameters.skip. destruct (existsb _ _); reflexivity. Qed.

Lemma assign_role_below (tmp : string) (ii n : nat) (p : CsvParameters.t) :
  ii < n -> columns_below n p -> columns_below n (CsvParameters.assign_role tmp ii p).
Proof.
  intros Hii [Hc Hid]. unfold columns_below.
  destruct p as [dc ? ? ? ? ? ? ? ? ? ? idc ? ? ? ? ? ? ? ? ? ? ? ? ? ?].
  destruct dc as [c1 c2 c3 c4 c5 c6 c7 c8 c9 c10 c11 m y w t].
  unfold CsvDateTime.columns in Hc. cbn in Hc, Hid.
  repeat match goal with
         | H : Forall _ (_ :: _) |- _ => inversion H; subst; clear H
         end.
  role_cases; unfold CsvParameters.set_dt_as_year_and_jdn;
    cbn [CsvParameters.date_cols CsvParameters.ID_col];
    rewrite ?date_cols_skip, ?ID_col_skip; unfold CsvDateTime.columns; cbn; split;
    repeat (apply Forall_cons; [assumption || exact Hii|]);
    try apply Forall_nil; assumption || exact Hii.
Qed.

Section Columns.
Context `{E : Externals} `{L : Library}.

Lemma assign_roles_below (names : list string) :
  forall (ii n : nat) (p : CsvParameters.t),
    ii + List.length names <= n -> columns_below n p ->
    columns_below n (snd (CsvParameters.assign_roles names ii p)).
Proof.
  induction names as [|nm names IH]; intros ii n p Hn Hp; [exact Hp|].
  cbn [CsvParameters.assign_roles]. cbn [List.length] in Hn.
  set (p1 := if CsvParameters.is_empty _ then p else _).
  assert (H1 : columns_below n p1).
  { subst p1. destruct (CsvParameters.is_empty _); [exact Hp|].
    apply assign_role_below; [lia|exact Hp]. }
  specialize (IH (S ii) n p1 ltac:(lia) H1).
  destruct (CsvParameters.assign_roles names (S ii) p1). exact IH.
Qed.

End Columns.

Lemma assign_role_max_dt_col (tmp : string) (ii : nat) (p : CsvParameters.t) :
  CsvDateTime.max_dt_col (CsvParameters.date_cols (CsvParameters.assign_role tmp ii p))
  = CsvDateTime.max_dt_col (CsvParameters.date_cols p).
Proof.
  role_cases; unfold CsvParameters.set_dt_as_year_and_jdn;
    cbn [CsvParameters.date_cols]; rewrite ?date_cols_skip; reflexivity.
Qed.

Section MaxCol.
Context `{E : Externals} `{L : Library}.

Lemma assign_roles_max_dt_col (names : list string) :
  forall (ii : nat) (p : CsvParameters.t),
    CsvDateTime.max_dt_col
      (CsvParameters.date_cols (snd (CsvParameters.assign_roles names ii p)))
    = CsvDateTime.max_dt_col (CsvParameters.date_cols p).
Proof.
  induction names as [|nm names IH]; intros ii p; [reflexivity|].
  cbn [CsvParameters.assign_roles].
  set (p1 := if CsvParameters.is_empty _ then p else _).
  specialize (IH (S ii) p1).
  destruct (CsvParameters.assign_roles names (S ii) p1). cbn [snd] in *.
  rewrite IH. subst p1. destruct (CsvParameters.is_empty _); [reflexivity|].
  apply assign_role_max_dt_col.
Qed.

End MaxCol.

(** X9.  After [parseFields] the columns that are skipped are those that
    were skipped before and those whose name, once cleaned, has a role (a
    column of the date and time, SKIP, the station ID); as many names come
    back as were given. *)
Theorem parseFields_skips_columns_with_a_role `{E : Externals} `{L : Library} :
  forall (f f' : CsvParameters.full) (headerFields fieldNames names' : list string),
    CsvParameters.parseFields f headerFields fieldNames = Done (f', names') ->
    let given := if List.length fieldNames =? 0 then headerFields else fieldNames in
    List.length names' = List.length given
    /\ forall jj,
         CsvIO.skipped (CsvParameters.core f') jj
         = CsvIO.skipped (CsvParameters.core f) jj
           || ((jj <? List.length given)
               && is_one_of (CsvParameters.clean_name (at_ given jj)) role_names).
Proof.
  intros f f' headerFields fieldNames names' H given.
  destruct (parseFields_done f f' headerFields fieldNames names' H)
    as (_ & _ & Hd & _ & Hlen & _).
  fold given in Hd, Hlen. split; [exact Hlen|]. intros jj.
  apply default_formats_layout in Hd.
  assert (Hs : CsvParameters.skip_fields (CsvParameters.core f')
               = CsvParameters.skip_fields
                   (snd (CsvParameters.assign_roles given 0 (CsvParameters.core f)))).
  { unfold layout in Hd. injection Hd as _ Hs _ _ _ _ _. exact Hs. }
  rewrite (skipped_members _ _ jj Hs), assign_roles_skipped.
  rewrite Nat.sub_0_r. cbn [Nat.add Nat.leb andb]. reflexivity.
Qed.

Lemma skipped_timestamp_and_SKIP_columns :
  exists f' names',
    @CsvParameters.parseFields Examples.externals Examples.library
      (Examples.whole Examples.blank) ["timestamp"; "TA"; "skip"] [] = Done (f', names')
    /\ CsvIO.skipped (CsvParameters.core f') 0 = true
    /\ CsvIO.skipped (CsvParameters.core f') 1 = false
    /\ CsvIO.skipped (CsvParameters.core f') 2 = true.
Proof.
  assert (Hp : exists f' names',
             @CsvParameters.parseFields Examples.externals Examples.library
               (Examples.whole Examples.blank) ["timestamp"; "TA"; "skip"] []
             = Done (f', names')) by (vm_compute; eauto).
  destruct Hp as (f' & names' & Hp). exists f', names'. split; [exact Hp|].
  destruct (@parseFields_skips_columns_with_a_role Examples.externals Examples.library
              _ _ _ _ _ Hp) as [_ Hs].
  rewrite !Hs. vm_compute. auto.
Defined.

(** X10.  On an object on which no column was set, [parseFields] sets the
    columns of the date and time and of the station ID to columns of the
    file, and [max_dt_col] too: a line with as many fields as the file has
    names holds all of them. *)
Theorem parseFields_columns_within_the_fields `{E : Externals} `{L : Library} :
  forall (f f' : CsvParameters.full) (headerFields fieldNames names' : list string),
    CsvParameters.parseFields f headerFields fieldNames = Done (f', names') ->
    Forall (eq None) (CsvDateTime.columns (CsvParameters.date_cols (CsvParameters.core f))) ->
    CsvParameters.ID_col (CsvParameters.core f) = None ->
    CsvDateTime.max_dt_col (CsvParameters.date_cols (CsvParameters.core f)) = 0 ->
    let n := List.length names' in
    Forall (below n) (CsvDateTime.columns (CsvParameters.date_cols (CsvParameters.core f')))
    /\ below n (CsvParameters.ID_col (CsvParameters.core f'))
    /\ CsvDateTime.max_dt_col (CsvParameters.date_cols (CsvParameters.core f')) < n.
Proof.
  intros f f' headerFields fieldNames names' H Hc Hid Hm n.
  destruct (parseFields_done f f' headerFields fieldNames names' H)
    as (Hne & _ & Hd & _ & Hlen & _).
  set (given := if List.length fieldNames =? 0 then headerFields else fieldNames) in *.
  apply default_formats_layout in Hd. unfold layout in Hd.
  injection Hd as Hdc _ Hi _ _ _ _.
  assert (Hn : 0 < n).
  { subst n. rewrite Hlen. destruct given; [congruence|cbn; lia]. }
  assert (H0 : columns_below n (CsvParameters.core f)).
  { split.
    - eapply Forall_impl; [|exact Hc]. intros c <-. exact I.
    - rewrite Hid. exact I. }
  pose proof (assign_roles_below given 0 n (CsvParameters.core f)
                ltac:(subst n; rewrite Hlen; cbn; lia) H0) as [Hb Hbi].
  set (p := snd (CsvParameters.assign_roles given 0 (CsvParameters.core f))) in *.
  rewrite Hdc, Hi. cbn [CsvParameters.date_cols CsvParameters.ID_col
                         CsvParameters.on_date_cols CsvParameters.set_date_cols].
  assert (Hcols : CsvDateTime.columns (CsvDateTime.updateMaxCol (CsvParameters.date_cols p))
                  = CsvDateTime.columns (CsvParameters.date_cols p)) by reflexivity.
  rewrite Hcols. split; [exact Hb|]. split; [exact Hbi|].
  rewrite updateMaxCol_fold. cbn [CsvDateTime.max_dt_col CsvDateTime.set_max_dt_col].
  destruct (raise_all_cases (CsvDateTime.columns (CsvParameters.date_cols p))
              (CsvDateTime.max_dt_col (CsvParameters.date_cols p))) as [Hx|Hx].
  - rewrite Hx. subst p. rewrite assign_roles_max_dt_col, Hm. exact Hn.
  - rewrite Forall_forall in Hb. apply (Hb _ Hx).
Qed.

Lemma columns_of_a_file_with_date_and_time :
  exists f',
    @CsvParameters.parseFields Examples.externals Examples.library
      (Examples.whole Examples.blank) ["TA"; "Date"; "ID"; "Time"] []
    = Done (f', ["TA"; "DATE"; "ID"; "TIME"])
    /\ Forall (below 4) (CsvDateTime.columns (CsvParameters.date_cols (CsvParameters.core f')))
    /\ below 4 (CsvParameters.ID_col (CsvParameters.core f'))
    /\ CsvDateTime.max_dt_col (CsvParameters.date_cols (CsvParameters.core f')) < 4.
Proof.
  assert (Hp : exists f',
             @CsvParameters.parseFields Examples.externals Examples.library
               (Examples.whole Examples.blank) ["TA"; "Date"; "ID"; "Time"] []
             = Done (f', ["TA"; "DATE"; "ID"; "TIME"])) by (vm_compute; eauto).
  destruct Hp as (f' & Hp). exists f'. split; [exact Hp|].
  apply (@parseFields_columns_within_the_fields Examples.externals Examples.library
           _ _ _ _ _ Hp).
  - repeat constructor.
  - reflexivity.
  - reflexivity.
Defined.

Lemma assign_role_no_time (tmp : string) (ii : nat) (p : CsvParameters.t) :
  is_one_of tmp time_names = false ->
  no_time (CsvParameters.date_cols p) ->
  no_time (CsvParameters.date_cols (CsvParameters.assign_role tmp ii p)).
Proof.
  intros H Hp. unfold is_one_of, time_names in H. cbn [existsb] in H.
  repeat (apply orb_false_iff in H; destruct H as [? H]).
  unfold CsvParameters.assign_role, is_one_of. cbn [existsb].
  repeat match goal with
         | Hx : String.eqb tmp ?s = false |- _ => rewrite Hx; clear Hx
         end.
  cbn [orb].
  repeat match goal with
         | |- context [if ?b then _ else _] =>
             lazymatch b with
             | existsb _ _ => fail
             | _ => destruct b
             end
         end;
    unfold CsvParameters.set_dt_as_year_and_jdn; cbn [CsvParameters.date_cols];
    rewrite ?date_cols_skip; exact Hp.
Qed.

Section Time.
Context `{E : Externals} `{L : Library}.

Lemma assign_roles_no_time (names : list string) :
  forall (ii : nat) (p : CsvParameters.t),
    Forall (fun n => is_one_of (CsvParameters.clean_name n) time_names = false) names ->
    no_time (CsvParameters.date_cols p) ->
    no_time (CsvParameters.date_cols (snd (CsvParameters.assign_roles names ii p))).
Proof.
  induction names as [|nm names IH]; intros ii p Hn Hp; [exact Hp|].
  inversion Hn as [|? ? H1 H2]; subst.
  cbn [CsvParameters.assign_roles].
  set (p1 := if CsvParameters.is_empty _ then p else _).
  assert (Hp1 : no_time (CsvParameters.date_cols p1)).
  { subst p1. destruct (CsvParameters.is_empty _); [exact Hp|].
    apply assign_role_no_time; assumption. }
  specialize (IH (S ii) p1 H2 Hp1).
  destruct (CsvParameters.assign_roles names (S ii) p1). exact IH.
Qed.

Lemma isSet_no_time (d : CsvDateTime.t) : no_time d -> CsvDateTime.isSet d = false.
Proof.
  intros (H1 & H2 & H3 & H4). unfold CsvDateTime.isSet. rewrite H1, H2, H3, H4.
  cbn [CsvDateTime.is_set orb]. rewrite !andb_false_r. reflexivity.
Qed.

End Time.

(** X11.  Without a column for the time of day [parseFields] refuses the
    file with [UnknownValueException], whether there is a column for the
    date or not; without any name at all it raises
    [InvalidArgumentException]. *)
Theorem parseFields_needs_a_time_column `{E : Externals} `{L : Library} :
  forall (f : CsvParameters.full) (headerFields fieldNames : list string),
    let given := if List.length fieldNames =? 0 then headerFields else fieldNames in
    Forall (fun n => is_one_of (CsvParameters.clean_name n) time_names = false) given ->
    no_time (CsvParameters.date_cols (CsvParameters.core f)) ->
    CsvParameters.parseFields f headerFields fieldNames
    = Failed (match given with
              | [] => IOException InvalidArgumentException
              | _ => UnknownValueException
              end).
Proof.
  intros f headerFields fieldNames given Hn Hf. unfold CsvParameters.parseFields.
  assert (Hg : (if negb (negb (List.length fieldNames =? 0)) then headerFields else fieldNames)
               = given).
  { subst given. destruct (List.length fieldNames =? 0); reflexivity. }
  rewrite Hg.
  destruct ((List.length headerFields =? 0) && negb (negb (List.length fieldNames =? 0)))
    eqn:H0.
  - apply andb_true_iff in H0. destruct H0 as [H1 H2].
    rewrite negb_involutive in H2. subst given. rewrite H2.
    destruct headerFields; [reflexivity|discriminate].
  - pose proof (assign_roles_no_time given 0 (CsvParameters.core f) Hn Hf) as Hnt.
    destruct (CsvParameters.assign_roles given 0 (CsvParameters.core f)) as [names p].
    cbn [snd] in Hnt.
    assert (Hs : CsvDateTime.isSet
                   (CsvParameters.date_cols
                      (CsvParameters.on_date_cols CsvDateTime.updateMaxCol p)) = false).
    { apply isSet_no_time. exact Hnt. }
    rewrite Hs. cbn [negb].
    assert (Hne : given <> []).
    { intros Hnil. unfold given in Hnil. destruct (List.length fieldNames =? 0) eqn:Hl.
      - rewrite Hnil in H0. discriminate.
      - rewrite Hnil in Hl. discriminate. }
    destruct given as [|g given']; [congruence|reflexivity].
Qed.

Lemma daily_file_is_refused :
  @CsvParameters.parseFields Examples.externals Examples.library
    (Examples.whole Examples.blank) ["DATE"; "TA"] []
  = Failed UnknownValueException.
Proof.
  apply (@parseFields_needs_a_time_column Examples.externals Examples.library
           (Examples.whole Examples.blank) ["DATE"; "TA"] []).
  - repeat constructor.
  - repeat split.
Defined.

(** ** The template of the records *)

Section Template.
Context `{E : Externals} `{L : Library}.

Lemma declared_app (name : string) (l l' : list (string * Q)) :
  MeteoData.declared name (l ++ l') = MeteoData.declared name l || MeteoData.declared name l'.
Proof.
  induction l as [|[n x] l IH]; [reflexivity|].
  cbn [app MeteoData.declared]. rewrite IH, orb_assoc. reflexivity.
Qed.

Lemma declare_fields_undeclared (p : CsvParameters.t) (name : string) (names : list string) :
  forall (ii : nat) (md : MeteoData.t),
    MeteoData.declared name (MeteoData.fields md) = false ->
    (forall k, k < List.length names -> at_ names k = name -> CsvIO.skipped p (ii + k) = true) ->
    MeteoData.declared name (MeteoData.fields (CsvIO.declare_fields p ii names md)) = false.
Proof.
  induction names as [|n names IH]; intros ii md Hmd Hs; [exact Hmd|].
  cbn [CsvIO.declare_fields].
  assert (Hs' : forall k, k < List.length names -> at_ names k = name ->
                          CsvIO.skipped p (S ii + k) = true).
  { intros k Hk Hn. replace (S ii + k) with (ii + S k) by lia.
    apply Hs; [cbn; lia|exact Hn]. }
  destruct (CsvIO.skipped p ii) eqn:Hsk.
  - apply IH; assumption.
  - apply IH; [|exact Hs'].
    unfold MeteoData.addParameter.
    destruct (MeteoData.declared n (MeteoData.fields md)); [exact Hmd|].
    cbn [MeteoData.fields]. rewrite declared_app, Hmd. cbn [MeteoData.declared orb].
    rewrite orb_false_r. apply String.eqb_neq. intros ->.
    specialize (Hs 0 ltac:(cbn; lia) eq_refl). rewrite Nat.add_0_r in Hs. congruence.
Qed.

End Template.

(** X12.  The template of the records that [createTemplate] builds from
    the names that [parseFields] gives back has no field of the name of a
    role: the date and time, SKIP and the station ID are no measurements.
    (For a file without a single parameter, or with field names of the
    user.) *)
Theorem columns_with_a_role_are_no_fields `{E : Externals} `{L : Library} :
  forall (f f' : CsvParameters.full) (headerFields fieldNames names' : list string)
         (name : string),
    CsvParameters.parseFields f headerFields fieldNames = Done (f', names') ->
    CsvParameters.is_empty (CsvParameters.single_field f) = true
    \/ List.length fieldNames <> 0 ->
    In name role_names ->
    MeteoData.declared name
      (MeteoData.fields
         (CsvIO.createTemplate (CsvParameters.set_csv_fields names' (CsvParameters.core f'))))
    = false.
Proof.
  intros f f' headerFields fieldNames names' name H Hsf Hname.
  destruct (parseFields_done f f' headerFields fieldNames names' H)
    as (_ & _ & Hd & _ & Hlen & Hnames).
  specialize (Hnames Hsf).
  set (given := if List.length fieldNames =? 0 then headerFields else fieldNames) in *.
  apply default_formats_layout in Hd. unfold layout in Hd. injection Hd as _ Hs _ _ _ _ _.
  unfold CsvIO.createTemplate. cbn [CsvParameters.csv_fields CsvParameters.set_csv_fields].
  apply declare_fields_undeclared; [reflexivity|].
  intros k Hk Hn. cbn [Nat.add].
  change (CsvIO.skipped (CsvParameters.set_csv_fields names' (CsvParameters.core f')) k)
    with (CsvIO.skipped (CsvParameters.core f') k).
  rewrite (skipped_members _ _ k Hs), assign_roles_skipped.
  rewrite Nat.sub_0_r. cbn [Nat.add Nat.leb andb].
  rewrite Hlen in Hk. apply Nat.ltb_lt in Hk. rewrite Hk. cbn [andb].
  subst names'. unfold at_ in Hn.
  rewrite (nth_indep _ EmptyString (CsvParameters.clean_name EmptyString)) in Hn
    by (rewrite length_map; apply Nat.ltb_lt; exact Hk).
  rewrite map_nth in Hn. fold (at_ given k) in Hn. rewrite Hn.
  assert (Hr : is_one_of name role_names = true).
  { unfold is_one_of. apply existsb_exists. exists name. split; [exact Hname|].
    apply String.eqb_refl. }
  rewrite Hr. apply orb_true_r.
Qed.

Lemma timestamp_is_no_field :
  exists f' names',
    @CsvParameters.parseFields Examples.externals Examples.library
      (Examples.whole Examples.blank) ["TIMESTAMP"; "TA"] [] = Done (f', names')
    /\ MeteoData.declared "TIMESTAMP"
         (MeteoData.fields
            (@CsvIO.createTemplate Examples.externals
               (CsvParameters.set_csv_fields names' (CsvParameters.core f'))))
       = false.
Proof.
  assert (Hp : exists f' names',
             @CsvParameters.parseFields Examples.externals Examples.library
               (Examples.whole Examples.blank) ["TIMESTAMP"; "TA"] []
             = Done (f', names')) by (vm_compute; eauto).
  destruct Hp as (f' & names' & Hp). exists f', names'. split; [exact Hp|].
  apply (@columns_with_a_role_are_no_fields Examples.externals Examples.library
           _ _ _ _ _ "TIMESTAMP" Hp).
  - left. reflexivity.
  - left. reflexivity.
Defined.

(** ** Default formats of the date and time *)

Section OneRole.
Context `{E : Externals} `{L : Library}.

Lemma assign_roles_app (a b : list string) :
  forall (ii : nat) (p : CsvParameters.t),
    snd (CsvParameters.assign_roles (a ++ b) ii p)
    = snd (CsvParameters.assign_roles b (ii + List.length a)
             (snd (CsvParameters.assign_roles a ii p))).
Proof.
  induction a as [|n a IH]; intros ii p.
  - cbn [app List.length CsvParameters.assign_roles snd]. rewrite Nat.add_0_r. reflexivity.
  - cbn [app List.length CsvParameters.assign_roles].
    set (p1 := if CsvParameters.is_empty _ then p else _).
    specialize (IH (S ii) p1).
    destruct (CsvParameters.assign_roles (a ++ b) (S ii) p1) as [r1 q1].
    destruct (CsvParameters.assign_roles a (S ii) p1) as [r2 q2].
    cbn [snd] in *. rewrite IH. f_equal. f_equal. lia.
Qed.

Lemma assign_roles_measured (names : list string) :
  forall (ii : nat) (p : CsvParameters.t),
    Forall measured names -> snd (CsvParameters.assign_roles names ii p) = p.
Proof.
  induction names as [|n names IH]; intros ii p Hn; [reflexivity|].
  inversion Hn as [|? ? H1 H2]; subst. cbn [CsvParameters.assign_roles].
  rewrite (assign_role_plain _ ii p H1).
  replace (if CsvParameters.is_empty (CsvParameters.clean_name n) then p else p) with p
    by (destruct (CsvParameters.is_empty _); reflexivity).
  specialize (IH (S ii) p H2).
  destruct (CsvParameters.assign_roles names (S ii) p). exact IH.
Qed.

(** One column with a role among columns of measurements. *)
Lemma assign_roles_one (pre post : list string) (x : string) (p : CsvParameters.t) :
  Forall measured (pre ++ post) ->
  is_one_of (CsvParameters.clean_name x) role_names = true ->
  snd (CsvParameters.assign_roles (pre ++ x :: post) 0 p)
  = CsvParameters.assign_role (CsvParameters.clean_name x) (List.length pre) p.
Proof.
  intros Hm Hx. apply Forall_app in Hm. destruct Hm as [Hpre Hpost].
  rewrite assign_roles_app, (assign_roles_measured pre 0 p Hpre).
  cbn [Nat.add CsvParameters.assign_roles].
  destruct (CsvParameters.is_empty (CsvParameters.clean_name x)) eqn:He.
  { rewrite (is_role_empty _ He) in Hx. discriminate. }
  match goal with
  | |- context [CsvParameters.assign_roles post ?i ?q] =>
      pose proof (assign_roles_measured post i q Hpost) as Hq;
      destruct (CsvParameters.assign_roles post i q)
  end.
  exact Hq.
Qed.

End OneRole.

Lemma is_role_of (tmp : string) (l : list string) :
  is_one_of tmp l = true -> incl l role_names -> is_one_of tmp role_names = true.
Proof.
  unfold is_one_of. intros H Hl. apply existsb_exists in H. destruct H as (x & Hx & He).
  apply existsb_exists. exists x. split; [apply Hl; exact Hx|exact He].
Qed.

(** The members of an object after a column was given the role of the
    combined date and time. *)
Lemma timestamp_role (k : nat) (p : CsvParameters.t) :
  let q := CsvParameters.on_date_cols CsvDateTime.updateMaxCol
             (CsvParameters.skip k
                (CsvParameters.on_date_cols (CsvDateTime.set_date_str (Some k))
                   (CsvParameters.on_date_cols (CsvDateTime.set_time_str (Some k)) p))) in
  CsvDateTime.date_str (CsvParameters.date_cols q) = Some k
  /\ CsvDateTime.time_str (CsvParameters.date_cols q) = Some k
  /\ CsvParameters.dt_as_decimal q = CsvParameters.dt_as_decimal p
  /\ CsvParameters.dt_as_components q = CsvParameters.dt_as_components p
  /\ CsvParameters.datetime_idx q = CsvParameters.datetime_idx p
  /\ CsvParameters.time_idx q = CsvParameters.time_idx p
  /\ CsvParameters.has_tz q = CsvParameters.has_tz p
  /\ CsvParameters.csv_tz q = CsvParameters.csv_tz p.
Proof.
  cbv zeta. unfold CsvParameters.skip. destruct (existsb _ _); repeat split; reflexivity.
Qed.

Section Defaults.
Context `{E : Externals} `{L : Library}.
Hypothesis conforms : sscanf_conforms.

Lemma default_formats_timestamp (k : nat) (q : CsvParameters.t) :
  CsvDateTime.date_str (CsvParameters.date_cols q) = Some k ->
  CsvDateTime.time_str (CsvParameters.date_cols q) = Some k ->
  CsvParameters.dt_as_decimal q = false ->
  CsvParameters.datetime_idx q = [] -> CsvParameters.has_tz q = false ->
  CsvParameters.default_formats q
  = Ok (CsvParameters.set_datetime_spec (map index (keys iso_8601)) (template iso_8601)
          false q).
Proof.
  intros Hd Ht Hdec Hidx Htz. unfold CsvParameters.default_formats.
  rewrite Hdec, Hd, Ht, Hidx. cbn [CsvDateTime.same_column]. rewrite Nat.eqb_refl.
  apply (setDateTimeSpec_pattern q iso_8601 Hidx Htz).
  - repeat constructor; cbn; intuition discriminate.
  - reflexivity.
Qed.

Lemma parseDate_timestamp (k : nat) (q : CsvParameters.t) (v : key -> nat)
    (row : list string) :
  CsvDateTime.date_str (CsvParameters.date_cols q) = Some k ->
  CsvDateTime.time_str (CsvParameters.date_cols q) = Some k ->
  CsvParameters.dt_as_decimal q = false -> CsvParameters.dt_as_components q = false ->
  CsvParameters.time_idx q = [] ->
  (forall key, v key < 10 ^ width key) ->
  at_ row k = timestamp iso_8601 v ->
  let q' := CsvParameters.set_datetime_spec (map index (keys iso_8601))
              (template iso_8601) false q in
  CsvParameters.parseDate q' row
  = (DateYMD (Z.of_nat (v YYYY)) (Z.of_nat (v MM)) (Z.of_nat (v DD))
       (Z.of_nat (v HH24)) (Z.of_nat (v MI)) (inject_Z (Z.of_nat (v SS)))
       (CsvParameters.csv_tz q), q').
Proof.
  intros Hd Ht Hdec Hcomp Htidx Hv Hrow q'. unfold CsvParameters.parseDate.
  change (CsvParameters.dt_as_components q') with (CsvParameters.dt_as_components q).
  change (CsvParameters.dt_as_decimal q') with (CsvParameters.dt_as_decimal q).
  change (CsvParameters.date_cols q') with (CsvParameters.date_cols q).
  rewrite Hcomp, Hdec, Hd, Ht. cbn [CsvParameters.column]. rewrite Hrow. f_equal.
  subst q'.
  rewrite (parseDate_str_pattern conforms q iso_8601 v (timestamp iso_8601 v) Htidx).
  - reflexivity.
  - repeat constructor; cbn; intuition discriminate.
  - cbn. lia.
  - reflexivity.
  - reflexivity.
  - exact Hv.
Qed.

End Defaults.

(** X13.  A file with one column for the date and time among columns of
    measurements, and no format configured: [parseFields] sets the format
    to ISO 8601, and [parseDate] then reads the timestamp
    year-month-dayThour:minute:second of that column, provided that
    [sscanf] conforms to the formats. *)
Theorem timestamp_column_defaults_to_ISO_8601 `{E : Externals} `{L : Library} :
  sscanf_conforms ->
  forall (f : CsvParameters.full) (headerFields fieldNames pre post : list string)
         (ts : string),
    (if List.length fieldNames =? 0 then headerFields else fieldNames) = pre ++ ts :: post ->
    is_one_of (CsvParameters.clean_name ts) ["TIMESTAMP"; "TS"; "DATETIME"] = true ->
    Forall measured (pre ++ post) ->
    CsvParameters.dt_as_decimal (CsvParameters.core f) = false ->
    CsvParameters.dt_as_components (CsvParameters.core f) = false ->
    CsvParameters.datetime_idx (CsvParameters.core f) = [] ->
    CsvParameters.time_idx (CsvParameters.core f) = [] ->
    CsvParameters.has_tz (CsvParameters.core f) = false ->
    CsvParameters.is_empty (CsvParameters.single_field f) = true ->
    exists f',
      CsvParameters.parseFields f headerFields fieldNames
      = Done (f', map CsvParameters.clean_name (pre ++ ts :: post))
      /\ forall (v : key -> nat) (row : list string),
           (forall k, v k < 10 ^ width k) ->
           at_ row (List.length pre) = timestamp iso_8601 v ->
           CsvParameters.parseDate (CsvParameters.core f') row
           = (DateYMD (Z.of_nat (v YYYY)) (Z.of_nat (v MM)) (Z.of_nat (v DD))
                (Z.of_nat (v HH24)) (Z.of_nat (v MI)) (inject_Z (Z.of_nat (v SS)))
                (CsvParameters.csv_tz (CsvParameters.core f)),
              CsvParameters.core f').
Proof.
  intros Hconf f headerFields fieldNames pre post ts Hg Hts Hm Hdec Hcomp Hidx Htidx Htz Hsf.
  unfold CsvParameters.parseFields.
  assert (Hg' : (if negb (negb (List.length fieldNames =? 0)) then headerFields
                 else fieldNames) = pre ++ ts :: post).
  { rewrite <- Hg. destruct (List.length fieldNames =? 0); reflexivity. }
  rewrite Hg'.
  assert (H0 : (List.length headerFields =? 0) && negb (negb (List.length fieldNames =? 0))
               = false).
  { destruct (List.length fieldNames =? 0) eqn:Hl; [|apply andb_false_r].
    rewrite Hg. destruct pre; reflexivity. }
  rewrite H0.
  pose proof (assign_roles_names (pre ++ ts :: post) 0 (CsvParameters.core f)) as Hn.
  pose proof (assign_roles_one pre post ts (CsvParameters.core f) Hm
                (is_role_of _ _ Hts ltac:(intros x Hx; cbn in Hx |- *; tauto))) as Hp.
  destruct (CsvParameters.assign_roles (pre ++ ts :: post) 0 (CsvParameters.core f))
    as [names p1].
  cbn [fst snd] in Hn, Hp. subst names p1.
  unfold CsvParameters.assign_role. rewrite Hts, Hdec.
  destruct (timestamp_role (List.length pre) (CsvParameters.core f))
    as (Hd & Ht & Hqdec & Hqcomp & Hqidx & Hqtidx & Hqtz & Hqcsv).
  set (q := CsvParameters.on_date_cols CsvDateTime.updateMaxCol _) in *.
  rewrite Hdec in Hqdec. rewrite Hcomp in Hqcomp. rewrite Hidx in Hqidx.
  rewrite Htidx in Hqtidx. rewrite Htz in Hqtz.
  assert (Hset : CsvDateTime.isSet (CsvParameters.date_cols q) = true).
  { unfold CsvDateTime.isSet. rewrite Hd, Ht. reflexivity. }
  rewrite Hset, Hqcomp. cbn [negb andb].
  rewrite (default_formats_timestamp (List.length pre) q Hd Ht Hqdec Hqidx Hqtz).
  cbn [CsvParameters.single_field CsvParameters.set_core]. rewrite Hsf. cbn [negb andb].
  eexists. split; [reflexivity|].
  intros v row Hv Hrow. cbn [CsvParameters.core CsvParameters.set_core].
  rewrite <- Hqcsv.
  apply (parseDate_timestamp Hconf (List.length pre) q v row Hd Ht Hqdec Hqcomp Hqtidx Hv Hrow).
Qed.

Lemma ISO_timestamp_by_default :
  exists f',
    @CsvParameters.parseFields Examples.externals Examples.library
      (Examples.whole Examples.blank) ["TA"; "timestamp"] []
    = Done (f', ["TA"; "TIMESTAMP"])
    /\ @CsvParameters.parseDate Examples.externals (CsvParameters.core f')
         ["1.5"; "2020-01-05T08:30:00"]
       = (DateYMD 2020 1 5 8 30 0 0, CsvParameters.core f').
Proof.
  destruct (@timestamp_column_defaults_to_ISO_8601 Examples.externals Examples.library
              reference_conforms (Examples.whole Examples.blank) ["TA"; "timestamp"] []
              ["TA"] [] "timestamp" eq_refl eq_refl
              ltac:(repeat constructor) eq_refl eq_refl eq_refl eq_refl eq_refl eq_refl)
    as (f' & Hp & Hd).
  exists f'. split; [exact Hp|].
  apply (Hd Examples.iso_values ["1.5"; "2020-01-05T08:30:00"]).
  - intros k. destruct k; vm_compute; lia.
  - reflexivity.
Defined.

(** ** The date and the time of day in two columns *)

Lemma date_and_time_roles (i j : nat) (p : CsvParameters.t) :
  let q := CsvParameters.on_date_cols CsvDateTime.updateMaxCol
             (CsvParameters.skip j
                (CsvParameters.on_date_cols (CsvDateTime.set_time_str (Some j))
                   (CsvParameters.skip i
                      (CsvParameters.on_date_cols (CsvDateTime.set_date_str (Some i)) p)))) in
  CsvDateTime.date_str (CsvParameters.date_cols q) = Some i
  /\ CsvDateTime.time_str (CsvParameters.date_cols q) = Some j
  /\ CsvParameters.dt_as_decimal q = CsvParameters.dt_as_decimal p
  /\ CsvParameters.dt_as_components q = CsvParameters.dt_as_components p
  /\ CsvParameters.datetime_idx q = CsvParameters.datetime_idx p
  /\ CsvParameters.time_idx q = CsvParameters.time_idx p
  /\ CsvParameters.has_tz q = CsvParameters.has_tz p
  /\ CsvParameters.csv_tz q = CsvParameters.csv_tz p.
Proof.
  cbv zeta. unfold CsvParameters.skip.
  destruct (existsb (Nat.eqb i) _); destruct (existsb (Nat.eqb j) _); repeat split; reflexivity.
Qed.

Lemma setTimeSpec_default (q : CsvParameters.t) :
  CsvParameters.time_idx q = [] -> CsvParameters.has_tz q = false ->
  CsvParameters.setTimeSpec q "HH24:MI:SS"
  = Ok (CsvParameters.set_time_spec [0; 1; 2] "%2f:%2f:%f" false q).
Proof.
  intros Hidx Htz. unfold CsvParameters.setTimeSpec. rewrite Hidx, Htz. reflexivity.
Qed.

Section DateAndTime.
Context `{E : Externals} `{L : Library}.
Hypothesis conforms : sscanf_conforms.

Lemma default_formats_date_and_time (i j : nat) (q : CsvParameters.t) :
  i <> j ->
  CsvDateTime.date_str (CsvParameters.date_cols q) = Some i ->
  CsvDateTime.time_str (CsvParameters.date_cols q) = Some j ->
  CsvParameters.dt_as_decimal q = false ->
  CsvParameters.datetime_idx q = [] -> CsvParameters.time_idx q = [] ->
  CsvParameters.has_tz q = false ->
  CsvParameters.default_formats q
  = Ok (CsvParameters.set_time_spec [0; 1; 2] "%2f:%2f:%f" false
          (CsvParameters.set_datetime_spec [0; 1; 2] "%4f-%2f-%2f" false q)).
Proof.
  intros Hij Hd Ht Hdec Hidx Htidx Htz. unfold CsvParameters.default_formats.
  rewrite Hdec, Hd, Ht, Hidx. cbn [CsvDateTime.same_column CsvDateTime.is_set].
  replace (Nat.eqb i j) with false by (symmetry; apply Nat.eqb_neq; exact Hij).
  change "YYYY-MM-DD" with (spec iso_date).
  rewrite (setDateTimeSpec_pattern q iso_date Hidx Htz).
  - cbn [CsvParameters.time_idx CsvParameters.set_datetime_spec]. rewrite Htidx.
    apply setTimeSpec_default; [exact Htidx|reflexivity].
  - repeat constructor; cbn; intuition discriminate.
  - reflexivity.
Qed.

Lemma parseDate_date_and_time (i j : nat) (q : CsvParameters.t) (v : key -> nat)
    (row : list string) :
  CsvDateTime.date_str (CsvParameters.date_cols q) = Some i ->
  CsvDateTime.time_str (CsvParameters.date_cols q) = Some j ->
  CsvParameters.dt_as_decimal q = false -> CsvParameters.dt_as_components q = false ->
  (forall key, v key < 10 ^ width key) ->
  at_ row i = timestamp iso_date v -> at_ row j = timestamp iso_time v ->
  let q' := CsvParameters.set_time_spec [0; 1; 2] "%2f:%2f:%f" false
              (CsvParameters.set_datetime_spec [0; 1; 2] "%4f-%2f-%2f" false q) in
  CsvParameters.parseDate q' row
  = (DateYMD (Z.of_nat (v YYYY)) (Z.of_nat (v MM)) (Z.of_nat (v DD))
       (Z.of_nat (v HH24)) (Z.of_nat (v MI)) (inject_Z (Z.of_nat (v SS)))
       (CsvParameters.csv_tz q), q').
Proof.
  intros Hd Ht Hdec Hcomp Hv Hdate Htime q'. unfold CsvParameters.parseDate.
  change (CsvParameters.dt_as_components q') with (CsvParameters.dt_as_components q).
  change (CsvParameters.dt_as_decimal q') with (CsvParameters.dt_as_decimal q).
  change (CsvParameters.date_cols q') with (CsvParameters.date_cols q).
  rewrite Hcomp, Hdec, Hd, Ht. cbn [CsvParameters.column]. rewrite Hdate, Htime. f_equal.
  unfold CsvParameters.parseDate_str.
  change (CsvParameters.datetime_idx q') with [0; 1; 2].
  change (CsvParameters.time_idx q') with [0; 1; 2].
  change (CsvParameters.datetime_format q') with (template iso_date).
  change (CsvParameters.time_format q') with (template iso_time).
  change (CsvParameters.has_tz q') with false.
  change (CsvParameters.csv_tz q') with (CsvParameters.csv_tz q).
  rewrite (conforms _ _ _ (run_template iso_date v eq_refl eq_refl Hv)).
  rewrite (conforms _ _ _ (run_template iso_time v eq_refl eq_refl Hv)).
  cbn. unfold CsvParameters.createDate. cbn [firstn map forallb nth].
  rewrite !to_int_inject_Z, !Qeq_bool_refl. reflexivity.
Qed.

End DateAndTime.

Section TwoRoles.
Context `{E : Externals} `{L : Library}.

Lemma assign_roles_two (pre mid post : list string) (x y : string) (p : CsvParameters.t) :
  Forall measured (pre ++ mid ++ post) ->
  is_one_of (CsvParameters.clean_name x) role_names = true ->
  is_one_of (CsvParameters.clean_name y) role_names = true ->
  snd (CsvParameters.assign_roles (pre ++ x :: mid ++ y :: post) 0 p)
  = CsvParameters.assign_role (CsvParameters.clean_name y)
      (List.length pre + 1 + List.length mid)
      (CsvParameters.assign_role (CsvParameters.clean_name x) (List.length pre) p).
Proof.
  intros Hm Hx Hy. apply Forall_app in Hm. destruct Hm as [Hpre Hm].
  apply Forall_app in Hm. destruct Hm as [Hmid Hpost].
  rewrite assign_roles_app, (assign_roles_measured pre 0 p Hpre).
  cbn [Nat.add CsvParameters.assign_roles].
  destruct (CsvParameters.is_empty (CsvParameters.clean_name x)) eqn:He.
  { rewrite (is_role_empty _ He) in Hx. discriminate. }
  match goal with
  | |- context [CsvParameters.assign_roles (mid ++ y :: post) ?i ?q] =>
      pose proof (assign_roles_app mid (y :: post) i q) as Hq;
      destruct (CsvParameters.assign_roles (mid ++ y :: post) i q)
  end.
  cbn [snd] in *. rewrite Hq. clear Hq.
  rewrite (assign_roles_measured mid _ _ Hmid).
  cbn [CsvParameters.assign_roles].
  destruct (CsvParameters.is_empty (CsvParameters.clean_name y)) eqn:He'.
  { rewrite (is_role_empty _ He') in Hy. discriminate. }
  match goal with
  | |- context [CsvParameters.assign_roles post ?i ?q] =>
      pose proof (assign_roles_measured post i q Hpost) as Hq;
      destruct (CsvParameters.assign_roles post i q)
  end.
  cbn [snd] in *. rewrite Hq. f_equal. lia.
Qed.

End TwoRoles.

(** X14.  A file with a column for the date and a later column for the
    time of day among columns of measurements, and no format configured:
    [parseFields] sets the formats to YYYY-MM-DD and HH24:MI:SS, and
    [parseDate] then reads the date of the one column and the time of the
    other, provided that [sscanf] conforms to the formats. *)
Theorem date_and_time_columns_default_formats `{E : Externals} `{L : Library} :
  sscanf_conforms ->
  forall (f : CsvParameters.full) (headerFields fieldNames pre mid post : list string)
         (d t : string),
    (if List.length fieldNames =? 0 then headerFields else fieldNames)
    = pre ++ d :: mid ++ t :: post ->
    is_one_of (CsvParameters.clean_name d) ["DATE"; "GIORNO"; "FECHA"] = true ->
    is_one_of (CsvParameters.clean_name t) ["TIME"; "ORA"; "HORA"] = true ->
    Forall measured (pre ++ mid ++ post) ->
    CsvParameters.dt_as_decimal (CsvParameters.core f) = false ->
    CsvParameters.dt_as_components (CsvParameters.core f) = false ->
    CsvParameters.datetime_idx (CsvParameters.core f) = [] ->
    CsvParameters.time_idx (CsvParameters.core f) = [] ->
    CsvParameters.has_tz (CsvParameters.core f) = false ->
    CsvParameters.is_empty (CsvParameters.single_field f) = true ->
    exists f',
      CsvParameters.parseFields f headerFields fieldNames
      = Done (f', map CsvParameters.clean_name (pre ++ d :: mid ++ t :: post))
      /\ forall (v : key -> nat) (row : list string),
           (forall k, v k < 10 ^ width k) ->
           at_ row (List.length pre) = timestamp iso_date v ->
           at_ row (List.length pre + 1 + List.length mid) = timestamp iso_time v ->
           CsvParameters.parseDate (CsvParameters.core f') row
           = (DateYMD (Z.of_nat (v YYYY)) (Z.of_nat (v MM)) (Z.of_nat (v DD))
                (Z.of_nat (v HH24)) (Z.of_nat (v MI)) (inject_Z (Z.of_nat (v SS)))
                (CsvParameters.csv_tz (CsvParameters.core f)),
              CsvParameters.core f').
Proof.
  intros Hconf f headerFields fieldNames pre mid post d t Hg Hd Ht Hm Hdec Hcomp Hidx Htidx
    Htz Hsf.
  unfold CsvParameters.parseFields.
  assert (Hg' : (if negb (negb (List.length fieldNames =? 0)) then headerFields
                 else fieldNames) = pre ++ d :: mid ++ t :: post).
  { rewrite <- Hg. destruct (List.length fieldNames =? 0); reflexivity. }
  rewrite Hg'.
  assert (H0 : (List.length headerFields =? 0) && negb (negb (List.length fieldNames =? 0))
               = false).
  { destruct (List.length fieldNames =? 0) eqn:Hl; [|apply andb_false_r].
    rewrite Hg. destruct pre; reflexivity. }
  rewrite H0.
  pose proof (assign_roles_names (pre ++ d :: mid ++ t :: post) 0 (CsvParameters.core f))
    as Hn.
  pose proof (assign_roles_two pre mid post d t (CsvParameters.core f) Hm
                (is_role_of _ _ Hd ltac:(intros x Hx; cbn in Hx |- *; tauto))
                (is_role_of _ _ Ht ltac:(intros x Hx; cbn in Hx |- *; tauto))) as Hp.
  destruct (CsvParameters.assign_roles (pre ++ d :: mid ++ t :: post) 0
              (CsvParameters.core f)) as [names p1].
  cbn [fst snd] in Hn, Hp. subst names p1.
  set (i := List.length pre). set (j := i + 1 + List.length mid).
  assert (Hd' : is_one_of (CsvParameters.clean_name d) ["TIMESTAMP"; "TS"; "DATETIME"]
                = false).
  { unfold is_one_of in Hd |- *. cbn [existsb] in Hd |- *.
    repeat (apply orb_true_iff in Hd; destruct Hd as [Hd|Hd]);
      try discriminate Hd; apply String.eqb_eq in Hd; rewrite Hd; reflexivity. }
  assert (Ht' : is_one_of (CsvParameters.clean_name t) ["TIMESTAMP"; "TS"; "DATETIME"]
                = false
                /\ is_one_of (CsvParameters.clean_name t) ["DATE"; "GIORNO"; "FECHA"]
                   = false).
  { unfold is_one_of in Ht |- *. cbn [existsb] in Ht |- *.
    repeat (apply orb_true_iff in Ht; destruct Ht as [Ht|Ht]);
      try discriminate Ht; apply String.eqb_eq in Ht; rewrite Ht; split; reflexivity. }
  destruct Ht' as [Ht1 Ht2].
  unfold CsvParameters.assign_role. rewrite Hd', Hd, Ht1, Ht2, Ht.
  destruct (date_and_time_roles i j (CsvParameters.core f))
    as (Hqd & Hqt & Hqdec & Hqcomp & Hqidx & Hqtidx & Hqtz & Hqcsv).
  set (q := CsvParameters.on_date_cols CsvDateTime.updateMaxCol _) in *.
  rewrite Hdec in Hqdec. rewrite Hcomp in Hqcomp. rewrite Hidx in Hqidx.
  rewrite Htidx in Hqtidx. rewrite Htz in Hqtz.
  assert (Hset : CsvDateTime.isSet (CsvParameters.date_cols q) = true).
  { unfold CsvDateTime.isSet. rewrite Hqd, Hqt. reflexivity. }
  rewrite Hset, Hqcomp. cbn [negb andb].
  rewrite (default_formats_date_and_time i j q ltac:(subst j; lia) Hqd Hqt Hqdec Hqidx
             Hqtidx Hqtz).
  cbn [CsvParameters.single_field CsvParameters.set_core]. rewrite Hsf. cbn [negb andb].
  eexists. split; [reflexivity|].
  intros v row Hv Hdate Htime. cbn [CsvParameters.core CsvParameters.set_core].
  rewrite <- Hqcsv.
  apply (parseDate_date_and_time Hconf i j q v row Hqd Hqt Hqdec Hqcomp Hv Hdate Htime).
Qed.

Lemma date_and_time_by_default :
  exists f',
    @CsvParameters.parseFields Examples.externals Examples.library
      (Examples.whole Examples.blank) ["Date"; "TA"; "Time"] []
    = Done (f', ["DATE"; "TA"; "TIME"])
    /\ @CsvParameters.parseDate Examples.externals (CsvParameters.core f')
         ["2020-01-05"; "1.5"; "08:30:00"]
       = (DateYMD 2020 1 5 8 30 0 0, CsvParameters.core f').
Proof.
  destruct (@date_and_time_columns_default_formats Examples.externals Examples.library
              reference_conforms (Examples.whole Examples.blank) ["Date"; "TA"; "Time"] []
              [] ["TA"] [] "Date" "Time" eq_refl eq_refl eq_refl
              ltac:(repeat constructor) eq_refl eq_refl eq_refl eq_refl eq_refl eq_refl)
    as (f' & Hp & Hd).
  exists f'. split; [exact Hp|].
  apply (Hd Examples.iso_values ["2020-01-05"; "1.5"; "08:30:00"]).
  - intros k. destruct k; vm_compute; lia.
  - reflexivity.
  - reflexivity.
Defined.

(** ** The date and time as a decimal number *)

Lemma decimal_role (k : nat) (p : CsvParameters.t) :
  let q := CsvParameters.on_date_cols CsvDateTime.updateMaxCol
             (CsvParameters.skip k
                (CsvParameters.on_date_cols (CsvDateTime.set_decimal_date (Some k)) p)) in
  CsvDateTime.decimal_date (CsvParameters.date_cols q) = Some k
  /\ CsvDateTime.decimal_date_type (CsvParameters.date_cols q)
     = CsvDateTime.decimal_date_type (CsvParameters.date_cols p)
  /\ CsvParameters.dt_as_decimal q = CsvParameters.dt_as_decimal p
  /\ CsvParameters.dt_as_components q = CsvParameters.dt_as_components p
  /\ CsvParameters.csv_tz q = CsvParameters.csv_tz p.
Proof.
  cbv zeta. unfold CsvParameters.skip. destruct (existsb _ _); repeat split; reflexivity.
Qed.

Lemma setDecimalDateType_members `{L : Library} (p p' : CsvParameters.t) (type : string) :
  CsvParameters.setDecimalDateType p type = Ok p' ->
  exists format,
    In (toUpper type, format)
       [("EXCEL", EXCEL); ("JULIAN", JULIAN); ("MJULIAN", MJULIAN); ("MATLAB", MATLAB);
        ("RFC868", RFC868); ("UNIX", UNIX)]
    /\ p' = CsvParameters.set_dt_as_decimal true
              (CsvParameters.set_date_cols
                 (CsvDateTime.set_decimal_date_type format (CsvParameters.date_cols p)) p).
Proof.
  unfold CsvParameters.setDecimalDateType. intros H.
  repeat match type of H with
         | (if String.eqb ?a ?b then _ else _) = _ =>
             destruct (String.eqb a b) eqn:?
         end; try discriminate H; injection H as <-;
    match goal with
    | Hx : String.eqb _ _ = true |- _ => apply String.eqb_eq in Hx; rewrite Hx
    end;
    eexists; (split; [|reflexivity]); cbn [In]; tauto.
Qed.

(** X15.  After [setDecimalDateType] accepted a representation, which it
    names without regard to case, [parseFields] makes the column for the
    date and time the decimal date, and [parseDate] reads its token as a
    number in that representation: as a count of seconds for UNIX, as a
    decimal number with the time zone of the file otherwise, and as the
    undefined date when the token is no number. *)
Theorem decimal_date_type_reads_the_timestamp_column `{E : Externals} `{L : Library} :
  forall (f : CsvParameters.full) (type : string) (p : CsvParameters.t)
         (headerFields fieldNames pre post : list string) (ts : string),
    CsvParameters.setDecimalDateType (CsvParameters.core f) type = Ok p ->
    (if List.length fieldNames =? 0 then headerFields else fieldNames) = pre ++ ts :: post ->
    is_one_of (CsvParameters.clean_name ts) ["TIMESTAMP"; "TS"; "DATETIME"] = true ->
    Forall measured (pre ++ post) ->
    CsvParameters.dt_as_components (CsvParameters.core f) = false ->
    CsvParameters.is_empty (CsvParameters.single_field f) = true ->
    exists f' format,
      In (toUpper type, format)
         [("EXCEL", EXCEL); ("JULIAN", JULIAN); ("MJULIAN", MJULIAN); ("MATLAB", MATLAB);
          ("RFC868", RFC868); ("UNIX", UNIX)]
      /\ CsvParameters.parseFields (CsvParameters.set_core p f) headerFields fieldNames
         = Done (f', map CsvParameters.clean_name (pre ++ ts :: post))
      /\ forall row : list string,
           CsvParameters.parseDate (CsvParameters.core f') row
           = (match format with
              | UNIX =>
                  match convertString_time_t (at_ row (List.length pre)) with
                  | Some value => DateUnix value
                  | None => Undef
                  end
              | _ =>
                  match convertString_double (at_ row (List.length pre)) with
                  | Some value =>
                      DateDecimal format value (CsvParameters.csv_tz (CsvParameters.core f))
                  | None => Undef
                  end
              end, CsvParameters.core f').
Proof.
  intros f type p headerFields fieldNames pre post ts Hset Hg Hts Hm Hcomp Hsf.
  destruct (setDecimalDateType_members _ _ _ Hset) as (format & Hin & ->).
  set (p0 := CsvParameters.set_dt_as_decimal true _).
  unfold CsvParameters.parseFields.
  assert (Hg' : (if negb (negb (List.length fieldNames =? 0)) then headerFields
                 else fieldNames) = pre ++ ts :: post).
  { rewrite <- Hg. destruct (List.length fieldNames =? 0); reflexivity. }
  rewrite Hg'.
  assert (H0 : (List.length headerFields =? 0) && negb (negb (List.length fieldNames =? 0))
               = false).
  { destruct (List.length fieldNames =? 0) eqn:Hl; [|apply andb_false_r].
    rewrite Hg. destruct pre; reflexivity. }
  rewrite H0. cbn [CsvParameters.core CsvParameters.set_core].
  pose proof (assign_roles_names (pre ++ ts :: post) 0 p0) as Hn.
  pose proof (assign_roles_one pre post ts p0 Hm
                (is_role_of _ _ Hts ltac:(intros x Hx; cbn in Hx |- *; tauto))) as Hp.
  destruct (CsvParameters.assign_roles (pre ++ ts :: post) 0 p0) as [names p1].
  cbn [fst snd] in Hn, Hp. subst names p1.
  unfold CsvParameters.assign_role. rewrite Hts.
  change (CsvParameters.dt_as_decimal p0) with true. cbv iota.
  destruct (decimal_role (List.length pre) p0) as (Hqd & Hqty & Hqdec & Hqcomp & Hqcsv).
  set (q := CsvParameters.on_date_cols CsvDateTime.updateMaxCol _) in *.
  change (CsvParameters.dt_as_decimal p0) with true in Hqdec.
  change (CsvParameters.dt_as_components p0)
    with (CsvParameters.dt_as_components (CsvParameters.core f)) in Hqcomp.
  rewrite Hcomp in Hqcomp.
  change (CsvParameters.csv_tz p0) with (CsvParameters.csv_tz (CsvParameters.core f)) in Hqcsv.
  change (CsvDateTime.decimal_date_type (CsvParameters.date_cols p0)) with format in Hqty.
  assert (Hs : CsvDateTime.isSet (CsvParameters.date_cols q) = true).
  { unfold CsvDateTime.isSet. rewrite Hqd. cbn [CsvDateTime.is_set].
    destruct (CsvDateTime.is_set _ && CsvDateTime.is_set _); reflexivity. }
  rewrite Hs, Hqcomp. cbn [negb andb].
  unfold CsvParameters.default_formats. rewrite Hqdec.
  cbn [CsvParameters.single_field CsvParameters.set_core]. rewrite Hsf. cbn [negb andb].
  exists (CsvParameters.set_core q f), format. split; [exact Hin|]. split; [reflexivity|].
  intros row. cbn [CsvParameters.core CsvParameters.set_core].
  unfold CsvParameters.parseDate. rewrite Hqcomp, Hqdec, Hqd, Hqty.
  cbn [CsvParameters.column]. unfold CsvParameters.parseDate_decimal. rewrite Hqcsv.
  destruct format; reflexivity.
Qed.

Lemma modified_julian_timestamp :
  exists f',
    @CsvParameters.parseFields Examples.externals Examples.library
      (CsvParameters.set_core
         (CsvParameters.set_dt_as_decimal true
            (CsvParameters.set_date_cols
               (CsvDateTime.set_decimal_date_type MJULIAN Examples.no_date_cols)
               Examples.blank))
         (Examples.whole Examples.blank)) ["TIMESTAMP"; "TA"] []
    = Done (f', ["TIMESTAMP"; "TA"])
    /\ @CsvParameters.parseDate Examples.externals (CsvParameters.core f') ["59000.5"; "1.5"]
       = (DateDecimal MJULIAN (590005 # 10) 0, CsvParameters.core f').
Proof.
  destruct (@decimal_date_type_reads_the_timestamp_column Examples.externals
              Examples.library (Examples.whole Examples.blank) "mjulian" _
              ["TIMESTAMP"; "TA"] [] [] ["TA"] "TIMESTAMP" eq_refl eq_refl eq_refl
              ltac:(repeat constructor) eq_refl eq_refl)
    as (f' & format & Hin & Hp & Hd).
  exists f'. split; [exact Hp|].
  assert (Hf : format = MJULIAN).
  { vm_compute in Hin.
    destruct Hin as [H|[H|[H|[H|[H|[H|[]]]]]]]; try discriminate H.
    injection H as <-. reflexivity. }
  rewrite (Hd ["59000.5"; "1.5"]), Hf. reflexivity.
Defined.

(** ** Special headers *)

(** ** The special headers *)

Lemma multimap_insert_sorted (key : nat) (v : nat * string) (m : CsvParameters.meta_spec) :
  StronglySorted by_line m -> StronglySorted by_line (CsvParameters.multimap_insert key v m).
Proof.
  induction m as [|[k w] m IH]; intros Hs; cbn [CsvParameters.multimap_insert].
  - repeat constructor.
  - inversion Hs as [|? ? Hm Hk]; subst. destruct (key <? k) eqn:Hlt.
    + apply Nat.ltb_lt in Hlt. constructor; [exact Hs|]. constructor.
      * unfold by_line. cbn. lia.
      * eapply Forall_impl; [|exact Hk]. intros a Ha. unfold by_line in *. cbn in *. lia.
    + apply Nat.ltb_ge in Hlt. constructor; [apply IH; exact Hm|].
      clear IH Hs Hm. induction m as [|[k' w'] m IH]; cbn [CsvParameters.multimap_insert].
      * constructor; [unfold by_line; cbn; lia|constructor].
      * inversion Hk; subst. destruct (key <? k').
        -- constructor; [unfold by_line; cbn; lia|]. constructor; assumption.
        -- constructor; [assumption|]. apply IH. assumption.
Qed.

Lemma equal_range_insert (key linenr : nat) (v : nat * string) (m : CsvParameters.meta_spec) :
  StronglySorted by_line m ->
  CsvParameters.equal_range linenr (CsvParameters.multimap_insert key v m)
  = CsvParameters.equal_range linenr m ++ (if Nat.eqb key linenr then [v] else []).
Proof.
  unfold CsvParameters.equal_range.
  induction m as [|[k w] m IH]; intros Hs; cbn [CsvParameters.multimap_insert].
  - cbn. destruct (Nat.eqb key linenr); reflexivity.
  - inversion Hs as [|? ? Hm Hk]; subst. destruct (key <? k) eqn:Hlt.
    + apply Nat.ltb_lt in Hlt. cbn [filter map fst].
      destruct (Nat.eqb key linenr) eqn:He.
      * apply Nat.eqb_eq in He. subst linenr.
        replace (Nat.eqb k key) with false by (symmetry; apply Nat.eqb_neq; lia).
        assert (Hnone : filter (fun e : nat * (nat * string) => Nat.eqb (fst e) key) m = []).
        { clear IH Hs Hm. induction m as [|[k' w'] m IHm]; [reflexivity|].
          inversion Hk as [|? ? Hk1 Hk2]; subst. cbn [filter fst].
          unfold by_line in Hk1. cbn in Hk1.
          replace (Nat.eqb k' key) with false by (symmetry; apply Nat.eqb_neq; lia).
          apply IHm. exact Hk2. }
        rewrite Hnone. reflexivity.
      * rewrite app_nil_r. reflexivity.
    + cbn [filter map fst]. destruct (Nat.eqb k linenr); cbn [map app];
        rewrite (IH Hm); reflexivity.
Qed.

Section SpecialHeaders.
Context `{E : Externals} `{L : Library}.

Lemma parseHeadersSpecs_loop_entries (specs : list string) :
  forall (m0 m : CsvParameters.meta_spec),
    StronglySorted by_line m0 ->
    CsvParameters.parseHeadersSpecs_loop specs m0 = Ok m ->
    StronglySorted by_line m
    /\ Forall (fun spec => header_entry spec <> None) specs
    /\ forall linenr,
         CsvParameters.equal_range linenr m
         = CsvParameters.equal_range linenr m0 ++ entries_of_line linenr specs.
Proof.
  induction specs as [|s specs IH]; intros m0 m Hs H.
  - injection H as <-. split; [exact Hs|]. split; [constructor|].
    intros linenr. cbn. rewrite app_nil_r. reflexivity.
  - cbn [CsvParameters.parseHeadersSpecs_loop] in H.
    assert (He : exists type line col,
               readLineToVec s (Some ":"%char) = [type; line; col]
               /\ (0 < atoi line)%Z /\ (0 < atoi col)%Z
               /\ CsvParameters.parseHeadersSpecs_loop specs
                    (CsvParameters.multimap_insert (Z.to_nat (atoi line))
                       (Z.to_nat (atoi col), type) m0) = Ok m).
    { destruct (readLineToVec s (Some ":"%char)) as [|type [|line [|col [|x r]]]];
        try discriminate H.
      destruct ((atoi line <=? 0)%Z || (atoi col <=? 0)%Z) eqn:Hpos; [discriminate H|].
      apply orb_false_iff in Hpos. destruct Hpos as [H1 H2].
      apply Z.leb_gt in H1, H2. exists type, line, col. tauto. }
    destruct He as (type & line & col & Hr & H1 & H2 & H').
    destruct (IH _ m (multimap_insert_sorted _ _ m0 Hs) H') as (Hm & Hall & Heq).
    assert (Hentry : header_entry s
                     = Some (Z.to_nat (atoi line), (Z.to_nat (atoi col), type))).
    { unfold header_entry. rewrite Hr.
      replace (0 <? atoi line)%Z with true by (symmetry; apply Z.ltb_lt; exact H1).
      replace (0 <? atoi col)%Z with true by (symmetry; apply Z.ltb_lt; exact H2).
      reflexivity. }
    split; [exact Hm|]. split.
    + constructor; [rewrite Hentry; discriminate|exact Hall].
    + intros linenr. rewrite Heq, (equal_range_insert _ _ _ _ Hs), <- app_assoc.
      unfold entries_of_line. cbn [flat_map]. rewrite Hentry. reflexivity.
Qed.

Lemma parseHeadersSpecs_loop_refused (specs : list string) :
  forall (m0 : CsvParameters.meta_spec) (e : exception),
    CsvParameters.parseHeadersSpecs_loop specs m0 = Throw e ->
    e = InvalidFormatException /\ exists spec, In spec specs /\ header_entry spec = None.
Proof.
  induction specs as [|s specs IH]; intros m0 e H; [discriminate H|].
  cbn [CsvParameters.parseHeadersSpecs_loop] in H.
  assert (Hcases : header_entry s = None /\ e = InvalidFormatException
                   \/ exists m1, CsvParameters.parseHeadersSpecs_loop specs m1 = Throw e).
  { unfold header_entry.
    destruct (readLineToVec s (Some ":"%char)) as [|type [|line [|col [|x r]]]];
      try (left; split; [reflexivity|congruence]).
    destruct ((atoi line <=? 0)%Z || (atoi col <=? 0)%Z) eqn:Hpos.
    - left. split; [|congruence]. apply orb_true_iff in Hpos.
      destruct Hpos as [Hp|Hp]; apply Z.leb_le in Hp.
      + replace (0 <? atoi line)%Z with false by (symmetry; apply Z.ltb_ge; exact Hp).
        reflexivity.
      + replace (0 <? atoi col)%Z with false by (symmetry; apply Z.ltb_ge; exact Hp).
        rewrite andb_false_r. reflexivity.
    - right. eexists. exact H. }
  destruct Hcases as [[Hn He]|[m1 H1]].
  - split; [exact He|]. exists s. split; [left; reflexivity|exact Hn].
  - destruct (IH m1 e H1) as (He & spec & Hin & Hn).
    split; [exact He|]. exists spec. split; [right; exact Hin|exact Hn].
Qed.

End SpecialHeaders.

(** X16.  [parseHeadersSpecs] raises [InvalidFormatException] exactly when
    one of the specifications is not of the form type:line:column with a
    line and a column number above zero; otherwise the entries that the
    multimap gives for a line are those of the specifications of that line,
    in the order in which they were configured. *)
Theorem parseHeadersSpecs_keeps_the_order_of_a_line `{E : Externals} `{L : Library} :
  forall vecMetaSpec : list string,
    match CsvParameters.parseHeadersSpecs vecMetaSpec with
    | Ok m =>
        Forall (fun spec => header_entry spec <> None) vecMetaSpec
        /\ forall linenr,
             CsvParameters.equal_range linenr m = entries_of_line linenr vecMetaSpec
    | Throw e =>
        e = InvalidFormatException
        /\ exists spec, In spec vecMetaSpec /\ header_entry spec = None
    end.
Proof.
  intros vecMetaSpec. unfold CsvParameters.parseHeadersSpecs.
  destruct (CsvParameters.parseHeadersSpecs_loop vecMetaSpec []) as [m|e] eqn:H.
  - destruct (parseHeadersSpecs_loop_entries vecMetaSpec [] m ltac:(constructor) H)
      as (_ & Hall & Heq).
    split; [exact Hall|]. intros linenr. rewrite Heq. reflexivity.
  - apply (parseHeadersSpecs_loop_refused vecMetaSpec [] e H).
Qed.

(** ** The station ID and name from the headers *)

Section Metadata.
Context `{E : Externals} `{L : Library}.

(** [assignMetadataVariable] writes the ID and the name of the station only
    where none is known. *)
Lemma assignMetadataVariable_ID_and_name (f f' : CsvParameters.full)
    (field_type field_val : string) (pos pos' : CsvParameters.position) :
  CsvParameters.assignMetadataVariable f field_type field_val pos = Ok (f', pos') ->
  (CsvParameters.is_empty (CsvParameters.id (CsvParameters.core f)) = false ->
   CsvParameters.id (CsvParameters.core f') = CsvParameters.id (CsvParameters.core f))
  /\ (CsvParameters.is_empty (CsvParameters.name f) = false ->
      CsvParameters.name f' = CsvParameters.name f).
Proof.
  unfold CsvParameters.assignMetadataVariable. intros H.
  destruct (String.eqb field_type "ID").
  { injection H as <- <-. split; intros Hx; [rewrite Hx|]; try reflexivity.
    destruct (CsvParameters.is_empty (CsvParameters.id _)); reflexivity. }
  destruct (String.eqb field_type "NAME").
  { injection H as <- <-. split; intros Hx; [|rewrite Hx]; try reflexivity.
    destruct (CsvParameters.is_empty (CsvParameters.name _)); reflexivity. }
  destruct (String.eqb field_type "NODATA").
  { injection H as <- <-. split; intros _; reflexivity. }
  destruct (String.eqb field_type "SKIP").
  { injection H as <- <-. split; intros _; reflexivity. }
  destruct (String.eqb field_type "PARAM").
  { destruct (CsvDateTime.is_set _); injection H as <- <-; split; intros _; reflexivity. }
  destruct (is_one_of field_type _); [|discriminate H].
  destruct (convertString_double field_val); [|discriminate H].
  cbv zeta in H. injection H as <- <-.
  repeat match goal with
         | |- context [if ?b then _ else _] => destruct b
         end; split; intros _; reflexivity.
Qed.

Lemma assign_variable_ID_and_name (a a' : CsvParameters.appending)
    (f f' : CsvParameters.full) (field_type field_val : string)
    (pos pos' : CsvParameters.position) :
  CsvParameters.assign_variable a f field_type field_val pos = Ok (a', f', pos') ->
  CsvParameters.readID a' = CsvParameters.readID a
  /\ CsvParameters.readName a' = CsvParameters.readName a
  /\ (CsvParameters.readID a = false ->
      CsvParameters.is_empty (CsvParameters.id (CsvParameters.core f)) = false ->
      CsvParameters.id (CsvParameters.core f') = CsvParameters.id (CsvParameters.core f))
  /\ (CsvParameters.readName a = false ->
      CsvParameters.is_empty (CsvParameters.name f) = false ->
      CsvParameters.name f' = CsvParameters.name f).
Proof.
  unfold CsvParameters.assign_variable. intros H.
  destruct (String.eqb field_type "ID" && CsvParameters.readID a) eqn:H1.
  { injection H as <- <- <-. apply andb_true_iff in H1. destruct H1 as [_ H1].
    repeat split; try reflexivity. intros Hx. congruence. }
  destruct (String.eqb field_type "NAME" && CsvParameters.readName a) eqn:H2.
  { injection H as <- <- <-. apply andb_true_iff in H2. destruct H2 as [_ H2].
    repeat split; try reflexivity. intros Hx. congruence. }
  destruct (CsvParameters.assignMetadataVariable f field_type field_val pos)
    as [[f1 pos1]|e] eqn:Ha; [|discriminate H].
  injection H as <- <- <-.
  destruct (assignMetadataVariable_ID_and_name _ _ _ _ _ _ Ha) as [Hi Hn].
  repeat split; try reflexivity; intros _; assumption.
Qed.

Lemma parseSpecialHeaders_loop_ID_and_name (entries : list (nat * string))
    (vecStr : list string) :
  forall (a : CsvParameters.appending) (f f' : CsvParameters.full)
         (pos pos' : CsvParameters.position),
    CsvParameters.parseSpecialHeaders_loop entries vecStr a f pos = Ok (f', pos') ->
    (CsvParameters.readID a = false ->
     CsvParameters.is_empty (CsvParameters.id (CsvParameters.core f)) = false ->
     CsvParameters.id (CsvParameters.core f') = CsvParameters.id (CsvParameters.core f))
    /\ (CsvParameters.readName a = false ->
        CsvParameters.is_empty (CsvParameters.name f) = false ->
        CsvParameters.name f' = CsvParameters.name f).
Proof.
  induction entries as [|[colnr type] entries IH]; intros a f f' pos pos' H.
  - injection H as <- <-. split; intros _ _; reflexivity.
  - cbn [CsvParameters.parseSpecialHeaders_loop] in H.
    destruct ((List.length vecStr <? colnr) || (colnr =? 0)); [discriminate H|].
    destruct (CsvParameters.assign_variable a f _ _ pos) as [[[a1 f1] pos1]|e] eqn:Ha;
      [|discriminate H].
    destruct (assign_variable_ID_and_name _ _ _ _ _ _ _ _ Ha) as (R1 & R2 & Hi & Hn).
    destruct (IH a1 f1 f' pos1 pos' H) as [Hi' Hn']. split.
    + intros Hr He. rewrite Hi' by (rewrite ?R1, ?(Hi Hr He); assumption).
      apply Hi; assumption.
    + intros Hr He. rewrite Hn' by (rewrite ?R2, ?(Hn Hr He); assumption).
      apply Hn; assumption.
Qed.

End Metadata.

(** X17.  An ID and a name of the station that are known before the
    headers are read, those that the user has configured, are not changed
    by [parseSpecialHeaders], whatever the headers hold. *)
Theorem parseSpecialHeaders_keeps_configured_ID_and_name `{E : Externals} `{L : Library} :
  forall (f f' : CsvParameters.full) (line : string) (linenr : nat)
         (m : CsvParameters.meta_spec) (pos pos' : CsvParameters.position),
    CsvParameters.parseSpecialHeaders f line linenr m pos = Ok (f', pos') ->
    (CsvParameters.is_empty (CsvParameters.id (CsvParameters.core f)) = false ->
     CsvParameters.id (CsvParameters.core f') = CsvParameters.id (CsvParameters.core f))
    /\ (CsvParameters.is_empty (CsvParameters.name f) = false ->
        CsvParameters.name f' = CsvParameters.name f).
Proof.
  intros f f' line linenr m pos pos' H. unfold CsvParameters.parseSpecialHeaders in H.
  destruct (parseSpecialHeaders_loop_ID_and_name _ _ _ _ _ _ _ H) as [Hi Hn].
  split; intros He; [apply Hi|apply Hn]; try exact He;
    unfold CsvParameters.start_appending; cbn; exact He.
Qed.

Lemma configured_ID_wins :
  exists f',
    @CsvParameters.parseSpecialHeaders Examples.externals Examples.library
      (Examples.whole Examples.blank) "109,Davos" 1 [(1, (1, "ID")); (1, (2, "NAME"))]
      Examples.nowhere = Ok (f', Examples.nowhere)
    /\ CsvParameters.id (CsvParameters.core f') = "STA"
    /\ CsvParameters.name f' = "Davos".
Proof.
  assert (Hp : exists f',
             @CsvParameters.parseSpecialHeaders Examples.externals Examples.library
               (Examples.whole Examples.blank) "109,Davos" 1
               [(1, (1, "ID")); (1, (2, "NAME"))] Examples.nowhere
             = Ok (f', Examples.nowhere)) by (vm_compute; eauto).
  destruct Hp as (f' & Hp). exists f'. split; [exact Hp|]. split.
  - apply (proj1 (@parseSpecialHeaders_keeps_configured_ID_and_name Examples.externals
                    Examples.library _ _ _ _ _ _ _ Hp)). reflexivity.
  - revert Hp. vm_compute. intros Hp. injection Hp as <-. reflexivity.
Defined.

Lemma string_app_assoc (a b c : string) : ((a ++ b) ++ c)%string = (a ++ b ++ c)%string.
Proof. induction a as [|x a IH]; cbn; [reflexivity|]. rewrite IH. reflexivity. Qed.

Section JoinedID.
Context `{E : Externals} `{L : Library}.

Lemma parseSpecialHeaders_loop_ID (vecStr : list string) (pos : CsvParameters.position)
    (entries : list (nat * string)) :
  forall (a : CsvParameters.appending) (f : CsvParameters.full),
    CsvParameters.readID a = true ->
    entries <> [] ->
    Forall (fun e => strToUpper (snd e) = "ID" /\ 1 <= fst e <= List.length vecStr) entries ->
    exists f',
      CsvParameters.parseSpecialHeaders_loop entries vecStr a f pos = Ok (f', pos)
      /\ CsvParameters.id (CsvParameters.core f')
         = (CsvParameters.prev_ID a
            ++ String.concat "-"
                 (map (fun e => removeQuotes (at_ vecStr (fst e - 1))) entries))%string
      /\ CsvParameters.set_core
           (CsvParameters.set_id (CsvParameters.id (CsvParameters.core f))
              (CsvParameters.core f')) f' = f.
Proof.
  induction entries as [|[colnr type] entries IH]; intros a f Ha Hne Hall; [congruence|].
  inversion Hall as [|? ? [Ht Hc] Hrest]; subst. cbn [fst snd] in Ht, Hc.
  cbn [CsvParameters.parseSpecialHeaders_loop]. rewrite Ht.
  replace (List.length vecStr <? colnr) with false by (symmetry; apply Nat.ltb_ge; lia).
  replace (colnr =? 0) with false by (symmetry; apply Nat.eqb_neq; lia).
  cbn [orb]. unfold CsvParameters.assign_variable. rewrite Ha. cbn [String.eqb andb].
  replace (String.eqb "ID" "ID") with true by reflexivity. cbn [andb].
  set (v := removeQuotes (at_ vecStr (colnr - 1))).
  set (id1 := (CsvParameters.prev_ID a ++ v)%string).
  set (a1 := CsvParameters.mk_appending _ _ _ _).
  set (f1 := CsvParameters.set_core _ f).
  destruct entries as [|e entries].
  - cbn [CsvParameters.parseSpecialHeaders_loop map String.concat fst].
    exists f1. split; [reflexivity|]. split; [reflexivity|].
    subst f1. destruct f as [p ? ? ? ? ? ? ?]. destruct p. reflexivity.
  - destruct (IH a1 f1 eq_refl ltac:(discriminate) Hrest) as (f' & Hl & Hid & Hf).
    exists f'. split; [exact Hl|]. split.
    + rewrite Hid. cbn [map fst]. cbn [String.concat]. fold v.
      change (CsvParameters.prev_ID a1) with (id1 ++ "-")%string. subst id1.
      rewrite !string_app_assoc. reflexivity.
    + apply (f_equal (fun x => CsvParameters.set_core
                                 (CsvParameters.set_id
                                    (CsvParameters.id (CsvParameters.core f))
                                    (CsvParameters.core x)) x)) in Hf.
      cbn [CsvParameters.core CsvParameters.set_core CsvParameters.name
           CsvParameters.single_field CsvParameters.single_param_idx
           CsvParameters.header_delim CsvParameters.slope CsvParameters.azi
           CsvParameters.altitude] in Hf.
      etransitivity; [exact Hf|].
      subst f1. destruct f as [p ? ? ? ? ? ? ?]. destruct p. reflexivity.
Qed.

End JoinedID.

(** X18.  When no ID is known and all the entries of a line are for the
    ID, [parseSpecialHeaders] makes the ID of their fields, without quotes
    and joined with dashes in the order of the entries; nothing else
    changes. *)
Theorem parseSpecialHeaders_joins_the_parts_of_the_ID `{E : Externals} `{L : Library} :
  forall (f : CsvParameters.full) (line : string) (linenr : nat)
         (m : CsvParameters.meta_spec) (pos : CsvParameters.position),
    let vecStr := readLineToVec line (Some (CsvParameters.header_delim f)) in
    let entries := CsvParameters.equal_range linenr m in
    CsvParameters.is_empty (CsvParameters.id (CsvParameters.core f)) = true ->
    entries <> [] ->
    Forall (fun e => strToUpper (snd e) = "ID" /\ 1 <= fst e <= List.length vecStr) entries ->
    exists f',
      CsvParameters.parseSpecialHeaders f line linenr m pos = Ok (f', pos)
      /\ CsvParameters.id (CsvParameters.core f')
         = String.concat "-"
             (map (fun e => removeQuotes (at_ vecStr (fst e - 1))) entries)
      /\ CsvParameters.set_core
           (CsvParameters.set_id (CsvParameters.id (CsvParameters.core f))
              (CsvParameters.core f')) f' = f.
Proof.
  intros f line linenr m pos vecStr entries He Hne Hall.
  unfold CsvParameters.parseSpecialHeaders. fold vecStr entries.
  destruct (parseSpecialHeaders_loop_ID vecStr pos entries
              (CsvParameters.start_appending f) f He Hne Hall) as (f' & Hl & Hid & Hf).
  exists f'. split; [exact Hl|]. split; [exact Hid|exact Hf].
Qed.

Lemma ID_of_two_parts :
  exists f',
    @CsvParameters.parseSpecialHeaders Examples.externals Examples.library
      Examples.anonymous "WFJ,2,'Weissfluhjoch'" 1 [(1, (1, "id")); (1, (2, "id"))]
      Examples.nowhere = Ok (f', Examples.nowhere)
    /\ CsvParameters.id (CsvParameters.core f') = "WFJ-2".
Proof.
  destruct (@parseSpecialHeaders_joins_the_parts_of_the_ID Examples.externals
              Examples.library Examples.anonymous "WFJ,2,'Weissfluhjoch'" 1
              [(1, (1, "id")); (1, (2, "id"))] Examples.nowhere eq_refl
              ltac:(discriminate)
              ltac:(repeat constructor; vm_compute; lia))
    as (f' & Hp & Hid & _).
  exists f'. split; [exact Hp|]. rewrite Hid. reflexivity.
Defined.

(** ** The column of every role *)

Ltac name_known :=
  match goal with
  | H : String.eqb ?t ?s = true |- _ => apply String.eqb_eq in H; subst t
  | H : is_one_of ?t ?l = true |- _ =>
      unfold is_one_of in H; cbn [existsb] in H;
      repeat (apply orb_prop in H; destruct H as [H|H]);
      try discriminate H; apply String.eqb_eq in H; subst t
  end.

Ltac other_names :=
  repeat match goal with
         | H : _ = true |- _ => vm_compute in H; discriminate H
         | H : _ = false |- _ => vm_compute in H; discriminate H
         end.

Ltac through_skip :=
  unfold CsvParameters.skip;
  try match goal with
      | |- context [if ?b then _ else _] => destruct b
      end;
  reflexivity.

Ltac member_of_role :=
  unfold is_one_of at 1; cbn [existsb]; rewrite ?orb_false_r;
  repeat match goal with
         | |- context [existsb (String.eqb ?t) ?l] => fold (is_one_of t l)
         end;
  role_cases; first [ solve [through_skip] | name_known; other_names ].

Lemma assign_role_decimal_date (tmp : string) (ii : nat) (p : CsvParameters.t) :
  CsvDateTime.decimal_date (CsvParameters.date_cols (CsvParameters.assign_role tmp ii p))
  = if is_one_of tmp ["TIMESTAMP"; "TS"; "DATETIME"] then
      if CsvParameters.dt_as_decimal p then Some ii
      else CsvDateTime.decimal_date (CsvParameters.date_cols p)
    else CsvDateTime.decimal_date (CsvParameters.date_cols p).
Proof. role_cases; first [ solve [through_skip] | name_known; other_names ]. Qed.

Lemma assign_role_year (tmp : string) (ii : nat) (p : CsvParameters.t) :
  CsvDateTime.year (CsvParameters.date_cols (CsvParameters.assign_role tmp ii p))
  = if is_one_of tmp ["YEAR"] then Some ii
    else CsvDateTime.year (CsvParameters.date_cols p).
Proof. member_of_role. Qed.

Lemma assign_role_jdn (tmp : string) (ii : nat) (p : CsvParameters.t) :
  CsvDateTime.jdn (CsvParameters.date_cols (CsvParameters.assign_role tmp ii p))
  = if is_one_of tmp jdn_names then Some ii
    else CsvDateTime.jdn (CsvParameters.date_cols p).
Proof. unfold jdn_names. role_cases; first [ solve [through_skip] | name_known; other_names ]. Qed.

Lemma assign_role_month (tmp : string) (ii : nat) (p : CsvParameters.t) :
  CsvDateTime.month (CsvParameters.date_cols (CsvParameters.assign_role tmp ii p))
  = if is_one_of tmp ["MONTH"] then Some ii
    else CsvDateTime.month (CsvParameters.date_cols p).
Proof. member_of_role. Qed.

Lemma assign_role_day (tmp : string) (ii : nat) (p : CsvParameters.t) :
  CsvDateTime.day (CsvParameters.date_cols (CsvParameters.assign_role tmp ii p))
  = if is_one_of tmp ["DAY"] then Some ii
    else CsvDateTime.day (CsvParameters.date_cols p).
Proof. member_of_role. Qed.

Lemma assign_role_time (tmp : string) (ii : nat) (p : CsvParameters.t) :
  CsvDateTime.time (CsvParameters.date_cols (CsvParameters.assign_role tmp ii p))
  = if is_one_of tmp ["NTIME"] then Some ii
    else CsvDateTime.time (CsvParameters.date_cols p).
Proof. member_of_role. Qed.

Lemma assign_role_hours (tmp : string) (ii : nat) (p : CsvParameters.t) :
  CsvDateTime.hours (CsvParameters.date_cols (CsvParameters.assign_role tmp ii p))
  = if is_one_of tmp ["HOUR"; "HOURS"] then Some ii
    else CsvDateTime.hours (CsvParameters.date_cols p).
Proof. role_cases; first [ solve [through_skip] | name_known; other_names ]. Qed.

Lemma assign_role_minutes (tmp : string) (ii : nat) (p : CsvParameters.t) :
  CsvDateTime.minutes (CsvParameters.date_cols (CsvParameters.assign_role tmp ii p))
  = if is_one_of tmp ["MINUTE"; "MINUTES"] then Some ii
    else CsvDateTime.minutes (CsvParameters.date_cols p).
Proof. role_cases; first [ solve [through_skip] | name_known; other_names ]. Qed.

Lemma assign_role_seconds (tmp : string) (ii : nat) (p : CsvParameters.t) :
  CsvDateTime.seconds (CsvParameters.date_cols (CsvParameters.assign_role tmp ii p))
  = if is_one_of tmp ["SECOND"; "SECONDS"] then Some ii
    else CsvDateTime.seconds (CsvParameters.date_cols p).
Proof. role_cases; first [ solve [through_skip] | name_known; other_names ]. Qed.

Lemma assign_role_ID_col (tmp : string) (ii : nat) (p : CsvParameters.t) :
  CsvParameters.ID_col (CsvParameters.assign_role tmp ii p)
  = if is_one_of tmp ["ID"; "STATIONID"] then Some ii else CsvParameters.ID_col p.
Proof. role_cases; first [ solve [through_skip] | name_known; other_names ]. Qed.

Lemma assign_role_date_str (tmp : string) (ii : nat) (p : CsvParameters.t) :
  CsvDateTime.date_str (CsvParameters.date_cols (CsvParameters.assign_role tmp ii p))
  = if is_one_of tmp ["TIMESTAMP"; "TS"; "DATETIME"] then
      if CsvParameters.dt_as_decimal p
      then CsvDateTime.date_str (CsvParameters.date_cols p)
      else Some ii
    else if is_one_of tmp ["DATE"; "GIORNO"; "FECHA"] then Some ii
    else CsvDateTime.date_str (CsvParameters.date_cols p).
Proof. role_cases; first [ solve [through_skip] | name_known; other_names ]. Qed.

Lemma assign_role_time_str (tmp : string) (ii : nat) (p : CsvParameters.t) :
  CsvDateTime.time_str (CsvParameters.date_cols (CsvParameters.assign_role tmp ii p))
  = if is_one_of tmp ["TIMESTAMP"; "TS"; "DATETIME"] then
      if CsvParameters.dt_as_decimal p
      then CsvDateTime.time_str (CsvParameters.date_cols p)
      else Some ii
    else if is_one_of tmp ["TIME"; "ORA"; "HORA"] then Some ii
    else CsvDateTime.time_str (CsvParameters.date_cols p).
Proof. role_cases; first [ solve [through_skip] | name_known; other_names ]. Qed.

Lemma is_component (tmp : string) :
  is_one_of tmp component_names
  = (String.eqb tmp "YEAR"
     || (String.eqb tmp "MONTH"
     || (String.eqb tmp "DAY"
     || (String.eqb tmp "NTIME"
     || (is_one_of tmp ["HOUR"; "HOURS"]
     || (is_one_of tmp ["MINUTE"; "MINUTES"]
     || is_one_of tmp ["SECOND"; "SECONDS"])))))).
Proof.
  unfold is_one_of, component_names. cbn [existsb].
  rewrite ?orb_false_r, <- ?orb_assoc. reflexivity.
Qed.

Ltac eval_names :=
  repeat match goal with
         | |- context [String.eqb ?a ?b] =>
             let v := eval vm_compute in (String.eqb a b) in
             lazymatch v with
             | true => change (String.eqb a b) with true
             | false => change (String.eqb a b) with false
             end
         | |- context [is_one_of ?a ?l] =>
             let v := eval vm_compute in (is_one_of a l) in
             lazymatch v with
             | true => change (is_one_of a l) with true
             | false => change (is_one_of a l) with false
             end
         end.

Ltac flag_of_role :=
  role_cases; try name_known; eval_names; cbn [orb];
  rewrite ?orb_true_r, ?orb_false_r; through_skip.

Lemma assign_role_dt_as_decimal (tmp : string) (ii : nat) (p : CsvParameters.t) :
  CsvParameters.dt_as_decimal (CsvParameters.assign_role tmp ii p)
  = CsvParameters.dt_as_decimal p.
Proof.
  role_cases; unfold CsvParameters.skip;
    try match goal with
        | |- context [if ?b then _ else _] => destruct b
        end;
    first [ reflexivity
          | match goal with
            | H : CsvParameters.dt_as_decimal p = _ |- _ => rewrite <- H; reflexivity
            end ].
Qed.

Lemma assign_role_dt_as_components (tmp : string) (ii : nat) (p : CsvParameters.t) :
  CsvParameters.dt_as_components (CsvParameters.assign_role tmp ii p)
  = CsvParameters.dt_as_components p || is_one_of tmp component_names.
Proof. rewrite is_component. flag_of_role. Qed.

Lemma assign_role_dt_as_year_and_jdn (tmp : string) (ii : nat) (p : CsvParameters.t) :
  CsvParameters.dt_as_year_and_jdn (CsvParameters.assign_role tmp ii p)
  = CsvParameters.dt_as_year_and_jdn p || is_one_of tmp jdn_names.
Proof. unfold jdn_names. flag_of_role. Qed.

Section LastColumn.
Context `{E : Externals} `{L : Library}.
Variables (g : CsvParameters.t -> option nat) (roles : list string) (decimal : bool).
Hypothesis step :
  forall (tmp : string) (ii : nat) (p : CsvParameters.t),
    CsvParameters.dt_as_decimal p = decimal ->
    g (CsvParameters.assign_role tmp ii p) = if is_one_of tmp roles then Some ii else g p.
Hypothesis named : is_one_of EmptyString roles = false.

Lemma assign_roles_member (names : list string) :
  forall (ii : nat) (p : CsvParameters.t),
    CsvParameters.dt_as_decimal p = decimal ->
    let c := g (snd (CsvParameters.assign_roles names ii p)) in
    (c = g p
     /\ forall j, j < List.length names ->
                  is_one_of (CsvParameters.clean_name (at_ names j)) roles = false)
    \/ exists i,
         c = Some (ii + i) /\ i < List.length names
         /\ is_one_of (CsvParameters.clean_name (at_ names i)) roles = true
         /\ forall j, i < j < List.length names ->
                      is_one_of (CsvParameters.clean_name (at_ names j)) roles = false.
Proof.
  induction names as [|n names IH]; intros ii p Hdec c.
  - left. split; [reflexivity|]. intros j Hj. cbn in Hj. lia.
  - subst c. cbn [CsvParameters.assign_roles].
    set (tmp := CsvParameters.clean_name n).
    set (p1 := if CsvParameters.is_empty tmp then p else CsvParameters.assign_role tmp ii p).
    assert (Hdec1 : CsvParameters.dt_as_decimal p1 = decimal).
    { subst p1. destruct (CsvParameters.is_empty tmp); [exact Hdec|].
      rewrite assign_role_dt_as_decimal. exact Hdec. }
    assert (Hg1 : g p1 = if is_one_of tmp roles then Some ii else g p).
    { subst p1. destruct (CsvParameters.is_empty tmp) eqn:He; [|apply step; exact Hdec].
      destruct tmp; [|discriminate He]. rewrite named. reflexivity. }
    specialize (IH (S ii) p1 Hdec1). cbv zeta in IH.
    destruct (CsvParameters.assign_roles names (S ii) p1) as [rest p']. cbn [snd] in *.
    destruct IH as [[Hc Hnone]|(i & Hc & Hi & Hrole & Hlater)].
    + rewrite Hc, Hg1. destruct (is_one_of tmp roles) eqn:Hr.
      * right. exists 0. rewrite Nat.add_0_r. cbn [List.length at_ nth].
        repeat split; [lia | exact Hr |].
        intros j Hj. destruct j as [|j]; [lia|]. cbn [at_ nth]. apply Hnone. lia.
      * left. split; [reflexivity|]. intros j Hj. destruct j as [|j]; [exact Hr|].
        cbn [at_ nth]. apply Hnone. cbn [List.length] in Hj. lia.
    + right. exists (S i). cbn [List.length at_ nth].
      repeat split; [rewrite Hc; f_equal; lia | lia | exact Hrole |].
      intros j Hj. destruct j as [|j]; [lia|]. cbn [at_ nth]. apply Hlater. lia.
Qed.

Lemma assign_roles_last_named (names : list string) (p : CsvParameters.t) :
  CsvParameters.dt_as_decimal p = decimal -> g p = None ->
  last_named roles names (g (snd (CsvParameters.assign_roles names 0 p))).
Proof.
  intros Hdec Hg. destruct (assign_roles_member names 0 p Hdec)
    as [[Hc Hnone]|(i & Hc & Hi & Hrole & Hlater)].
  - rewrite Hc, Hg. exact Hnone.
  - rewrite Hc. cbn [Nat.add]. repeat split; assumption.
Qed.

End LastColumn.

Section Flags.
Context `{E : Externals} `{L : Library}.
Variables (h : CsvParameters.t -> bool) (roles : list string).
Hypothesis step :
  forall (tmp : string) (ii : nat) (p : CsvParameters.t),
    h (CsvParameters.assign_role tmp ii p) = h p || is_one_of tmp roles.
Hypothesis named : is_one_of EmptyString roles = false.

Lemma assign_roles_flag (names : list string) :
  forall (ii : nat) (p : CsvParameters.t),
    h (snd (CsvParameters.assign_roles names ii p))
    = h p || existsb (fun n => is_one_of (CsvParameters.clean_name n) roles) names.
Proof.
  induction names as [|n names IH]; intros ii p.
  - cbn. rewrite orb_false_r. reflexivity.
  - cbn [CsvParameters.assign_roles existsb].
    set (tmp := CsvParameters.clean_name n).
    set (p1 := if CsvParameters.is_empty tmp then p else CsvParameters.assign_role tmp ii p).
    specialize (IH (S ii) p1).
    destruct (CsvParameters.assign_roles names (S ii) p1) as [rest p']. cbn [snd] in *.
    rewrite IH, orb_assoc. f_equal. subst p1.
    destruct (CsvParameters.is_empty tmp) eqn:He; [|apply step].
    destruct tmp; [|discriminate He]. rewrite named, orb_false_r. reflexivity.
Qed.

End Flags.

Lemma is_one_of_app (tmp : string) (a b : list string) :
  is_one_of tmp (a ++ b) = is_one_of tmp a || is_one_of tmp b.
Proof. unfold is_one_of. apply existsb_app. Qed.

(** X19.  On an object on which no column was set, [parseFields] gives every
    role the last of the columns whose name, once cleaned, is a name of
    that role, and no column when there is none: the decimal date, the
    strings of the date and of the time (a column of the combined date and
    time is the one or it is the two others, as [dt_as_decimal] tells), the
    year, the day of the year, the month, the day, the numeric time, the
    hours, the minutes, the seconds and the station ID.  The date and time
    are components as soon as a column is named for a component other than
    the day of the year, and a year with a day of the year as soon as a
    column is named for the day of the year. *)
Theorem parseFields_last_column_of_a_role `{E : Externals} `{L : Library} :
  forall (f f' : CsvParameters.full) (headerFields fieldNames names' : list string),
    CsvParameters.parseFields f headerFields fieldNames = Done (f', names') ->
    Forall (eq None) (CsvDateTime.columns (CsvParameters.date_cols (CsvParameters.core f))) ->
    CsvParameters.ID_col (CsvParameters.core f) = None ->
    let given := if List.length fieldNames =? 0 then headerFields else fieldNames in
    let dc := CsvParameters.date_cols (CsvParameters.core f') in
    let decimal := CsvParameters.dt_as_decimal (CsvParameters.core f) in
    let stamp := if decimal then [] else ["TIMESTAMP"; "TS"; "DATETIME"] in
    last_named (if decimal then ["TIMESTAMP"; "TS"; "DATETIME"] else []) given
      (CsvDateTime.decimal_date dc)
    /\ last_named (stamp ++ ["DATE"; "GIORNO"; "FECHA"]) given (CsvDateTime.date_str dc)
    /\ last_named (stamp ++ ["TIME"; "ORA"; "HORA"]) given (CsvDateTime.time_str dc)
    /\ last_named ["YEAR"] given (CsvDateTime.year dc)
    /\ last_named jdn_names given (CsvDateTime.jdn dc)
    /\ last_named ["MONTH"] given (CsvDateTime.month dc)
    /\ last_named ["DAY"] given (CsvDateTime.day dc)
    /\ last_named ["NTIME"] given (CsvDateTime.time dc)
    /\ last_named ["HOUR"; "HOURS"] given (CsvDateTime.hours dc)
    /\ last_named ["MINUTE"; "MINUTES"] given (CsvDateTime.minutes dc)
    /\ last_named ["SECOND"; "SECONDS"] given (CsvDateTime.seconds dc)
    /\ last_named ["ID"; "STATIONID"] given (CsvParameters.ID_col (CsvParameters.core f'))
    /\ CsvParameters.dt_as_components (CsvParameters.core f')
       = CsvParameters.dt_as_components (CsvParameters.core f)
         || existsb (fun n => is_one_of (CsvParameters.clean_name n) component_names) given
    /\ CsvParameters.dt_as_year_and_jdn (CsvParameters.core f')
       = CsvParameters.dt_as_year_and_jdn (CsvParameters.core f)
         || existsb (fun n => is_one_of (CsvParameters.clean_name n) jdn_names) given.
Proof.
  intros f f' headerFields fieldNames names' Hdone Hfresh Hid given dc decimal stamp.
  destruct (parseFields_done _ _ _ _ _ Hdone) as (_ & _ & Hdef & _).
  fold given in Hdef. apply default_formats_layout in Hdef. unfold layout in Hdef.
  injection Hdef as Hdc Hskip HID Hcomp Hjdn Hdec Htz.
  subst dc. rewrite Hdc, HID, Hcomp, Hjdn.
  cbn [CsvParameters.on_date_cols CsvParameters.date_cols CsvParameters.set_date_cols
       CsvParameters.ID_col CsvParameters.dt_as_components CsvParameters.dt_as_year_and_jdn].
  set (p := CsvParameters.core f) in *.
  repeat (apply Forall_cons_iff in Hfresh; destruct Hfresh as [? Hfresh]).
  assert (Hd : CsvParameters.dt_as_decimal p = decimal) by reflexivity.
  repeat split.
  - apply (assign_roles_last_named
             (fun q => CsvDateTime.decimal_date (CsvParameters.date_cols q)) _ decimal);
      [| destruct decimal; reflexivity | exact Hd | symmetry; assumption].
    intros tmp ii q Hq. rewrite assign_role_decimal_date, Hq.
    destruct decimal; [reflexivity|]. destruct (is_one_of tmp _); reflexivity.
  - apply (assign_roles_last_named
             (fun q => CsvDateTime.date_str (CsvParameters.date_cols q)) _ decimal);
      [| destruct decimal; reflexivity | exact Hd | symmetry; assumption].
    intros tmp ii q Hq. rewrite assign_role_date_str, Hq, is_one_of_app. subst stamp.
    destruct decimal;
      destruct (is_one_of tmp ["TIMESTAMP"; "TS"; "DATETIME"]) eqn:Hts; try reflexivity.
    name_known; reflexivity.
  - apply (assign_roles_last_named
             (fun q => CsvDateTime.time_str (CsvParameters.date_cols q)) _ decimal);
      [| destruct decimal; reflexivity | exact Hd | symmetry; assumption].
    intros tmp ii q Hq. rewrite assign_role_time_str, Hq, is_one_of_app. subst stamp.
    destruct decimal;
      destruct (is_one_of tmp ["TIMESTAMP"; "TS"; "DATETIME"]) eqn:Hts; try reflexivity.
    name_known; reflexivity.
  - apply (assign_roles_last_named
             (fun q => CsvDateTime.year (CsvParameters.date_cols q)) _ decimal);
      [intros; apply assign_role_year | reflexivity | exact Hd | symmetry; assumption].
  - apply (assign_roles_last_named
             (fun q => CsvDateTime.jdn (CsvParameters.date_cols q)) _ decimal);
      [intros; apply assign_role_jdn | reflexivity | exact Hd | symmetry; assumption].
  - apply (assign_roles_last_named
             (fun q => CsvDateTime.month (CsvParameters.date_cols q)) _ decimal);
      [intros; apply assign_role_month | reflexivity | exact Hd | symmetry; assumption].
  - apply (assign_roles_last_named
             (fun q => CsvDateTime.day (CsvParameters.date_cols q)) _ decimal);
      [intros; apply assign_role_day | reflexivity | exact Hd | symmetry; assumption].
  - apply (assign_roles_last_named
             (fun q => CsvDateTime.time (CsvParameters.date_cols q)) _ decimal);
      [intros; apply assign_role_time | reflexivity | exact Hd | symmetry; assumption].
  - apply (assign_roles_last_named
             (fun q => CsvDateTime.hours (CsvParameters.date_cols q)) _ decimal);
      [intros; apply assign_role_hours | reflexivity | exact Hd | symmetry; assumption].
  - apply (assign_roles_last_named
             (fun q => CsvDateTime.minutes (CsvParameters.date_cols q)) _ decimal);
      [intros; apply assign_role_minutes | reflexivity | exact Hd | symmetry; assumption].
  - apply (assign_roles_last_named
             (fun q => CsvDateTime.seconds (CsvParameters.date_cols q)) _ decimal);
      [intros; apply assign_role_seconds | reflexivity | exact Hd | symmetry; assumption].
  - apply (assign_roles_last_named CsvParameters.ID_col _ decimal);
      [intros; apply assign_role_ID_col | reflexivity | exact Hd | exact Hid].
  - apply (assign_roles_flag CsvParameters.dt_as_components component_names);
      [apply assign_role_dt_as_components | reflexivity].
  - apply (assign_roles_flag CsvParameters.dt_as_year_and_jdn jdn_names);
      [apply assign_role_dt_as_year_and_jdn | reflexivity].
Qed.

Lemma last_of_two_date_columns :
  exists f' names',
    @CsvParameters.parseFields Examples.externals Examples.library
      (Examples.whole Examples.blank) ["Date"; "Time"; "TA"; "date"] []
    = Done (f', names')
    /\ CsvDateTime.date_str (CsvParameters.date_cols (CsvParameters.core f')) = Some 3.
Proof.
  assert (Hp : exists f' names',
             @CsvParameters.parseFields Examples.externals Examples.library
               (Examples.whole Examples.blank) ["Date"; "Time"; "TA"; "date"] []
             = Done (f', names')) by (vm_compute; eauto).
  destruct Hp as (f' & names' & Hp). exists f', names'. split; [exact Hp|].
  destruct (@parseFields_last_column_of_a_role Examples.externals Examples.library
              _ _ _ _ _ Hp ltac:(repeat constructor) eq_refl) as (_ & Hdate & _).
  cbv zeta in Hdate.
  destruct (CsvDateTime.date_str (CsvParameters.date_cols (CsvParameters.core f')))
    as [i|].
  - destruct Hdate as (Hi & _ & Hlater). f_equal.
    destruct i as [|[|[|[|i]]]]; [| | |reflexivity|cbn in Hi; lia].
    + specialize (Hlater 3 ltac:(cbn; lia)). vm_compute in Hlater. discriminate Hlater.
    + specialize (Hlater 3 ltac:(cbn; lia)). vm_compute in Hlater. discriminate Hlater.
    + specialize (Hlater 3 ltac:(cbn; lia)). vm_compute in Hlater. discriminate Hlater.
  - specialize (Hdate 0 ltac:(cbn; lia)). vm_compute in Hdate. discriminate Hdate.
Defined.

(** ** The day of the year and the time as a number *)

(** The time of day as a number. *)
Lemma parseDate_numeric_time `{E : Externals} :
  forall (p : CsvParameters.t) (vecFields : list string) (col_jdn col_time : nat)
         (year jdn hours minutes : Z),
    CsvParameters.dt_as_components p = true ->
    CsvParameters.dt_as_year_and_jdn p = true ->
    CsvParameters.time_idx p = [] ->
    CsvDateTime.jdn (CsvParameters.date_cols p) = Some col_jdn ->
    CsvDateTime.time (CsvParameters.date_cols p) = Some col_time ->
    CsvParameters.parseDateComponent_int vecFields
      (CsvDateTime.year (CsvParameters.date_cols p)) = Some year ->
    year <> 0%Z ->
    convertString_int (at_ vecFields col_jdn) = Some jdn ->
    convertString_int (at_ vecFields col_time) = Some (100 * hours + minutes)%Z ->
    (0 <= hours)%Z -> (0 <= minutes < 100)%Z ->
    CsvParameters.parseDate p vecFields
    = (DateYJ year
         (inject_Z jdn + (inject_Z hours * 60 + inject_Z minutes) / (24 * 60))%Q
         (CsvParameters.csv_tz p), p).
Proof.
  intros p vecFields col_jdn col_time year jdn hours minutes
         Hcomp Hyj Hidx Hjdn Htime Hyear Hy0 Hj Ht Hh Hm.
  unfold CsvParameters.parseDate. rewrite Hcomp, Hyj.
  unfold CsvParameters.parseJdnDate. rewrite Hidx, Htime, Hjdn.
  cbn [CsvParameters.parseDateComponent_int]. rewrite Hj, Hyear.
  unfold CsvParameters.fallback_year_jdn.
  apply Z.eqb_neq in Hy0. rewrite Hy0. cbn [andb].
  assert (Hp : CsvParameters.set_date_cols (CsvParameters.date_cols p) p = p)
    by (destruct p; reflexivity).
  rewrite Hp, Htime. cbn [CsvParameters.parseDateComponent_int]. rewrite Ht.
  assert (Hq : Z.quot (100 * hours + minutes) 100 = hours).
  { rewrite Z.quot_div_nonneg by lia.
    replace (100 * hours + minutes)%Z with (hours * 100 + minutes)%Z by lia.
    rewrite Z.div_add_l by lia. rewrite Z.div_small by lia. lia. }
  rewrite Hq.
  replace (100 * hours + minutes - hours * 100)%Z with minutes by lia.
  reflexivity.
Qed.

Lemma last_named_unique `{E : Externals} `{L : Library} (roles names : list string)
    (a b : option nat) :
  last_named roles names a -> last_named roles names b -> a = b.
Proof.
  destruct a as [i|], b as [j|]; cbn [last_named].
  - intros (Hi & Hri & Hli) (Hj & Hrj & Hlj).
    destruct (Nat.lt_trichotomy i j) as [H|[H|H]]; [|congruence|].
    + rewrite (Hli j) in Hrj by lia. discriminate.
    + rewrite (Hlj i) in Hri by lia. discriminate.
  - intros (Hi & Hri & _) H. rewrite (H i Hi) in Hri. discriminate.
  - intros H (Hj & Hrj & _). rewrite (H j Hj) in Hrj. discriminate.
  - reflexivity.
Qed.

Lemma last_named_exists `{E : Externals} `{L : Library} (roles names : list string)
    (i : nat) :
  last_named roles names (Some i) ->
  existsb (fun n => is_one_of (CsvParameters.clean_name n) roles) names = true.
Proof.
  intros (Hi & Hr & _). apply existsb_exists. exists (at_ names i). split; [|exact Hr].
  apply nth_In. exact Hi.
Qed.

Lemma is_one_of_incl (tmp : string) (a b : list string) :
  incl a b -> is_one_of tmp b = false -> is_one_of tmp a = false.
Proof.
  intros Hab Hb. destruct (is_one_of tmp a) eqn:Ha; [|reflexivity].
  unfold is_one_of in *. apply existsb_exists in Ha. destruct Ha as (x & Hx & He).
  assert (Ht : existsb (String.eqb tmp) b = true)
    by (apply existsb_exists; exists x; split; [apply Hab; exact Hx | exact He]).
  congruence.
Qed.

Lemma existsb_incl (names a b : list string) (g : string -> string) :
  incl a b ->
  existsb (fun n => is_one_of (g n) a) names = true ->
  existsb (fun n => is_one_of (g n) b) names = true.
Proof.
  intros Hab Ha. apply existsb_exists in Ha. destruct Ha as (n & Hn & Hr).
  apply existsb_exists. exists n. split; [exact Hn|].
  destruct (is_one_of (g n) b) eqn:Hb; [reflexivity|].
  rewrite (is_one_of_incl _ a b Hab Hb) in Hr. discriminate.
Qed.

Lemma assign_role_time_idx (tmp : string) (ii : nat) (p : CsvParameters.t) :
  CsvParameters.time_idx (CsvParameters.assign_role tmp ii p) = CsvParameters.time_idx p.
Proof. role_cases; through_skip. Qed.

Lemma assign_role_csv_tz (tmp : string) (ii : nat) (p : CsvParameters.t) :
  CsvParameters.csv_tz (CsvParameters.assign_role tmp ii p) = CsvParameters.csv_tz p.
Proof. role_cases; through_skip. Qed.

Section Unchanged.
Context `{E : Externals} `{L : Library}.
Variables (A : Type) (h : CsvParameters.t -> A).
Hypothesis step :
  forall (tmp : string) (ii : nat) (p : CsvParameters.t),
    h (CsvParameters.assign_role tmp ii p) = h p.

Lemma assign_roles_unchanged (names : list string) :
  forall (ii : nat) (p : CsvParameters.t),
    h (snd (CsvParameters.assign_roles names ii p)) = h p.
Proof.
  induction names as [|n names IH]; intros ii p; [reflexivity|].
  cbn [CsvParameters.assign_roles].
  set (tmp := CsvParameters.clean_name n).
  set (p1 := if CsvParameters.is_empty tmp then p else CsvParameters.assign_role tmp ii p).
  specialize (IH (S ii) p1).
  destruct (CsvParameters.assign_roles names (S ii) p1) as [rest p']. cbn [snd] in *.
  rewrite IH. subst p1. destruct (CsvParameters.is_empty tmp); [reflexivity | apply step].
Qed.

End Unchanged.

Lemma default_formats_time_idx (p p' : CsvParameters.t) :
  CsvParameters.default_formats p = Ok p' ->
  CsvDateTime.time_str (CsvParameters.date_cols p) = None ->
  CsvParameters.time_idx p' = CsvParameters.time_idx p.
Proof.
  unfold CsvParameters.default_formats. intros H Ht. rewrite Ht in H.
  destruct (CsvParameters.dt_as_decimal p); [congruence|].
  destruct (CsvDateTime.same_column _ None).
  - destruct (CsvParameters.datetime_idx p); [|congruence].
    apply setDateTimeSpec_members in H. destruct H as (i & f & tz & ->). reflexivity.
  - match type of H with
    | match ?r with _ => _ end = _ =>
        destruct r as [p1|e] eqn:H1; [|discriminate];
        assert (L1 : CsvParameters.time_idx p1 = CsvParameters.time_idx p)
    end.
    { destruct (CsvParameters.datetime_idx p); [|congruence].
      destruct (CsvDateTime.is_set _); [|congruence].
      apply setDateTimeSpec_members in H1. destruct H1 as (i & f & tz & ->). reflexivity. }
    rewrite <- L1. cbn [CsvDateTime.is_set] in H.
    destruct (CsvParameters.time_idx p1) eqn:Hidx; injection H as <-; exact Hidx.
Qed.

(** X20.  A file with a column for the day of the year, a column NTIME for
    the time of day as a number and a column YEAR whose value is not zero,
    and without a column for a string of the date or of the time:
    [parseDate] reads the year, the day of the year, and the time as
    hours = time / 100 and minutes = time - hours * 100, so that 952 is
    09:52.  Nothing keeps the minutes below 60 or the hours below 24. *)
Theorem day_of_year_and_numeric_time `{E : Externals} `{L : Library} :
  forall (f f' : CsvParameters.full) (headerFields fieldNames names' vecFields : list string)
         (col_year : option nat) (col_jdn col_time : nat) (year jdn hours minutes : Z),
    let given := if List.length fieldNames =? 0 then headerFields else fieldNames in
    CsvParameters.parseFields f headerFields fieldNames = Done (f', names') ->
    Forall (eq None) (CsvDateTime.columns (CsvParameters.date_cols (CsvParameters.core f))) ->
    CsvParameters.time_idx (CsvParameters.core f) = [] ->
    Forall (fun n => is_one_of (CsvParameters.clean_name n) string_names = false) given ->
    last_named ["YEAR"] given col_year ->
    last_named jdn_names given (Some col_jdn) ->
    last_named ["NTIME"] given (Some col_time) ->
    CsvParameters.parseDateComponent_int vecFields col_year = Some year ->
    year <> 0%Z ->
    convertString_int (at_ vecFields col_jdn) = Some jdn ->
    convertString_int (at_ vecFields col_time) = Some (100 * hours + minutes)%Z ->
    (0 <= hours)%Z -> (0 <= minutes < 100)%Z ->
    CsvParameters.parseDate (CsvParameters.core f') vecFields
    = (DateYJ year
         (inject_Z jdn + (inject_Z hours * 60 + inject_Z minutes) / (24 * 60))%Q
         (CsvParameters.csv_tz (CsvParameters.core f)), CsvParameters.core f').
Proof.
  intros f f' headerFields fieldNames names' vecFields col_year col_jdn col_time
         year jdn hours minutes given Hdone Hfresh Hidx Hstr Hy Hj Ht
         Hyear Hy0 Hjdn Htime Hh Hm.
  destruct (parseFields_done _ _ _ _ _ Hdone) as (_ & _ & Hdef & _).
  fold given in Hdef.
  set (p := CsvParameters.core f) in *.
  set (p1 := snd (CsvParameters.assign_roles given 0 p)) in *.
  repeat (apply Forall_cons_iff in Hfresh; destruct Hfresh as [? Hfresh]).
  assert (Hd : CsvParameters.dt_as_decimal p = CsvParameters.dt_as_decimal p) by reflexivity.
  (* the columns after the loop over the names *)
  assert (Hc_year : CsvDateTime.year (CsvParameters.date_cols p1) = col_year).
  { apply (last_named_unique ["YEAR"] given); [|exact Hy].
    apply (assign_roles_last_named
             (fun q => CsvDateTime.year (CsvParameters.date_cols q)) _
             (CsvParameters.dt_as_decimal p));
      [intros; apply assign_role_year | reflexivity | exact Hd | symmetry; assumption]. }
  assert (Hc_jdn : CsvDateTime.jdn (CsvParameters.date_cols p1) = Some col_jdn).
  { apply (last_named_unique jdn_names given); [|exact Hj].
    apply (assign_roles_last_named
             (fun q => CsvDateTime.jdn (CsvParameters.date_cols q)) _
             (CsvParameters.dt_as_decimal p));
      [intros; apply assign_role_jdn | reflexivity | exact Hd | symmetry; assumption]. }
  assert (Hc_time : CsvDateTime.time (CsvParameters.date_cols p1) = Some col_time).
  { apply (last_named_unique ["NTIME"] given); [|exact Ht].
    apply (assign_roles_last_named
             (fun q => CsvDateTime.time (CsvParameters.date_cols q)) _
             (CsvParameters.dt_as_decimal p));
      [intros; apply assign_role_time | reflexivity | exact Hd | symmetry; assumption]. }
  assert (Hc_str : CsvDateTime.time_str (CsvParameters.date_cols p1) = None).
  { destruct (CsvDateTime.time_str (CsvParameters.date_cols p1)) as [i|] eqn:Hts;
      [|reflexivity].
    exfalso.
    assert (Hin : exists n, In n given
                            /\ is_one_of (CsvParameters.clean_name n) string_names = true).
    { destruct (assign_roles_member
                  (fun q => CsvDateTime.time_str (CsvParameters.date_cols q))
                  (if CsvParameters.dt_as_decimal p then ["TIME"; "ORA"; "HORA"]
                   else ["TIMESTAMP"; "TS"; "DATETIME"; "TIME"; "ORA"; "HORA"])
                  (CsvParameters.dt_as_decimal p)) with (names := given) (ii := 0) (p := p)
        as [[Hc _]|(k & _ & Hk & Hr & _)].
      - intros tmp ii q Hq. rewrite assign_role_time_str, Hq.
        destruct (CsvParameters.dt_as_decimal p);
          destruct (is_one_of tmp ["TIMESTAMP"; "TS"; "DATETIME"]) eqn:Hts';
          try reflexivity; try (name_known; reflexivity).
        change ["TIMESTAMP"; "TS"; "DATETIME"; "TIME"; "ORA"; "HORA"]
          with (["TIMESTAMP"; "TS"; "DATETIME"] ++ ["TIME"; "ORA"; "HORA"]).
        rewrite is_one_of_app, Hts'. reflexivity.
      - destruct (CsvParameters.dt_as_decimal p); reflexivity.
      - reflexivity.
      - fold p1 in Hc. congruence.
      - exists (at_ given k). split; [apply nth_In; exact Hk|].
        destruct (is_one_of (CsvParameters.clean_name (at_ given k)) string_names) eqn:Hs;
          [reflexivity|].
        rewrite (is_one_of_incl _ _ string_names) in Hr; [discriminate | | exact Hs].
        destruct (CsvParameters.dt_as_decimal p); intros x Hx; cbn in Hx |- *; tauto. }
    destruct Hin as (n & Hn & Hr). rewrite Forall_forall in Hstr.
    rewrite (Hstr n Hn) in Hr. discriminate. }
  assert (Hf_comp : CsvParameters.dt_as_components p1 = true).
  { unfold p1.
    rewrite (assign_roles_flag CsvParameters.dt_as_components component_names
               assign_role_dt_as_components eq_refl).
    rewrite (existsb_incl given ["NTIME"] component_names CsvParameters.clean_name);
      [apply orb_true_r | intros x Hx; cbn in Hx |- *; tauto |].
    apply (last_named_exists _ _ _ Ht). }
  assert (Hf_jdn : CsvParameters.dt_as_year_and_jdn p1 = true).
  { unfold p1.
    rewrite (assign_roles_flag CsvParameters.dt_as_year_and_jdn jdn_names
               assign_role_dt_as_year_and_jdn eq_refl).
    rewrite (last_named_exists _ _ _ Hj). apply orb_true_r. }
  assert (Hf_idx : CsvParameters.time_idx p1 = []).
  { unfold p1. rewrite (assign_roles_unchanged _ CsvParameters.time_idx assign_role_time_idx).
    exact Hidx. }
  assert (Hf_tz : CsvParameters.csv_tz p1 = CsvParameters.csv_tz p).
  { unfold p1. apply (assign_roles_unchanged _ CsvParameters.csv_tz assign_role_csv_tz). }
  (* the default formats leave them as they are *)
  pose proof (default_formats_time_idx _ _ Hdef Hc_str) as Hidx'.
  apply default_formats_layout in Hdef. unfold layout in Hdef.
  injection Hdef as Hdc Hskip HID Hcomp Hyj Hdec Htz.
  cbn [CsvParameters.on_date_cols CsvParameters.date_cols CsvParameters.set_date_cols
       CsvParameters.dt_as_components CsvParameters.dt_as_year_and_jdn
       CsvParameters.time_idx CsvParameters.csv_tz] in Hdc, Hcomp, Hyj, Hidx', Htz.
  rewrite <- Hf_tz, <- Htz.
  apply (parseDate_numeric_time (CsvParameters.core f') vecFields col_jdn col_time);
    try assumption.
  - rewrite Hcomp. exact Hf_comp.
  - rewrite Hyj. exact Hf_jdn.
  - rewrite Hidx'. exact Hf_idx.
  - rewrite Hdc. exact Hc_jdn.
  - rewrite Hdc. exact Hc_time.
  - rewrite Hdc. cbn [CsvDateTime.year CsvDateTime.updateMaxCol CsvDateTime.set_max_dt_col].
    rewrite Hc_year. exact Hyear.
Qed.

Lemma logger_row_at_0952 :
  exists f',
    @CsvParameters.parseFields Examples.externals Examples.library
      (Examples.whole Examples.blank) ["DOY"; "NTIME"; "Year"; "TA"] []
    = Done (f', ["DOY"; "NTIME"; "YEAR"; "TA"])
    /\ @CsvParameters.parseDate Examples.externals (CsvParameters.core f')
         ["10"; "952"; "2021"; "1.5"]
       = (DateYJ 2021 (inject_Z 10 + (inject_Z 9 * 60 + inject_Z 52) / (24 * 60))%Q 0,
          CsvParameters.core f').
Proof.
  assert (Hp : exists f',
             @CsvParameters.parseFields Examples.externals Examples.library
               (Examples.whole Examples.blank) ["DOY"; "NTIME"; "Year"; "TA"] []
             = Done (f', ["DOY"; "NTIME"; "YEAR"; "TA"])) by (vm_compute; eauto).
  destruct Hp as (f' & Hp). exists f'. split; [exact Hp|].
  apply (@day_of_year_and_numeric_time Examples.externals Examples.library
           (Examples.whole Examples.blank) f' ["DOY"; "NTIME"; "Year"; "TA"] []
           ["DOY"; "NTIME"; "YEAR"; "TA"] ["10"; "952"; "2021"; "1.5"]
           (Some 2) 0 1 2021%Z 10%Z 9%Z 52%Z Hp).
  - repeat constructor.
  - reflexivity.
  - repeat constructor.
  - split; [cbn; lia|]. split; [reflexivity|].
    intros j Hj. cbn in Hj. assert (j = 3) by lia. subst j. reflexivity.
  - split; [cbn; lia|]. split; [reflexivity|].
    intros j Hj. cbn in Hj.
    destruct j as [|[|[|[|j]]]]; try lia; reflexivity.
  - split; [cbn; lia|]. split; [reflexivity|].
    intros j Hj. cbn in Hj.
    destruct j as [|[|[|[|j]]]]; try lia; reflexivity.
  - reflexivity.
  - discriminate.
  - reflexivity.
  - reflexivity.
  - lia.
  - lia.
Defined.

(** ** The single parameter of a file *)

Lemma timestamp_role_ID_col (k : nat) (p : CsvParameters.t) :
  CsvParameters.ID_col
    (CsvParameters.on_date_cols CsvDateTime.updateMaxCol
       (CsvParameters.skip k
          (CsvParameters.on_date_cols (CsvDateTime.set_date_str (Some k))
             (CsvParameters.on_date_cols (CsvDateTime.set_time_str (Some k)) p))))
  = CsvParameters.ID_col p.
Proof. unfold CsvParameters.skip. destruct (existsb _ _); reflexivity. Qed.

Lemma decimal_role_strings (k : nat) (p : CsvParameters.t) :
  let q := CsvParameters.on_date_cols CsvDateTime.updateMaxCol
             (CsvParameters.skip k
                (CsvParameters.on_date_cols (CsvDateTime.set_decimal_date (Some k)) p)) in
  CsvDateTime.date_str (CsvParameters.date_cols q)
  = CsvDateTime.date_str (CsvParameters.date_cols p)
  /\ CsvDateTime.time_str (CsvParameters.date_cols q)
     = CsvDateTime.time_str (CsvParameters.date_cols p)
  /\ CsvParameters.ID_col q = CsvParameters.ID_col p.
Proof.
  cbv zeta. unfold CsvParameters.skip. destruct (existsb _ _); repeat split; reflexivity.
Qed.

Section SingleParameter.
Context `{E : Externals} `{L : Library}.
Variables (f : CsvParameters.full) (ts : string).
Hypothesis timestamp :
  is_one_of (CsvParameters.clean_name ts) ["TIMESTAMP"; "TS"; "DATETIME"] = true.
Hypothesis no_ID : CsvParameters.ID_col (CsvParameters.core f) = None.
Hypothesis no_components : CsvParameters.dt_as_components (CsvParameters.core f) = false.
Hypothesis single : CsvParameters.is_empty (CsvParameters.single_field f) = false.

(** The call up to the choice of the column that gets the name of the
    parameter, with the date and time as a string. *)
Lemma parseFields_single_parameter (pre post : list string) :
  Forall measured (pre ++ post) ->
  CsvParameters.dt_as_decimal (CsvParameters.core f) = false ->
  CsvParameters.datetime_idx (CsvParameters.core f) = [] ->
  CsvParameters.has_tz (CsvParameters.core f) = false ->
  exists q,
    CsvDateTime.date_str (CsvParameters.date_cols q) = Some (List.length pre)
    /\ CsvDateTime.time_str (CsvParameters.date_cols q) = Some (List.length pre)
    /\ CsvParameters.ID_col q = None
    /\ CsvParameters.parseFields f (pre ++ ts :: post) []
       = match CsvParameters.name_single_field (CsvParameters.set_core q f)
                 (map CsvParameters.clean_name (pre ++ ts :: post)) with
         | Ok names => Done (CsvParameters.set_core q f, names)
         | Throw e => Failed (IOException e)
         end.
Proof.
  intros Hm Hdec Hidx Htz. unfold CsvParameters.parseFields.
  cbn [List.length Nat.eqb negb andb].
  rewrite andb_true_r.
  replace (List.length (pre ++ ts :: post) =? 0) with false
    by (destruct pre; reflexivity).
  pose proof (assign_roles_names (pre ++ ts :: post) 0 (CsvParameters.core f)) as Hn.
  pose proof (assign_roles_one pre post ts (CsvParameters.core f) Hm
                (is_role_of _ _ timestamp ltac:(intros x Hx; cbn in Hx |- *; tauto))) as Hp.
  destruct (CsvParameters.assign_roles (pre ++ ts :: post) 0 (CsvParameters.core f))
    as [names p1].
  cbn [fst snd] in Hn, Hp. subst names p1.
  unfold CsvParameters.assign_role. rewrite timestamp, Hdec.
  destruct (timestamp_role (List.length pre) (CsvParameters.core f))
    as (Hd & Ht & Hqdec & Hqcomp & Hqidx & Hqtidx & Hqtz & Hqcsv).
  pose proof (timestamp_role_ID_col (List.length pre) (CsvParameters.core f)) as Hid.
  set (q := CsvParameters.on_date_cols CsvDateTime.updateMaxCol _) in *.
  rewrite Hdec in Hqdec. rewrite no_components in Hqcomp. rewrite Hidx in Hqidx.
  rewrite Htz in Hqtz. rewrite no_ID in Hid.
  assert (Hset : CsvDateTime.isSet (CsvParameters.date_cols q) = true).
  { unfold CsvDateTime.isSet. rewrite Hd, Ht. reflexivity. }
  rewrite Hset, Hqcomp. cbn [negb andb].
  rewrite (default_formats_timestamp (List.length pre) q Hd Ht Hqdec Hqidx Hqtz).
  cbn [CsvParameters.single_field CsvParameters.set_core]. rewrite single. cbn [negb andb].
  eexists. split; [|split; [|split; [|reflexivity]]]; assumption.
Qed.

(** The same with the date and time as a decimal number. *)
Lemma parseFields_single_parameter_decimal (pre post : list string) :
  Forall measured (pre ++ post) ->
  CsvParameters.dt_as_decimal (CsvParameters.core f) = true ->
  exists q,
    CsvDateTime.date_str (CsvParameters.date_cols q)
    = CsvDateTime.date_str (CsvParameters.date_cols (CsvParameters.core f))
    /\ CsvDateTime.time_str (CsvParameters.date_cols q)
       = CsvDateTime.time_str (CsvParameters.date_cols (CsvParameters.core f))
    /\ CsvParameters.ID_col q = None
    /\ CsvParameters.parseFields f (pre ++ ts :: post) []
       = match CsvParameters.name_single_field (CsvParameters.set_core q f)
                 (map CsvParameters.clean_name (pre ++ ts :: post)) with
         | Ok names => Done (CsvParameters.set_core q f, names)
         | Throw e => Failed (IOException e)
         end.
Proof.
  intros Hm Hdec. unfold CsvParameters.parseFields.
  cbn [List.length Nat.eqb negb andb].
  rewrite andb_true_r.
  replace (List.length (pre ++ ts :: post) =? 0) with false
    by (destruct pre; reflexivity).
  pose proof (assign_roles_names (pre ++ ts :: post) 0 (CsvParameters.core f)) as Hn.
  pose proof (assign_roles_one pre post ts (CsvParameters.core f) Hm
                (is_role_of _ _ timestamp ltac:(intros x Hx; cbn in Hx |- *; tauto))) as Hp.
  destruct (CsvParameters.assign_roles (pre ++ ts :: post) 0 (CsvParameters.core f))
    as [names p1].
  cbn [fst snd] in Hn, Hp. subst names p1.
  unfold CsvParameters.assign_role. rewrite timestamp, Hdec.
  destruct (decimal_role (List.length pre) (CsvParameters.core f))
    as (Hqd & Hqty & Hqdec & Hqcomp & Hqcsv).
  destruct (decimal_role_strings (List.length pre) (CsvParameters.core f))
    as (Hds & Hts & Hid).
  set (q := CsvParameters.on_date_cols CsvDateTime.updateMaxCol _) in *.
  rewrite Hdec in Hqdec. rewrite no_components in Hqcomp. rewrite no_ID in Hid.
  assert (Hs : CsvDateTime.isSet (CsvParameters.date_cols q) = true).
  { unfold CsvDateTime.isSet. rewrite Hqd. cbn [CsvDateTime.is_set].
    destruct (CsvDateTime.is_set _ && CsvDateTime.is_set _); reflexivity. }
  rewrite Hs, Hqcomp. cbn [negb andb].
  unfold CsvParameters.default_formats. rewrite Hqdec.
  cbn [CsvParameters.single_field CsvParameters.set_core]. rewrite single. cbn [negb andb].
  exists q. split; [|split; [|split; [|reflexivity]]]; assumption.
Qed.

End SingleParameter.

(** X21.  A file with two columns, one of the combined date and time and
    one of measurements, read without field names of the user, with a
    single parameter and no index for it: when the date and time is a
    string, [parseFields] gives the name of the parameter to the column of
    measurements; when it is a decimal number the first column gets the
    name, also when that is the column of the date and time, and the column
    of measurements then keeps its own name. *)
Theorem single_parameter_of_a_file_with_two_columns `{E : Externals} `{L : Library} :
  forall (f : CsvParameters.full) (ts x : string),
    is_one_of (CsvParameters.clean_name ts) ["TIMESTAMP"; "TS"; "DATETIME"] = true ->
    measured x ->
    CsvParameters.ID_col (CsvParameters.core f) = None ->
    CsvParameters.dt_as_components (CsvParameters.core f) = false ->
    CsvDateTime.date_str (CsvParameters.date_cols (CsvParameters.core f)) = None ->
    CsvDateTime.time_str (CsvParameters.date_cols (CsvParameters.core f)) = None ->
    CsvParameters.datetime_idx (CsvParameters.core f) = [] ->
    CsvParameters.has_tz (CsvParameters.core f) = false ->
    CsvParameters.is_empty (CsvParameters.single_field f) = false ->
    CsvParameters.single_param_idx f = None ->
    exists f1 f2,
      CsvParameters.parseFields f [x; ts] []
      = Done (f1, [CsvParameters.single_field f; CsvParameters.clean_name ts])
      /\ CsvParameters.parseFields f [ts; x] []
         = Done (f2, if CsvParameters.dt_as_decimal (CsvParameters.core f)
                     then [CsvParameters.single_field f; CsvParameters.clean_name x]
                     else [CsvParameters.clean_name ts; CsvParameters.single_field f]).
Proof.
  intros f ts x Hts Hx Hid Hcomp Hds Hdt Hidx Htz Hsf Hpi.
  destruct (CsvParameters.dt_as_decimal (CsvParameters.core f)) eqn:Hdec.
  - destruct (parseFields_single_parameter_decimal f ts Hts Hid Hcomp Hsf [x] []
                ltac:(repeat constructor; exact Hx) Hdec) as (q1 & Hd1 & Ht1 & Hi1 & H1).
    destruct (parseFields_single_parameter_decimal f ts Hts Hid Hcomp Hsf [] [x]
                ltac:(repeat constructor; exact Hx) Hdec) as (q2 & Hd2 & Ht2 & Hi2 & H2).
    exists (CsvParameters.set_core q1 f), (CsvParameters.set_core q2 f).
    cbn [app] in H1, H2. rewrite H1, H2. unfold CsvParameters.name_single_field.
    cbn [CsvParameters.core CsvParameters.set_core CsvParameters.single_param_idx
         CsvParameters.single_field].
    rewrite Hi1, Hi2, Hd1, Ht1, Hd2, Ht2, Hds, Hdt, Hpi. split; reflexivity.
  - destruct (parseFields_single_parameter f ts Hts Hid Hcomp Hsf [x] []
                ltac:(repeat constructor; exact Hx) Hdec Hidx Htz)
      as (q1 & Hd1 & Ht1 & Hi1 & H1).
    destruct (parseFields_single_parameter f ts Hts Hid Hcomp Hsf [] [x]
                ltac:(repeat constructor; exact Hx) Hdec Hidx Htz)
      as (q2 & Hd2 & Ht2 & Hi2 & H2).
    exists (CsvParameters.set_core q1 f), (CsvParameters.set_core q2 f).
    cbn [app] in H1, H2. rewrite H1, H2. unfold CsvParameters.name_single_field.
    cbn [CsvParameters.core CsvParameters.set_core CsvParameters.single_param_idx
         CsvParameters.single_field].
    rewrite Hi1, Hi2, Hd1, Ht1, Hd2, Ht2, Hpi. split; reflexivity.
Qed.

Lemma precipitation_names_the_other_column :
  exists f1 f2,
    @CsvParameters.parseFields Examples.externals Examples.library Examples.precipitation
      ["value"; "timestamp"] []
    = Done (f1, ["PSUM"; "TIMESTAMP"])
    /\ @CsvParameters.parseFields Examples.externals Examples.library
         Examples.precipitation ["timestamp"; "value"] []
       = Done (f2, ["TIMESTAMP"; "PSUM"]).
Proof.
  apply (@single_parameter_of_a_file_with_two_columns Examples.externals Examples.library
           Examples.precipitation "timestamp" "value"); reflexivity.
Defined.

(** ** The metadata of the name of a file *)

Lemma length_append (a b : string) :
  String.length (a ++ b) = String.length a + String.length b.
Proof. induction a as [|c a IH]; cbn; [reflexivity | rewrite IH; reflexivity]. Qed.

Lemma append_assoc (a b c : string) : ((a ++ b) ++ c = a ++ b ++ c)%string.
Proof. induction a as [|x a IH]; cbn; [reflexivity | rewrite IH; reflexivity]. Qed.

Lemma drop_app (a b : string) : StdString.drop (String.length a) (a ++ b) = b.
Proof. induction a as [|c a IH]; cbn; [destruct b; reflexivity | exact IH]. Qed.

Lemma substring_app (a b c : string) :
  substring (String.length a) (String.length b) (a ++ b ++ c) = b.
Proof.
  induction a as [|x a IH]; cbn [String.length append].
  - induction b as [|y b IHb]; cbn.
    + destruct c; reflexivity.
    + rewrite IHb. reflexivity.
  - cbn. exact IH.
Qed.

Lemma substring_rest (a b : string) :
  substring (String.length a) (String.length b) (a ++ b) = b.
Proof.
  pose proof (substring_app a b EmptyString) as H.
  replace (b ++ EmptyString)%string with b in H; [exact H|].
  clear H. induction b as [|y b IH]; cbn; [reflexivity | rewrite <- IH; reflexivity].
Qed.

Lemma plus_small (a b : N) : (a + b < 2 ^ 64)%N -> StdString.plus a b = (a + b)%N.
Proof. intros H. unfold StdString.plus. apply N.mod_small. exact H. Qed.

Lemma minus_small (a b : N) :
  (b <= a)%N -> (a < 2 ^ 64)%N -> StdString.minus a b = (a - b)%N.
Proof.
  intros Hb Ha. unfold StdString.minus.
  replace (a + 2 ^ 64 - b)%N with ((a - b) + 1 * 2 ^ 64)%N by lia.
  rewrite N.Div0.mod_add. apply N.mod_small. lia.
Qed.

Lemma minus_minus_1 (a b : N) :
  (b < a)%N -> (a < 2 ^ 64)%N ->
  StdString.minus (StdString.minus a b) 1 = (a - b - 1)%N.
Proof.
  intros Hb Ha. rewrite (minus_small a b) by lia. apply minus_small; lia.
Qed.

Lemma npos_value : StdString.npos = (2 ^ 64 - 1)%N.
Proof. reflexivity. Qed.

Lemma size_app (a b : string) : StdString.size (a ++ b) = (StdString.size a + StdString.size b)%N.
Proof. unfold StdString.size. rewrite length_append. lia. Qed.

Lemma find_from_app (pat a b : string) :
  StdString.find_from pat (a ++ b) (StdString.size a)
  = match StdString.find pat b with
    | Some i => (StdString.size a + N.of_nat i)%N
    | None => StdString.npos
    end.
Proof.
  unfold StdString.find_from. rewrite size_app.
  replace (StdString.size a + StdString.size b <? StdString.size a)%N with false
    by (symmetry; apply N.ltb_ge; lia).
  unfold StdString.size at 1. rewrite Nnat.Nat2N.id, drop_app. reflexivity.
Qed.

Lemma substr_app (a b c : string) :
  StdString.substr (a ++ b ++ c) (StdString.size a) (StdString.size b) = Some b.
Proof.
  unfold StdString.substr. rewrite !size_app.
  replace (StdString.size a + (StdString.size b + StdString.size c) <? StdString.size a)%N
    with false by (symmetry; apply N.ltb_ge; lia).
  replace (N.min (StdString.size b)
             (StdString.size a + (StdString.size b + StdString.size c) - StdString.size a))%N
    with (StdString.size b) by lia.
  unfold StdString.size. rewrite !Nnat.Nat2N.id, substring_app. reflexivity.
Qed.

Lemma substr_rest (a b : string) (len : N) :
  (StdString.size b <= len)%N ->
  StdString.substr (a ++ b) (StdString.size a) len = Some b.
Proof.
  intros Hlen. unfold StdString.substr. rewrite !size_app.
  replace (StdString.size a + StdString.size b <? StdString.size a)%N
    with false by (symmetry; apply N.ltb_ge; lia).
  replace (N.min len (StdString.size a + StdString.size b - StdString.size a))%N
    with (StdString.size b) by lia.
  unfold StdString.size. rewrite !Nnat.Nat2N.id, substring_rest. reflexivity.
Qed.

(** Searching a character. *)
Lemma find_char_app (c : ascii) (x y : string) :
  StdString.find (String c EmptyString) x = None ->
  StdString.find (String c EmptyString) (x ++ y)
  = option_map (Nat.add (String.length x)) (StdString.find (String c EmptyString) y).
Proof.
  induction x as [|b x IH]; intros H.
  - cbn [append String.length]. destruct (StdString.find _ y); reflexivity.
  - cbn [append String.length]. cbn [StdString.find StdString.starts_with] in H |- *.
    destruct (Ascii.eqb c b); [discriminate H|]. cbn [andb] in H |- *.
    destruct (StdString.find (String c EmptyString) x) eqn:Hx; [discriminate H|].
    rewrite (IH eq_refl). destruct (StdString.find _ y); reflexivity.
Qed.

Lemma find_char_head (c : ascii) (y : string) :
  StdString.find (String c EmptyString) (String c y) = Some 0.
Proof. cbn. rewrite Ascii.eqb_refl. reflexivity. Qed.

Lemma find_char_other (c b : ascii) (y : string) :
  Ascii.eqb c b = false ->
  StdString.find (String c EmptyString) (String b y)
  = option_map S (StdString.find (String c EmptyString) y).
Proof. intros H. cbn. rewrite H. reflexivity. Qed.

Lemma is_npos (n : N) : (n < StdString.npos)%N -> (n =? StdString.npos)%N = false.
Proof. intros H. apply N.eqb_neq. lia. Qed.

Lemma size_braces (c : ascii) (s : string) :
  StdString.size (String c s) = (1 + StdString.size s)%N.
Proof. unfold StdString.size. cbn [String.length]. lia. Qed.

Section FileName.
Context `{E : Externals} `{L : Library}.

(** The iteration of the loop on a variable that is followed by a constant
    pattern and another variable. *)
Lemma parseFileName_loop_next (fuel : nat) (ds type pattern rest_spec df value rest_name : string)
    (a : CsvParameters.appending) (f : CsvParameters.full) (pos : CsvParameters.position) :
  let spec := (ds ++ "{" ++ type ++ "}" ++ pattern ++ String "{" rest_spec)%string in
  let name := (df ++ value ++ pattern ++ rest_name)%string in
  (StdString.size spec < StdString.npos)%N ->
  (StdString.size name < StdString.npos)%N ->
  braceless type -> braceless pattern ->
  StdString.find pattern (value ++ pattern ++ rest_name) = Some (String.length value) ->
  CsvParameters.parseFileName_loop (S fuel) name spec (StdString.size df) (StdString.size ds)
    a f pos
  = match CsvParameters.assign_variable a f (strToUpper type) value pos with
    | Throw e => Some (Failed (IOException e))
    | Ok (a, f, pos) =>
        CsvParameters.parseFileName_loop fuel name spec
          (StdString.size (df ++ value ++ pattern))
          (StdString.size (ds ++ "{" ++ type ++ "}" ++ pattern)) a f pos
    end.
Proof.
  intros spec name Hspec Hname [Ht1 Ht2] [Hp1 Hp2] Hsep.
  assert (Hsize : StdString.size spec
                  = (StdString.size ds + 1 + StdString.size type + 1 + StdString.size pattern
                     + 1 + StdString.size rest_spec)%N).
  { unfold spec. repeat rewrite size_app. repeat rewrite size_braces.
    unfold StdString.size. cbn [String.length]. lia. }
  assert (Hnsize : StdString.size name
                   = (StdString.size df + StdString.size value + StdString.size pattern
                      + StdString.size rest_name)%N).
  { unfold name. rewrite !size_app. lia. }
  rewrite npos_value in Hspec, Hname.
  (* the closing brace of the variable *)
  assert (Hstart : StdString.find_from "}" spec (StdString.size ds)
                   = (StdString.size ds + 1 + StdString.size type)%N).
  { unfold spec. rewrite find_from_app.
    change ("{" ++ type ++ "}" ++ pattern ++ String "{" rest_spec)%string
      with (String "{" (type ++ String "}" (pattern ++ String "{" rest_spec))).
    rewrite find_char_other by reflexivity.
    rewrite (find_char_app "}" type _ Ht2), find_char_head. cbn [option_map].
    unfold StdString.size. lia. }
  (* the opening brace of the next variable *)
  assert (Hend : StdString.find_from "{" spec (StdString.plus (StdString.size ds) 1)
                 = (StdString.size ds + 1 + StdString.size type + 1
                    + StdString.size pattern)%N).
  { rewrite plus_small by lia.
    replace (StdString.size ds + 1)%N with (StdString.size (ds ++ "{"))
      by (rewrite size_app; reflexivity).
    unfold spec.
    replace (ds ++ "{" ++ type ++ "}" ++ pattern ++ String "{" rest_spec)%string
      with ((ds ++ "{") ++ type ++ String "}" (pattern ++ String "{" rest_spec))%string
      by (rewrite append_assoc; reflexivity).
    rewrite find_from_app, (find_char_app "{" type _ Ht1).
    rewrite find_char_other by reflexivity.
    rewrite (find_char_app "{" pattern _ Hp1), find_char_head. cbn [option_map].
    rewrite size_app. unfold StdString.size. cbn [String.length]. lia. }
  cbn [CsvParameters.parseFileName_loop]. rewrite Hstart, Hend.
  rewrite is_npos by (rewrite npos_value; lia).
  rewrite is_npos by (rewrite npos_value; lia). cbn [negb].
  (* the constant pattern *)
  assert (Hlen : StdString.minus
                   (StdString.minus
                      (StdString.size ds + 1 + StdString.size type + 1 + StdString.size pattern)
                      (StdString.size ds + 1 + StdString.size type)) 1
                 = StdString.size pattern).
  { rewrite minus_minus_1 by lia. lia. }
  rewrite Hlen.
  assert (Hpat : StdString.substr spec
                   (StdString.plus (StdString.size ds + 1 + StdString.size type) 1)
                   (StdString.size pattern) = Some pattern).
  { rewrite plus_small by lia.
    replace (StdString.size ds + 1 + StdString.size type + 1)%N
      with (StdString.size (ds ++ "{" ++ type ++ "}"))
      by (rewrite !size_app; unfold StdString.size; cbn [String.length]; lia).
    unfold spec.
    replace (ds ++ "{" ++ type ++ "}" ++ pattern ++ String "{" rest_spec)%string
      with ((ds ++ "{" ++ type ++ "}") ++ pattern ++ String "{" rest_spec)%string
      by (rewrite !append_assoc; reflexivity).
    apply substr_app. }
  rewrite Hpat.
  assert (Hfound : StdString.find_from pattern name (StdString.size df)
                   = (StdString.size df + StdString.size value)%N).
  { unfold name. rewrite find_from_app, Hsep. unfold StdString.size. lia. }
  rewrite Hfound. rewrite is_npos by (rewrite npos_value; lia).
  rewrite (minus_small (StdString.size df + StdString.size value) (StdString.size df))
    by lia.
  replace (StdString.size df + StdString.size value - StdString.size df)%N
    with (StdString.size value) by lia.
  (* the type and the value of the variable *)
  assert (Htype : StdString.substr spec (StdString.plus (StdString.size ds) 1)
                    (StdString.minus
                       (StdString.minus (StdString.size ds + 1 + StdString.size type)
                          (StdString.size ds)) 1)
                  = Some type).
  { rewrite plus_small by lia. rewrite minus_minus_1 by lia.
    replace (StdString.size ds + 1 + StdString.size type - StdString.size ds - 1)%N
      with (StdString.size type) by lia.
    replace (StdString.size ds + 1)%N with (StdString.size (ds ++ "{"))
      by (rewrite size_app; reflexivity).
    unfold spec.
    replace (ds ++ "{" ++ type ++ "}" ++ pattern ++ String "{" rest_spec)%string
      with ((ds ++ "{") ++ type ++ "}" ++ pattern ++ String "{" rest_spec)%string
      by (rewrite append_assoc; reflexivity).
    apply substr_app. }
  rewrite Htype.
  assert (Hvalue : StdString.substr name (StdString.size df) (StdString.size value)
                   = Some value).
  { unfold name. apply substr_app. }
  rewrite Hvalue.
  destruct (CsvParameters.assign_variable a f (strToUpper type) value pos)
    as [[[a' f'] pos']|e]; [|reflexivity].
  rewrite (plus_small (StdString.size df) (StdString.size value)) by lia.
  rewrite plus_small by lia.
  replace (StdString.size df + StdString.size value + StdString.size pattern)%N
    with (StdString.size (df ++ value ++ pattern)) by (rewrite !size_app; lia).
  replace (StdString.size ds + 1 + StdString.size type + 1 + StdString.size pattern)%N
    with (StdString.size (ds ++ "{" ++ type ++ "}" ++ pattern))
    by (rewrite !size_app; unfold StdString.size; cbn [String.length]; lia).
  reflexivity.
Qed.

(** The iteration on the last variable. *)
Lemma parseFileName_loop_last (fuel : nat) (ds type trailing df value : string)
    (a : CsvParameters.appending) (f : CsvParameters.full) (pos : CsvParameters.position) :
  let spec := (ds ++ "{" ++ type ++ "}" ++ trailing)%string in
  let name := (df ++ value)%string in
  (StdString.size spec < StdString.npos)%N ->
  (StdString.size name < StdString.npos)%N ->
  braceless type -> braceless trailing ->
  CsvParameters.parseFileName_loop (S fuel) name spec (StdString.size df) (StdString.size ds)
    a f pos
  = match CsvParameters.assign_variable a f (strToUpper type) value pos with
    | Throw e => Some (Failed (IOException e))
    | Ok (_, f, pos) => Some (Done (f, pos))
    end.
Proof.
  intros spec name Hspec Hname [Ht1 Ht2] [Hr1 Hr2].
  assert (Hsize : StdString.size spec
                  = (StdString.size ds + 1 + StdString.size type + 1
                     + StdString.size trailing)%N).
  { unfold spec. repeat rewrite size_app. repeat rewrite size_braces.
    unfold StdString.size. cbn [String.length]. lia. }
  assert (Hnsize : StdString.size name = (StdString.size df + StdString.size value)%N).
  { unfold name. rewrite !size_app. lia. }
  rewrite npos_value in Hspec, Hname.
  assert (Hstart : StdString.find_from "}" spec (StdString.size ds)
                   = (StdString.size ds + 1 + StdString.size type)%N).
  { unfold spec. rewrite find_from_app.
    change ("{" ++ type ++ "}" ++ trailing)%string
      with (String "{" (type ++ String "}" trailing)).
    rewrite find_char_other by reflexivity.
    rewrite (find_char_app "}" type _ Ht2), find_char_head. cbn [option_map].
    unfold StdString.size. lia. }
  assert (Hend : StdString.find_from "{" spec (StdString.plus (StdString.size ds) 1)
                 = StdString.npos).
  { rewrite plus_small by lia.
    replace (StdString.size ds + 1)%N with (StdString.size (ds ++ "{"))
      by (rewrite size_app; reflexivity).
    unfold spec.
    replace (ds ++ "{" ++ type ++ "}" ++ trailing)%string
      with ((ds ++ "{") ++ type ++ String "}" trailing)%string
      by (rewrite append_assoc; reflexivity).
    rewrite find_from_app, (find_char_app "{" type _ Ht1).
    rewrite find_char_other by reflexivity. rewrite Hr1. reflexivity. }
  cbn [CsvParameters.parseFileName_loop]. rewrite Hstart, Hend.
  rewrite is_npos by (rewrite npos_value; lia). rewrite N.eqb_refl. cbn [negb].
  assert (Htype : StdString.substr spec (StdString.plus (StdString.size ds) 1)
                    (StdString.minus
                       (StdString.minus (StdString.size ds + 1 + StdString.size type)
                          (StdString.size ds)) 1)
                  = Some type).
  { rewrite plus_small by lia. rewrite minus_minus_1 by lia.
    replace (StdString.size ds + 1 + StdString.size type - StdString.size ds - 1)%N
      with (StdString.size type) by lia.
    replace (StdString.size ds + 1)%N with (StdString.size (ds ++ "{"))
      by (rewrite size_app; reflexivity).
    unfold spec.
    replace (ds ++ "{" ++ type ++ "}" ++ trailing)%string
      with ((ds ++ "{") ++ type ++ "}" ++ trailing)%string
      by (rewrite append_assoc; reflexivity).
    apply substr_app. }
  rewrite Htype.
  assert (Hvalue : StdString.substr name (StdString.size df) StdString.npos = Some value).
  { unfold name. apply substr_rest. rewrite npos_value. lia. }
  rewrite Hvalue.
  destruct (CsvParameters.assign_variable a f (strToUpper type) value pos)
    as [[[a' f'] pos']|e]; reflexivity.
Qed.

Lemma spec_tail_brace (vars : list (string * string * string)) (last_type trailing : string) :
  exists rest, spec_tail vars last_type trailing = String "{" rest.
Proof. destruct vars as [|[[type value] pattern] vars]; cbn; eauto. Qed.

Lemma spec_tail_length (vars : list (string * string * string)) (last_type trailing : string) :
  List.length vars < String.length (spec_tail vars last_type trailing).
Proof.
  induction vars as [|[[type value] pattern] vars IH]; cbn [spec_tail List.length].
  - cbn. lia.
  - rewrite !length_append. cbn [String.length]. lia.
Qed.

Lemma parseFileName_loop_variables (last_type last_value trailing : string)
    (vars : list (string * string * string)) :
  forall (fuel : nat) (ds df : string) (a : CsvParameters.appending)
         (f : CsvParameters.full) (pos : CsvParameters.position),
    List.length vars < fuel ->
    (StdString.size (ds ++ spec_tail vars last_type trailing) < StdString.npos)%N ->
    (StdString.size (df ++ name_tail vars last_value) < StdString.npos)%N ->
    Forall (fun x => braceless (fst (fst x)) /\ braceless (snd x)) vars ->
    braceless last_type -> braceless trailing ->
    separated vars last_value ->
    CsvParameters.parseFileName_loop fuel (df ++ name_tail vars last_value)
      (ds ++ spec_tail vars last_type trailing) (StdString.size df) (StdString.size ds)
      a f pos
    = Some (lift (assign_all a f pos
                    (map (fun x => (fst (fst x), snd (fst x))) vars
                     ++ [(last_type, last_value)]))).
Proof.
  induction vars as [|[[type value] pattern] vars IH];
    intros fuel ds df a f pos Hfuel Hspec Hname Hvars Hlast Htrail Hsep.
  - destruct fuel as [|fuel]; [cbn in Hfuel; lia|].
    cbn [spec_tail name_tail map app assign_all].
    rewrite parseFileName_loop_last by assumption.
    destruct (CsvParameters.assign_variable a f (strToUpper last_type) last_value pos)
      as [[[a' f'] pos']|e]; reflexivity.
  - destruct fuel as [|fuel]; [cbn in Hfuel; lia|].
    cbn [List.length] in Hfuel.
    inversion Hvars as [|x l [Htype Hpat] Hvars' Heq]; subst x l.
    cbn [fst snd] in Htype, Hpat. destruct Hsep as [Hfind Hsep].
    cbn [spec_tail name_tail map app assign_all fst snd] in Hspec, Hname |- *.
    destruct (spec_tail_brace vars last_type trailing) as [rest Hrest].
    pose proof (IH fuel (ds ++ "{" ++ type ++ "}" ++ pattern)%string
                  (df ++ value ++ pattern)%string) as IH'.
    rewrite Hrest in Hspec |- *.
    rewrite parseFileName_loop_next by assumption.
    destruct (CsvParameters.assign_variable a f (strToUpper type) value pos)
      as [[[a' f'] pos']|e]; [|reflexivity].
    rewrite <- Hrest in Hspec |- *.
    replace (ds ++ "{" ++ type ++ "}" ++ pattern ++ spec_tail vars last_type trailing)%string
      with ((ds ++ "{" ++ type ++ "}" ++ pattern) ++ spec_tail vars last_type trailing)%string
      in Hspec |- * by (rewrite !append_assoc; reflexivity).
    replace (df ++ value ++ pattern ++ name_tail vars last_value)%string
      with ((df ++ value ++ pattern) ++ name_tail vars last_value)%string
      in Hname |- * by (rewrite !append_assoc; reflexivity).
    apply IH'; try assumption. lia.
Qed.

Lemma parseFileName_start_cases (filename : string) (c : ascii) (rest : string) :
  CsvParameters.parseFileName_start filename (String c rest)
  = if Ascii.eqb c "{" then Done (0, 0)%N
    else
      let start_var := StdString.find_from "{" (String c rest) 0 in
      if (start_var =? StdString.npos)%N then Failed (IOException InvalidFormatException)
      else
        match StdString.substr (String c rest) 0 start_var,
              StdString.substr filename 0 start_var with
        | Some pattern, Some found =>
            if negb (String.eqb found pattern)
            then Failed (IOException InvalidFormatException)
            else Done (start_var, start_var)
        | _, _ => Failed out_of_range
        end.
Proof.
  unfold CsvParameters.parseFileName_start.
  destruct c as [[] [] [] [] [] [] [] []]; reflexivity.
Qed.

Lemma parseFileName_start_prefix (prefix rest_spec rest_name : string) :
  StdString.find "{" prefix = None ->
  (StdString.size (prefix ++ String "{" rest_spec) < StdString.npos)%N ->
  CsvParameters.parseFileName_start (prefix ++ rest_name) (prefix ++ String "{" rest_spec)
  = Done (StdString.size prefix, StdString.size prefix).
Proof.
  intros Hprefix Hsize. destruct prefix as [|c prefix]; [reflexivity|].
  cbn [append]. rewrite parseFileName_start_cases.
  assert (Hc : Ascii.eqb c "{" = false).
  { cbn [StdString.find StdString.starts_with] in Hprefix.
    rewrite Ascii.eqb_sym. destruct (Ascii.eqb "{" c); [discriminate Hprefix | reflexivity]. }
  rewrite Hc. cbv zeta.
  change (String c (prefix ++ String "{" rest_spec))
    with (EmptyString ++ (String c prefix ++ String "{" rest_spec))%string.
  change 0%N with (StdString.size EmptyString).
  rewrite find_from_app, (find_char_app "{" (String c prefix) _ Hprefix), find_char_head.
  cbn [option_map]. rewrite Nat.add_0_r.
  change (StdString.size EmptyString + N.of_nat (String.length (String c prefix)))%N
    with (StdString.size (String c prefix)).
  rewrite is_npos.
  2:{ cbn [append] in Hsize. change (String c (prefix ++ String "{" rest_spec))
        with (String c prefix ++ String "{" rest_spec)%string in Hsize.
      rewrite size_app in Hsize. lia. }
  rewrite substr_app.
  change (String c (prefix ++ rest_name))
    with (EmptyString ++ String c prefix ++ rest_name)%string.
  rewrite substr_app, String.eqb_refl. reflexivity.
Qed.

End FileName.

(** X22.  A name of a file that is made of a prefix and of values with
    constant patterns between them is read back by [parseFileName] under
    the specification made of the same prefix, of the types of the
    variables within braces and of the same patterns: the variables are
    assigned their values, in this order.  No pattern may occur before the
    end of the value that it follows; the last variable gets all the rest
    of the name, and what the specification holds after it is not looked
    at. *)
Theorem parseFileName_reads_back_the_values `{E : Externals} `{L : Library} :
  forall (f : CsvParameters.full) (pos : CsvParameters.position)
         (filename prefix last_type last_value trailing : string)
         (vars : list (string * string * string)),
    let filename_spec := (prefix ++ spec_tail vars last_type trailing)%string in
    removeExtension (getFilename filename) = (prefix ++ name_tail vars last_value)%string ->
    (StdString.size filename_spec < StdString.npos)%N ->
    (StdString.size (prefix ++ name_tail vars last_value) < StdString.npos)%N ->
    StdString.find "{" prefix = None ->
    Forall (fun x => braceless (fst (fst x)) /\ braceless (snd x)) vars ->
    braceless last_type -> braceless trailing ->
    separated vars last_value ->
    CsvParameters.parseFileName f filename filename_spec pos
    = Some (lift (assign_all (CsvParameters.start_appending f) f pos
                    (map (fun x => (fst (fst x), snd (fst x))) vars
                     ++ [(last_type, last_value)]))).
Proof.
  intros f pos filename prefix last_type last_value trailing vars filename_spec
         Hname Hspec Hsize Hprefix Hvars Hlast Htrail Hsep.
  unfold CsvParameters.parseFileName. rewrite Hname. unfold filename_spec in *.
  destruct (spec_tail_brace vars last_type trailing) as [rest Hrest].
  rewrite Hrest at 1. rewrite Hrest in Hspec.
  rewrite parseFileName_start_prefix by assumption.
  rewrite <- Hrest in Hspec.
  apply parseFileName_loop_variables; try assumption.
  rewrite length_append. pose proof (spec_tail_length vars last_type trailing). lia.
Qed.

Lemma metadata_of_a_precipitation_file :
  exists f',
    @CsvParameters.parseFileName Examples.externals Examples.library Examples.anonymous
      "data/H0118_Generoso-Calmasino_-_Precipitation.csv" "{ID}_{NAME}-{SKIP}_-_{PARAM}"
      Examples.nowhere
    = Some (Done (f', Examples.nowhere))
    /\ CsvParameters.id (CsvParameters.core f') = "H0118"
    /\ CsvParameters.name f' = "Generoso"
    /\ CsvParameters.single_field f' = "PSUM".
Proof.
  eexists. split.
  - etransitivity.
    + apply (@parseFileName_reads_back_the_values Examples.externals Examples.library
               Examples.anonymous Examples.nowhere
               "data/H0118_Generoso-Calmasino_-_Precipitation.csv" EmptyString
               "PARAM" "Precipitation" EmptyString
               [("ID", "H0118", "_"); ("NAME", "Generoso", "-"); ("SKIP", "Calmasino", "_-_")]).
      * reflexivity.
      * reflexivity.
      * reflexivity.
      * reflexivity.
      * repeat constructor.
      * split; reflexivity.
      * split; reflexivity.
      * repeat split.
    + vm_compute. reflexivity.
  - repeat split.
Defined.

Lemma starts_with_length (pat s : string) :
  StdString.starts_with pat s = true -> String.length pat <= String.length s.
Proof.
  revert s. induction pat as [|a pat IH]; intros s H; cbn [String.length]; [lia|].
  destruct s as [|b s]; [discriminate H|]. cbn [StdString.starts_with] in H.
  apply andb_prop in H. destruct H as [_ H]. apply IH in H. cbn [String.length]. lia.
Qed.

Lemma find_length (pat s : string) (i : nat) :
  StdString.find pat s = Some i -> i + String.length pat <= String.length s.
Proof.
  revert i. induction s as [|b s IH]; intros i H.
  - cbn [StdString.find] in H.
    destruct (StdString.starts_with pat EmptyString) eqn:Hs; [|discriminate H].
    injection H as <-. apply starts_with_length in Hs. lia.
  - cbn [StdString.find] in H.
    destruct (StdString.starts_with pat (String b s)) eqn:Hs.
    + injection H as <-. apply starts_with_length in Hs. lia.
    + destruct (StdString.find pat s) as [j|]; [|discriminate H].
      injection H as <-. specialize (IH j eq_refl). cbn [String.length]. lia.
Qed.

Lemma drop_length (n : nat) (s : string) :
  String.length (StdString.drop n s) = String.length s - n.
Proof.
  revert s. induction n as [|n IH]; intros s.
  - destruct s; cbn; lia.
  - destruct s as [|b s]; [reflexivity|]. cbn [StdString.drop String.length]. apply IH.
Qed.

Lemma find_from_found (pat s : string) (pos : N) :
  StdString.find_from pat s pos <> StdString.npos ->
  (pos <= StdString.find_from pat s pos)%N
  /\ (StdString.find_from pat s pos + StdString.size pat <= StdString.size s)%N.
Proof.
  unfold StdString.find_from. destruct (StdString.size s <? pos)%N eqn:Hpos; [congruence|].
  apply N.ltb_ge in Hpos.
  destruct (StdString.find pat (StdString.drop (N.to_nat pos) s)) as [i|] eqn:Hi; [|congruence].
  intros _. apply find_length in Hi. rewrite drop_length in Hi.
  unfold StdString.size in *. lia.
Qed.

Lemma parseFileName_loop_terminates `{E : Externals} `{L : Library}
    (filename filename_spec : string) :
  (StdString.size filename_spec < StdString.npos)%N ->
  forall (fuel : nat) (pos_fn pos_mt : N) (a : CsvParameters.appending)
         (f : CsvParameters.full) (pos : CsvParameters.position),
    (pos_mt < StdString.size filename_spec)%N ->
    N.to_nat (StdString.size filename_spec - pos_mt) <= fuel ->
    CsvParameters.parseFileName_loop fuel filename filename_spec pos_fn pos_mt a f pos
    <> None.
Proof.
  intros Hsize. rewrite npos_value in Hsize.
  induction fuel as [|fuel IH]; intros pos_fn pos_mt a f pos Hmt Hfuel; [lia|].
  cbn [CsvParameters.parseFileName_loop].
  set (start_pattern := StdString.find_from "}" filename_spec pos_mt).
  set (end_pattern := StdString.find_from "{" filename_spec (StdString.plus pos_mt 1)).
  destruct (start_pattern =? StdString.npos)%N.
  { destruct (negb (end_pattern =? StdString.npos)%N); discriminate. }
  match goal with
  | |- (match ?len with Done _ => _ | Failed _ => _ end) <> None =>
      destruct len as [len_var|e]; [|discriminate]
  end.
  destruct (StdString.substr filename_spec _ _); [|discriminate].
  destruct (StdString.substr filename pos_fn len_var); [|discriminate].
  destruct (CsvParameters.assign_variable a f _ _ pos) as [[[a' f'] pos']|e];
    [|discriminate].
  destruct (end_pattern =? StdString.npos)%N eqn:Hend; [discriminate|].
  apply N.eqb_neq in Hend. unfold end_pattern in Hend |- *.
  apply find_from_found in Hend. rewrite (plus_small pos_mt 1) in Hend |- * by lia.
  change (StdString.size "{") with 1%N in Hend.
  apply IH; lia.
Qed.

(** X23.  The loop of [parseFileName] over the variables ends, whatever the
    specification and the name of the file are: one iteration more than the
    specification has characters is enough. *)
Theorem parseFileName_terminates `{E : Externals} `{L : Library} :
  forall (f : CsvParameters.full) (filename filename_spec : string)
         (pos : CsvParameters.position),
    (StdString.size filename_spec < StdString.npos)%N ->
    CsvParameters.parseFileName f filename filename_spec pos <> None.
Proof.
  intros f filename filename_spec pos Hsize. unfold CsvParameters.parseFileName.
  destruct (CsvParameters.parseFileName_start _ filename_spec) as [[pos_fn pos_mt]|e] eqn:Hstart;
    [|discriminate].
  apply parseFileName_loop_terminates; [exact Hsize| |].
  - destruct filename_spec as [|c rest]; [discriminate Hstart|].
    rewrite parseFileName_start_cases in Hstart.
    destruct (Ascii.eqb c "{").
    + injection Hstart as <- <-. rewrite size_braces. lia.
    + cbv zeta in Hstart.
      destruct (StdString.find_from "{" (String c rest) 0 =? StdString.npos)%N eqn:Hvar;
        [discriminate Hstart|].
      apply N.eqb_neq, find_from_found in Hvar.
      change (StdString.size "{") with 1%N in Hvar.
      destruct (StdString.substr (String c rest) 0 _); [|discriminate Hstart].
      destruct (StdString.substr _ 0 _); [|discriminate Hstart].
      destruct (negb _); [discriminate Hstart|]. injection Hstart as <- <-. lia.
  - unfold StdString.size. lia.
Qed.

Lemma specification_with_open_braces :
  @CsvParameters.parseFileName Examples.externals Examples.library Examples.anonymous
    "data/H0118.csv" "{ID}{{{" Examples.nowhere
  <> None.
Proof.
  apply (@parseFileName_terminates Examples.externals Examples.library Examples.anonymous
           "data/H0118.csv" "{ID}{{{" Examples.nowhere).
  reflexivity.
Defined.

Lemma substring_prefix (prefix s : string) :
  substring 0 (Nat.min (String.length prefix) (String.length s)) s = prefix ->
  StdString.starts_with prefix s = true.
Proof.
  revert s. induction prefix as [|a prefix IH]; intros s H; [reflexivity|].
  destruct s as [|b s]; [discriminate H|].
  cbn [String.length Nat.min substring] in H. injection H as Hb H. subst b.
  cbn [StdString.starts_with]. rewrite Ascii.eqb_refl. apply IH. exact H.
Qed.

Section OtherNames.
Context `{E : Externals} `{L : Library}.

(** The constant pattern after a variable does not occur in the rest of
    the name of the file. *)
Lemma parseFileName_loop_missing (fuel : nat) (ds type pattern rest_spec df rest_name : string)
    (a : CsvParameters.appending) (f : CsvParameters.full) (pos : CsvParameters.position) :
  let spec := (ds ++ "{" ++ type ++ "}" ++ pattern ++ String "{" rest_spec)%string in
  let name := (df ++ rest_name)%string in
  (StdString.size spec < StdString.npos)%N ->
  braceless type -> braceless pattern ->
  StdString.find pattern rest_name = None ->
  CsvParameters.parseFileName_loop (S fuel) name spec (StdString.size df) (StdString.size ds)
    a f pos
  = Some (Failed (IOException InvalidFormatException)).
Proof.
  intros spec name Hspec [Ht1 Ht2] [Hp1 Hp2] Hmiss.
  assert (Hsize : StdString.size spec
                  = (StdString.size ds + 1 + StdString.size type + 1 + StdString.size pattern
                     + 1 + StdString.size rest_spec)%N).
  { unfold spec. repeat rewrite size_app. repeat rewrite size_braces.
    unfold StdString.size. cbn [String.length]. lia. }
  rewrite npos_value in Hspec.
  assert (Hstart : StdString.find_from "}" spec (StdString.size ds)
                   = (StdString.size ds + 1 + StdString.size type)%N).
  { unfold spec. rewrite find_from_app.
    change ("{" ++ type ++ "}" ++ pattern ++ String "{" rest_spec)%string
      with (String "{" (type ++ String "}" (pattern ++ String "{" rest_spec))).
    rewrite find_char_other by reflexivity.
    rewrite (find_char_app "}" type _ Ht2), find_char_head. cbn [option_map].
    unfold StdString.size. lia. }
  assert (Hend : StdString.find_from "{" spec (StdString.plus (StdString.size ds) 1)
                 = (StdString.size ds + 1 + StdString.size type + 1
                    + StdString.size pattern)%N).
  { rewrite plus_small by lia.
    replace (StdString.size ds + 1)%N with (StdString.size (ds ++ "{"))
      by (rewrite size_app; reflexivity).
    unfold spec.
    replace (ds ++ "{" ++ type ++ "}" ++ pattern ++ String "{" rest_spec)%string
      with ((ds ++ "{") ++ type ++ String "}" (pattern ++ String "{" rest_spec))%string
      by (rewrite append_assoc; reflexivity).
    rewrite find_from_app, (find_char_app "{" type _ Ht1).
    rewrite find_char_other by reflexivity.
    rewrite (find_char_app "{" pattern _ Hp1), find_char_head. cbn [option_map].
    rewrite size_app. unfold StdString.size. cbn [String.length]. lia. }
  cbn [CsvParameters.parseFileName_loop]. rewrite Hstart, Hend.
  rewrite is_npos by (rewrite npos_value; lia).
  rewrite is_npos by (rewrite npos_value; lia). cbn [negb].
  rewrite minus_minus_1 by lia.
  replace (StdString.size ds + 1 + StdString.size type + 1 + StdString.size pattern
           - (StdString.size ds + 1 + StdString.size type) - 1)%N
    with (StdString.size pattern) by lia.
  assert (Hpat : StdString.substr spec
                   (StdString.plus (StdString.size ds + 1 + StdString.size type) 1)
                   (StdString.size pattern) = Some pattern).
  { rewrite plus_small by lia.
    replace (StdString.size ds + 1 + StdString.size type + 1)%N
      with (StdString.size (ds ++ "{" ++ type ++ "}"))
      by (rewrite !size_app; unfold StdString.size; cbn [String.length]; lia).
    unfold spec.
    replace (ds ++ "{" ++ type ++ "}" ++ pattern ++ String "{" rest_spec)%string
      with ((ds ++ "{" ++ type ++ "}") ++ pattern ++ String "{" rest_spec)%string
      by (rewrite !append_assoc; reflexivity).
    apply substr_app. }
  rewrite Hpat. unfold name. rewrite find_from_app, Hmiss, N.eqb_refl. reflexivity.
Qed.

End OtherNames.

(** X24.  [parseFileName] raises [InvalidFormatException] when the
    specification has no variable, when the name of the file does not start
    with the constant pattern that the specification starts with, and when
    the constant pattern after the first variable does not occur in the
    name. *)
Theorem parseFileName_refuses_other_names `{E : Externals} `{L : Library} :
  forall (f : CsvParameters.full) (pos : CsvParameters.position)
         (filename filename_spec : string),
    let name := removeExtension (getFilename filename) in
    (StdString.find "{" filename_spec = None ->
     CsvParameters.parseFileName f filename filename_spec pos
     = Some (Failed (IOException InvalidFormatException)))
    /\ (forall prefix rest_spec : string,
          filename_spec = (prefix ++ String "{" rest_spec)%string ->
          StdString.find "{" prefix = None ->
          (StdString.size filename_spec < StdString.npos)%N ->
          StdString.starts_with prefix name = false ->
          CsvParameters.parseFileName f filename filename_spec pos
          = Some (Failed (IOException InvalidFormatException)))
    /\ (forall prefix type pattern rest_spec rest_name : string,
          filename_spec
          = (prefix ++ "{" ++ type ++ "}" ++ pattern ++ String "{" rest_spec)%string ->
          name = (prefix ++ rest_name)%string ->
          StdString.find "{" prefix = None ->
          (StdString.size filename_spec < StdString.npos)%N ->
          braceless type -> braceless pattern ->
          StdString.find pattern rest_name = None ->
          CsvParameters.parseFileName f filename filename_spec pos
          = Some (Failed (IOException InvalidFormatException))).
Proof.
  intros f pos filename filename_spec name. split; [|split].
  - intros Hnone. unfold CsvParameters.parseFileName.
    destruct filename_spec as [|c rest]; [reflexivity|].
    rewrite parseFileName_start_cases.
    assert (Hc : Ascii.eqb c "{" = false).
    { cbn [StdString.find StdString.starts_with] in Hnone.
      rewrite Ascii.eqb_sym. destruct (Ascii.eqb "{" c); [discriminate Hnone | reflexivity]. }
    rewrite Hc. cbv zeta.
    change (String c rest) with (EmptyString ++ String c rest)%string at 1.
    change 0%N with (StdString.size EmptyString).
    rewrite find_from_app, Hnone, N.eqb_refl. reflexivity.
  - intros prefix rest_spec Hspec Hprefix Hsize Hstart. unfold CsvParameters.parseFileName.
    fold name. subst filename_spec.
    destruct prefix as [|c prefix]; [discriminate Hstart|].
    cbn [append]. rewrite parseFileName_start_cases.
    assert (Hc : Ascii.eqb c "{" = false).
    { cbn [StdString.find StdString.starts_with] in Hprefix.
      rewrite Ascii.eqb_sym. destruct (Ascii.eqb "{" c); [discriminate Hprefix | reflexivity]. }
    rewrite Hc. cbv zeta.
    change (String c (prefix ++ String "{" rest_spec))
      with (EmptyString ++ (String c prefix ++ String "{" rest_spec))%string.
    change 0%N with (StdString.size EmptyString).
    rewrite find_from_app, (find_char_app "{" (String c prefix) _ Hprefix), find_char_head.
    cbn [option_map]. rewrite Nat.add_0_r.
    change (StdString.size EmptyString + N.of_nat (String.length (String c prefix)))%N
      with (StdString.size (String c prefix)).
    rewrite is_npos.
    2:{ cbn [append] in Hsize. change (String c (prefix ++ String "{" rest_spec))
          with (String c prefix ++ String "{" rest_spec)%string in Hsize.
        rewrite size_app in Hsize. lia. }
    rewrite substr_app. unfold StdString.substr.
    replace (StdString.size name <? StdString.size EmptyString)%N with false
      by (symmetry; apply N.ltb_ge; unfold StdString.size; cbn [String.length]; lia).
    replace (N.to_nat (N.min (StdString.size (String c prefix))
                         (StdString.size name - StdString.size EmptyString)))
      with (Nat.min (String.length (String c prefix)) (String.length name))
      by (unfold StdString.size; cbn [String.length]; lia).
    change (N.to_nat (StdString.size EmptyString)) with 0.
    destruct (String.eqb (substring 0 _ name) (String c prefix)) eqn:Heq; [|reflexivity].
    apply String.eqb_eq, substring_prefix in Heq. congruence.
  - intros prefix type pattern rest_spec rest_name Hspec Hname Hprefix Hsize
           Htype Hpat Hmiss.
    unfold CsvParameters.parseFileName. fold name. rewrite Hname. subst filename_spec.
    change ("{" ++ type ++ "}" ++ pattern ++ String "{" rest_spec)%string
      with (String "{" (type ++ "}" ++ pattern ++ String "{" rest_spec))%string.
    rewrite parseFileName_start_prefix by assumption.
    apply parseFileName_loop_missing; assumption.
Qed.

Lemma names_that_do_not_fit :
  @CsvParameters.parseFileName Examples.externals Examples.library Examples.anonymous
    "data/H0118.csv" "station" Examples.nowhere
  = Some (Failed (IOException InvalidFormatException))
  /\ @CsvParameters.parseFileName Examples.externals Examples.library Examples.anonymous
       "data/H0118.csv" "station_{ID}" Examples.nowhere
     = Some (Failed (IOException InvalidFormatException))
  /\ @CsvParameters.parseFileName Examples.externals Examples.library Examples.anonymous
       "data/H0118-Generoso.csv" "{ID}_{NAME}" Examples.nowhere
     = Some (Failed (IOException InvalidFormatException)).
Proof.
  split; [|split].
  - apply (proj1 (@parseFileName_refuses_other_names Examples.externals Examples.library
                    Examples.anonymous Examples.nowhere "data/H0118.csv" "station")).
    reflexivity.
  - apply (proj1 (proj2 (@parseFileName_refuses_other_names Examples.externals
                           Examples.library Examples.anonymous Examples.nowhere
                           "data/H0118.csv" "station_{ID}")) "station_" "ID}");
      reflexivity.
  - apply (proj2 (proj2 (@parseFileName_refuses_other_names Examples.externals
                           Examples.library Examples.anonymous Examples.nowhere
                           "data/H0118-Generoso.csv" "{ID}_{NAME}"))
             EmptyString "ID" "_" "NAME}" "H0118-Generoso");
      try reflexivity; split; reflexivity.
Defined.

(** ** A file without data *)




(** ** Lines that give no record *)

Section Records.
Context `{E : Externals}.
Variables (io : CsvIO.t) (template_md : MeteoData.t) (filterID : string)
          (dateStart dateEnd : Date).

Lemma resolve_line_counter (p : CsvParameters.t) (l1 l2 n : nat) (line : string) :
  let r1 := CsvIO.resolve_line io filterID (CsvIO.mk_cursor p l1 n) line in
  let r2 := CsvIO.resolve_line io filterID (CsvIO.mk_cursor p l2 n) line in
  fst r1 = fst r2
  /\ CsvIO.params (snd r1) = CsvIO.params (snd r2)
  /\ CsvIO.nr_of_data_fields (snd r1) = CsvIO.nr_of_data_fields (snd r2).
Proof.
  unfold CsvIO.resolve_line. cbn [CsvIO.params CsvIO.linenr CsvIO.nr_of_data_fields].
  destruct (CsvParameters.is_empty _); [cbn; auto|].
  destruct (CsvIO.is_header_repeat _ _); [cbn; auto|].
  destruct (CsvIO.filter_on_ID _ _ _); [cbn; auto|].
  destruct (negb _).
  - destruct (CsvIO.silent_errors io); cbn; auto.
  - destruct (CsvIO.getDate _ _ _) as [[dt|e] p']; cbn; auto.
    destruct (isUndef dt && CsvIO.silent_errors io); cbn; auto.
Qed.

Lemma read_line_same_records (s1 s2 : CsvIO.loop_state) (fp1 fp2 : option nat)
    (line : string) :
  same_records s1 s2 ->
  let r1 := CsvIO.read_line io template_md filterID dateStart dateEnd s1 fp1 line in
  let r2 := CsvIO.read_line io template_md filterID dateStart dateEnd s2 fp2 line in
  fst r1 = fst r2 /\ same_records (snd r1) (snd r2).
Proof.
  destruct s1 as [[p1 l1 n1] i1 v1], s2 as [[p2 l2 n2] i2 v2].
  unfold same_records. cbn [CsvIO.cur CsvIO.params CsvIO.nr_of_data_fields CsvIO.vecMeteo].
  intros (-> & -> & ->). unfold CsvIO.read_line. cbn [CsvIO.cur CsvIO.indexer CsvIO.vecMeteo].
  destruct (resolve_line_counter p2 l1 l2 n2 line) as (Hr & Hp & Hn).
  destruct (CsvIO.resolve_line io filterID (CsvIO.mk_cursor p2 l1 n2) line) as [r1 c1].
  destruct (CsvIO.resolve_line io filterID (CsvIO.mk_cursor p2 l2 n2) line) as [r2 c2].
  cbn [fst snd] in Hr, Hp, Hn. subst r2.
  destruct r1 as [a|tmp_vec dt]; [cbn; auto|].
  rewrite Hp.
  destruct (CsvIO.range_check _ dt dateStart dateEnd); [cbn; auto|].
  destruct (CsvIO.read_fields io (CsvIO.params c2) 0 tmp_vec _ true) as [[md ok]|e];
    cbn; auto.
Qed.

Lemma read_lines_same_records (rest : list string) :
  forall (s1 s2 : CsvIO.loop_state) (skip pos1 pos2 : nat),
    same_records s1 s2 ->
    let r1 := CsvIO.read_lines io template_md filterID dateStart dateEnd s1 skip pos1 rest in
    let r2 := CsvIO.read_lines io template_md filterID dateStart dateEnd s2 skip pos2 rest in
    fst r1 = fst r2 /\ same_records (snd r1) (snd r2).
Proof.
  induction rest as [|line rest IH]; intros s1 s2 skip pos1 pos2 Hs.
  - cbn. auto.
  - cbn [CsvIO.read_lines]. destruct skip as [|k]; [|apply IH; exact Hs].
    pose proof (read_line_same_records s1 s2
                  (match rest with [] => None | _ => Some (S pos1) end)
                  (match rest with [] => None | _ => Some (S pos2) end) line Hs) as [Ha Hs'].
    destruct (CsvIO.read_line io template_md filterID dateStart dateEnd s1 _ line) as [a1 s1'].
    destruct (CsvIO.read_line io template_md filterID dateStart dateEnd s2 _ line) as [a2 s2'].
    cbn [fst snd] in Ha, Hs'. subst a2.
    destruct a1; try (apply IH; exact Hs'); cbn; auto.
Qed.

Lemma parseDate_strings_keep_the_object (p : CsvParameters.t) (vecFields : list string) :
  CsvParameters.dt_as_components p = false ->
  snd (CsvParameters.parseDate p vecFields) = p.
Proof.
  intros H. unfold CsvParameters.parseDate. rewrite H.
  destruct (CsvParameters.dt_as_decimal p); reflexivity.
Qed.

Lemma passed_over_cursor (c : CsvIO.cursor) (line : string) :
  CsvParameters.dt_as_components (CsvIO.params c) = false ->
  CsvIO.nr_of_data_fields c <> 0 ->
  CsvIO.params (snd (CsvIO.resolve_line io filterID c line)) = CsvIO.params c
  /\ CsvIO.nr_of_data_fields (snd (CsvIO.resolve_line io filterID c line))
     = CsvIO.nr_of_data_fields c.
Proof.
  intros Hc Hn. unfold CsvIO.resolve_line.
  cbn [CsvIO.params CsvIO.linenr CsvIO.nr_of_data_fields].
  apply Nat.eqb_neq in Hn. rewrite Hn.
  destruct (CsvParameters.is_empty _); [cbn; auto|].
  destruct (CsvIO.is_header_repeat _ _); [cbn; auto|].
  destruct (CsvIO.filter_on_ID _ _ _); [cbn; auto|].
  destruct (negb _).
  - destruct (CsvIO.silent_errors io); cbn; auto.
  - unfold CsvIO.getDate.
    pose proof (parseDate_strings_keep_the_object (CsvIO.params c)
                  (CsvParameters.tokenize (CsvParameters.csv_delim (CsvIO.params c))
                     (CsvIO.clean_line (CsvIO.params c) line)) Hc) as Hp.
    destruct (CsvParameters.parseDate _ _) as [dt p']. cbn [snd] in Hp. subst p'.
    destruct (isUndef dt && negb (CsvIO.silent_errors io)); [cbn; auto|].
    destruct (isUndef dt && CsvIO.silent_errors io); cbn; auto.
Qed.

End Records.

(** X26.  In the loop of [readCSVFile], on a file whose date and time are
    not components and whose number of fields is known: a line whose date
    and time cannot be read is passed over under the silent-errors policy
    and raises [InvalidFormatException] otherwise, whatever the
    errors-to-nodata policy is; and a line that is passed over leaves no
    trace, the exception, the records and the parameters at the end of the
    loop being those of the file without this line. *)
Theorem lines_passed_over_leave_no_trace `{E : Externals} :
  forall (io : CsvIO.t) (template_md : MeteoData.t) (filterID : string)
         (dateStart dateEnd : Date) (s : CsvIO.loop_state) (line : string),
    let p := CsvIO.params (CsvIO.cur s) in
    let cleaned := CsvIO.clean_line p line in
    let tmp_vec := CsvParameters.tokenize (CsvParameters.csv_delim p) cleaned in
    CsvParameters.dt_as_components p = false ->
    CsvIO.nr_of_data_fields (CsvIO.cur s) <> 0 ->
    (CsvParameters.is_empty cleaned = false ->
     CsvIO.is_header_repeat p cleaned = false ->
     CsvIO.filter_on_ID p filterID tmp_vec = None ->
     List.length tmp_vec = CsvIO.nr_of_data_fields (CsvIO.cur s) ->
     fst (CsvParameters.parseDate p tmp_vec) = Undef ->
     fst (CsvIO.resolve_line io filterID (CsvIO.cur s) line)
     = CsvIO.NoRow (if CsvIO.silent_errors io then CsvIO.Continue
                    else CsvIO.Raise InvalidFormatException))
    /\ (fst (CsvIO.resolve_line io filterID (CsvIO.cur s) line) = CsvIO.NoRow CsvIO.Continue ->
        forall (pos pos' : nat) (rest : list string),
          let with_line := CsvIO.read_lines io template_md filterID dateStart dateEnd
                             s 0 pos (line :: rest) in
          let without := CsvIO.read_lines io template_md filterID dateStart dateEnd
                           s 0 pos' rest in
          fst with_line = fst without
          /\ CsvIO.vecMeteo (snd with_line) = CsvIO.vecMeteo (snd without)
          /\ CsvIO.params (CsvIO.cur (snd with_line))
             = CsvIO.params (CsvIO.cur (snd without))).
Proof.
  intros io template_md filterID dateStart dateEnd s line p cleaned tmp_vec Hc Hn. split.
  - intros Hne Hrep Hid Hlen Hdt. unfold CsvIO.resolve_line.
    cbn [CsvIO.params CsvIO.linenr CsvIO.nr_of_data_fields].
    fold p. fold cleaned. rewrite Hne, Hrep. fold tmp_vec. rewrite Hid.
    apply Nat.eqb_neq in Hn. rewrite Hn.
    rewrite Hlen, Nat.eqb_refl. cbn [negb]. unfold CsvIO.getDate.
    destruct (CsvParameters.parseDate p tmp_vec) as [dt p']. cbn [fst] in Hdt. subst dt.
    cbn [isUndef andb]. destruct (CsvIO.silent_errors io); reflexivity.
  - intros Hr pos pos' rest with_line without. subst with_line without.
    cbn [CsvIO.read_lines]. unfold CsvIO.read_line.
    destruct (passed_over_cursor io filterID (CsvIO.cur s) line Hc Hn) as [Hp Hnr].
    destruct (CsvIO.resolve_line io filterID (CsvIO.cur s) line) as [r c].
    cbn [fst snd] in Hr, Hp, Hnr. subst r.
    destruct (read_lines_same_records io template_md filterID dateStart dateEnd rest
                (CsvIO.mk_loop c (CsvIO.indexer s) (CsvIO.vecMeteo s)) s 0 (S pos) pos')
      as (He & Hq & _ & Hv).
    + repeat split; assumption.
    + auto.
Qed.

Lemma unreadable_date_is_passed_over :
  fst (@CsvIO.resolve_line Examples.externals Examples.silent_plugin "STA"
         (CsvIO.cur (Examples.after_header (Examples.julian_layout ["TIMESTAMP"; "TA"])))
         "yesterday,20")
  = CsvIO.NoRow CsvIO.Continue
  /\ CsvIO.vecMeteo
       (snd (@CsvIO.read_lines Examples.externals Examples.silent_plugin
               (@CsvIO.createTemplate Examples.externals
                  (Examples.julian_layout ["TIMESTAMP"; "TA"]))
               "STA" Examples.year_1900 Examples.year_2100
               (Examples.after_header (Examples.julian_layout ["TIMESTAMP"; "TA"]))
               0 1 ["yesterday,20"; "59000,1.5"; EmptyString]))
     = CsvIO.vecMeteo
         (snd (@CsvIO.read_lines Examples.externals Examples.silent_plugin
                 (@CsvIO.createTemplate Examples.externals
                    (Examples.julian_layout ["TIMESTAMP"; "TA"]))
                 "STA" Examples.year_1900 Examples.year_2100
                 (Examples.after_header (Examples.julian_layout ["TIMESTAMP"; "TA"]))
                 0 2 ["59000,1.5"; EmptyString])).
Proof.
  destruct (@lines_passed_over_leave_no_trace Examples.externals Examples.silent_plugin
              (@CsvIO.createTemplate Examples.externals
                 (Examples.julian_layout ["TIMESTAMP"; "TA"]))
              "STA" Examples.year_1900 Examples.year_2100
              (Examples.after_header (Examples.julian_layout ["TIMESTAMP"; "TA"]))
              "yesterday,20" eq_refl ltac:(discriminate)) as [Hdate Hrecords].
  assert (Hpassed := Hdate eq_refl eq_refl eq_refl eq_refl eq_refl).
  split; [exact Hpassed|].
  exact (proj1 (proj2 (Hrecords Hpassed 1 2 ["59000,1.5"; EmptyString]))).
Defined.

(** ** The files of several stations *)

Section Policies.
Context `{E : Externals}.
Variables io1 io2 : CsvIO.t.
Hypothesis policies : same_policies io1 io2.

Lemma read_fields_policies (p : CsvParameters.t) (tokens : list string) :
  forall (ii : nat) (md : MeteoData.t) (no_errors : bool),
    CsvIO.read_fields io1 p ii tokens md no_errors
    = CsvIO.read_fields io2 p ii tokens md no_errors.
Proof.
  destruct policies as [Hs He].
  induction tokens as [|tok tokens IH]; intros ii md no_errors; [reflexivity|].
  cbn [CsvIO.read_fields]. rewrite Hs, He.
  destruct (CsvIO.skipped p ii); [apply IH|].
  destruct (CsvIO.is_nodata_token _ tok); [apply IH|].
  destruct (_ || _); [apply IH|].
  destruct (convertString_double tok); [apply IH|].
  destruct (CsvIO.silent_errors io2); [apply IH|].
  destruct (CsvIO.errors_to_nodata io2); [apply IH | reflexivity].
Qed.

Lemma resolve_line_policies (filterID : string) (c : CsvIO.cursor) (line : string) :
  CsvIO.resolve_line io1 filterID c line = CsvIO.resolve_line io2 filterID c line.
Proof.
  destruct policies as [Hs He]. unfold CsvIO.resolve_line. rewrite Hs. reflexivity.
Qed.

Lemma read_line_policies (template_md : MeteoData.t) (filterID : string)
    (dateStart dateEnd : Date) (s : CsvIO.loop_state) (fpointer : option nat)
    (line : string) :
  CsvIO.read_line io1 template_md filterID dateStart dateEnd s fpointer line
  = CsvIO.read_line io2 template_md filterID dateStart dateEnd s fpointer line.
Proof.
  unfold CsvIO.read_line. rewrite resolve_line_policies.
  destruct (CsvIO.resolve_line io2 filterID (CsvIO.cur s) line) as [[a|tmp_vec dt] c];
    [reflexivity|].
  rewrite read_fields_policies. reflexivity.
Qed.

Lemma read_lines_policies (template_md : MeteoData.t) (filterID : string)
    (dateStart dateEnd : Date) (rest : list string) :
  forall (s : CsvIO.loop_state) (skip pos : nat),
    CsvIO.read_lines io1 template_md filterID dateStart dateEnd s skip pos rest
    = CsvIO.read_lines io2 template_md filterID dateStart dateEnd s skip pos rest.
Proof.
  induction rest as [|line rest IH]; intros s skip pos; [reflexivity|].
  cbn [CsvIO.read_lines]. destruct skip as [|k]; [|apply IH].
  rewrite read_line_policies.
  destruct (CsvIO.read_line io2 template_md filterID dateStart dateEnd s _ line) as [[] s'];
    rewrite ?IH; reflexivity.
Qed.

(** A call of [readCSVFile] looks at the error policies and at the index of
    its own file. *)
Lemma readCSVFile_policies (p : CsvParameters.t) (file : list string)
    (dateStart dateEnd : Date) :
  CsvIO.indexer_of (CsvParameters.file_and_path p) (CsvIO.indexer_map io1)
  = CsvIO.indexer_of (CsvParameters.file_and_path p) (CsvIO.indexer_map io2) ->
  fst (CsvIO.readCSVFile io1 p file dateStart dateEnd)
  = fst (CsvIO.readCSVFile io2 p file dateStart dateEnd).
Proof.
  intros Hidx. unfold CsvIO.readCSVFile.
  destruct (CsvIO.units_mismatch p); [reflexivity|]. rewrite Hidx.
  destruct (CsvIO.start_of p _ dateStart) as [start linenr].
  rewrite read_lines_policies.
  destruct (CsvIO.read_lines io2 _ _ dateStart dateEnd _ 0 start _) as [[e|] s];
    reflexivity.
Qed.

End Policies.

Lemma indexer_of_set_indexer (filename other : string) (idx : FileIndexer.t)
    (m : list (string * FileIndexer.t)) :
  other <> filename ->
  CsvIO.indexer_of other (CsvIO.set_indexer filename idx m) = CsvIO.indexer_of other m.
Proof.
  intros Hne. induction m as [|[f i] m IH]; cbn [CsvIO.set_indexer CsvIO.indexer_of].
  - destruct (String.eqb filename other) eqn:H; [|reflexivity].
    apply String.eqb_eq in H. congruence.
  - destruct (String.eqb f filename) eqn:Hf; cbn [CsvIO.indexer_of].
    + apply String.eqb_eq in Hf. subst f.
      destruct (String.eqb filename other) eqn:H; [|reflexivity].
      apply String.eqb_eq in H. congruence.
    + rewrite IH. reflexivity.
Qed.

(** A call of [readCSVFile] leaves the error policies and the indices of the
    other files as they are. *)
Lemma readCSVFile_other_files `{E : Externals} (io : CsvIO.t) (p : CsvParameters.t)
    (file : list string) (dateStart dateEnd : Date) :
  let io' := snd (CsvIO.readCSVFile io p file dateStart dateEnd) in
  same_policies io io'
  /\ forall other, other <> CsvParameters.file_and_path p ->
       CsvIO.indexer_of other (CsvIO.indexer_map io')
       = CsvIO.indexer_of other (CsvIO.indexer_map io).
Proof.
  unfold CsvIO.readCSVFile, same_policies.
  destruct (CsvIO.units_mismatch p); [cbn; auto|].
  destruct (CsvIO.start_of p _ dateStart) as [start linenr].
  destruct (CsvIO.read_lines io _ _ dateStart dateEnd _ 0 start _) as [[e|] s];
    cbn [snd CsvIO.silent_errors CsvIO.errors_to_nodata CsvIO.indexer_map];
    (split; [auto|]); intros other Hne; apply indexer_of_set_indexer; exact Hne.
Qed.

Lemma readMeteoData_one_by_one `{E : Externals} (files : string -> list string)
    (dateStart dateEnd : Date) (io0 : CsvIO.t) (csvparam : list CsvParameters.t) :
  forall io : CsvIO.t,
    same_policies io io0 ->
    (forall p, In p csvparam ->
       CsvIO.indexer_of (CsvParameters.file_and_path p) (CsvIO.indexer_map io)
       = CsvIO.indexer_of (CsvParameters.file_and_path p) (CsvIO.indexer_map io0)) ->
    NoDup (map CsvParameters.file_and_path csvparam) ->
    fst (fst (fst (CsvIO.readMeteoData io files csvparam dateStart dateEnd))) = None ->
    Forall2 (fun p v =>
               fst (fst (CsvIO.readCSVFile io0 p (files (CsvParameters.file_and_path p))
                           dateStart dateEnd)) = Ok v)
      csvparam
      (snd (fst (fst (CsvIO.readMeteoData io files csvparam dateStart dateEnd)))).
Proof.
  induction csvparam as [|p rest IH]; intros io Hpol Hidx Hdup Hnone.
  - constructor.
  - cbn [CsvIO.readMeteoData] in Hnone |- *.
    pose proof (readCSVFile_policies io io0 Hpol p (files (CsvParameters.file_and_path p))
                  dateStart dateEnd (Hidx p (or_introl eq_refl))) as Hsame.
    pose proof (readCSVFile_other_files io p (files (CsvParameters.file_and_path p))
                  dateStart dateEnd) as [Hpol' Hother].
    destruct (CsvIO.readCSVFile io p (files (CsvParameters.file_and_path p))
                dateStart dateEnd) as [[[v|e] p'] io'].
    2:{ cbn in Hnone. discriminate. }
    cbn [fst snd] in Hsame, Hpol', Hother.
    inversion Hdup as [|x l Hnotin Hdup']; subst x l.
    specialize (IH io').
    destruct (CsvIO.readMeteoData io' files rest dateStart dateEnd)
      as [[[e vecMeteo] rest'] io''].
    cbn [fst snd] in *. constructor.
    + rewrite <- Hsame. reflexivity.
    + apply IH; try assumption.
      * destruct Hpol as [H1 H2], Hpol' as [H3 H4]. split; congruence.
      * intros q Hq. rewrite Hother; [apply Hidx; right; exact Hq|].
        intros Heq. apply Hnotin. rewrite <- Heq. apply in_map. exact Hq.
Qed.

(** X27.  When every station has a file of its own and [readMeteoData] ends
    without an exception, the records of each station are those that
    [readCSVFile] gives for its file alone on the plugin object as it was
    before the call: what the stations read before leave behind are the
    indices of their own files. *)
Theorem readMeteoData_reads_each_file_on_its_own `{E : Externals} :
  forall (io : CsvIO.t) (files : string -> list string) (csvparam : list CsvParameters.t)
         (dateStart dateEnd : Date) (vecMeteo : list (list MeteoData.t))
         (csvparam' : list CsvParameters.t) (io' : CsvIO.t),
    NoDup (map CsvParameters.file_and_path csvparam) ->
    CsvIO.readMeteoData io files csvparam dateStart dateEnd
    = (None, vecMeteo, csvparam', io') ->
    Forall2 (fun p v =>
               fst (fst (CsvIO.readCSVFile io p (files (CsvParameters.file_and_path p))
                           dateStart dateEnd)) = Ok v)
      csvparam vecMeteo.
Proof.
  intros io files csvparam dateStart dateEnd vecMeteo csvparam' io' Hdup Hread.
  pose proof (readMeteoData_one_by_one files dateStart dateEnd io csvparam io
                (conj eq_refl eq_refl) (fun p _ => eq_refl) Hdup) as H.
  rewrite Hread in H. apply H. reflexivity.
Qed.

Lemma valley_and_summit :
  exists vecMeteo csvparam' io',
    @CsvIO.readMeteoData Examples.externals Examples.plugin Examples.two_files
      [Examples.with_file "valley.csv" (Examples.julian_layout ["TIMESTAMP"; "TA"]);
       Examples.with_file "summit.csv" (Examples.julian_layout ["TIMESTAMP"; "TA"])]
      Examples.year_1900 Examples.year_2100
    = (None, vecMeteo, csvparam', io')
    /\ Forall2 (fun p v =>
                  fst (fst (@CsvIO.readCSVFile Examples.externals Examples.plugin p
                              (Examples.two_files (CsvParameters.file_and_path p))
                              Examples.year_1900 Examples.year_2100)) = Ok v)
         [Examples.with_file "valley.csv" (Examples.julian_layout ["TIMESTAMP"; "TA"]);
          Examples.with_file "summit.csv" (Examples.julian_layout ["TIMESTAMP"; "TA"])]
         vecMeteo.
Proof.
  assert (Hr : exists vecMeteo csvparam' io',
             @CsvIO.readMeteoData Examples.externals Examples.plugin Examples.two_files
               [Examples.with_file "valley.csv" (Examples.julian_layout ["TIMESTAMP"; "TA"]);
                Examples.with_file "summit.csv" (Examples.julian_layout ["TIMESTAMP"; "TA"])]
               Examples.year_1900 Examples.year_2100
             = (None, vecMeteo, csvparam', io')) by (vm_compute; eauto).
  destruct Hr as (vecMeteo & csvparam' & io' & Hr).
  exists vecMeteo, csvparam', io'. split; [exact Hr|].
  apply (@readMeteoData_reads_each_file_on_its_own Examples.externals Examples.plugin
           Examples.two_files _ Examples.year_1900 Examples.year_2100 vecMeteo csvparam' io');
    [|exact Hr].
  repeat constructor; cbn; intuition discriminate.
Defined.

(** ** Bounded reads that start after the headers *)

(** X28.  The plugin object holds no index entry for the file, every line
    of the file resolves and gives a row without an error, and the rows are
    in the order that was determined for the file.  Then a bounded read over
    [dateStart, dateEnd] returns the records of exactly the rows whose
    timestamp is neither before [dateStart] nor after [dateEnd], both
    bounds included; the records are in ascending order of time, a file in
    descending order being reversed. *)
Theorem bounded_read_includes_both_bounds `{E : Externals} :
  forall (io : CsvIO.t) (p : CsvParameters.t) (file : list string)
         (dateStart dateEnd : Date) (rows : list (Date * MeteoData.t)),
    CsvIO.units_mismatch p = false ->
    CsvIO.indexer_of (CsvParameters.file_and_path p) (CsvIO.indexer_map io) = [] ->
    CsvIO.all_rows io (CsvIO.createTemplate p)
      (CsvIO.filter_ID_of p (CsvIO.createTemplate p))
      (CsvIO.mk_cursor p (CsvIO.skip_count p) (List.length (CsvParameters.csv_fields p)))
      0 (skipn (CsvIO.skip_count p) file) = Some rows ->
    in_file_order (CsvParameters.asc_order p) (map fst rows) ->
    let out := kept dateStart dateEnd
                 (if CsvParameters.asc_order p then rows else rev rows) in
    fst (fst (CsvIO.readCSVFile io p file dateStart dateEnd)) = Ok out
    /\ StronglySorted earlier_or_same (map MeteoData.date out)
    /\ (forall dt,
           CsvIO.in_range dateStart dateEnd dt = true
           <-> (gmt_julian dateStart <= gmt_julian dt)%Q
               /\ (gmt_julian dt <= gmt_julian dateEnd)%Q).
Proof.
  intros io p file dateStart dateEnd rows Hunits Hidx Hrows Hord out.
  destruct (bounded_read io p file dateStart dateEnd rows Hunits Hidx Hrows Hord)
    as [Hout Hsorted].
  split; [exact Hout|]. split; [exact Hsorted|].
  intros dt. unfold CsvIO.in_range, Date_gt, Date_lt.
  rewrite andb_true_iff, !negb_involutive, !Qle_bool_iff. tauto.
Qed.

Lemma descending_file_between_bounds :
  fst (fst (@CsvIO.readCSVFile Examples.externals Examples.plugin
              Examples.descending_layout Examples.short_descending_file
              (Examples.julian 59001) (Examples.julian 59002)))
  = Ok [MeteoData.mk (Examples.julian 59001) "STA" [("TA", 2.5%Q)];
        MeteoData.mk (Examples.julian 59002) "STA" [("TA", 3.5%Q)]].
Proof.
  apply (@bounded_read_includes_both_bounds Examples.externals Examples.plugin
           Examples.descending_layout Examples.short_descending_file
           (Examples.julian 59001) (Examples.julian 59002)
           [(Examples.julian 59003, MeteoData.mk (Examples.julian 59003) "STA" [("TA", 4.5%Q)]);
            (Examples.julian 59002, MeteoData.mk (Examples.julian 59002) "STA" [("TA", 3.5%Q)]);
            (Examples.julian 59001, MeteoData.mk (Examples.julian 59001) "STA" [("TA", 2.5%Q)]);
            (Examples.julian 59000, MeteoData.mk (Examples.julian 59000) "STA" [("TA", 1.5%Q)])]).
  - reflexivity.
  - reflexivity.
  - vm_compute. reflexivity.
  - simpl. repeat constructor; unfold later_or_same, Qle; simpl; lia.
Defined.
